(* ===== verification/_CoqProject ===== *)
-Q . S2P
Prelude.v
PyNum.v
PyFloat.v
PyStr.v
Pillow.v
Renderer.v
StrokeLoops.v
Composer.v
Contract.v
Machine.v
Rerun.v
Calls.v
CallOrder.v
Pixels.v
Canvas.v
Margins.v
Raster.v
Spacing.v
Reference.v
Trace.v
FloatBands.v
Example.v
MachineExample.v
CallExample.v
PixelExample.v
SpacingExample.v
ReferenceExample.v
