(* ===== verification/Prelude.v ===== *)
(** * Verification of the styled-text image composer (src/demo4.py)

    ** The program

    [src/demo4.py] overlays a title and a list of body lines on a background
    photo.  It has two functions and one enumeration:

    - [TextAlign] (lines 8-11): LEFT / CENTER / RIGHT.
    - [draw_styled_text] (lines 123-170), the renderer: measures the text,
      computes the horizontal anchor from the alignment and the margins,
      stamps the text once per offset of a [(2w+1) x (2w+1)] grid in the
      stroke colour when the stroke width [w] is positive, stamps it once
      more in the fill colour, and returns the vertical position it was
      given.
    - [create_styled_text_image] (lines 14-120), the composer: opens the
      background, allocates a transparent layer, loads two fonts, draws the
      title at [height // 6], walks the body lines with a running vertical
      cursor (blank lines are skipped but still advance it), composites the
      layer over the background and saves the result.  Each of the three
      library failures it catches (open, font load, save) is printed and the
      function returns [None]; on success it prints and returns [None] too.
    - the script entry point (lines 174-218) calls the composer once with
      fixed arguments.

    The imaging library (Pillow) and the Python builtins are not part of the
    repository; what the program needs of them is modelled from the
    specification and from the language definition, and marked as such.

    ** The files

    - [Prelude] (this file): the error monad [result] used for Python
      exceptions that escape, Python's [range] as [py_range], the nested
      loop [grid], floor division by two, and the tactics and hint database
      the other files share.
    - [PyNum]: Python numbers as the program uses them.  An [int] is a [Z];
      a [float] is an IEEE-754 binary64 value ([spec_float] of the Standard
      Library at precision 53, emax 1024, round to nearest even, no axioms);
      [py_add] and [py_mul] follow the coercion of [int] to [float], which
      raises [OverflowError] when the integer is beyond the binary64 range.
    - [PyFloat]: binary64 arithmetic is exact on dyadic numbers: the float
      of [z * 2^e] with [|z| < 2^53] has a canonical form, and sums and
      products of such floats are the floats of the sums and products.
    - [PyStr]: Python strings as lists of code points, [str.isspace],
      [str.strip] and truthiness, used by the blank-line test of the
      composer.
    - [Pillow]: the part of the imaging library the program calls: colours,
      fonts, the drawing layer (the transparent image together with the
      [draw.text] calls applied to it, in order), the class [TextMeasure]
      that stands for [draw.textbbox], the class [Imaging] of the
      operations on whole images with their laws on sizes, and the files.
      A fixed-pitch measure and symbolic images are the executable
      instances.
    - [Renderer]: [TextAlign] and [draw_styled_text], with the anchor
      arithmetic [text_x], the stroke grid [stroke_offsets] and the sequence
      of draw calls.
    - [StrokeLoops]: the stroke pass of the renderer in the shape of the
      source, an [if] around two nested [for] loops, equal to the form over
      the iteration space.
    - [Composer]: the file system and console as a [world], the keyword
      arguments as a record with the defaults of the source, and
      [create_styled_text_image] with every early return.
    - [Contract]: the contract of the composer in the specification, as
      the outcome it assigns to the files a call finds and the files it
      allows the call to leave ([promised_verdict], [promised_files]).
    - [Machine]: [create_styled_text_image] from program point to program
      point: program points with their live variables ([control]), the step
      as a relation ([step]) and as a function ([next]), the runs, and the
      invariant of the reachable configurations.  A step executes the block
      between two points (a [try] with its [except], the render of the
      title, one iteration of the loop); a call of [draw_styled_text] is
      one step.
    - [Rerun]: what a call decides ([decision]) apart from what it does to
      the world ([carry_out]), the paths it reads, and a second call in the
      world left by the first.
    - [Calls]: both functions as the sequence of their calls into the
      library and to [print] ([prog]), the library as a handler of these
      calls on a store of image objects ([perform], [exec]), and the calls a
      run makes ([calls_of]).  [txt] is a reference into the store and
      [draw] a context that refers to [txt], as in the source.
    - [CallOrder]: the order of the calls of a run: the calls of one render,
      and the lifecycle of the canvas.
    - [Pixels]: the canvas pixel by pixel: the text layer as its fill
      painted by each [draw.text] call in order ([layer_pixel]), with the
      interfaces [TextRaster] (glyph masks and blending), [AlphaOver] and
      [PixelImaging] that state what the program relies on, and layers up
      to their pixels ([layer_equiv]).
    - [Canvas]: what the renderer and the composer do to single pixels of
      the image that is saved.
    - [Margins]: the anchor of every call of a drawing against the margins,
      the columns in which a call puts ink ([ink_left], [ink_right]), and
      the comparison of the [align] argument with the members of the
      enumeration ([align_branch]).
    - [Raster]: executable instances of the pixel interfaces: block
      glyphs, integer alpha-over, symbolic images read as pixels.
    - [Spacing]: the vertical positions under a float line spacing: the
      closed form of the cursor and of the stroke positions for a dyadic
      multiplier.
    - [Reference]: the result of the drawing in closed form: the
      [draw.text] calls of a render as a comprehension over the stroke grid
      followed by the fill ([render_calls]), those of the whole drawing
      with line [i] at its position ([drawing_calls]), and the positions
      the arithmetic gives for an integer and for a dyadic float multiplier
      ([int_position], [Spacing.exact_cursor]).
    - [Trace]: the whole sequence of library calls of a run that reaches
      the save, as one list ([run_trace]).
    - [FloatBands]: the pixels that renders at float positions can change,
      for a dyadic multiplier.
    - [Example]: the script entry point and the scenarios of the
      specification, evaluated.
    - [MachineExample]: the scenario step by step, and the
      theorems of [Machine], [Contract] and [Rerun] on it.
    - [CallExample]: the calls of the scenario, by name and in order.
    - [PixelExample]: the pixels of the scenario, and the theorems of
      [Canvas], [Margins] and [FloatBands] on them.
    - [SpacingExample]: the theorems of [Spacing] on concrete inputs, and
      the multiplier 1.1, whose product with the font size is rounded.
    - [ReferenceExample]: the closed forms of [Reference] and [Trace]
      evaluated on the scenario.

    ** Correspondence with the code

    State is passed explicitly.  The drawing layer is the value [layer]; a
    call [draw.text(...)] appends one [draw_call] to it.  The file system
    and the console are the record [world]; [print] appends a [message],
    [Image.save] inserts into the map of written files.  A Python exception
    that no [try] of the source catches is the [Raise] case of [result]; an
    exception that the source catches becomes the printed message and the
    early return, as in the code.

    [Composer] and [Renderer] pass the layer as a value.  [Calls] states
    the same two functions against objects: [Image.new] allocates a layer
    in the store and answers with a reference, [ImageDraw.Draw] answers
    with a context on that reference, [draw.text] changes the layer the
    context refers to, and [Image.alpha_composite] reads the layer at the
    reference it is given.  [Calls.create_styled_text_image_prog_run]
    says that the two descriptions agree, so that the theorems on layers
    hold of the program that shares one mutable image between [txt] and
    [draw].

    ** What the theorems show

    - Renderer: the anchor stays inside the margins for CENTER and splits the
      free space evenly up to one pixel; LEFT and RIGHT pin the text to their
      margin; the stroke grid has [(2w+1)^2] distinct offsets holding exactly
      the pairs within distance [w]; a render makes [(2w+1)^2 + 1] calls when
      [w > 0] and one call otherwise, the last one being the fill at the
      anchor; the returned position is the given one; the layer only grows.
    - Composer: each failure leaves the written files untouched and prints
      one message; success writes exactly the output path, with the size of
      the background; the return value never distinguishes the cases; the
      cursor advances once per line whatever the line holds; blank lines
      draw nothing; with a float multiplier every call made after the
      first body line hands [draw.text] a float row.
    - Contract: a call that returns has printed one message, the outcome
      that message tells is the one the specification assigns to the files
      the call found, and the files it leaves are those the specification
      allows for that outcome.
    - StrokeLoops: the nested loops of the source and the loop over the
      iteration space are the same function.
    - Calls / CallOrder: a run of the program of calls never uses an object
      the store does not hold, allocates at most one image and leaves the
      others as they are, and ends as the function on layers does; an image
      is changed only by the [draw.text] calls through a context on it, in
      their order; a render makes one [textbbox] call and then its [text]
      calls; the calls of the composer follow the lifecycle of the canvas:
      acquisition, drawing through the one context only, one composite of
      the layer those calls made, one save, one message last.
    - Machine: the step relation is deterministic and is the step function;
      only returned configurations have no successor; a run from the entry
      reaches its returned configuration within the number of body lines
      plus seven steps; along a run nothing is
      printed or written before the save, the layer keeps the size of the
      background and the cursor is the start advanced once per visited
      line; a run ends in the world and the result the function gives.
    - Rerun: the decision depends on the files at the three input paths
      only; when the output path is none of them a second call writes the
      same file again; the saved image reopens, so a call whose output path
      is its background path has replaced its input.
    - Pixels / Canvas: a pixel outside the bounding box of a call is not
      changed by it; the last call that covers a pixel fully decides it, so
      the fill of a text is on top of its stroke; calls that touch no
      common pixel commute up to [layer_equiv]; a pixel no call touches is
      saved as the background pixel with its alpha dropped; with an
      integer line spacing the renders stay within the bounding boxes of
      the title and of the body lines widened by the stroke; the stroke of
      a render is painted over what earlier renders drew; blank text
      leaves the whole background as it is; on an opaque background the
      composite is opaque before it is flattened; a pixel that the glyphs
      of a body line cover fully, and that no later line reaches, is saved
      in the colour of the body, and no later line reaches it when the
      line pitch is at least the height of the boxes plus the stroke
      width; likewise the title when the body starts far enough below
      it; body lines placed below the lower edge of the image change no
      pixel of it.
    - Margins: when the title and the lines that are drawn fit between the
      margins, every call of the drawing is between the margins widened by
      the widest stroke; the ink of a call is offset from its anchor by the
      left edge of the measured box, so the text is where the alignment
      aims only when that box starts at column 0; a value of [align] that
      is no member of the enumeration is aligned as RIGHT.
    - Reference / Trace: with an integer multiplier the drawing and the
      call never raise, and with a dyadic float multiplier they do not
      raise while the positions stay within the exact range; in both cases
      the layer is exactly the list [drawing_calls] (the title at
      [height // 6], then each line that is not blank at the start plus
      [i] spacings, the stamps of a stroke before its fill), the image
      saved is the background under that layer, and the library calls of
      the run are exactly [run_trace], from [Image.open] to the last
      [print].
    - FloatBands: with a dyadic multiplier the render of line [i] changes
      no pixel outside its band placed at the row of the exact position or
      at the row below it, and the two pixel theorems of [Canvas] for an
      integer spacing hold for such a float spacing.
    - PyNum / PyStr: integer arithmetic stays exact, the coercion to float is
      exact below [2^53], [strip] is idempotent and the blank test holds
      exactly for whitespace-only lines.
    - PyFloat / Spacing: with a multiplier [m * 2^e], [e ≤ 0] (1.0, 1.5 and
      2.0 are such), and numbers below [2^53] in units of [2^e], the line
      spacing is the float of the exact product, line [i] is drawn at the
      float of the exact sum of the start and [i] spacings, and the stroke
      stamps are at the floats of the exact sums of the position and the
      offsets; with the default 1.5 and an even font size these floats
      denote integers.

    ** Bounds

    Integers are unbounded as in Python.  Floats are binary64 at full width:
    nothing is approximated by rationals.  No definition of the program uses
    fuel: the loops of the source run over finite lists and ranges and are
    structural here.  [Machine.run] takes a number of steps; the number of
    body lines plus seven is enough from the entry of the call, and
    [Machine.remaining] is enough from every configuration; these count
    steps of the model, one per block of the function, not statements.
    The exactness theorems assume magnitudes below [2^53] in units of the
    multiplier's [2^e] and [-1022 ≤ e ≤ 0]; pixel coordinates and font
    sizes are many orders of magnitude below that.

    ** What is assumed of the library

    The imaging library is not code of the repository; the model fixes
    what it does where the program depends on it, and the theorems hold
    under these assumptions.
    - [Image.open] is the only call of the first [try] that can fail:
      [convert], [ImageEnhance.Contrast] and [enhance] (lines 54-56) are
      total, as in the specification, which names no failure for them.
    - [ImageFont.truetype] fails exactly when the path holds no font.  The
      size is not looked at: whether a size that is not positive loads
      depends on the version of the library.
    - [draw.textbbox] and [draw.text] return for every text, font and
      position.  Where a theorem says that a call raises nothing, it
      speaks of the program's own arithmetic (the additions and the
      product of the positions), the only source of exceptions in the
      model between the second and the third [try].
    - [Image.save] fails exactly at the paths of [fs_readonly], the paths
      at which the file cannot be opened for writing or whose format is
      not known, and a save that fails has written nothing.  A failure of
      the encoder after the file was opened, which can leave a truncated
      file, is not modelled; that a failed call leaves no partial output
      rests on this.
    - [draw.textbbox] answers with integers.  Nothing is assumed of the
      left edge of the box: [Margins] shows what follows when it is not 0.
    - The printed messages carry the path of the call that failed where
      the source prints the text of the exception.

    ** Not modelled

    Decoding and encoding of image files, font rasterisation and the pixel
    arithmetic of contrast enhancement are inside the imaging library.  The
    composer is stated over their interface; in the pixel model the pixels
    of the opened and enhanced photo are a parameter, the glyph masks and
    the over operator are interfaces with the laws the theorems use, and
    what the library does with a call at a fractional position
    is constrained only by [Pixels.paint_fractional_rows]: it changes no
    pixel outside the box of the text placed at the row above or at the
    row below.  What the library does with a position that is not finite
    (an infinity or a NaN that float additions can produce) is left open:
    such a call is taken to touch every pixel.  Values of the arguments
    other than those of the types of the record [options] (a stroke width
    that is a float, a body line that is not a string) are not modelled,
    with the exception of [align] in [Margins].  Objects are never
    released in the store of [Calls], and the release of file handles is
    not modelled: the source leaves both to the library and the
    interpreter. *)

From Stdlib Require Import ZArith Lia.
From stdpp Require Import base tactics option list list_numbers.

#[local] Open Scope Z_scope.

(** ** Results of computations that may raise *)

Inductive result (E A : Type) : Type :=
| Ok (x : A)
| Raise (e : E).

Arguments Ok {E A} x.
Arguments Raise {E A} e.

#[export] Instance result_ret {E} : MRet (result E) := fun _ x => Ok x.

#[export] Instance result_bind {E} : MBind (result E) := fun _ _ f m =>
  match m with
  | Ok x => f x
  | Raise e => Raise e
  end.

#[export] Instance result_fmap {E} : FMap (result E) := fun _ _ f m =>
  match m with
  | Ok x => Ok (f x)
  | Raise e => Raise e
  end.

Definition is_ok {E A} (m : result E A) : bool :=
  match m with
  | Ok _ => true
  | Raise _ => false
  end.

(** [foldM f l a] runs [f] over [l] from the left, threading the accumulator
    and stopping at the first exception: the shape of a Python [for] loop
    whose body may raise. *)
Fixpoint foldM {E A B} (f : A → B → result E A) (l : list B) (a : A) : result E A :=
  match l with
  | [] => Ok a
  | x :: l' => a' ← f a x; foldM f l' a'
  end.

(** ** Python's [range] and nested loops *)

(** [range(lo, hi)]: the integers from [lo] up to, not including, [hi];
    empty when [hi <= lo]. *)
Definition py_range (lo hi : Z) : list Z := seqZ lo (hi - lo).

(** The iteration space of [for x in xs: for y in ys: ...], in the order
    the body runs: [x] outer, [y] inner. *)
Definition grid {A B} (xs : list A) (ys : list B) : list (A * B) :=
  x ← xs; y ← ys; [(x, y)].

(** ** Tactics and hints *)

Create HintDb py discriminated.
Create Rewrite HintDb py_rw.

(** Linear arithmetic with floor division and modulo by constants. *)
Ltac zdiv := intros; Z.div_mod_to_equations; lia.

(** Case analysis on a [result] bound in the goal. *)
Ltac case_result :=
  match goal with
  | |- context [mbind _ ?m] => destruct m eqn:?; simpl
  end.

(** ** The error monad *)

Section result_lemmas.
Context {E A B : Type}.
Implicit Types (m : result E A) (f : A → result E B).

Lemma result_bind_ok m f y :
  m ≫= f = Ok y ↔ ∃ x, m = Ok x ∧ f x = Ok y.
Proof.
  destruct m as [x|e]; simpl.
  - split; [eauto|]. by intros (? & [= <-] & ?).
  - split; [done|]. by intros (? & ? & ?).
Qed.

Lemma result_bind_raise m f e :
  m ≫= f = Raise e ↔ m = Raise e ∨ ∃ x, m = Ok x ∧ f x = Raise e.
Proof.
  destruct m as [x|e']; simpl.
  - split; [intros; right; by eexists|]. by intros [?|(? & [= <-] & ?)].
  - split; [intros [= ->]; by left|]. by intros [[= ->]|(? & ? & ?)].
Qed.

Lemma is_ok_true m : is_ok m = true ↔ ∃ x, m = Ok x.
Proof.
  destruct m; simpl.
  - split; eauto.
  - split; [done|]. by intros [? ?].
Qed.

Lemma is_ok_bind m f :
  is_ok (m ≫= f) = true ↔ ∃ x, m = Ok x ∧ is_ok (f x) = true.
Proof.
  destruct m as [x|e]; simpl.
  - split; [eauto|]. by intros (? & [= <-] & ?).
  - split; [done|]. by intros (? & ? & ?).
Qed.

End result_lemmas.

Section foldM_lemmas.
Context {E A B : Type}.
Implicit Types (f : A → B → result E A) (l : list B) (a : A).

Lemma foldM_app f l1 l2 a :
  foldM f (l1 ++ l2) a = foldM f l1 a ≫= foldM f l2.
Proof.
  revert a. induction l1 as [|x l1 IH]; intros a; simpl; [done|].
  destruct (f a x); simpl; auto.
Qed.

(** A loop whose body never raises is a plain left fold. *)
Lemma foldM_total f (g : A → B → A) l a :
  (∀ a x, f a x = Ok (g a x)) → foldM f l a = Ok (foldl g a l).
Proof.
  intros Hf. revert a. induction l as [|x l IH]; intros a; simpl; [done|].
  rewrite Hf. simpl. apply IH.
Qed.

(** An invariant of the accumulator that every iteration keeps holds after
    the loop. *)
Lemma foldM_invariant (P : A → Prop) f l a a' :
  (∀ a x a', P a → f a x = Ok a' → P a') →
  P a → foldM f l a = Ok a' → P a'.
Proof.
  intros Hstep. revert a. induction l as [|x l IH]; intros a Ha; simpl.
  - by intros [= <-].
  - destruct (f a x) eqn:Hx; simpl; [|done]. eauto.
Qed.

End foldM_lemmas.

(** ** Mapping a function that may raise *)

Section mapM_lemmas.
Context {E A B : Type}.
Implicit Types (f : A → result E B) (l : list A) (k : list B).

Lemma mapM_result_nil f : mapM f [] = Ok [].
Proof. done. Qed.

Lemma mapM_result_cons f x l :
  mapM f (x :: l) = y ← f x; k ← mapM f l; Ok (y :: k).
Proof. done. Qed.

(** [mapM] succeeds exactly when the function succeeds on every element,
    and then the results are the images, in order. *)
Lemma mapM_result_Ok f l k :
  mapM f l = Ok k ↔ Forall2 (λ x y, f x = Ok y) l k.
Proof.
  revert k. induction l as [|x l IH]; intros k.
  - split; [intros [= <-]; constructor|by inversion 1].
  - rewrite mapM_result_cons. split.
    + intros (y & Hy & (k' & Hk' & [= <-])%result_bind_ok)%result_bind_ok.
      constructor; [done|]. by apply IH.
    + inversion 1 as [|? y ? k' Hy Hk']; subst.
      apply IH in Hk'. by rewrite Hy, Hk'.
Qed.

Lemma mapM_result_length f l k : mapM f l = Ok k → length k = length l.
Proof. intros H%mapM_result_Ok. symmetry. by eapply Forall2_length. Qed.

(** A function that succeeds on every element maps the whole list. *)
Lemma mapM_result_total f l :
  Forall (λ x, is_ok (f x) = true) l → ∃ k, mapM f l = Ok k.
Proof.
  induction 1 as [|x l [y Hy]%is_ok_true _ [k Hk]]; [by eexists|].
  exists (y :: k). by rewrite mapM_result_cons, Hy, Hk.
Qed.

(** A function that never raises maps as [fmap] does. *)
Lemma mapM_result_fmap f (g : A → B) l :
  Forall (λ x, f x = Ok (g x)) l → mapM f l = Ok (g <$> l).
Proof.
  induction 1 as [|x l Hx _ IH]; [done|].
  by rewrite mapM_result_cons, Hx, IH.
Qed.

(** A loop that computes a value per element and folds it into the
    accumulator is the fold of the mapped list. *)
Lemma foldM_mapM {C} f (h : C → B → C) l (a : C) :
  foldM (λ a x, y ← f x; Ok (h a y)) l a = foldl h a <$> mapM f l.
Proof.
  revert a. induction l as [|x l IH]; intros a; [done|].
  simpl. destruct (f x) as [y|e]; simpl; [|done].
  rewrite IH. by destruct (mapM f l).
Qed.

End mapM_lemmas.

(** ** Ranges *)

Lemma length_py_range lo hi : length (py_range lo hi) = Z.to_nat (hi - lo).
Proof. apply length_seqZ. Qed.

Lemma elem_of_py_range lo hi k : k ∈ py_range lo hi ↔ lo ≤ k < hi.
Proof. unfold py_range. rewrite elem_of_seqZ. lia. Qed.

Lemma NoDup_py_range lo hi : NoDup (py_range lo hi).
Proof. apply NoDup_seqZ. Qed.

Lemma py_range_empty lo hi : hi ≤ lo → py_range lo hi = [].
Proof. intros. apply seqZ_nil. lia. Qed.

Lemma lookup_py_range lo hi (i : nat) :
  Z.of_nat i < hi - lo → py_range lo hi !! i = Some (lo + Z.of_nat i).
Proof. apply lookup_seqZ_lt. Qed.

(** ** Nested loops *)

Section grid_lemmas.
Context {A B : Type}.
Implicit Types (xs : list A) (ys : list B).

Lemma grid_nil ys : grid (@nil A) ys = [].
Proof. done. Qed.

Lemma grid_cons x xs ys : grid (x :: xs) ys = ((x,.) <$> ys) ++ grid xs ys.
Proof.
  unfold grid. rewrite bind_cons. apply (f_equal (λ l, l ++ _)).
  induction ys as [|y ys IH]; [done|]. by rewrite bind_cons, IH.
Qed.

Lemma length_grid xs ys : length (grid xs ys) = (length xs * length ys)%nat.
Proof.
  induction xs as [|x xs IH]; [done|].
  rewrite grid_cons, length_app, length_fmap, IH. simpl. lia.
Qed.

Lemma elem_of_grid xs ys (p : A * B) : p ∈ grid xs ys ↔ p.1 ∈ xs ∧ p.2 ∈ ys.
Proof.
  induction xs as [|x xs IH].
  - rewrite grid_nil. split; [by intros ?%elem_of_nil|]. by intros [?%elem_of_nil _].
  - rewrite grid_cons, elem_of_app, list_elem_of_fmap, IH, elem_of_cons.
    destruct p as [a b]; simpl. split.
    + intros [(b' & [= -> ->] & ?)|[? ?]]; auto.
    + intros [[->|?] ?]; [left; by eexists|by right].
Qed.

Lemma NoDup_grid xs ys : NoDup xs → NoDup ys → NoDup (grid xs ys).
Proof.
  intros Hxs Hys. induction Hxs as [|x xs Hx Hxs IH]; [constructor|].
  rewrite grid_cons. apply NoDup_app. split_and!.
  - apply (NoDup_fmap_2 _). done.
  - intros [a b] [b' [[= -> ->] _]]%list_elem_of_fmap [Ha _]%elem_of_grid. done.
  - done.
Qed.

End grid_lemmas.

(** ** Nested loops *)

Section nested_loops.
Context {E S A B C : Type}.
Implicit Types (f : S → C → result E S).

(** A loop over the images of a list is the loop over the list. *)
Lemma foldM_fmap f (g : B → C) (l : list B) (s : S) :
  foldM f (g <$> l) s = foldM (λ s y, f s (g y)) l s.
Proof.
  revert s. induction l as [|y l IH]; intros s; simpl; [done|].
  destruct (f s (g y)); simpl; auto.
Qed.

End nested_loops.

(** The loop over the iteration space [grid xs ys] is the outer loop over
    [xs] whose body is the inner loop over [ys]. *)
Lemma foldM_grid {E S A B} (f : S → A * B → result E S) (xs : list A) (ys : list B) (s : S) :
  foldM f (grid xs ys) s = foldM (λ s x, foldM (λ s y, f s (x, y)) ys s) xs s.
Proof.
  revert s. induction xs as [|x xs IH]; intros s; [done|].
  rewrite grid_cons, foldM_app, foldM_fmap. simpl.
  destruct (foldM _ ys s); simpl; auto.
Qed.

(** A loop that assigns no variable besides its state: pairing the state
    with the empty tuple changes nothing. *)
Lemma foldM_unit {E S B} (f : S → B → result E S) (xs : list B) (s : S) :
  foldM (λ su x, (., ()) <$> f su.1 x) xs (s, ()) = (., ()) <$> foldM f xs s.
Proof.
  revert s. induction xs as [|x xs IH]; intros s; simpl; [done|].
  destruct (f s x); simpl; auto.
Qed.

(** Two loops with the same body on every state are the same loop. *)
Lemma foldM_ext {E S B} (f g : S → B → result E S) (xs : list B) (s : S) :
  (∀ s x, f s x = g s x) → foldM f xs s = foldM g xs s.
Proof.
  intros Hfg. revert s. induction xs as [|x xs IH]; intros s; simpl; [done|].
  rewrite Hfg. destruct (g s x); simpl; auto.
Qed.

(** ** Floor division by two *)

Lemma div2_split (a : Z) : a - a / 2 - a / 2 = a mod 2.
Proof. zdiv. Qed.

Lemma div2_nonneg (a : Z) : 0 ≤ a → 0 ≤ a / 2 ≤ a.
Proof. zdiv. Qed.

Lemma div2_neg (a : Z) : a < 0 → a ≤ a / 2 < 0.
Proof. zdiv. Qed.

#[export] Hint Rewrite length_py_range @length_grid : py_rw.
#[export] Hint Resolve NoDup_py_range : py.
