(* ===== verification/PyNum.v ===== *)
(** * Python numbers as the composer uses them

    The program computes with [int] and [float].  Pixel coordinates, font
    sizes, margins and stroke widths are [int]; the line-spacing multiplier
    is a [float] (1.5 by default, 1.0 in the script), which makes the
    vertical cursor of the composer a [float] from the first body line on.

    An [int] is a [Z].  A [float] is a binary64 value: [spec_float] at
    precision 53 and maximal exponent 1024, with the Standard Library's
    executable, axiom-free operations (round to nearest, ties to even).
    Mixed arithmetic coerces the [int] operand to [float]; the coercion is
    correctly rounded and raises [OverflowError] when the result would not
    be finite, as [int.__float__] does.  [float] arithmetic itself never
    raises: it overflows to an infinity. *)

From Stdlib Require Import ZArith Lia SpecFloat.
From stdpp Require Import base tactics option list.
From S2P Require Import Prelude.

#[local] Open Scope Z_scope.

(** ** Data *)

(** The exceptions of the language that the program can let escape. *)
Inductive pyexn : Type :=
| OverflowError.

(** binary64: 53 bits of precision, exponents below 1024. *)
Definition prec : Z := 53.
Definition emax : Z := 1024.

Abbreviation float := spec_float.

Inductive pynum : Type :=
| PyInt (z : Z)
| PyFloat (f : float).

(** ** Operations *)

(** [float(z)]: the nearest binary64 value, [OverflowError] beyond the
    range. *)
Definition float_of_int (z : Z) : result pyexn float :=
  match binary_normalize prec emax z 0 false with
  | S754_infinity _ => Raise OverflowError
  | f => Ok f
  end.

(** The coercion applied to each operand of a mixed operation. *)
Definition to_float (a : pynum) : result pyexn float :=
  match a with
  | PyInt z => float_of_int z
  | PyFloat f => Ok f
  end.

(** [a + b] *)
Definition py_add (a b : pynum) : result pyexn pynum :=
  match a, b with
  | PyInt x, PyInt y => Ok (PyInt (x + y))
  | _, _ => x ← to_float a; y ← to_float b; Ok (PyFloat (SFadd prec emax x y))
  end.

(** [a * b] *)
Definition py_mul (a b : pynum) : result pyexn pynum :=
  match a, b with
  | PyInt x, PyInt y => Ok (PyInt (x * y))
  | _, _ => x ← to_float a; y ← to_float b; Ok (PyFloat (SFmul prec emax x y))
  end.

(** ** Reading a float back *)

(** The integer a float denotes, when it denotes one.  A finite float
    [(s, m, e)] is [(-1)^s * m * 2^e]. *)
Definition float_int_value (f : float) : option Z :=
  match f with
  | S754_zero _ => Some 0
  | S754_finite s m e =>
      let v := if s then Z.neg m else Z.pos m in
      if decide (0 ≤ e) then Some (v * 2 ^ e)
      else if decide (v mod 2 ^ (- e) = 0) then Some (v / 2 ^ (- e))
      else None
  | _ => None
  end.

(** The integer a number denotes, when it denotes one. *)
Definition int_value (a : pynum) : option Z :=
  match a with
  | PyInt z => Some z
  | PyFloat f => float_int_value f
  end.

(** The largest integer not above a finite float. *)
Definition float_floor (f : float) : option Z :=
  match f with
  | S754_zero _ => Some 0
  | S754_finite s m e =>
      let v := if s then Z.neg m else Z.pos m in
      Some (if decide (0 ≤ e) then v * 2 ^ e else v / 2 ^ (- e))
  | _ => None
  end.

(** The largest integer not above a number: the row of pixels a vertical
    position falls in. *)
Definition py_floor (a : pynum) : option Z :=
  match a with
  | PyInt z => Some z
  | PyFloat f => float_floor f
  end.

(** A number is an [int] object (not a [float] that happens to be whole). *)
Definition is_int (a : pynum) : bool :=
  match a with
  | PyInt _ => true
  | PyFloat _ => false
  end.

(** ** Decidable equality *)

#[export] Instance pyexn_eq_dec : EqDecision pyexn.
Proof. solve_decision. Defined.

#[export] Instance spec_float_eq_dec : EqDecision spec_float.
Proof. solve_decision. Defined.

#[export] Instance pynum_eq_dec : EqDecision pynum.
Proof. solve_decision. Defined.

(** ** Integer arithmetic is exact *)

Lemma py_add_int x y : py_add (PyInt x) (PyInt y) = Ok (PyInt (x + y)).
Proof. done. Qed.

Lemma py_mul_int x y : py_mul (PyInt x) (PyInt y) = Ok (PyInt (x * y)).
Proof. done. Qed.

(** Arithmetic on floats never raises. *)
Lemma py_add_float f g :
  py_add (PyFloat f) (PyFloat g) = Ok (PyFloat (SFadd prec emax f g)).
Proof. done. Qed.

Lemma py_mul_float f g :
  py_mul (PyFloat f) (PyFloat g) = Ok (PyFloat (SFmul prec emax f g)).
Proof. done. Qed.

(** The result of an addition is an [int] exactly when both operands are. *)
Lemma py_add_is_int a b c :
  py_add a b = Ok c → is_int c = is_int a && is_int b.
Proof.
  destruct a as [x|f], b as [y|g]; simpl.
  - by intros [= <-].
  - destruct (float_of_int x); simpl; [by intros [= <-]|done].
  - destruct (float_of_int y); simpl; [by intros [= <-]|done].
  - by intros [= <-].
Qed.

Lemma py_mul_is_int a b c :
  py_mul a b = Ok c → is_int c = is_int a && is_int b.
Proof.
  destruct a as [x|f], b as [y|g]; simpl.
  - by intros [= <-].
  - destruct (float_of_int x); simpl; [by intros [= <-]|done].
  - destruct (float_of_int y); simpl; [by intros [= <-]|done].
  - by intros [= <-].
Qed.

(** ** The coercion is exact below [2^53] *)

Lemma digits2_pos_size m : digits2_pos m = Pos.size m.
Proof. induction m; simpl; congruence. Qed.

Lemma size_le_prec m : Z.pos m < 2 ^ prec → Z.pos (Pos.size m) ≤ prec.
Proof.
  intros Hm. pose proof (Pos.size_le m) as Hle.
  destruct (decide (Z.pos (Pos.size m) ≤ prec)) as [|Hn]; [done|exfalso].
  assert (2 ^ (prec + 1) ≤ 2 ^ Z.pos (Pos.size m)) as Hpow
    by (apply Z.pow_le_mono_r; unfold prec in *; lia).
  assert (Z.pos (2 ^ Pos.size m) ≤ Z.pos m~0) as Hle' by lia.
  rewrite Pos2Z.inj_pow in Hle'. unfold prec in *.
  change (2 ^ (53 + 1)) with (2 * 2 ^ 53) in Hpow. lia.
Qed.

Lemma iter_xO_mul m k : Z.pos (Pos.iter xO m k) = Z.pos m * 2 ^ Z.pos k.
Proof.
  induction k as [|k IH] using Pos.peano_ind.
  - simpl. lia.
  - rewrite Pos.iter_succ, Pos2Z.inj_xO, IH, Pos2Z.inj_succ, Z.pow_succ_r by lia. lia.
Qed.

Lemma size_iter_xO m k : Pos.size (Pos.iter xO m k) = (Pos.size m + k)%positive.
Proof.
  induction k as [|k IH] using Pos.peano_ind.
  - simpl. lia.
  - rewrite Pos.iter_succ. simpl. rewrite IH. lia.
Qed.

(** The mantissa and exponent the coercion gives a positive integer below
    [2^53]: the integer shifted left until it fills the 53 bits. *)
Definition norm_mantissa (m : positive) : positive :=
  match (prec - Z.pos (Pos.size m))%Z with
  | Z.pos k => Pos.iter xO m k
  | _ => m
  end.

Definition norm_exponent (m : positive) : Z := Z.pos (Pos.size m) - prec.

Lemma norm_mantissa_size m :
  Z.pos m < 2 ^ prec → Z.pos (Pos.size (norm_mantissa m)) = prec.
Proof.
  intros Hm%size_le_prec. unfold norm_mantissa.
  destruct (prec - Z.pos (Pos.size m)) as [|k|k] eqn:Hk; [lia| |lia].
  rewrite size_iter_xO. lia.
Qed.

Lemma norm_mantissa_value m :
  Z.pos m < 2 ^ prec →
  Z.pos (norm_mantissa m) = Z.pos m * 2 ^ (- norm_exponent m).
Proof.
  intros Hm%size_le_prec. unfold norm_mantissa, norm_exponent.
  destruct (prec - Z.pos (Pos.size m)) as [|k|k] eqn:Hk; [|rewrite iter_xO_mul|lia].
  - replace (- (Z.pos (Pos.size m) - prec)) with 0 by lia. lia.
  - f_equal. f_equal. lia.
Qed.

Lemma binary_round_small s m :
  Z.pos m < 2 ^ prec →
  binary_round prec emax s m 0 = S754_finite s (norm_mantissa m) (norm_exponent m).
Proof.
  intros Hm. pose proof (size_le_prec m Hm) as Hsz.
  pose proof (norm_mantissa_size m Hm) as Hnsz.
  unfold binary_round, shl_align, fexp, emin.
  rewrite digits2_pos_size, Z.add_0_r, Z.sub_0_r.
  rewrite (Z.max_l (Z.pos (Pos.size m) - prec)) by (unfold prec, emax in *; lia).
  assert ((match Z.pos (Pos.size m) - prec with
           | Z.neg d => (Pos.iter xO m d, Z.pos (Pos.size m) - prec)
           | _ => (m, 0)
           end) = (norm_mantissa m, norm_exponent m)) as ->.
  { unfold norm_mantissa, norm_exponent.
    destruct (Z.pos (Pos.size m) - prec) as [|k|k] eqn:Hk; [|lia|].
    - by replace (prec - Z.pos (Pos.size m)) with 0 by lia.
    - by replace (prec - Z.pos (Pos.size m)) with (Z.pos k) by lia. }
  unfold binary_round_aux, shr_fexp, fexp, emin. simpl Zdigits2.
  rewrite digits2_pos_size, Hnsz.
  rewrite (Z.max_l (prec + norm_exponent m - prec))
    by (unfold norm_exponent, prec, emax in *; lia).
  replace (prec + norm_exponent m - prec - norm_exponent m) with 0 by lia.
  simpl. rewrite digits2_pos_size, Hnsz.
  rewrite (Z.max_l (prec + norm_exponent m - prec))
    by (unfold norm_exponent, prec, emax in *; lia).
  replace (prec + norm_exponent m - prec - norm_exponent m) with 0 by lia.
  simpl. rewrite (proj2 (Z.leb_le _ _)); [done|].
  unfold norm_exponent, prec, emax in *. lia.
Qed.

Lemma float_of_int_pos m :
  Z.pos m < 2 ^ prec →
  float_of_int (Z.pos m) = Ok (S754_finite false (norm_mantissa m) (norm_exponent m)).
Proof. intros Hm. unfold float_of_int. simpl. by rewrite binary_round_small. Qed.

Lemma float_of_int_neg m :
  Z.pos m < 2 ^ prec →
  float_of_int (Z.neg m) = Ok (S754_finite true (norm_mantissa m) (norm_exponent m)).
Proof. intros Hm. unfold float_of_int. simpl. by rewrite binary_round_small. Qed.

Lemma float_int_value_norm s m :
  Z.pos m < 2 ^ prec →
  float_int_value (S754_finite s (norm_mantissa m) (norm_exponent m))
  = Some (if s then Z.neg m else Z.pos m).
Proof.
  intros Hm. pose proof (size_le_prec m Hm) as Hsz.
  pose proof (norm_mantissa_value m Hm) as Hv.
  assert (0 < 2 ^ (- norm_exponent m)) by (apply Z.pow_pos_nonneg; unfold norm_exponent; lia).
  unfold float_int_value. destruct (decide (0 ≤ norm_exponent m)) as [He|He].
  - assert (norm_exponent m = 0) as He0 by (unfold norm_exponent in *; lia).
    rewrite He0 in *. simpl in Hv. destruct s; f_equal; lia.
  - assert ((if s then Z.neg (norm_mantissa m) else Z.pos (norm_mantissa m))
            = (if s then Z.neg m else Z.pos m) * 2 ^ (- norm_exponent m)) as ->
      by (destruct s; lia).
    rewrite Z.mod_mul, Z.div_mul by lia. by rewrite decide_True.
Qed.

(** A number that denotes an integer is its own floor. *)
Lemma float_int_value_floor f z : float_int_value f = Some z → float_floor f = Some z.
Proof.
  destruct f as [| | |s m e]; simpl; try done.
  case_decide; [done|]. case_decide; [done|discriminate].
Qed.

Lemma int_value_py_floor a z : int_value a = Some z → py_floor a = Some z.
Proof. destruct a; [done|apply float_int_value_floor]. Qed.

(** Coercing an integer of magnitude below [2^53] to [float] succeeds, and
    the float denotes that same integer: no pixel coordinate of the program
    is changed by becoming a float. *)
Lemma float_of_int_exact z :
  Z.abs z < 2 ^ prec →
  ∃ f, float_of_int z = Ok f ∧ float_int_value f = Some z.
Proof.
  intros Hz. destruct z as [|m|m].
  - by exists (S754_zero false).
  - eexists. split; [apply float_of_int_pos; lia|].
    by rewrite float_int_value_norm by lia.
  - eexists. split; [apply float_of_int_neg; lia|].
    by rewrite float_int_value_norm by lia.
Qed.

Example float_of_int_220 :
  ∃ f, float_of_int 220 = Ok f ∧ float_int_value f = Some 220.
Proof. apply float_of_int_exact. vm_compute. reflexivity. Qed.

(** The threshold of the coercion: the largest finite double converts, the
    first integer that rounds past it raises. *)
Example float_of_int_max :
  float_of_int (2 ^ 1024 - 2 ^ 970 - 1)
  = Ok (S754_finite false 9007199254740991 971).
Proof. vm_compute. reflexivity. Qed.

Example float_of_int_overflow :
  float_of_int (2 ^ 1024 - 2 ^ 970) = Raise OverflowError.
Proof. vm_compute. reflexivity. Qed.
