(* ===== verification/PyFloat.v ===== *)
(** * Exact binary64 arithmetic on small dyadic numbers

    The vertical cursor of the composer is a [float] as soon as the
    line-spacing multiplier is one: the spacing is [int * float] and every
    line adds it to the cursor.  Whether the positions handed to
    [draw.text] are the intended ones is then a question of rounding.

    This file shows that no rounding happens as long as the numbers are
    dyadic, [z * 2^e] with [|z| < 2^53] and [e] in the range of normal
    numbers: the float of such a number has a canonical form
    ([canonical_of]), does not depend on how the number is written
    ([dyadic_scale]), and sums and products of such floats are the floats
    of the sums and products ([SFadd_dyadic], [SFmul_dyadic]).  The last
    part lifts this to [py_add] and [py_mul] with their coercions.

    The proofs follow the Standard Library's definitions of
    [binary_normalize], [binary_round], [binary_round_aux], [shr_fexp] and
    [shl_align]: on an exact input the shift of [shr_fexp] only drops zero
    bits, and the rounding step has nothing to round. *)

From Stdlib Require Import ZArith Lia SpecFloat.
From stdpp Require Import base tactics option list.
From S2P Require Import Prelude.
From S2P Require Import PyNum.

#[local] Open Scope Z_scope.

(** ** Dyadic numbers and their floats *)

(** [dyadic z e] is the float of the number [z * 2^e], correctly rounded. *)
Definition dyadic (z e : Z) : float := binary_normalize prec emax z e false.

(** The numbers this file is about: at most 53 bits, and an exponent at
    which every such mantissa is a normal number. *)
Definition representable (z e : Z) : Prop :=
  Z.abs z < 2 ^ prec ∧ 2 - emax ≤ e ≤ emax - prec.

(** The integer [z] in units of [2^e], for [e ≤ 0]. *)
Definition in_units (z e : Z) : Z := z * 2 ^ (- e).

(** The float with sign [s], the bits of [m] shifted up to 53 bits, and
    value [m * 2^e]. *)
Definition canonical (s : bool) (m : positive) (e : Z) : float :=
  S754_finite s (norm_mantissa m) (e + norm_exponent m).

(** The float of [z * 2^e] written out: sign, mantissa and exponent. *)
Definition canonical_of (z e : Z) : float :=
  match z with
  | 0 => S754_zero false
  | Z.pos m => canonical false m e
  | Z.neg m => canonical true m e
  end.

(** The exponents at which the 53-bit form of [m * 2^e] is finite and has
    all its bits. *)
Definition in_range (m : positive) (e : Z) : Prop :=
  3 - emax - prec ≤ e + norm_exponent m ≤ emax - prec.

(** The signed integer a sign and a magnitude stand for. *)
Definition signed (s : bool) (m : positive) : Z := cond_Zopp s (Z.pos m).

(** A shift record with no bit shifted out yet. *)
Definition exact_record (m : Z) : shr_record :=
  {| shr_m := m; shr_r := false; shr_s := false |}.

#[export] Instance representable_dec z e : Decision (representable z e).
Proof. unfold representable. apply _. Defined.

(** ** Shifting out zero bits *)

Lemma iter_pos_iter {A} (f : A → A) p x : SpecFloat.iter_pos f p x = Pos.iter f x p.
Proof.
  revert x. induction p as [p IH|p IH|]; intros x; simpl.
  - by rewrite !IH, <- !Pos.iter_swap.
  - by rewrite !IH.
  - done.
Qed.

Lemma shr_1_double m : shr_1 (exact_record (2 * Z.pos m)) = exact_record (Z.pos m).
Proof. done. Qed.

Lemma iter_shr_1_exact k m :
  Pos.iter shr_1 (exact_record (Z.pos m * 2 ^ Z.pos k)) k = exact_record (Z.pos m).
Proof.
  revert m. induction k as [|k IH] using Pos.peano_ind; intros m.
  - replace (Z.pos m * 2 ^ 1) with (2 * Z.pos m) by lia. apply shr_1_double.
  - rewrite Pos.iter_succ_r, Pos2Z.inj_succ, Z.pow_succ_r by lia.
    replace (Z.pos m * (2 * 2 ^ Z.pos k)) with (2 * Z.pos (m * 2 ^ k)) by lia.
    rewrite shr_1_double. rewrite Pos2Z.inj_mul, Pos2Z.inj_pow. apply IH.
Qed.

(** A mantissa of 53 bits followed by [k] zero bits rounds to the 53 bits. *)
Lemma binary_round_aux_exact s m e k :
  Z.pos (Pos.size m) = prec → 0 ≤ k → 3 - emax - prec ≤ e ≤ emax - prec →
  binary_round_aux prec emax s (Z.pos m * 2 ^ k) (e - k) loc_Exact = S754_finite s m e.
Proof.
  intros Hm Hk He.
  assert (∀ l, shr_fexp prec emax (Z.pos m) e l = shr (shr_record_of_loc (Z.pos m) l) e 0) as Hzero.
  { intros. unfold shr_fexp, fexp, emin. simpl Zdigits2. rewrite digits2_pos_size, Hm.
    f_equal. unfold prec, emax in *. lia. }
  unfold binary_round_aux.
  assert (shr_fexp prec emax (Z.pos m * 2 ^ k) (e - k) loc_Exact = (exact_record (Z.pos m), e)) as ->.
  { destruct k as [|k|k]; [|clear Hk|lia].
    - rewrite Z.mul_1_r, Z.sub_0_r, Hzero. done.
    - unfold shr_fexp, fexp, emin.
      replace (Z.pos m * 2 ^ Z.pos k) with (Z.pos (Pos.iter xO m k)) by apply iter_xO_mul.
      simpl Zdigits2. rewrite digits2_pos_size, size_iter_xO, Pos2Z.inj_add, Hm.
      replace (Z.max _ _ - _) with (Z.pos k) by (unfold prec, emax in *; lia).
      unfold shr. rewrite iter_pos_iter, iter_xO_mul.
      change (shr_record_of_loc ?m loc_Exact) with (exact_record m).
      rewrite iter_shr_1_exact. f_equal. lia. }
  simpl. rewrite Hzero. simpl.
  rewrite (proj2 (Z.leb_le _ _)); [done|lia].
Qed.

(** ** Rounding an exact input *)

Lemma size_mul_pow2 M m j :
  Z.pos M = Z.pos m * 2 ^ j → 0 ≤ j → Z.pos (Pos.size M) = Z.pos (Pos.size m) + j.
Proof.
  intros HM Hj. destruct j as [|j|j]; [| |lia].
  - assert (M = m) as -> by lia. lia.
  - rewrite <- iter_xO_mul in HM. injection HM as ->. rewrite size_iter_xO. lia.
Qed.

Lemma binary_round_dyadic s M m e j :
  Z.pos M = Z.pos m * 2 ^ j → 0 ≤ j → Z.pos m < 2 ^ prec → in_range m e →
  binary_round prec emax s M (e - j) = canonical s m e.
Proof.
  intros HM Hj Hm He. unfold in_range in He.
  pose proof (size_le_prec m Hm) as Hsz.
  pose proof (norm_mantissa_size m Hm) as Hnsz.
  pose proof (norm_mantissa_value m Hm) as Hnv.
  pose proof (size_mul_pow2 M m j HM Hj) as HMsz.
  unfold binary_round, fexp, emin. rewrite digits2_pos_size, HMsz.
  replace (Z.max _ _) with (e + norm_exponent m) by (unfold norm_exponent in *; lia).
  assert (norm_exponent m ≤ 0) as Hne by (unfold norm_exponent; lia).
  unfold shl_align.
  destruct (e + norm_exponent m - (e - j)) as [|d|d] eqn:Hd.
  - assert (j = - norm_exponent m) as -> by lia. rewrite <- Hnv in HM.
    replace (Z.pos M) with (Z.pos (norm_mantissa m) * 2 ^ 0) by (rewrite Z.pow_0_r; lia).
    replace (e - - norm_exponent m) with (e + norm_exponent m - 0) by lia.
    apply binary_round_aux_exact; [done|lia|done].
  - assert (j = - norm_exponent m + Z.pos d) as -> by lia.
    rewrite Z.pow_add_r, Z.mul_assoc, <- Hnv in HM by lia. rewrite HM.
    replace (e - _) with (e + norm_exponent m - Z.pos d) by lia.
    apply binary_round_aux_exact; [done|lia|done].
  - replace (- norm_exponent m) with (j + Z.pos d) in Hnv by lia.
    rewrite Z.pow_add_r, Z.mul_assoc, <- HM in Hnv by lia.
    replace (Z.pos (Pos.iter xO M d)) with (Z.pos (norm_mantissa m) * 2 ^ 0)
      by (rewrite iter_xO_mul, Z.pow_0_r; lia).
    replace (e + norm_exponent m) with (e + norm_exponent m - 0) at 1 by lia.
    apply binary_round_aux_exact; [done|lia|done].
Qed.

Lemma norm_exponent_bounds m : Z.pos m < 2 ^ prec → 1 - prec ≤ norm_exponent m ≤ 0.
Proof. intros Hm%size_le_prec. unfold norm_exponent. lia. Qed.

Lemma representable_in_range m e :
  Z.pos m < 2 ^ prec → 2 - emax ≤ e ≤ emax - prec → in_range m e.
Proof. intros Hm%norm_exponent_bounds He. unfold in_range. lia. Qed.

(** ** The float of a dyadic number *)

Lemma dyadic_scale_canonical z e j :
  representable z e → 0 ≤ j → dyadic (z * 2 ^ j) (e - j) = canonical_of z e.
Proof.
  intros [Hz He] Hj. unfold dyadic. pose proof (Z.pow_pos_nonneg 2 j).
  destruct z as [|m|m]; [done| |].
  - destruct (Z.pos m * 2 ^ j) as [|M|M] eqn:HM; [lia| |lia].
    apply binary_round_dyadic; [done|done|lia|apply representable_in_range; lia].
  - destruct (Z.neg m * 2 ^ j) as [|M|M] eqn:HM; [lia|lia|].
    apply binary_round_dyadic; [lia|done|lia|apply representable_in_range; lia].
Qed.

Lemma dyadic_canonical z e : representable z e → dyadic z e = canonical_of z e.
Proof.
  intros Hz. rewrite <- (dyadic_scale_canonical z e 0) by (done || lia).
  f_equal; lia.
Qed.

Lemma dyadic_scale z e j :
  representable z e → 0 ≤ j → dyadic (z * 2 ^ j) (e - j) = dyadic z e.
Proof. intros. by rewrite dyadic_scale_canonical, dyadic_canonical. Qed.

(** ** Exact addition *)

Lemma shl_align_canonical m e ez :
  Z.pos m < 2 ^ prec → ez ≤ e + norm_exponent m →
  Z.pos (shl_align (norm_mantissa m) (e + norm_exponent m) ez).1 = Z.pos m * 2 ^ (e - ez).
Proof.
  intros Hm Hez. pose proof (norm_exponent_bounds m Hm).
  pose proof (norm_mantissa_value m Hm) as Hnv. unfold shl_align.
  destruct (ez - (e + norm_exponent m)) as [|d|d] eqn:Hd; [|lia|]; simpl.
  - rewrite Hnv. f_equal. f_equal. lia.
  - rewrite iter_xO_mul, Hnv, <- Z.mul_assoc, <- Z.pow_add_r by lia. f_equal. f_equal. lia.
Qed.

Lemma canonical_of_signed s m e : canonical_of (signed s m) e = canonical s m e.
Proof. by destruct s. Qed.

Lemma abs_signed s m : Z.abs (signed s m) = Z.pos m.
Proof. by destruct s. Qed.

Lemma signed_cases z : z = 0 ∨ ∃ s m, z = signed s m.
Proof.
  destruct z as [|m|m]; [by left|right; by exists false, m|right; by exists true, m].
Qed.

Lemma SFadd_canonical sa ma sb mb e :
  Z.pos ma < 2 ^ prec → Z.pos mb < 2 ^ prec →
  SFadd prec emax (canonical sa ma e) (canonical sb mb e)
  = dyadic ((signed sa ma + signed sb mb) * 2 ^ (e - Z.min (e + norm_exponent ma) (e + norm_exponent mb)))
           (Z.min (e + norm_exponent ma) (e + norm_exponent mb)).
Proof.
  intros Ha Hb. unfold canonical, SFadd, dyadic.
  rewrite !shl_align_canonical by (done || lia). unfold signed.
  f_equal. destruct sa, sb; simpl; lia.
Qed.

Lemma SFadd_dyadic a b e :
  representable a e → representable b e → representable (a + b) e →
  SFadd prec emax (dyadic a e) (dyadic b e) = dyadic (a + b) e.
Proof.
  intros Ha Hb Hab. rewrite (dyadic_canonical a), (dyadic_canonical b) by done.
  destruct (signed_cases a) as [->|(sa & ma & ->)], (signed_cases b) as [->|(sb & mb & ->)].
  - done.
  - rewrite canonical_of_signed, Z.add_0_l, dyadic_canonical, canonical_of_signed by done. done.
  - rewrite canonical_of_signed, Z.add_0_r, dyadic_canonical, canonical_of_signed by done. done.
  - destruct Ha as [Ha ?], Hb as [Hb ?]. rewrite abs_signed in Ha, Hb.
    rewrite !canonical_of_signed, SFadd_canonical by done.
    pose proof (norm_exponent_bounds ma Ha). pose proof (norm_exponent_bounds mb Hb).
    set (ez := Z.min _ _).
    replace ez with (e - (e - ez)) at 2 by lia. apply dyadic_scale; [done|lia].
Qed.

(** ** Exact multiplication *)

Lemma size_mono a c : (a ≤ c)%positive → Z.pos (Pos.size a) ≤ Z.pos (Pos.size c).
Proof.
  intros Hac. pose proof (Pos.size_gt c) as Hc. pose proof (Pos.size_le a) as Ha.
  destruct (decide (Z.pos (Pos.size a) ≤ Z.pos (Pos.size c))) as [|Hn]; [done|exfalso].
  assert (2 ^ (Z.pos (Pos.size c) + 1) ≤ 2 ^ Z.pos (Pos.size a)) as Hpow
    by (apply Z.pow_le_mono_r; lia).
  rewrite Z.pow_add_r in Hpow by lia.
  assert (Z.pos c < Z.pos (2 ^ Pos.size c)) as Hc' by lia.
  assert (Z.pos (2 ^ Pos.size a) ≤ Z.pos a~0) as Ha' by lia.
  rewrite Pos2Z.inj_pow in Hc', Ha'. lia.
Qed.

Lemma signed_mul sa ma sb mb :
  signed sa ma * signed sb mb = signed (xorb sa sb) (ma * mb).
Proof. by destruct sa, sb. Qed.

Lemma SFmul_canonical sa ma ea sb mb eb :
  Z.pos ma < 2 ^ prec → Z.pos mb < 2 ^ prec → Z.pos (ma * mb) < 2 ^ prec →
  in_range (ma * mb) (ea + eb) →
  SFmul prec emax (canonical sa ma ea) (canonical sb mb eb)
  = canonical (xorb sa sb) (ma * mb) (ea + eb).
Proof.
  intros Ha Hb Hc He. unfold canonical at 1 2. unfold SFmul.
  pose proof (norm_exponent_bounds ma Ha). pose proof (norm_exponent_bounds mb Hb).
  pose proof (norm_exponent_bounds _ Hc).
  pose proof (size_mono ma (ma * mb) ltac:(nia)).
  set (k := norm_exponent (ma * mb) - norm_exponent ma - norm_exponent mb).
  assert (0 ≤ k) by (unfold k, norm_exponent in *; lia).
  replace (Z.pos (norm_mantissa ma * norm_mantissa mb))
    with (Z.pos (norm_mantissa (ma * mb)) * 2 ^ k).
  - replace (ea + norm_exponent ma + (eb + norm_exponent mb))
      with (ea + eb + norm_exponent (ma * mb) - k) by (unfold k; lia).
    apply binary_round_aux_exact; [by apply norm_mantissa_size|done|done].
  - rewrite Pos2Z.inj_mul, !norm_mantissa_value, Pos2Z.inj_mul by done.
    assert (2 ^ (- norm_exponent (ma * mb)) * 2 ^ k
            = 2 ^ (- norm_exponent ma) * 2 ^ (- norm_exponent mb)) as Hpow
      by (rewrite <- !Z.pow_add_r by lia; f_equal; unfold k; lia).
    rewrite <- Z.mul_assoc, Hpow. lia.
Qed.

Lemma SFmul_dyadic a ea b eb :
  a ≠ 0 → b ≠ 0 →
  representable a ea → representable b eb → representable (a * b) (ea + eb) →
  SFmul prec emax (dyadic a ea) (dyadic b eb) = dyadic (a * b) (ea + eb).
Proof.
  intros Ha0 Hb0 Ha Hb Hab. rewrite !dyadic_canonical by done.
  destruct (signed_cases a) as [->|(sa & ma & ->)]; [done|].
  destruct (signed_cases b) as [->|(sb & mb & ->)]; [done|].
  rewrite signed_mul in *. destruct Ha as [Ha ?], Hb as [Hb ?], Hab as [Hab ?].
  rewrite abs_signed in Ha, Hb, Hab. rewrite !canonical_of_signed.
  apply SFmul_canonical; [done..|by apply representable_in_range].
Qed.

(** ** Integers among the dyadic numbers *)

Lemma representable_int z : Z.abs z < 2 ^ prec → representable z 0.
Proof. intros Hz. split; [done|]. unfold emax, prec. lia. Qed.

Lemma in_units_abs z e : e ≤ 0 → Z.abs z ≤ Z.abs (in_units z e).
Proof.
  intros He. unfold in_units. rewrite Z.abs_mul.
  pose proof (Z.pow_pos_nonneg 2 (- e)). rewrite (Z.abs_eq (2 ^ _)) by lia. nia.
Qed.

Lemma representable_in_units z e :
  e ≤ 0 → representable (in_units z e) e → representable z 0.
Proof.
  intros He [Hz _]. apply representable_int. pose proof (in_units_abs z e He). lia.
Qed.

Lemma in_units_add a b e : in_units (a + b) e = in_units a e + in_units b e.
Proof. unfold in_units. lia. Qed.

Lemma in_units_0 z : in_units z 0 = z.
Proof. unfold in_units. simpl. lia. Qed.

(** An integer is the same float at every exponent it can be written at. *)
Lemma dyadic_in_units z e :
  e ≤ 0 → representable (in_units z e) e → dyadic (in_units z e) e = dyadic z 0.
Proof.
  intros He Hz. unfold in_units. replace e with (0 - - e) at 2 by lia.
  apply dyadic_scale; [by eapply representable_in_units|lia].
Qed.

Lemma float_of_int_dyadic z : Z.abs z < 2 ^ prec → float_of_int z = Ok (dyadic z 0).
Proof.
  intros Hz%representable_int. unfold float_of_int. fold (dyadic z 0).
  rewrite dyadic_canonical by done. by destruct z.
Qed.

(** The float of an integer written at a lower exponent denotes that
    integer. *)
Lemma float_int_value_dyadic z e :
  e ≤ 0 → representable (in_units z e) e →
  float_int_value (dyadic (in_units z e) e) = Some z.
Proof.
  intros He Hz. rewrite dyadic_in_units by done.
  apply representable_in_units in Hz as [Hz _]; [|done].
  destruct (float_of_int_exact z Hz) as (f & Hf & Hv).
  rewrite float_of_int_dyadic in Hf by done. by injection Hf as <-.
Qed.

(** The floor of the float of [z * 2^e] is the floor of the number. *)
Lemma float_floor_dyadic z e :
  e ≤ 0 → representable z e → float_floor (dyadic z e) = Some (z / 2 ^ (- e)).
Proof.
  intros He Hz. rewrite dyadic_canonical by done. destruct Hz as [Hz _].
  destruct z as [|m|m]; [by rewrite Z.div_0_l by (apply Z.pow_nonzero; lia)|..];
    unfold canonical_of, canonical, float_floor;
    pose proof (norm_exponent_bounds m ltac:(lia)) as Hn;
    pose proof (norm_mantissa_value m ltac:(lia)) as Hv;
    pose proof (Z.pow_pos_nonneg 2 (- e)); pose proof (Z.pow_pos_nonneg 2 (- norm_exponent m));
    (case_decide;
     [assert (e = 0 ∧ norm_exponent m = 0) as [-> Hn0] by lia;
      rewrite Hn0 in *; simpl in *; f_equal; rewrite Z.div_1_r; lia|]);
    f_equal; replace (- (e + norm_exponent m)) with (- e + - norm_exponent m) by lia;
    rewrite Z.pow_add_r by lia.
  - rewrite Hv. apply Z.div_mul_cancel_r; lia.
  - replace (Z.neg (norm_mantissa m)) with (Z.neg m * 2 ^ (- norm_exponent m)) by lia.
    apply Z.div_mul_cancel_r; lia.
Qed.

(** ** Python arithmetic on dyadic numbers *)

Section python.
Context (e : Z) (He : e ≤ 0).

(** [float + float] *)
Lemma py_add_dyadic a b :
  representable a e → representable b e → representable (a + b) e →
  py_add (PyFloat (dyadic a e)) (PyFloat (dyadic b e)) = Ok (PyFloat (dyadic (a + b) e)).
Proof. intros. by rewrite py_add_float, SFadd_dyadic. Qed.

(** [int + float]: the integer is coerced without rounding. *)
Lemma py_add_int_dyadic y b :
  representable (in_units y e) e → representable b e →
  representable (in_units y e + b) e →
  py_add (PyInt y) (PyFloat (dyadic b e)) = Ok (PyFloat (dyadic (in_units y e + b) e)).
Proof.
  intros Hy Hb Hyb. pose proof (representable_in_units y e He Hy) as [Hy0 _].
  simpl. rewrite float_of_int_dyadic by done. simpl.
  by rewrite <- (dyadic_in_units y e), SFadd_dyadic.
Qed.

(** [float + int] *)
Lemma py_add_dyadic_int a y :
  representable a e → representable (in_units y e) e →
  representable (a + in_units y e) e →
  py_add (PyFloat (dyadic a e)) (PyInt y) = Ok (PyFloat (dyadic (a + in_units y e) e)).
Proof.
  intros Ha Hy Hay. pose proof (representable_in_units y e He Hy) as [Hy0 _].
  simpl. rewrite float_of_int_dyadic by done. simpl.
  by rewrite <- (dyadic_in_units y e), SFadd_dyadic.
Qed.

(** [int * float] *)
Lemma py_mul_int_dyadic n m :
  n ≠ 0 → m ≠ 0 → representable m e → representable (n * m) e →
  py_mul (PyInt n) (PyFloat (dyadic m e)) = Ok (PyFloat (dyadic (n * m) e)).
Proof.
  intros Hn Hm Hm' Hnm. assert (Z.abs n < 2 ^ prec) as Hn'.
  { destruct Hnm as [Hnm _]. rewrite Z.abs_mul in Hnm. nia. }
  simpl. rewrite float_of_int_dyadic by done. simpl.
  rewrite SFmul_dyadic; [done|done|done|by apply representable_int|done|done].
Qed.

End python.
