(* ===== verification/PyStr.v ===== *)
(** * Python strings as the composer uses them

    A [str] is a sequence of Unicode code points.  The composer tests each
    body line with [line.strip()]: the line is drawn when the stripped line
    is non-empty.  This file holds [str.isspace] on one code point,
    [str.strip] without argument, and the truth value of a string. *)

From Stdlib Require Import NArith Lia.
From stdpp Require Import base tactics option list.
From S2P Require Import Prelude.

#[local] Open Scope N_scope.

(** ** Data *)

Definition pystr : Type := list N.

(** ** Operations *)

(** [c.isspace()] for one code point: the characters Unicode classes as
    whitespace (bidirectional type WS, B or S, or category Zs). *)
Definition py_isspace (c : N) : bool :=
  (9 <=? c) && (c <=? 13)
  || (28 <=? c) && (c <=? 32)
  || (c =? 133) || (c =? 160) || (c =? 5760)
  || (8192 <=? c) && (c <=? 8202)
  || (c =? 8232) || (c =? 8233) || (c =? 8239) || (c =? 8287) || (c =? 12288).

(** [s.lstrip()] *)
Fixpoint py_lstrip (s : pystr) : pystr :=
  match s with
  | [] => []
  | c :: s' => if py_isspace c then py_lstrip s' else s
  end.

(** [s.rstrip()] *)
Definition py_rstrip (s : pystr) : pystr := reverse (py_lstrip (reverse s)).

(** [s.strip()] *)
Definition py_strip (s : pystr) : pystr := py_rstrip (py_lstrip s).

(** [bool(s)]: a string is true when it is not empty. *)
Definition str_truthy (s : pystr) : bool :=
  match s with
  | [] => false
  | _ :: _ => true
  end.

(** ** Stripping on the left *)

Lemma py_lstrip_spec s :
  ∃ l, s = l ++ py_lstrip s ∧ forallb py_isspace l = true.
Proof.
  induction s as [|c s (l & Hl & Hsp)]; [by exists []|]. simpl.
  destruct (py_isspace c) eqn:Hc.
  - exists (c :: l). simpl. rewrite Hc, Hsp. split; [by f_equal|done].
  - by exists [].
Qed.

Lemma py_lstrip_head s c s' : py_lstrip s = c :: s' → py_isspace c = false.
Proof.
  induction s as [|d s IH]; [done|]. simpl.
  destruct (py_isspace d) eqn:Hd; [done|]. by intros [= <- <-].
Qed.

Lemma py_lstrip_nil s : py_lstrip s = [] ↔ forallb py_isspace s = true.
Proof.
  induction s as [|c s IH]; [done|]. simpl.
  destruct (py_isspace c); simpl; [done|]. split; done.
Qed.

Lemma py_lstrip_fixed s c s' : s = c :: s' → py_isspace c = false → py_lstrip s = s.
Proof. intros -> Hc. simpl. by rewrite Hc. Qed.

Lemma py_lstrip_idemp s : py_lstrip (py_lstrip s) = py_lstrip s.
Proof.
  destruct (py_lstrip s) as [|c s'] eqn:Hs; [done|].
  eapply py_lstrip_fixed; [done|]. by eapply py_lstrip_head.
Qed.

Lemma py_lstrip_app_nonspace s t c :
  py_isspace c = false → py_lstrip (s ++ c :: t) = py_lstrip s ++ c :: t
  ∨ (py_lstrip s = [] ∧ py_lstrip (s ++ c :: t) = c :: t).
Proof.
  intros Hc. induction s as [|d s IH]; simpl.
  - rewrite Hc. by left.
  - destruct (py_isspace d); [done|]. by left.
Qed.

(** Stripping on the left keeps the last character. *)
Lemma py_lstrip_snoc s c :
  py_isspace c = false → py_lstrip (s ++ [c]) = py_lstrip s ++ [c].
Proof.
  intros Hc. destruct (py_lstrip_app_nonspace s [] c Hc) as [?|[Hs ->]]; [done|].
  by rewrite Hs.
Qed.

(** ** Stripping on the right *)

Lemma forallb_reverse {A} (f : A → bool) l : forallb f (reverse l) = forallb f l.
Proof.
  induction l as [|x l IH]; [done|].
  rewrite reverse_cons, forallb_app, IH. simpl. rewrite andb_true_r. apply andb_comm.
Qed.

Lemma py_rstrip_nil s : py_rstrip s = [] ↔ forallb py_isspace s = true.
Proof.
  unfold py_rstrip. rewrite <- forallb_reverse, <- py_lstrip_nil.
  split; [|by intros ->]. intros H%(f_equal reverse).
  by rewrite reverse_involutive in H.
Qed.

Lemma py_rstrip_snoc s c : py_isspace c = false → py_rstrip (s ++ [c]) = s ++ [c].
Proof.
  intros Hc. unfold py_rstrip. rewrite reverse_snoc. simpl. rewrite Hc.
  by rewrite <- reverse_snoc, reverse_involutive.
Qed.

Lemma py_rstrip_snoc_space s c : py_isspace c = true → py_rstrip (s ++ [c]) = py_rstrip s.
Proof. intros Hc. unfold py_rstrip. rewrite reverse_snoc. simpl. by rewrite Hc. Qed.

Lemma py_rstrip_last s t c : py_rstrip s = t ++ [c] → py_isspace c = false.
Proof.
  unfold py_rstrip. intros Hs.
  apply (f_equal reverse) in Hs. rewrite reverse_involutive, reverse_snoc in Hs.
  by eapply py_lstrip_head.
Qed.

Lemma py_rstrip_idemp s : py_rstrip (py_rstrip s) = py_rstrip s.
Proof. unfold py_rstrip. by rewrite reverse_involutive, py_lstrip_idemp. Qed.

(** Stripping on the right keeps a non-space first character. *)
Lemma py_rstrip_cons s c : py_isspace c = false → py_rstrip (c :: s) = c :: py_rstrip s.
Proof.
  intros Hc. induction s as [|d s IH] using rev_ind.
  - exact (py_rstrip_snoc [] c Hc).
  - change (c :: s ++ [d]) with ((c :: s) ++ [d]).
    destruct (py_isspace d) eqn:Hd.
    + by rewrite !py_rstrip_snoc_space.
    + by rewrite (py_rstrip_snoc (c :: s)), py_rstrip_snoc.
Qed.

(** ** Stripping on both sides *)

Lemma py_strip_nil s : py_strip s = [] ↔ forallb py_isspace s = true.
Proof.
  unfold py_strip. rewrite py_rstrip_nil.
  destruct (py_lstrip_spec s) as (l & Hs & Hl).
  destruct (py_lstrip s) as [|c s'] eqn:Hls.
  - rewrite app_nil_r in Hs. by subst.
  - pose proof (py_lstrip_head _ _ _ Hls) as Hc.
    split; simpl; rewrite ?Hc; [done|].
    rewrite Hs, forallb_app. simpl. rewrite Hc, andb_false_r. done.
Qed.

Lemma py_strip_head s c s' : py_strip s = c :: s' → py_isspace c = false.
Proof.
  unfold py_strip. destruct (py_lstrip s) as [|d t] eqn:Hls; [done|].
  pose proof (py_lstrip_head _ _ _ Hls) as Hd.
  rewrite py_rstrip_cons by done. by intros [= <- _].
Qed.

Lemma py_strip_idemp s : py_strip (py_strip s) = py_strip s.
Proof.
  unfold py_strip at 1.
  destruct (py_strip s) as [|c s'] eqn:Hs; [done|].
  rewrite (py_lstrip_fixed _ c s' eq_refl) by (by eapply py_strip_head).
  rewrite <- Hs. unfold py_strip. apply py_rstrip_idemp.
Qed.

Lemma str_truthy_strip s :
  str_truthy (py_strip s) = negb (forallb py_isspace s).
Proof.
  destruct (py_strip s) as [|c s'] eqn:Hs; simpl.
  - apply py_strip_nil in Hs. by rewrite Hs.
  - destruct (forallb py_isspace s) eqn:Hall; [|done].
    apply py_strip_nil in Hall. congruence.
Qed.

(** The lines that are true once stripped are the lines that hold a
    character other than whitespace. *)
Lemma filter_nonblank (lines : list pystr) :
  filter (λ line, str_truthy (py_strip line) = true) lines
  = filter (λ line, forallb py_isspace line = false) lines.
Proof.
  apply list_filter_iff. intros line. rewrite str_truthy_strip.
  by destruct (forallb py_isspace line).
Qed.

(** Among blank lines there is none to draw. *)
Lemma filter_all_blank (lines : list pystr) :
  Forall (λ line, forallb py_isspace line = true) lines →
  filter (λ line, forallb py_isspace line = false) lines = [].
Proof.
  induction 1 as [|line lines Hline _ IH]; [done|].
  rewrite filter_cons, decide_False by congruence. done.
Qed.
