(* ===== verification/Pillow.v ===== *)
(** * The imaging library, as far as the program calls it

    The program uses the imaging library through a handful of calls:
    [Image.open], [Image.convert], [ImageEnhance.Contrast(..).enhance],
    [Image.new], [ImageDraw.Draw], [draw.textbbox], [draw.text],
    [ImageFont.truetype], [Image.alpha_composite] and [Image.save].  None of
    it is code of the repository.  This file fixes what the program relies
    on:

    - the values passed to the library ([color], [font], [draw_call]);
    - the drawing layer: the image made by [Image.new] together with the
      [draw.text] calls applied to it so far, in order;
    - [TextMeasure], the interface of [draw.textbbox];
    - [Imaging], the interface of the operations on whole images, with the
      laws on sizes that the specification states;
    - the files the library reads and writes.

    Two instances make the development executable: a fixed-pitch text
    measure and a symbolic image type that records which operations were
    applied.  Theorems of the renderer and the composer are proved against
    the interfaces and hold for every instance. *)

From Stdlib Require Import ZArith Lia SpecFloat.
From stdpp Require Import base tactics option list strings gmap.
From S2P Require Import Prelude.
From S2P Require Import PyNum.
From S2P Require Import PyStr.

#[local] Open Scope Z_scope.

(** ** Values passed to the library *)

(** A colour tuple: three channels, or four with alpha. *)
Inductive color : Type :=
| RGB (r g b : Z)
| RGBA (r g b a : Z).

(** A font handle: what [ImageFont.truetype(path, size)] was given. *)
Record font : Type := Font {
  font_path : string;
  font_size : Z;
}.

(** One call [draw.text((x, y), text, font=font, fill=fill)]. *)
Record draw_call : Type := DrawText {
  dc_x : Z;
  dc_y : pynum;
  dc_text : pystr;
  dc_font : font;
  dc_fill : color;
}.

(** The image made by [Image.new('RGBA', size, fill)] with the drawing
    context [ImageDraw.Draw] on it: its size, its initial fill, and the
    [draw.text] calls made on it, oldest first. *)
Record layer : Type := Layer {
  layer_size : Z * Z;
  layer_fill : color;
  layer_calls : list draw_call;
}.

(** A bounding box [(left, top, right, bottom)]. *)
Definition bbox : Type := Z * Z * Z * Z.

Definition bbox_left (b : bbox) : Z := b.1.1.1.
Definition bbox_right (b : bbox) : Z := b.1.2.

(** ** The drawing layer *)

(** [Image.new('RGBA', size, fill)] followed by [ImageDraw.Draw]. *)
Definition new_layer (size : Z * Z) (fill : color) : layer :=
  {| layer_size := size; layer_fill := fill; layer_calls := [] |}.

(** [draw.text(...)]: the layer after one more call. *)
Definition draw_text (l : layer) (c : draw_call) : layer :=
  {| layer_size := layer_size l;
     layer_fill := layer_fill l;
     layer_calls := layer_calls l ++ [c] |}.

(** ** Measuring text *)

(** [draw.textbbox((0, 0), text, font=font)].  The specification asks of it
    that an empty string has a zero-width box and that no box has negative
    width. *)
Class TextMeasure : Type := {
  textbbox : font → pystr → bbox;
  textbbox_empty f : bbox_right (textbbox f []) - bbox_left (textbbox f []) = 0;
  textbbox_width f s : 0 ≤ bbox_right (textbbox f s) - bbox_left (textbbox f s);
}.

(** ** Whole images *)

(** The operations on images and what the specification says of sizes: no
    operation of the pipeline changes the pixel dimensions. *)
Class Imaging (image : Type) : Type := {
  (** [im.size] *)
  im_size : image → Z * Z;
  (** [im.convert('RGBA')] *)
  convert_rgba : image → image;
  (** [ImageEnhance.Contrast(im).enhance(factor)] *)
  enhance_contrast : float → image → image;
  (** the pixels of a layer after its draw calls *)
  render_layer : layer → image;
  (** [Image.alpha_composite(bottom, top)] *)
  alpha_composite : image → image → image;
  (** [im.convert('RGB')] *)
  convert_rgb : image → image;
  (** what a file written by [im.save(path, quality=q)] decodes to *)
  encode : Z → image → image;
  im_size_convert_rgba im : im_size (convert_rgba im) = im_size im;
  im_size_enhance_contrast k im : im_size (enhance_contrast k im) = im_size im;
  im_size_render_layer l : im_size (render_layer l) = layer_size l;
  im_size_alpha_composite a b :
    im_size b = im_size a → im_size (alpha_composite a b) = im_size a;
  im_size_convert_rgb im : im_size (convert_rgb im) = im_size im;
  im_size_encode q im : im_size (encode q im) = im_size im;
}.

(** ** Files *)

(** What a path of the file system holds, as far as the library can tell:
    an image it can decode, a font it can load, or something else. *)
Inductive file (image : Type) : Type :=
| ImageFile (im : image)
| FontFile
| OtherFile.

Arguments ImageFile {image} im.
Arguments FontFile {image}.
Arguments OtherFile {image}.

(** The file system: the files by path, and the paths at which a save
    fails before anything is written (the file cannot be opened for
    writing, or the format of the path is not known). *)
Record filesystem (image : Type) : Type := FileSystem {
  fs_files : gmap string (file image);
  fs_readonly : gset string;
}.

Arguments FileSystem {image} _ _.
Arguments fs_files {image} _.
Arguments fs_readonly {image} _.

(** [Image.open(path)]: the decoded image, or [None] where the library
    raises (no such file, or not an image). *)
Definition image_open {image} (fs : filesystem image) (path : string) : option image :=
  match fs_files fs !! path with
  | Some (ImageFile im) => Some im
  | _ => None
  end.

(** [ImageFont.truetype(path, size)]: the font handle, or [None] where the
    library raises (no such file, or not a font).  The size is kept in the
    handle and is not checked: whether the library refuses a size that is
    not positive depends on its version. *)
Definition truetype {image} (fs : filesystem image) (path : string) (size : Z) : option font :=
  match fs_files fs !! path with
  | Some FontFile => Some (Font path size)
  | _ => None
  end.

(** [im.save(path, quality=q)]: the file system with the file written, or
    [None] where the library raises.  A save that fails has written
    nothing: the failures modelled are those that occur before the file is
    written (the paths of [fs_readonly]), not a failure of the encoder
    after the file was opened, which can leave a truncated file. *)
Definition image_save `{Imaging image} (fs : filesystem image)
    (im : image) (path : string) (quality : Z) : option (filesystem image) :=
  if decide (path ∈ fs_readonly fs) then None
  else Some (FileSystem (<[path := ImageFile (encode quality im)]> (fs_files fs))
                        (fs_readonly fs)).

(** ** A fixed-pitch text measure *)

(** Every character is a square of the font size, as the full-width glyphs
    of a CJK font are. *)
Definition fixed_pitch_bbox (f : font) (s : pystr) : bbox :=
  (0, 0, Z.of_nat (length s) * Z.max 0 (font_size f), Z.max 0 (font_size f)).

#[export] Program Instance fixed_pitch : TextMeasure := {|
  textbbox := fixed_pitch_bbox;
|}.
Next Obligation. done. Qed.
Next Obligation. intros f s. unfold fixed_pitch_bbox, bbox_right, bbox_left. simpl. lia. Qed.

(** ** Symbolic images *)

(** An image described by the operations that made it. *)
Inductive sym_image : Type :=
| SymPhoto (name : string) (size : Z * Z)
| SymConvertRGBA (im : sym_image)
| SymEnhance (factor : float) (im : sym_image)
| SymLayer (l : layer)
| SymComposite (bottom top : sym_image)
| SymConvertRGB (im : sym_image)
| SymEncode (quality : Z) (im : sym_image).

Fixpoint sym_size (im : sym_image) : Z * Z :=
  match im with
  | SymPhoto _ size => size
  | SymConvertRGBA im => sym_size im
  | SymEnhance _ im => sym_size im
  | SymLayer l => layer_size l
  | SymComposite bottom _ => sym_size bottom
  | SymConvertRGB im => sym_size im
  | SymEncode _ im => sym_size im
  end.

#[export] Program Instance sym_imaging : Imaging sym_image := {|
  im_size := sym_size;
  convert_rgba := SymConvertRGBA;
  enhance_contrast := SymEnhance;
  render_layer := SymLayer;
  alpha_composite := SymComposite;
  convert_rgb := SymConvertRGB;
  encode := SymEncode;
|}.
Solve All Obligations with done.

(** ** Decidable equality *)

#[export] Instance color_eq_dec : EqDecision color.
Proof. solve_decision. Defined.

#[export] Instance font_eq_dec : EqDecision font.
Proof. solve_decision. Defined.

#[export] Instance draw_call_eq_dec : EqDecision draw_call.
Proof. solve_decision. Defined.

#[export] Instance layer_eq_dec : EqDecision layer.
Proof. solve_decision. Defined.

(** ** The drawing layer only grows *)

Lemma draw_text_calls l c : layer_calls (draw_text l c) = layer_calls l ++ [c].
Proof. done. Qed.

Lemma draw_text_size l c : layer_size (draw_text l c) = layer_size l.
Proof. done. Qed.

Lemma foldl_draw_text_calls l cs :
  layer_calls (foldl draw_text l cs) = layer_calls l ++ cs.
Proof.
  revert l. induction cs as [|c cs IH]; intros l; simpl.
  - by rewrite app_nil_r.
  - by rewrite IH, draw_text_calls, <- app_assoc.
Qed.

Lemma foldl_draw_text_size l cs : layer_size (foldl draw_text l cs) = layer_size l.
Proof. revert l. induction cs as [|c cs IH]; intros l; simpl; [done|]. by rewrite IH. Qed.

Lemma foldl_draw_text_fill l cs : layer_fill (foldl draw_text l cs) = layer_fill l.
Proof. revert l. induction cs as [|c cs IH]; intros l; simpl; [done|]. by rewrite IH. Qed.

(** ** Files *)

Section files.
Context `{Imaging image}.
Implicit Types (fs : filesystem image) (im : image).

Lemma image_open_Some fs path im :
  image_open fs path = Some im ↔ fs_files fs !! path = Some (ImageFile im).
Proof.
  unfold image_open. destruct (fs_files fs !! path) as [[]|]; split; congruence.
Qed.

Lemma truetype_Some fs path size f :
  truetype fs path size = Some f ↔
  fs_files fs !! path = Some FontFile ∧ f = Font path size.
Proof.
  unfold truetype. destruct (fs_files fs !! path) as [[]|]; split;
    try (intros [= <-]); try (intros [[=] ->]); done.
Qed.

Lemma image_save_Some fs im path q fs' :
  image_save fs im path q = Some fs' ↔
  (path ∉ fs_readonly fs) ∧
  fs' = FileSystem (<[path := ImageFile (encode q im)]> (fs_files fs)) (fs_readonly fs).
Proof.
  unfold image_save. case_decide; split;
    try (intros [= <-]); try (intros [? ->]); done.
Qed.

Lemma image_save_None fs im path q :
  image_save fs im path q = None ↔ path ∈ fs_readonly fs.
Proof. unfold image_save. by case_decide. Qed.

(** Saving writes the path it is given and no other. *)
Lemma image_save_lookup fs im path q fs' :
  image_save fs im path q = Some fs' →
  fs_files fs' !! path = Some (ImageFile (encode q im)).
Proof. intros [_ ->]%image_save_Some. simpl. apply lookup_insert_eq. Qed.

Lemma image_save_lookup_ne fs im path q fs' path' :
  image_save fs im path q = Some fs' → path ≠ path' →
  fs_files fs' !! path' = fs_files fs !! path'.
Proof. intros [_ ->]%image_save_Some ?. simpl. by apply lookup_insert_ne. Qed.

End files.
