(* ===== verification/Renderer.v ===== *)
(** * The styled text renderer: [TextAlign] and [draw_styled_text]

    [draw_styled_text] (src/demo4.py, lines 123-170) draws one line of text
    on the drawing layer: it measures the text, computes the horizontal
    anchor [text_x] from the alignment and the margins, stamps the text at
    every offset of the stroke grid in the stroke colour when the stroke
    width is positive, stamps it once more at the anchor in the fill colour,
    and returns the vertical position it was given.

    The vertical position is a Python number: an [int] for the title, and a
    [float] for the body lines when the line-spacing multiplier is a float.
    Adding the [int] offset of the grid to it may raise [OverflowError]; no
    [try] of the source catches it, so the renderer returns a [result]. *)

From Stdlib Require Import ZArith Lia SpecFloat.
From stdpp Require Import base tactics option list strings.
From S2P Require Import Prelude.
From S2P Require Import PyNum.
From S2P Require Import PyStr.
From S2P Require Import Pillow.

#[local] Open Scope Z_scope.

(** ** Data *)

(** [class TextAlign(Enum)] *)
Inductive TextAlign : Type :=
| LEFT
| CENTER
| RIGHT.

(** The value of each member. *)
Definition TextAlign_value (a : TextAlign) : string :=
  match a with
  | LEFT => "left"
  | CENTER => "center"
  | RIGHT => "right"
  end.

(** The keyword arguments of [draw_styled_text] that style the text. *)
Record text_style : Type := TextStyle {
  text_color : color;
  align : TextAlign;
  margin_left : Z;
  margin_right : Z;
  stroke_width : Z;
  stroke_color : color;
}.

(** Their default values. *)
Definition default_text_style : text_style :=
  {| text_color := RGB 255 255 255;
     align := CENTER;
     margin_left := 50;
     margin_right := 50;
     stroke_width := 3;
     stroke_color := RGBA 0 0 0 255 |}.

(** ** Operations *)

(** [text_bbox[2] - text_bbox[0]] *)
Definition text_width `{TextMeasure} (f : font) (text : pystr) : Z :=
  let text_bbox := textbbox f text in
  bbox_right text_bbox - bbox_left text_bbox.

(** [image_width - margin_left - margin_right] *)
Definition available_width (image_width margin_left margin_right : Z) : Z :=
  image_width - margin_left - margin_right.

(** The horizontal anchor, by alignment.  [//] is floor division. *)
Definition text_x (a : TextAlign) (image_width margin_left margin_right text_width : Z) : Z :=
  match a with
  | LEFT => margin_left
  | CENTER =>
      margin_left + (available_width image_width margin_left margin_right - text_width) / 2
  | RIGHT => image_width - margin_right - text_width
  end.

(** The offsets the stroke visits, in the order of the two nested loops:
    none unless the width is positive. *)
Definition stroke_offsets (stroke_width : Z) : list (Z * Z) :=
  if decide (stroke_width > 0) then
    grid (py_range (- stroke_width) (stroke_width + 1))
         (py_range (- stroke_width) (stroke_width + 1))
  else [].

(** The call of the loop body at one offset. *)
Definition stroke_call (text : pystr) (f : font) (position_y : pynum) (x : Z)
    (fill : color) (offset : Z * Z) : result pyexn draw_call :=
  y ← py_add position_y (PyInt offset.2);
  Ok (DrawText (x + offset.1) y text f fill).

(** The stroke pass: one call per offset, on the layer. *)
Definition draw_stroke (draw : layer) (text : pystr) (f : font) (position_y : pynum)
    (x : Z) (st : text_style) : result pyexn layer :=
  foldM (λ d offset, c ← stroke_call text f position_y x (stroke_color st) offset;
                     Ok (draw_text d c))
        (stroke_offsets (stroke_width st)) draw.

(** The fill call, at the anchor. *)
Definition fill_call (text : pystr) (f : font) (position_y : pynum) (x : Z)
    (st : text_style) : draw_call :=
  DrawText x position_y text f (text_color st).

(** [draw_styled_text]: the layer after the calls, and the returned
    position. *)
Definition draw_styled_text `{TextMeasure} (draw : layer) (text : pystr) (f : font)
    (position_y : pynum) (image_width : Z) (st : text_style)
    : result pyexn (layer * pynum) :=
  let x := text_x (align st) image_width (margin_left st) (margin_right st)
                  (text_width f text) in
  d ← draw_stroke draw text f position_y x st;
  Ok (draw_text d (fill_call text f position_y x st), position_y).

(** ** Specification of the calls *)

(** The calls of the stroke pass as a list, for a position whose additions
    succeed. *)
Definition stroke_calls (text : pystr) (f : font) (position_y : pynum) (x : Z)
    (st : text_style) : result pyexn (list draw_call) :=
  mapM (stroke_call text f position_y x (stroke_color st))
       (stroke_offsets (stroke_width st)).

(** The number of calls one render makes. *)
Definition call_count (stroke_width : Z) : Z :=
  if decide (stroke_width > 0) then (2 * stroke_width + 1) ^ 2 + 1 else 1.

(** ** Decidable equality *)

#[export] Instance TextAlign_eq_dec : EqDecision TextAlign.
Proof. solve_decision. Defined.

#[export] Instance text_style_eq_dec : EqDecision text_style.
Proof. solve_decision. Defined.

(** ** The anchor *)

Section anchor.
Context (image_width margin_left margin_right text_width : Z).

(** C1. CENTER keeps the text between the margins whenever it fits: the
    anchor is at or right of the left margin and the text ends at or left
    of the right margin. *)
Theorem center_within_margins :
  0 ≤ text_width ≤ available_width image_width margin_left margin_right →
  margin_left ≤ text_x CENTER image_width margin_left margin_right text_width ∧
  text_x CENTER image_width margin_left margin_right text_width + text_width
    ≤ image_width - margin_right.
Proof. unfold text_x, available_width. zdiv. Qed.

(** C5. CENTER splits the free space evenly: the gap on the right exceeds
    the gap on the left by the remainder of the free space modulo two, so by
    at most one pixel, whether the text fits or not. *)
Theorem center_balanced :
  (image_width - margin_right
     - (text_x CENTER image_width margin_left margin_right text_width + text_width))
  - (text_x CENTER image_width margin_left margin_right text_width - margin_left)
  = (available_width image_width margin_left margin_right - text_width) mod 2.
Proof. unfold text_x, available_width. zdiv. Qed.

(** LEFT pins the anchor to the left margin, whatever the text width. *)
Lemma left_at_margin :
  text_x LEFT image_width margin_left margin_right text_width = margin_left.
Proof. done. Qed.

(** RIGHT makes the text end at the right margin. *)
Lemma right_at_margin :
  text_x RIGHT image_width margin_left margin_right text_width + text_width
  = image_width - margin_right.
Proof. unfold text_x. lia. Qed.

(** C12. Every alignment keeps a text that fits between the margins. *)
Theorem text_x_within_margins a :
  0 ≤ text_width ≤ available_width image_width margin_left margin_right →
  margin_left ≤ text_x a image_width margin_left margin_right text_width ∧
  text_x a image_width margin_left margin_right text_width + text_width
    ≤ image_width - margin_right.
Proof.
  destruct a; unfold text_x, available_width; zdiv.
Qed.

(** C13. A text wider than the free space overhangs on both sides under
    CENTER: the anchor is left of the left margin and the text ends right of
    the right margin.  Keeping the text within the available width is left
    to the caller. *)
Theorem center_overhang :
  available_width image_width margin_left margin_right < text_width - 1 →
  text_x CENTER image_width margin_left margin_right text_width < margin_left ∧
  image_width - margin_right
    < text_x CENTER image_width margin_left margin_right text_width + text_width.
Proof. unfold text_x, available_width. zdiv. Qed.

End anchor.

Lemma center_within_margins_witness :
  margin_left default_text_style ≤ text_x CENTER 1000 50 50 301 ∧
  text_x CENTER 1000 50 50 301 + 301 ≤ 1000 - 50.
Proof. apply (center_within_margins 1000 50 50 301). vm_compute. split; discriminate. Defined.

Lemma text_x_within_margins_witness :
  50 ≤ text_x RIGHT 1000 50 50 301 ∧ text_x RIGHT 1000 50 50 301 + 301 ≤ 1000 - 50.
Proof. apply (text_x_within_margins 1000 50 50 301 RIGHT). vm_compute. split; discriminate. Defined.

Lemma center_overhang_witness :
  text_x CENTER 100 50 50 40 < 50 ∧ 100 - 50 < text_x CENTER 100 50 50 40 + 40.
Proof. apply (center_overhang 100 50 50 40). vm_compute. reflexivity. Defined.

(** ** The stroke grid *)

Lemma stroke_offsets_nonpos w : w ≤ 0 → stroke_offsets w = [].
Proof. intros. unfold stroke_offsets. by rewrite decide_False by lia. Qed.

Lemma stroke_offsets_pos w :
  0 < w → stroke_offsets w = grid (py_range (- w) (w + 1)) (py_range (- w) (w + 1)).
Proof. intros. unfold stroke_offsets. by rewrite decide_True by lia. Qed.

Lemma length_stroke_offsets w :
  0 < w → Z.of_nat (length (stroke_offsets w)) = (2 * w + 1) ^ 2.
Proof.
  intros. rewrite stroke_offsets_pos, length_grid, length_py_range by done. lia.
Qed.

Lemma elem_of_stroke_offsets w dx dy :
  (dx, dy) ∈ stroke_offsets w ↔ 0 < w ∧ - w ≤ dx ≤ w ∧ - w ≤ dy ≤ w.
Proof.
  destruct (decide (0 < w)) as [Hw|Hw].
  - rewrite stroke_offsets_pos, elem_of_grid, !elem_of_py_range by done. simpl. lia.
  - rewrite stroke_offsets_nonpos by lia. split; [by intros ?%elem_of_nil|lia].
Qed.

Lemma NoDup_stroke_offsets w : NoDup (stroke_offsets w).
Proof.
  unfold stroke_offsets. case_decide; [|constructor].
  apply NoDup_grid; apply NoDup_py_range.
Qed.

(** C6. The stroke visits every offset within distance [stroke_width] in
    both directions exactly once, and nothing else; it visits nothing when
    the width is not positive. *)
Theorem stroke_offsets_square w :
  NoDup (stroke_offsets w) ∧
  ∀ dx dy, (dx, dy) ∈ stroke_offsets w ↔ 0 < w ∧ - w ≤ dx ≤ w ∧ - w ≤ dy ≤ w.
Proof. split; [apply NoDup_stroke_offsets|apply elem_of_stroke_offsets]. Qed.

(** The centre of the grid is one of the offsets: the stroke also stamps the
    text at the anchor itself, under the fill. *)
Lemma stroke_offsets_centre w : 0 < w → (0, 0) ∈ stroke_offsets w.
Proof. intros. apply elem_of_stroke_offsets. lia. Qed.

(** ** One call of the stroke *)

(** On an [int] position the stroke call adds the offsets exactly and never
    raises. *)
Lemma stroke_call_int text f y x fill offset :
  stroke_call text f (PyInt y) x fill offset
  = Ok (DrawText (x + offset.1) (PyInt (y + offset.2)) text f fill).
Proof. done. Qed.

(** Adding an offset of magnitude below [2^53] to a position never raises. *)
Lemma py_add_offset_ok a dy : Z.abs dy < 2 ^ prec → is_ok (py_add a (PyInt dy)) = true.
Proof.
  intros (g & Hg & _)%float_of_int_exact. destruct a as [y|h]; [done|].
  simpl. by rewrite Hg.
Qed.

Lemma stroke_call_ok text f position_y x fill offset :
  Z.abs offset.2 < 2 ^ prec →
  is_ok (stroke_call text f position_y x fill offset) = true.
Proof.
  intros [y Hy]%(py_add_offset_ok position_y)%is_ok_true.
  unfold stroke_call. by rewrite Hy.
Qed.

(** Every stroke call carries the text, the font and the stroke colour it
    was given, at the anchor shifted by its offset. *)
Lemma stroke_call_fields text f position_y x fill offset c :
  stroke_call text f position_y x fill offset = Ok c →
  dc_x c = x + offset.1 ∧ py_add position_y (PyInt offset.2) = Ok (dc_y c) ∧
  dc_text c = text ∧ dc_font c = f ∧ dc_fill c = fill.
Proof.
  unfold stroke_call. intros (y & Hy & [= <-])%result_bind_ok. by rewrite Hy.
Qed.

(** ** The stroke pass *)

Section stroke.
Context (text : pystr) (f : font) (position_y : pynum) (x : Z) (st : text_style).

Lemma stroke_calls_total :
  stroke_width st < 2 ^ prec → ∃ cs, stroke_calls text f position_y x st = Ok cs.
Proof.
  intros Hw. apply mapM_result_total, Forall_forall. intros [dx dy] Hoff.
  apply elem_of_stroke_offsets in Hoff. apply stroke_call_ok. simpl. lia.
Qed.

Lemma stroke_calls_length cs :
  stroke_calls text f position_y x st = Ok cs →
  length cs = length (stroke_offsets (stroke_width st)).
Proof. apply mapM_result_length. Qed.

Lemma stroke_calls_fill cs :
  stroke_calls text f position_y x st = Ok cs →
  Forall (λ c, dc_text c = text ∧ dc_font c = f ∧ dc_fill c = stroke_color st) cs.
Proof.
  intros Hcs%mapM_result_Ok. induction Hcs as [|off c offs cs Hc _ IH]; constructor; [|done].
  apply stroke_call_fields in Hc. tauto.
Qed.

(** The row of every stroke call is of the type of the position: an
    [int] offset leaves an [int] an [int] and a [float] a [float]. *)
Lemma stroke_calls_rows cs :
  stroke_calls text f position_y x st = Ok cs →
  Forall (λ c, is_int (dc_y c) = is_int position_y) cs.
Proof.
  intros Hcs%mapM_result_Ok. induction Hcs as [|off c offs cs Hc _ IH]; constructor; [|done].
  apply stroke_call_fields in Hc as (_ & Hy%py_add_is_int & _). by rewrite andb_true_r in Hy.
Qed.

Lemma draw_stroke_spec draw :
  draw_stroke draw text f position_y x st
  = foldl draw_text draw <$> stroke_calls text f position_y x st.
Proof. apply foldM_mapM. Qed.

End stroke.

(** ** The whole render *)

Section render.
Context `{TextMeasure}.
Context (draw : layer) (text : pystr) (f : font) (position_y : pynum).
Context (image_width : Z) (st : text_style).

(** The anchor of this render. *)
Definition anchor : Z :=
  text_x (align st) image_width (margin_left st) (margin_right st) (text_width f text).

(** The render is the stroke calls followed by the fill call, appended to
    the layer. *)
Lemma draw_styled_text_spec :
  draw_styled_text draw text f position_y image_width st
  = cs ← stroke_calls text f position_y anchor st;
    Ok (foldl draw_text draw (cs ++ [fill_call text f position_y anchor st]), position_y).
Proof.
  unfold draw_styled_text. fold anchor. rewrite draw_stroke_spec.
  destruct (stroke_calls text f position_y anchor st) as [cs|e]; simpl; [|done].
  by rewrite foldl_app.
Qed.

Lemma draw_styled_text_Ok d' y' :
  draw_styled_text draw text f position_y image_width st = Ok (d', y') ↔
  ∃ cs, stroke_calls text f position_y anchor st = Ok cs ∧
        d' = foldl draw_text draw (cs ++ [fill_call text f position_y anchor st]) ∧
        y' = position_y.
Proof.
  rewrite draw_styled_text_spec, result_bind_ok. split.
  - intros (cs & Hcs & [= <- <-]). eauto.
  - intros (cs & Hcs & -> & ->). eauto.
Qed.

Lemma draw_styled_text_returns_position_aux :
  stroke_width st < 2 ^ prec →
  ∃ d', draw_styled_text draw text f position_y image_width st = Ok (d', position_y).
Proof.
  intros [cs Hcs]%(stroke_calls_total text f position_y anchor).
  eexists. apply draw_styled_text_Ok. eauto.
Qed.

(** C11. A render with a stroke width below [2^53] returns, and what it
    returns is the vertical position it was given, whatever the text, the
    font and the style: the renderer never moves the cursor. *)
Theorem draw_styled_text_returns_position :
  stroke_width st < 2 ^ prec →
  ∃ d', draw_styled_text draw text f position_y image_width st = Ok (d', position_y) ∧
        ∀ d'' y'', draw_styled_text draw text f position_y image_width st = Ok (d'', y'') →
                   d'' = d' ∧ y'' = position_y.
Proof.
  intros [d' Hd']%draw_styled_text_returns_position_aux. exists d'.
  split; [done|]. intros d'' y''. rewrite Hd'. by intros [= <- <-].
Qed.

(** The calls of a render, appended to those of the layer: one per offset
    of the stroke grid, then the fill. *)
Lemma draw_styled_text_calls d' y' :
  draw_styled_text draw text f position_y image_width st = Ok (d', y') →
  ∃ cs, layer_calls d' = layer_calls draw ++ cs ++ [fill_call text f position_y anchor st] ∧
        length cs = length (stroke_offsets (stroke_width st)).
Proof.
  intros (cs & Hcs & -> & _)%draw_styled_text_Ok.
  exists cs. split; [apply foldl_draw_text_calls|by eapply stroke_calls_length].
Qed.

Lemma draw_styled_text_length d' y' :
  draw_styled_text draw text f position_y image_width st = Ok (d', y') →
  Z.of_nat (length (layer_calls d'))
  = Z.of_nat (length (layer_calls draw)) + call_count (stroke_width st).
Proof.
  intros (cs & -> & Hlen)%draw_styled_text_calls.
  rewrite !length_app, Hlen. simpl. unfold call_count. case_decide.
  - pose proof (length_stroke_offsets (stroke_width st)). lia.
  - rewrite stroke_offsets_nonpos by lia. simpl. lia.
Qed.

(** C2. A render makes [(2w+1)^2 + 1] calls when the stroke width [w] is
    positive and exactly one call otherwise, all of them appended to the
    calls the layer already held. *)
Theorem draw_styled_text_call_count d' y' :
  draw_styled_text draw text f position_y image_width st = Ok (d', y') →
  ∃ cs, layer_calls d' = layer_calls draw ++ cs ∧
        Z.of_nat (length cs) = call_count (stroke_width st).
Proof.
  intros Hd. pose proof (draw_styled_text_length _ _ Hd) as Hlen.
  apply draw_styled_text_calls in Hd as (cs & Hcs & _).
  eexists. split; [done|]. rewrite Hcs, length_app in Hlen. lia.
Qed.

(** C7. The last call of a render is the fill: the text at the anchor and
    at the given position, in the text colour, over everything the stroke
    drew. *)
Theorem draw_styled_text_fill_last d' y' :
  draw_styled_text draw text f position_y image_width st = Ok (d', y') →
  last (layer_calls d') = Some (fill_call text f position_y anchor st).
Proof.
  intros (cs & Hcs & -> & _)%draw_styled_text_Ok.
  by rewrite foldl_draw_text_calls, app_assoc, last_snoc.
Qed.

(** Every call of a render before the last is a stroke call: it draws
    the same text in the same font, in the stroke colour. *)
Theorem draw_styled_text_stroke_first d' y' :
  draw_styled_text draw text f position_y image_width st = Ok (d', y') →
  ∃ cs, layer_calls d' = layer_calls draw ++ cs ++ [fill_call text f position_y anchor st] ∧
        Forall (λ c, dc_text c = text ∧ dc_font c = f ∧ dc_fill c = stroke_color st) cs.
Proof.
  intros (cs & Hcs & -> & _)%draw_styled_text_Ok.
  exists cs. split; [apply foldl_draw_text_calls|by eapply stroke_calls_fill].
Qed.

(** Every call of a render, stroke and fill, is at a row of the type of
    the position it was given. *)
Lemma draw_styled_text_rows d' y' :
  draw_styled_text draw text f position_y image_width st = Ok (d', y') →
  ∃ cs, layer_calls d' = layer_calls draw ++ cs ∧
        Forall (λ c, is_int (dc_y c) = is_int position_y) cs.
Proof.
  intros (cs & Hcs%stroke_calls_rows & -> & _)%draw_styled_text_Ok.
  eexists. split; [apply foldl_draw_text_calls|].
  apply Forall_app. split; [done|]. by repeat constructor.
Qed.

(** A render changes neither the size nor the initial fill of the layer. *)
Lemma draw_styled_text_layer d' y' :
  draw_styled_text draw text f position_y image_width st = Ok (d', y') →
  layer_size d' = layer_size draw ∧ layer_fill d' = layer_fill draw.
Proof.
  intros (cs & Hcs & -> & _)%draw_styled_text_Ok.
  by rewrite foldl_draw_text_size, foldl_draw_text_fill.
Qed.

End render.

(** On an [int] position, as for the title, the stroke calls are the
    text stamped at the anchor shifted by each offset of the grid, in the
    order of the grid, with exact integer coordinates. *)
Theorem stroke_calls_int text f y x st :
  stroke_calls text f (PyInt y) x st
  = Ok ((λ offset, DrawText (x + offset.1) (PyInt (y + offset.2)) text f (stroke_color st))
          <$> stroke_offsets (stroke_width st)).
Proof. apply mapM_result_fmap, Forall_forall. intros offset _. apply stroke_call_int. Qed.
