(* ===== verification/StrokeLoops.v ===== *)
(** * The stroke pass as the two nested loops of the source

    [Renderer.draw_stroke] runs the body of the stroke once per element of
    the iteration space [stroke_offsets].  The source (src/demo4.py, lines
    152-160) has an [if] around two nested [for] loops.  This file writes
    the pass in that shape, [draw_stroke_nested] with the inner loop
    [stroke_row], and shows that the two forms are the same function, also
    on the exception an addition may raise half way through. *)

From Stdlib Require Import ZArith Lia.
From stdpp Require Import base tactics option list.
From S2P Require Import Prelude.
From S2P Require Import PyNum.
From S2P Require Import PyStr.
From S2P Require Import Pillow.
From S2P Require Import Renderer.

#[local] Open Scope Z_scope.

(** The inner loop, [for offset_y in range(-stroke_width, stroke_width + 1)],
    at one [offset_x]. *)
Definition stroke_row (text : pystr) (f : font) (position_y : pynum) (x : Z)
    (st : text_style) (draw : layer) (offset_x : Z) : result pyexn layer :=
  foldM (λ d offset_y,
           c ← stroke_call text f position_y x (stroke_color st) (offset_x, offset_y);
           Ok (draw_text d c))
        (py_range (- stroke_width st) (stroke_width st + 1)) draw.

(** [if stroke_width > 0:] around the outer loop,
    [for offset_x in range(-stroke_width, stroke_width + 1)]. *)
Definition draw_stroke_nested (draw : layer) (text : pystr) (f : font)
    (position_y : pynum) (x : Z) (st : text_style) : result pyexn layer :=
  if decide (stroke_width st > 0) then
    foldM (stroke_row text f position_y x st)
          (py_range (- stroke_width st) (stroke_width st + 1)) draw
  else Ok draw.

(** [draw_styled_text] with the nested loops in place of the iteration
    space. *)
Definition draw_styled_text_nested `{TextMeasure} (draw : layer) (text : pystr) (f : font)
    (position_y : pynum) (image_width : Z) (st : text_style)
    : result pyexn (layer * pynum) :=
  let x := text_x (align st) image_width (margin_left st) (margin_right st)
                  (text_width f text) in
  d ← draw_stroke_nested draw text f position_y x st;
  Ok (draw_text d (fill_call text f position_y x st), position_y).

Lemma draw_stroke_nested_eq draw text f position_y x st :
  draw_stroke draw text f position_y x st = draw_stroke_nested draw text f position_y x st.
Proof.
  unfold draw_stroke, draw_stroke_nested, stroke_offsets.
  case_decide; [|done]. apply foldM_grid.
Qed.

(** The renderer written with the [if] and the two nested [for] loops
    of the source is the renderer over the iteration space: the same layer,
    the same returned position and the same exception on every input. *)
Theorem draw_styled_text_nested_equiv `{TextMeasure} draw text f position_y image_width st :
  draw_styled_text_nested draw text f position_y image_width st
  = draw_styled_text draw text f position_y image_width st.
Proof. unfold draw_styled_text_nested, draw_styled_text. by rewrite draw_stroke_nested_eq. Qed.
