(* ===== verification/Composer.v ===== *)
(** * The composer: [create_styled_text_image]

    [create_styled_text_image] (src/demo4.py, lines 14-120) runs the whole
    pipeline.  Its effects are on the file system and on the console; both
    are the [world] here.  The function has three [try] blocks, around the
    opening of the background, the loading of the fonts and the saving of
    the result; each prints a message when the library raises, and the
    first two return at once.  The drawing in between is outside every
    [try]: an exception there escapes to the caller.

    The definitions follow the statements of the source in order:
    [open_background] (lines 53-59), the transparent layer (61-62),
    [load_fonts] (64-69), [title_y] (74), the title render (75-87),
    [content_start] (90), [line_spacing] (93), the loop [draw_content] with
    its body [draw_line] (96-111), and [save_output] (114-120). *)

From Stdlib Require Import ZArith Lia SpecFloat.
From stdpp Require Import base tactics option list strings gmap.
From S2P Require Import Prelude.
From S2P Require Import PyNum.
From S2P Require Import PyStr.
From S2P Require Import Pillow.
From S2P Require Import Renderer.

#[local] Open Scope Z_scope.

(** ** Data *)

(** The keyword arguments of [create_styled_text_image]. *)
Record options : Type := Options {
  output_path : string;
  title_font_path : string;
  content_font_path : string;
  title_font_size : Z;
  content_font_size : Z;
  title_color : color;
  content_color : color;
  title_stroke_color : color;
  content_stroke_color : color;
  title_stroke_width : Z;
  content_stroke_width : Z;
  title_align : TextAlign;
  content_align : TextAlign;
  margin_left : Z;
  margin_right : Z;
  title_content_spacing : Z;
  content_line_spacing : pynum;
}.

(** The float literal [1.5]. *)
Definition float_1_5 : float := S754_finite false 6755399441055744 (-52).

(** Their default values. *)
Definition default_options : options :=
  {| output_path := "output.jpg";
     title_font_path := "simhei.ttf";
     content_font_path := "simhei.ttf";
     title_font_size := 80;
     content_font_size := 40;
     title_color := RGB 255 255 255;
     content_color := RGB 255 255 0;
     title_stroke_color := RGBA 0 0 0 255;
     content_stroke_color := RGBA 0 0 0 255;
     title_stroke_width := 3;
     content_stroke_width := 2;
     title_align := CENTER;
     content_align := LEFT;
     margin_left := 50;
     margin_right := 50;
     title_content_spacing := 50;
     content_line_spacing := PyFloat float_1_5 |}.

(** What the function prints.  The path in a failure stands for the
    exception [e] of the call that raised, which the message quotes: the
    call is named by the path it was given, and the text the library puts
    in the exception is not modelled. *)
Inductive message : Type :=
| BackgroundOpenFailed (path : string)
| FontLoadFailed (path : string)
| ImageSaved (path : string)
| SaveFailed (path : string).

(** The file system and the console. *)
Record world (image : Type) : Type := World {
  w_fs : filesystem image;
  w_stdout : list message;
}.

Arguments World {image} _ _.
Arguments w_fs {image} _.
Arguments w_stdout {image} _.

(** ** Constants of the source *)

(** The float literal [1.2], the contrast factor. *)
Definition contrast_factor : float := S754_finite false 5404319552844595 (-52).

(** The fill of the text layer: white, fully transparent. *)
Definition layer_color : color := RGBA 255 255 255 0.

(** The quality the result is saved with. *)
Definition save_quality : Z := 95.

(** ** Operations *)

(** [print(...)] *)
Definition print {image} (w : world image) (m : message) : world image :=
  World (w_fs w) (w_stdout w ++ [m]).

(** The styles handed to the renderer for the title and for the body. *)
Definition title_style (o : options) : text_style :=
  TextStyle (title_color o) (title_align o) (margin_left o) (margin_right o)
            (title_stroke_width o) (title_stroke_color o).

Definition content_style (o : options) : text_style :=
  TextStyle (content_color o) (content_align o) (margin_left o) (margin_right o)
            (content_stroke_width o) (content_stroke_color o).

(** [title_y = height // 6] *)
Definition title_y (height : Z) : Z := height / 6.

(** [content_y = title_y + title_font_size + title_content_spacing] *)
Definition content_start (title_y : Z) (o : options) : Z :=
  title_y + title_font_size o + title_content_spacing o.

(** [line_spacing = content_font_size * content_line_spacing] *)
Definition line_spacing (o : options) : result pyexn pynum :=
  py_mul (PyInt (content_font_size o)) (content_line_spacing o).

Section composer.
Context `{TextMeasure} `{Imaging image}.

(** The first [try]: open, convert, enhance.  [None] when the library
    raises, which in the model only [Image.open] does: [convert],
    [ImageEnhance.Contrast] and [enhance] are total functions of the
    interface. *)
Definition open_background (fs : filesystem image) (background_path : string)
    : option image :=
  background ← image_open fs background_path;
  Some (enhance_contrast contrast_factor (convert_rgba background)).

(** The second [try]: the title font, then the body font.  On failure, the
    path of the font that did not load. *)
Definition load_fonts (fs : filesystem image) (o : options) : string + font * font :=
  match truetype fs (title_font_path o) (title_font_size o) with
  | None => inl (title_font_path o)
  | Some title_font =>
      match truetype fs (content_font_path o) (content_font_size o) with
      | None => inl (content_font_path o)
      | Some content_font => inr (title_font, content_font)
      end
  end.

(** The body of the loop over the body lines: render the line unless it is
    blank, then advance the cursor. *)
Definition draw_line (content_font : font) (width : Z) (st : text_style)
    (spacing : pynum) (state : layer * pynum) (line : pystr)
    : result pyexn (layer * pynum) :=
  drawn ← (if str_truthy (py_strip line)
           then draw_styled_text state.1 line content_font state.2 width st
           else Ok state);
  content_y ← py_add drawn.2 spacing;
  Ok (drawn.1, content_y).

(** The loop over the body lines. *)
Definition draw_content (draw : layer) (content_font : font) (width : Z)
    (st : text_style) (spacing : pynum) (content_lines : list pystr)
    (content_y : pynum) : result pyexn (layer * pynum) :=
  foldM (draw_line content_font width st spacing) content_lines (draw, content_y).

(** Everything drawn on the layer: the title, then the body. *)
Definition draw_all (txt : layer) (title : pystr) (content_lines : list pystr)
    (title_font content_font : font) (width height : Z) (o : options)
    : result pyexn (layer * pynum) :=
  drawn ← draw_styled_text txt title title_font (PyInt (title_y height)) width
                           (title_style o);
  spacing ← line_spacing o;
  draw_content drawn.1 content_font width (content_style o) spacing content_lines
               (PyInt (content_start (title_y height) o)).

(** The image that is saved: the layer over the background, flattened. *)
Definition compose (background : image) (txt : layer) : image :=
  convert_rgb (alpha_composite background (render_layer txt)).

(** The third [try]: save and report. *)
Definition save_output (w : world image) (out : image) (path : string) : world image :=
  match image_save (w_fs w) out path save_quality with
  | Some fs => print (World fs (w_stdout w)) (ImageSaved path)
  | None => print w (SaveFailed path)
  end.

(** [create_styled_text_image]: the world after the call, and [None] or the
    exception that escaped. *)
Definition create_styled_text_image (w : world image) (background_path : string)
    (title : pystr) (content_lines : list pystr) (o : options)
    : world image * result pyexn () :=
  match open_background (w_fs w) background_path with
  | None => (print w (BackgroundOpenFailed background_path), Ok ())
  | Some background =>
      let txt := new_layer (im_size background) layer_color in
      match load_fonts (w_fs w) o with
      | inl path => (print w (FontLoadFailed path), Ok ())
      | inr (title_font, content_font) =>
          let '(width, height) := im_size background in
          match draw_all txt title content_lines title_font content_font width height o with
          | Raise e => (w, Raise e)
          | Ok drawn => (save_output w (compose background drawn.1) (output_path o), Ok ())
          end
      end
  end.

End composer.

(** ** Specification of the cursor *)

(** The cursor after [n] lines: [n] additions of the spacing. *)
Fixpoint cursor_after (spacing : pynum) (n : nat) (content_y : pynum) : result pyexn pynum :=
  match n with
  | O => Ok content_y
  | S n' => y ← py_add content_y spacing; cursor_after spacing n' y
  end.

(** The body lines that are drawn, each with the cursor it is drawn at. *)
Fixpoint layout (spacing : pynum) (content_lines : list pystr) (content_y : pynum)
    : result pyexn (list (pystr * pynum)) :=
  match content_lines with
  | [] => Ok []
  | line :: rest =>
      y ← py_add content_y spacing;
      placed ← layout spacing rest y;
      Ok (if str_truthy (py_strip line) then (line, content_y) :: placed else placed)
  end.

(** ** Decidable equality *)

#[export] Instance message_eq_dec : EqDecision message.
Proof. solve_decision. Defined.

#[export] Instance options_eq_dec : EqDecision options.
Proof. solve_decision. Defined.

(** ** The cursor *)

Lemma cursor_after_S spacing n y :
  cursor_after spacing (S n) y = y' ← py_add y spacing; cursor_after spacing n y'.
Proof. done. Qed.

(** The last addition of the cursor. *)
Lemma cursor_after_succ_r spacing n y :
  cursor_after spacing (S n) y = y' ← cursor_after spacing n y; py_add y' spacing.
Proof.
  revert y. induction n as [|n IH]; intros y.
  - simpl. by destruct (py_add y spacing).
  - rewrite (cursor_after_S _ (S n)), (cursor_after_S _ n).
    destruct (py_add y spacing) as [y1|e]; [|done]. simpl. apply IH.
Qed.

(** With an [int] spacing the cursor stays an [int] and advances by exactly
    the spacing per line. *)
Lemma cursor_after_int k n y :
  cursor_after (PyInt k) n (PyInt y) = Ok (PyInt (y + Z.of_nat n * k)).
Proof.
  revert y. induction n as [|n IH]; intros y.
  - simpl. do 2 f_equal. lia.
  - rewrite cursor_after_S, py_add_int. simpl. rewrite IH. do 2 f_equal. lia.
Qed.

(** Once the cursor is a [float] it stays one and no addition raises. *)
Lemma cursor_after_float g n h :
  ∃ h', cursor_after (PyFloat g) n (PyFloat h) = Ok (PyFloat h').
Proof.
  revert h. induction n as [|n IH]; intros h; [by eexists|].
  rewrite cursor_after_S, py_add_float. simpl. apply IH.
Qed.

(** ** The loop over the body lines *)

Section content.
Context `{TextMeasure}.
Context (content_font : font) (width : Z) (st : text_style) (spacing : pynum).

#[local] Abbreviation draw_line := (draw_line content_font width st spacing).
#[local] Abbreviation draw_content d := (draw_content d content_font width st spacing).

(** The renders of the placed lines, one after the other. *)
Definition render_placed (draw : layer) (placed : list (pystr * pynum)) : result pyexn layer :=
  foldM (λ d p, fst <$> draw_styled_text d p.1 content_font p.2 width st) placed draw.

(** One iteration: the cursor advances by the spacing whatever the line is;
    the layer is rendered on when the line is not blank and untouched when
    it is. *)
Lemma draw_line_Ok d y line d' y' :
  draw_line (d, y) line = Ok (d', y') ↔
  py_add y spacing = Ok y' ∧
  if str_truthy (py_strip line)
  then draw_styled_text d line content_font y width st = Ok (d', y)
  else d' = d.
Proof.
  unfold Composer.draw_line. simpl. destruct (str_truthy (py_strip line)).
  - rewrite result_bind_ok. split.
    + intros ([d1 y1] & Hd & (y2 & Hy & [= <- <-])%result_bind_ok).
      pose proof Hd as (? & _ & _ & ->)%draw_styled_text_Ok. done.
    + intros [Hy Hd]. eexists. split; [done|]. simpl. by rewrite Hy.
  - simpl. rewrite result_bind_ok. split.
    + by intros (y2 & Hy & [= <- <-]).
    + intros [Hy ->]. eauto.
Qed.

Lemma draw_content_nil d y : draw_content d [] y = Ok (d, y).
Proof. done. Qed.

Lemma draw_content_cons d y line rest :
  draw_content d (line :: rest) y
  = s ← draw_line (d, y) line; draw_content s.1 rest s.2.
Proof. unfold Composer.draw_content. simpl. by destruct (draw_line (d, y) line) as [[]|]. Qed.

Lemma draw_content_cons_Ok d y line rest d' y' :
  draw_content d (line :: rest) y = Ok (d', y') ↔
  ∃ d1 y1, draw_line (d, y) line = Ok (d1, y1) ∧ draw_content d1 rest y1 = Ok (d', y').
Proof.
  rewrite draw_content_cons, result_bind_ok. split.
  - intros ([d1 y1] & ? & ?). eauto.
  - intros (d1 & y1 & ? & ?). by exists (d1, y1).
Qed.

(** The loop over the first [n] lines, and over the others from where
    these leave the layer and the cursor. *)
Lemma draw_content_take_drop d y lines n d' y' :
  draw_content d lines y = Ok (d', y') →
  ∃ d1 y1, draw_content d (take n lines) y = Ok (d1, y1) ∧
           draw_content d1 (drop n lines) y1 = Ok (d', y').
Proof.
  intros Hd. rewrite <- (take_drop n lines) in Hd.
  unfold Composer.draw_content in *. rewrite foldM_app in Hd.
  apply result_bind_ok in Hd as ([d1 y1] & Hpre & Hrest). by exists d1, y1.
Qed.

(** The loop at its iteration [i]: the lines before it, its body, and the
    lines after it. *)
Lemma draw_content_lookup d y lines d' y' i line :
  draw_content d lines y = Ok (d', y') → lines !! i = Some line →
  ∃ d1 y1 d2 y2,
    draw_content d (take i lines) y = Ok (d1, y1) ∧
    draw_line (d1, y1) line = Ok (d2, y2) ∧
    draw_content d2 (drop (S i) lines) y2 = Ok (d', y').
Proof.
  intros Hd Hi. rewrite <- (take_drop_middle lines i line Hi) in Hd.
  unfold Composer.draw_content in *. rewrite foldM_app in Hd.
  apply result_bind_ok in Hd as ([d1 y1] & Hpre & Hrest). simpl in Hrest.
  apply result_bind_ok in Hrest as ([d2 y2] & Hline & Hpost). by exists d1, y1, d2, y2.
Qed.

Lemma draw_content_cursor_after d y lines d' y' :
  draw_content d lines y = Ok (d', y') →
  cursor_after spacing (length lines) y = Ok y'.
Proof.
  revert d y. induction lines as [|line rest IH]; intros d y.
  - by intros [= <- <-].
  - intros (d1 & y1 & [Hy _]%draw_line_Ok & Hrest)%draw_content_cons_Ok.
    simpl. rewrite Hy. simpl. eauto.
Qed.

(** The render of a line that is drawn: the cursor it is rendered at, the
    cursor after it, and the loop over the lines that follow it. *)
Lemma draw_content_render_at d y lines d' y' i line :
  draw_content d lines y = Ok (d', y') → lines !! i = Some line →
  str_truthy (py_strip line) = true →
  ∃ d1 yi d2 y2,
    cursor_after spacing i y = Ok yi ∧ cursor_after spacing (S i) y = Ok y2 ∧
    draw_styled_text d1 line content_font yi width st = Ok (d2, yi) ∧
    draw_content d2 (drop (S i) lines) y2 = Ok (d', y').
Proof.
  intros Hd Hi Hnb. destruct (draw_content_lookup _ _ _ _ _ _ _ Hd Hi)
    as (d1 & yi & d2 & y2 & Hpre%draw_content_cursor_after & [Hy2 Hline]%draw_line_Ok & Hpost).
  rewrite length_take_le in Hpre by (apply lookup_lt_Some in Hi; lia).
  rewrite Hnb in Hline. exists d1, yi, d2, y2.
  by rewrite cursor_after_succ_r, Hpre.
Qed.

Lemma draw_content_layout_placed d y lines d' y' :
  draw_content d lines y = Ok (d', y') →
  ∃ placed, layout spacing lines y = Ok placed ∧ render_placed d placed = Ok d'.
Proof.
  revert d y. induction lines as [|line rest IH]; intros d y.
  - intros [= <- <-]. by exists [].
  - intros (d1 & y1 & [Hy Hd]%draw_line_Ok & Hrest)%draw_content_cons_Ok.
    destruct (IH _ _ Hrest) as (placed & Hplaced & Hrender).
    simpl. rewrite Hy. simpl. rewrite Hplaced. simpl.
    destruct (str_truthy (py_strip line)).
    + eexists. split; [done|]. unfold render_placed. simpl. by rewrite Hd.
    + subst d1. eauto.
Qed.

(** The number of calls the loop adds: one render per line that is not
    blank. *)
Lemma draw_content_calls d y lines d' y' :
  draw_content d lines y = Ok (d', y') →
  Z.of_nat (length (layer_calls d'))
  = Z.of_nat (length (layer_calls d))
    + Z.of_nat (length (filter (λ line, str_truthy (py_strip line) = true) lines))
      * call_count (stroke_width st).
Proof.
  revert d y. induction lines as [|line rest IH]; intros d y.
  - intros [= <- <-]. simpl. lia.
  - intros (d1 & y1 & [Hy Hd]%draw_line_Ok & Hrest)%draw_content_cons_Ok.
    rewrite (IH _ _ Hrest), filter_cons.
    destruct (str_truthy (py_strip line)) eqn:Hline.
    + rewrite decide_True by done. apply draw_styled_text_length in Hd.
      rewrite Hd. simpl length. lia.
    + rewrite decide_False by done. subst d1. lia.
Qed.

(** The loop only appends to the calls of the layer. *)
Lemma draw_content_prefix d y lines d' y' :
  draw_content d lines y = Ok (d', y') → layer_calls d `prefix_of` layer_calls d'.
Proof.
  apply (foldM_invariant (λ s, layer_calls d `prefix_of` layer_calls s.1)); [|done].
  intros [d1 y1] line [d2 y2] Hpre [_ Hline]%draw_line_Ok. simpl in *.
  destruct (str_truthy (py_strip line)); [|by subst].
  apply draw_styled_text_calls in Hline as (cs & -> & _).
  etrans; [done|]. by apply prefix_app_r.
Qed.

(** From a [float] cursor on, every call of the loop is at a [float] row
    and the cursor stays a [float], whatever the spacing is. *)
Lemma draw_content_float_rows d y lines d' y' :
  is_int y = false →
  draw_content d lines y = Ok (d', y') →
  is_int y' = false ∧
  ∃ cs, layer_calls d' = layer_calls d ++ cs ∧ Forall (λ c, is_int (dc_y c) = false) cs.
Proof.
  revert d y. induction lines as [|line rest IH]; intros d y Hy.
  - intros [= <- <-]. split; [done|]. exists []. by rewrite app_nil_r.
  - intros (d1 & y1 & [Hy1%py_add_is_int Hd]%draw_line_Ok & Hrest)%draw_content_cons_Ok.
    rewrite Hy in Hy1. destruct (IH _ _ Hy1 Hrest) as (Hy' & cs & Hcs & Hfloat).
    split; [done|]. destruct (str_truthy (py_strip line)); [|subst d1; eauto].
    apply draw_styled_text_rows in Hd as (cs1 & Hcs1 & Hrows). rewrite Hy in Hrows.
    exists (cs1 ++ cs). rewrite Hcs, Hcs1, <- app_assoc. split; [done|].
    by apply Forall_app.
Qed.

(** The loop returns when no render and no addition raises. *)
Lemma draw_content_total d y lines y' :
  stroke_width st < 2 ^ prec →
  cursor_after spacing (length lines) y = Ok y' →
  ∃ d', draw_content d lines y = Ok (d', y').
Proof.
  intros Hw. revert d y. induction lines as [|line rest IH]; intros d y.
  - intros [= <-]. by eexists.
  - simpl length. rewrite cursor_after_S. intros (y1 & Hy & Hrest)%result_bind_ok.
    assert (∃ d1, draw_line (d, y) line = Ok (d1, y1)) as [d1 Hd1].
    { destruct (str_truthy (py_strip line)) eqn:Hline.
      - destruct (stroke_calls_total line content_font y
                    (anchor line content_font width st) st Hw) as [cs Hcs].
        eexists. apply draw_line_Ok. rewrite Hline. split; [done|].
        apply draw_styled_text_Ok. eauto.
      - exists d. apply draw_line_Ok. by rewrite Hline. }
    destruct (IH d1 y1 Hrest) as [d' Hd']. exists d'.
    apply draw_content_cons_Ok. eauto.
Qed.

End content.

(** ** Claims on the loop *)

Section content_claims.
Context `{TextMeasure}.
Context (content_font : font) (width : Z) (st : text_style) (spacing : pynum).
Context (draw : layer) (content_lines : list pystr) (content_y : pynum).

(** C3. The loop over the body lines returns exactly when the additions of
    the spacing to the cursor succeed, and then the cursor has advanced once
    per line, blank or not: its final value is the start plus one spacing
    for every line, added one at a time. *)
Theorem draw_content_advances y' :
  stroke_width st < 2 ^ prec →
  (∃ d', draw_content draw content_font width st spacing content_lines content_y
         = Ok (d', y'))
  ↔ cursor_after spacing (length content_lines) content_y = Ok y'.
Proof.
  intros Hw. split.
  - intros [d' Hd']. by eapply draw_content_cursor_after.
  - by apply draw_content_total.
Qed.

(** C10. The loop makes one render per line that holds a character other
    than whitespace, and none for the lines that are empty or
    whitespace-only. *)
Theorem draw_content_call_count d' y' :
  draw_content draw content_font width st spacing content_lines content_y = Ok (d', y') →
  Z.of_nat (length (layer_calls d'))
  = Z.of_nat (length (layer_calls draw))
    + Z.of_nat (length (filter (λ line, forallb py_isspace line = false) content_lines))
      * call_count (stroke_width st).
Proof.
  intros Hd%draw_content_calls. by rewrite Hd, filter_nonblank.
Qed.

(** C9. The loop refines the layout: the layer it returns is the layer
    obtained by rendering, in order, each non-blank line at the cursor the
    layout assigns to it, and the layout depends on the spacing and on which
    lines are blank only. *)
Theorem draw_content_refines_layout d' y' :
  draw_content draw content_font width st spacing content_lines content_y = Ok (d', y') →
  ∃ placed, layout spacing content_lines content_y = Ok placed ∧
            render_placed content_font width st draw placed = Ok d'.
Proof. apply draw_content_layout_placed. Qed.

(** Lines that are empty or whitespace-only leave the layer as it is. *)
Theorem blank_lines_draw_nothing d' y' :
  Forall (λ line, forallb py_isspace line = true) content_lines →
  draw_content draw content_font width st spacing content_lines content_y = Ok (d', y') →
  d' = draw.
Proof.
  intros Hblank (placed & Hplaced & Hrender)%draw_content_layout_placed.
  assert (placed = []) as ->; [|by injection Hrender].
  clear Hrender. revert content_y placed Hplaced.
  induction Hblank as [|line rest Hline _ IH]; intros y placed; simpl.
  - by intros [= <-].
  - intros (y1 & _ & (placed' & Hplaced' & [= <-])%result_bind_ok)%result_bind_ok.
    rewrite str_truthy_strip, Hline. simpl. eauto.
Qed.

End content_claims.

(** ** The whole call *)

Section whole.
Context `{TextMeasure} `{Imaging image}.
Implicit Types (w : world image) (fs : filesystem image) (o : options) (background : image).

Lemma open_background_Some fs path background :
  open_background fs path = Some background ↔
  ∃ im, image_open fs path = Some im ∧
        background = enhance_contrast contrast_factor (convert_rgba im).
Proof.
  unfold open_background. destruct (image_open fs path) as [im|]; simpl; split.
  - intros [= <-]. eauto.
  - by intros (? & [= <-] & ->).
  - done.
  - by intros (? & ? & _).
Qed.

Lemma open_background_None fs path :
  open_background fs path = None ↔ image_open fs path = None.
Proof. unfold open_background. by destruct (image_open fs path). Qed.

(** The background keeps the size of the decoded file. *)
Lemma open_background_size fs path background im :
  image_open fs path = Some im → open_background fs path = Some background →
  im_size background = im_size im.
Proof.
  intros Him (im' & Him' & ->)%open_background_Some.
  rewrite im_size_enhance_contrast, im_size_convert_rgba. congruence.
Qed.

Lemma load_fonts_inr fs o title_font content_font :
  load_fonts fs o = inr (title_font, content_font) ↔
  truetype fs (title_font_path o) (title_font_size o) = Some title_font ∧
  truetype fs (content_font_path o) (content_font_size o) = Some content_font.
Proof.
  unfold load_fonts.
  destruct (truetype fs (title_font_path o) _) as [tf|],
           (truetype fs (content_font_path o) _) as [cf|]; split;
    try (intros [= <- <-]); try (intros [[= <-] [= <-]]); try done;
    try (by intros [? ?]).
Qed.

(** The composed image has the size of the background when the layer was
    allocated with it. *)
Lemma compose_size background txt :
  layer_size txt = im_size background → im_size (compose background txt) = im_size background.
Proof.
  intros Hsize. unfold compose.
  rewrite im_size_convert_rgb, im_size_alpha_composite; [done|].
  by rewrite im_size_render_layer.
Qed.

Lemma save_output_fs w out path :
  w_fs (save_output w out path) = w_fs w ∨
  (path ∉ fs_readonly (w_fs w)) ∧
  w_fs (save_output w out path)
  = FileSystem (<[path := ImageFile (encode save_quality out)]> (fs_files (w_fs w)))
               (fs_readonly (w_fs w)).
Proof.
  unfold save_output. destruct (image_save _ _ _ _) as [fs|] eqn:Hsave; [|by left].
  apply image_save_Some in Hsave as [? ->]. by right.
Qed.

(** The layer survives the drawing with its size. *)
Lemma draw_all_size txt title content_lines title_font content_font width height o d' y' :
  draw_all txt title content_lines title_font content_font width height o = Ok (d', y') →
  layer_size d' = layer_size txt.
Proof.
  unfold draw_all.
  intros ([d1 y1] & Hd1 & (sp & _ & Hd')%result_bind_ok)%result_bind_ok.
  apply draw_styled_text_layer in Hd1 as [<- _]. simpl in Hd'.
  revert Hd'. apply (foldM_invariant (λ s, layer_size s.1 = layer_size d1)); [|done].
  intros [d y] line [d2 y2] Hd [_ Hline]%draw_line_Ok. simpl in *.
  destruct (str_truthy (py_strip line)); [|by subst].
  apply draw_styled_text_layer in Hline as [-> _]. done.
Qed.

End whole.

(** ** Arithmetic of the cursor never raises within the double range *)

Lemma line_spacing_total o :
  Z.abs (content_font_size o) < 2 ^ prec → ∃ spacing, line_spacing o = Ok spacing.
Proof.
  intros (g & Hg & _)%float_of_int_exact. unfold line_spacing.
  destruct (content_line_spacing o) as [k|h]; [by eexists|].
  simpl. rewrite Hg. by eexists.
Qed.

Lemma cursor_after_total spacing n y :
  Z.abs y < 2 ^ prec → ∃ y', cursor_after spacing n (PyInt y) = Ok y'.
Proof.
  intros (g & Hg & _)%float_of_int_exact. destruct spacing as [k|h].
  - rewrite cursor_after_int. by eexists.
  - destruct n as [|n]; [by eexists|].
    rewrite cursor_after_S. simpl. rewrite Hg. simpl.
    destruct (cursor_after_float h n (SFadd prec emax g h)) as [h' Hh']. eauto.
Qed.

(** ** Case analysis of the whole call *)

Section whole_cases.
Context `{TextMeasure} `{Imaging image}.
Context (w : world image) (background_path : string).
Context (title : pystr) (content_lines : list pystr) (o : options).

#[local] Abbreviation run :=
  (create_styled_text_image w background_path title content_lines o).

(** The four ways the call ends. *)
Inductive outcome : Prop :=
| NoBackground :
    open_background (w_fs w) background_path = None →
    run = (print w (BackgroundOpenFailed background_path), Ok ()) → outcome
| NoFont background path :
    open_background (w_fs w) background_path = Some background →
    load_fonts (w_fs w) o = inl path →
    run = (print w (FontLoadFailed path), Ok ()) → outcome
| Escaped background title_font content_font e :
    open_background (w_fs w) background_path = Some background →
    load_fonts (w_fs w) o = inr (title_font, content_font) →
    draw_all (new_layer (im_size background) layer_color) title content_lines
             title_font content_font (im_size background).1 (im_size background).2 o
      = Raise e →
    run = (w, Raise e) → outcome
| Drawn background title_font content_font d y :
    open_background (w_fs w) background_path = Some background →
    load_fonts (w_fs w) o = inr (title_font, content_font) →
    draw_all (new_layer (im_size background) layer_color) title content_lines
             title_font content_font (im_size background).1 (im_size background).2 o
      = Ok (d, y) →
    run = (save_output w (compose background d) (output_path o), Ok ()) → outcome.

Lemma create_outcome : outcome.
Proof.
  destruct (open_background (w_fs w) background_path) as [background|] eqn:Hbg.
  2: { apply NoBackground; [done|]. unfold create_styled_text_image. by rewrite Hbg. }
  destruct (load_fonts (w_fs w) o) as [path|[title_font content_font]] eqn:Hfonts.
  { eapply NoFont; [done..|]. unfold create_styled_text_image. by rewrite Hbg, Hfonts. }
  destruct (draw_all (new_layer (im_size background) layer_color) title content_lines
              title_font content_font (im_size background).1 (im_size background).2 o)
    as [[d y]|e] eqn:Hdraw.
  - eapply Drawn; [done..|]. unfold create_styled_text_image.
    rewrite Hbg, Hfonts. destruct (im_size background). simpl in Hdraw. by rewrite Hdraw.
  - eapply Escaped; [done..|]. unfold create_styled_text_image.
    rewrite Hbg, Hfonts. destruct (im_size background). simpl in Hdraw. by rewrite Hdraw.
Qed.

End whole_cases.

(** ** Everything drawn *)

Section drawing.
Context `{TextMeasure}.
Context (txt : layer) (title : pystr) (content_lines : list pystr).
Context (title_font content_font : font) (width height : Z) (o : options).

Lemma draw_all_Ok d' y' :
  draw_all txt title content_lines title_font content_font width height o = Ok (d', y') ↔
  ∃ d1 spacing,
    draw_styled_text txt title title_font (PyInt (title_y height)) width (title_style o)
      = Ok (d1, PyInt (title_y height)) ∧
    line_spacing o = Ok spacing ∧
    draw_content d1 content_font width (content_style o) spacing content_lines
                 (PyInt (content_start (title_y height) o)) = Ok (d', y').
Proof.
  unfold draw_all. rewrite result_bind_ok. split.
  - intros ([d1 y1] & Hd1 & (sp & Hsp & Hd')%result_bind_ok).
    pose proof Hd1 as (? & _ & _ & ->)%draw_styled_text_Ok. eauto.
  - intros (d1 & sp & Hd1 & Hsp & Hd'). eexists. split; [done|].
    simpl. by rewrite Hsp.
Qed.

(** A whole drawing makes one render for the title, blank or not, and
    one render for each body line that is not blank: its number of calls is
    the title's count plus the body's count times the number of such
    lines. *)
Theorem draw_all_call_count d' y' :
  draw_all txt title content_lines title_font content_font width height o = Ok (d', y') →
  Z.of_nat (length (layer_calls d'))
  = Z.of_nat (length (layer_calls txt))
    + call_count (title_stroke_width o)
    + Z.of_nat (length (filter (λ line, forallb py_isspace line = false) content_lines))
      * call_count (content_stroke_width o).
Proof.
  intros (d1 & sp & Hd1%draw_styled_text_length & _ & Hd'%draw_content_calls)%draw_all_Ok.
  by rewrite Hd', Hd1, filter_nonblank.
Qed.

(** The title is filled at [height // 6], at the anchor of its own
    alignment, right after its stroke calls and before any call of the
    body. *)
Theorem draw_all_title_fill d' y' :
  draw_all txt title content_lines title_font content_font width height o = Ok (d', y') →
  layer_calls d'
    !! (length (layer_calls txt) + length (stroke_offsets (title_stroke_width o)))%nat
  = Some (fill_call title title_font (PyInt (height / 6))
                    (anchor title title_font width (title_style o)) (title_style o)).
Proof.
  intros (d1 & sp & (cs & Hcs & Hlen)%draw_styled_text_calls & _
          & [rest ->]%draw_content_prefix)%draw_all_Ok.
  rewrite Hcs, <- !app_assoc, lookup_app_r, lookup_app_r by (rewrite ?length_app; simpl in *; lia).
  simpl in *. rewrite Hlen.
  by replace (_ - _ - _)%nat with 0%nat by lia.
Qed.

End drawing.

(** ** The type of the cursor *)

(** With an integer multiplier the cursor is an integer throughout
    and exact: after [n] lines it is the start plus [n] times the product
    of the font size and the multiplier. *)
Theorem integer_spacing_exact o k n y :
  content_line_spacing o = PyInt k →
  ∃ spacing, line_spacing o = Ok spacing ∧
             cursor_after spacing n (PyInt y)
             = Ok (PyInt (y + Z.of_nat n * (content_font_size o * k))).
Proof.
  intros Hk. unfold line_spacing. rewrite Hk, py_mul_int.
  eexists. split; [done|]. apply cursor_after_int.
Qed.

(** With a float multiplier the spacing is a float. *)
Lemma line_spacing_float o g spacing :
  content_line_spacing o = PyFloat g → line_spacing o = Ok spacing → is_int spacing = false.
Proof.
  unfold line_spacing. intros -> Hsp%py_mul_is_int. by rewrite andb_false_r in Hsp.
Qed.

Section float_cursor.
Context `{TextMeasure}.
Context (txt : layer) (title : pystr) (content_lines : list pystr).
Context (title_font content_font : font) (width height : Z) (o : options).

(** C23. With a float multiplier only the title and the first body line
    are drawn at integer rows.  A drawing that returns is the drawing of
    the title and the first body line followed by the calls for the lines
    after it, one render for each of them that is not blank, and every one
    of these calls, stroke and fill, hands [draw.text] a [float] as its
    vertical position; the cursor that is returned is a [float] as soon as
    there is a line. *)
Theorem float_spacing_float_cursor g d' y' :
  content_line_spacing o = PyFloat g →
  draw_all txt title content_lines title_font content_font width height o = Ok (d', y') →
  ∃ d1 y1 cs,
    draw_all txt title (take 1 content_lines) title_font content_font width height o
    = Ok (d1, y1) ∧
    layer_calls d' = layer_calls d1 ++ cs ∧
    Forall (λ c, is_int (dc_y c) = false) cs ∧
    Z.of_nat (length cs)
    = Z.of_nat (length (filter (λ line, str_truthy (py_strip line) = true)
                               (drop 1 content_lines)))
      * call_count (content_stroke_width o) ∧
    (content_lines ≠ [] → is_int y' = false).
Proof.
  intros Hg (dt & sp & Htitle & Hsp & Hd)%draw_all_Ok.
  pose proof (line_spacing_float _ _ _ Hg Hsp) as Hfloat.
  destruct (draw_content_take_drop _ _ _ _ _ _ _ 1 _ _ Hd) as (d1 & y1 & Hpre & Hpost).
  pose proof (draw_content_calls _ _ _ _ _ _ _ _ _ Hpost) as Hlen.
  exists d1, y1. destruct content_lines as [|line rest].
  - injection Hpre as <- <-. injection Hpost as <- <-. exists [].
    split_and!; [by apply draw_all_Ok; eauto|by rewrite app_nil_r|done..].
  - pose proof Hpre as Hy1%draw_content_cursor_after.
    change (length (take 1 (line :: rest))) with 1%nat in Hy1.
    rewrite cursor_after_S in Hy1.
    apply result_bind_ok in Hy1 as (y & Hy%py_add_is_int & [= ->]).
    rewrite Hfloat, andb_false_r in Hy.
    destruct (draw_content_float_rows _ _ _ _ _ _ _ _ _ Hy Hpost) as (Hy' & cs & Hcs & Hrows).
    exists cs. split_and!; [by apply draw_all_Ok; eauto|done..| |done].
    rewrite Hcs, length_app in Hlen. change (stroke_width (content_style o))
      with (content_stroke_width o) in Hlen. lia.
Qed.

End float_cursor.

(** ** Claims on the whole call *)

Section whole_claims.
Context `{TextMeasure} `{Imaging image}.
Context (w : world image) (background_path : string).
Context (title : pystr) (content_lines : list pystr) (o : options).

(** C4. When the background cannot be opened, a font cannot be loaded or
    the output path cannot be written, the call leaves the file system
    exactly as it was: no output and no partial output. *)
Theorem failure_writes_nothing :
  image_open (w_fs w) background_path = None
  ∨ (∃ path, load_fonts (w_fs w) o = inl path)
  ∨ output_path o ∈ fs_readonly (w_fs w) →
  w_fs (create_styled_text_image w background_path title content_lines o).1 = w_fs w.
Proof.
  intros Hfail.
  destruct (create_outcome w background_path title content_lines o)
    as [_ ->|? ? _ _ ->|? ? ? ? _ _ _ ->|bg tf cf d y Hbg Hfonts _ ->]; try done.
  destruct Hfail as [Hopen|[[path Hpath]|Hro]].
  - apply open_background_None in Hopen. congruence.
  - congruence.
  - simpl. unfold save_output. by rewrite (proj2 (image_save_None _ _ _ _) Hro).
Qed.

(** C17. A call that cannot open the background prints that one message and
    returns [None]; the fonts are not looked at. *)
Theorem missing_background_reported :
  image_open (w_fs w) background_path = None →
  create_styled_text_image w background_path title content_lines o
  = (print w (BackgroundOpenFailed background_path), Ok ()).
Proof.
  intros Hopen%open_background_None.
  unfold create_styled_text_image. by rewrite Hopen.
Qed.

(** C18. With the background open, a font that does not load is reported
    by its path, the title font first, and the call returns [None] without
    drawing or saving. *)
Theorem missing_font_reported im :
  image_open (w_fs w) background_path = Some im →
  truetype (w_fs w) (title_font_path o) (title_font_size o) = None
  ∨ truetype (w_fs w) (content_font_path o) (content_font_size o) = None →
  ∃ path, create_styled_text_image w background_path title content_lines o
          = (print w (FontLoadFailed path), Ok ()) ∧
          path = match truetype (w_fs w) (title_font_path o) (title_font_size o) with
                 | Some _ => content_font_path o
                 | None => title_font_path o
                 end.
Proof.
  intros Him Hfont. unfold create_styled_text_image, open_background, load_fonts.
  rewrite Him. simpl.
  destruct (truetype (w_fs w) (title_font_path o) _) as [tf|]; [|by eexists].
  destruct (truetype (w_fs w) (content_font_path o) _) as [cf|]; [|by eexists].
  by destruct Hfont.
Qed.

(** C8. With the background and both fonts in place, the output path
    writable, and the sizes and widths within the double range, the call
    writes the composed image, of the size of the background, at the output
    path, prints that it saved it, and returns [None]. *)
Theorem success_writes_output im :
  image_open (w_fs w) background_path = Some im →
  fs_files (w_fs w) !! title_font_path o = Some FontFile →
  fs_files (w_fs w) !! content_font_path o = Some FontFile →
  output_path o ∉ fs_readonly (w_fs w) →
  title_stroke_width o < 2 ^ prec → content_stroke_width o < 2 ^ prec →
  Z.abs (content_font_size o) < 2 ^ prec →
  Z.abs (content_start (title_y (im_size im).2) o) < 2 ^ prec →
  ∃ out, im_size out = im_size im ∧
    create_styled_text_image w background_path title content_lines o
    = (World (FileSystem (<[output_path o := ImageFile (encode save_quality out)]>
                                 (fs_files (w_fs w)))
                              (fs_readonly (w_fs w)))
                  (w_stdout w ++ [ImageSaved (output_path o)]),
            Ok ()).
Proof.
  intros Him Htf Hcf Hrw Htw Hcw Hfs Hstart.
  pose (bg := enhance_contrast contrast_factor (convert_rgba im)).
  assert (open_background (w_fs w) background_path = Some bg) as Hbg
    by (apply open_background_Some; eauto).
  assert (im_size bg = im_size im) as Hsize by (by eapply open_background_size).
  assert (load_fonts (w_fs w) o
          = inr (Font (title_font_path o) (title_font_size o),
                 Font (content_font_path o) (content_font_size o))) as Hfonts.
  { apply load_fonts_inr. split; by apply truetype_Some. }
  destruct (create_outcome w background_path title content_lines o)
    as [? _|? ? ? ? _|bg' tf cf e Hbg' Hfonts' Hdraw _
       |bg' tf cf d y Hbg' Hfonts' Hdraw ->]; try congruence.
  - exfalso. assert (bg' = bg) as -> by congruence.
    assert (tf = Font (title_font_path o) (title_font_size o)) as -> by congruence.
    unfold draw_all in Hdraw.
    destruct (draw_styled_text_returns_position_aux
                (new_layer (im_size bg) layer_color) title
                (Font (title_font_path o) (title_font_size o))
                (PyInt (title_y (im_size bg).2)) (im_size bg).1 (title_style o) Htw)
      as [d1 Hd1].
    rewrite Hd1 in Hdraw. simpl in Hdraw.
    destruct (line_spacing_total o Hfs) as [sp Hsp]. rewrite Hsp in Hdraw. simpl in Hdraw.
    rewrite Hsize in Hdraw.
    destruct (cursor_after_total sp (length content_lines) _ Hstart) as [y' Hy'].
    destruct (draw_content_total cf (im_size im).1 (content_style o) sp d1 _ _ _ Hcw Hy')
      as [d' Hd']. rewrite Hsize in Hd1. congruence.
  - assert (bg' = bg) as -> by congruence.
    exists (compose bg d). split.
    + rewrite <- Hsize. apply compose_size.
      by rewrite (draw_all_size _ _ _ _ _ _ _ _ _ _ Hdraw).
    + unfold save_output.
      by rewrite (proj2 (image_save_Some _ _ _ _ _) (conj Hrw eq_refl)).
Qed.

(** C19. Whatever happens, the call writes at most the output path: every
    other file and the set of read-only paths are as before. *)
Theorem writes_only_output_path path :
  path ≠ output_path o →
  fs_files (w_fs (create_styled_text_image w background_path title content_lines o).1)
    !! path = fs_files (w_fs w) !! path ∧
  fs_readonly (w_fs (create_styled_text_image w background_path title content_lines o).1)
  = fs_readonly (w_fs w).
Proof.
  intros Hpath.
  destruct (create_outcome w background_path title content_lines o)
    as [_ ->|? ? _ _ ->|? ? ? ? _ _ _ ->|bg tf cf d y _ _ _ ->]; try done.
  simpl. destruct (save_output_fs w (compose bg d) (output_path o)) as [->|[_ ->]]; [done|].
  simpl. by rewrite lookup_insert_ne.
Qed.

(** C20. A call that returns has printed exactly one message; a call that
    lets an exception escape has printed nothing and changed nothing. *)
Theorem prints_one_message :
  match (create_styled_text_image w background_path title content_lines o).2 with
  | Ok _ =>
      ∃ m, w_stdout (create_styled_text_image w background_path title content_lines o).1
           = w_stdout w ++ [m]
  | Raise _ => (create_styled_text_image w background_path title content_lines o).1 = w
  end.
Proof.
  destruct (create_outcome w background_path title content_lines o)
    as [_ ->|? ? _ _ ->|? ? ? ? _ _ _ ->|bg tf cf d y _ _ _ ->]; simpl; eauto.
  unfold save_output. destruct (image_save _ _ _ _); simpl; eauto.
Qed.

End whole_claims.
