(* ===== verification/Contract.v ===== *)
(** * The contract of the composer

    The specification describes a call of the composer by its outcome:
    success, or one of the failures [ImageLoadError], [FontLoadError] and
    [WriteError], decided by the first step that fails; and by the files it
    leaves: on success exactly one file is written, at the output path, with
    the pixel dimensions of the background, and on failure none is.

    [create_styled_text_image] returns [None] on every path and tells the
    outcome only in the message it prints.  This file states the contract
    on file systems ([promised_verdict], [promised_files]) and shows that
    the function meets it, with the printed message read as the verdict
    ([verdict_of_message]). *)

From Stdlib Require Import ZArith Lia.
From stdpp Require Import base tactics option list strings gmap.
From S2P Require Import Prelude.
From S2P Require Import PyNum.
From S2P Require Import PyStr.
From S2P Require Import Pillow.
From S2P Require Import Renderer.
From S2P Require Import Composer.

#[local] Open Scope Z_scope.

(** ** The contract *)

(** The failures of the specification. *)
Inductive failure : Type :=
| ImageLoadError
| FontLoadError
| WriteError.

(** The outcome of a call. *)
Inductive verdict : Type :=
| Success
| Failure (kind : failure).

#[export] Instance failure_eq_dec : EqDecision failure.
Proof. solve_decision. Defined.

#[export] Instance verdict_eq_dec : EqDecision verdict.
Proof. solve_decision. Defined.

(** What a printed message says of the outcome. *)
Definition verdict_of_message (m : message) : verdict :=
  match m with
  | BackgroundOpenFailed _ => Failure ImageLoadError
  | FontLoadFailed _ => Failure FontLoadError
  | SaveFailed _ => Failure WriteError
  | ImageSaved _ => Success
  end.

Section contract.
Context `{Imaging image}.
Context (background_path : string) (o : options).
Implicit Types (fs : filesystem image) (w : world image).

(** Both fonts can be loaded. *)
Definition fonts_load fs : Prop :=
  is_Some (truetype fs (title_font_path o) (title_font_size o)) ∧
  is_Some (truetype fs (content_font_path o) (content_font_size o)).

#[export] Instance fonts_load_dec fs : Decision (fonts_load fs).
Proof. unfold fonts_load. apply _. Defined.

(** The outcome the specification assigns to the files a call finds: the
    first of the steps 1, 3 and 8 that fails. *)
Definition promised_verdict fs : verdict :=
  match image_open fs background_path with
  | None => Failure ImageLoadError
  | Some _ =>
      if decide (fonts_load fs) then
        if decide (output_path o ∈ fs_readonly fs) then Failure WriteError else Success
      else Failure FontLoadError
  end.

(** The files the specification allows after a call.  A failure writes
    nothing.  A success leaves every path but the output path as it was,
    and at the output path an image with the dimensions of the background
    that was opened. *)
Definition promised_files fs (v : verdict) fs' : Prop :=
  match v with
  | Failure _ => fs' = fs
  | Success =>
      fs_readonly fs' = fs_readonly fs ∧
      (∀ path, path ≠ output_path o → fs_files fs' !! path = fs_files fs !! path) ∧
      ∃ im out, image_open fs background_path = Some im ∧
                image_open fs' (output_path o) = Some out ∧
                im_size out = im_size im
  end.

(** ** The steps that fail *)

Lemma load_fonts_inl fs path : load_fonts fs o = inl path → ¬ fonts_load fs.
Proof.
  unfold load_fonts, fonts_load.
  destruct (truetype fs (title_font_path o) _), (truetype fs (content_font_path o) _);
    intros ? [[? ?] [? ?]]; simplify_eq.
Qed.

Lemma load_fonts_loaded fs fonts : load_fonts fs o = inr fonts → fonts_load fs.
Proof.
  destruct fonts as [title_font content_font]. intros [Ht Hc]%load_fonts_inr.
  unfold fonts_load. by rewrite Ht, Hc.
Qed.

Lemma promised_verdict_no_image fs :
  image_open fs background_path = None → promised_verdict fs = Failure ImageLoadError.
Proof. unfold promised_verdict. by intros ->. Qed.

Lemma promised_verdict_no_font fs im :
  image_open fs background_path = Some im → ¬ fonts_load fs →
  promised_verdict fs = Failure FontLoadError.
Proof. unfold promised_verdict. intros -> ?. by rewrite decide_False. Qed.

Lemma promised_verdict_loaded fs im :
  image_open fs background_path = Some im → fonts_load fs →
  promised_verdict fs
  = if decide (output_path o ∈ fs_readonly fs) then Failure WriteError else Success.
Proof. unfold promised_verdict. intros -> ?. by rewrite decide_True. Qed.

(** Saving an image of the dimensions of the background is what the
    specification allows of a success, and a failed save is what it allows
    of a write error. *)
Lemma save_output_promised w im out :
  image_open (w_fs w) background_path = Some im → fonts_load (w_fs w) →
  im_size out = im_size im →
  ∃ m, save_output w out (output_path o) = print (World (w_fs (save_output w out (output_path o)))
                                                        (w_stdout w)) m ∧
       verdict_of_message m = promised_verdict (w_fs w) ∧
       promised_files (w_fs w) (promised_verdict (w_fs w))
                      (w_fs (save_output w out (output_path o))).
Proof.
  intros Him Hfonts Hsize. rewrite (promised_verdict_loaded _ im) by done.
  unfold save_output. destruct (image_save _ _ _ _) as [fs|] eqn:Hsave.
  - pose proof Hsave as [Hrw ->]%image_save_Some. rewrite decide_False by done.
    eexists. split; [done|]. split; [done|]. split; [done|]. split.
    + intros path Hpath. simpl. by apply lookup_insert_ne.
    + exists im, (encode save_quality out). split; [done|]. split.
      * apply image_open_Some. simpl. apply lookup_insert_eq.
      * by rewrite im_size_encode.
  - apply image_save_None in Hsave. rewrite decide_True by done.
    eexists. split; [by destruct w|]. done.
Qed.

End contract.

(** ** The function meets the contract *)

Section refinement.
Context `{TextMeasure} `{Imaging image}.
Context (background_path : string) (title : pystr) (content_lines : list pystr).
Context (o : options).

(** C14. A call that returns has printed exactly one message; the outcome
    that message tells is the one the specification assigns to the files the
    call found, and the files it leaves are those the specification allows
    for that outcome: none written on a failure, and on success only the
    output path, holding an image with the dimensions of the background. *)
Theorem create_styled_text_image_meets_contract (w w' : world image) :
  create_styled_text_image w background_path title content_lines o = (w', Ok ()) →
  ∃ m, w_stdout w' = w_stdout w ++ [m] ∧
       verdict_of_message m = promised_verdict background_path o (w_fs w) ∧
       promised_files background_path o (w_fs w)
                      (promised_verdict background_path o (w_fs w)) (w_fs w').
Proof.
  destruct (create_outcome w background_path title content_lines o)
    as [Hbg ->|bg path Hbg Hfonts ->|? ? ? ? _ _ _ ->|bg tf cf d y Hbg Hfonts Hd ->];
    intros [= <-].
  - apply open_background_None in Hbg. eexists. split; [done|].
    by rewrite promised_verdict_no_image.
  - apply open_background_Some in Hbg as (im & Him & _). eexists. split; [done|].
    by rewrite (promised_verdict_no_font _ _ _ im) by eauto using load_fonts_inl.
  - pose proof Hbg as (im & Him & _)%open_background_Some.
    destruct (save_output_promised background_path o w im (compose bg d))
      as (m & Hm & Hverdict & Hfiles); [done|by eapply load_fonts_loaded|..].
    + rewrite compose_size by (by apply draw_all_size in Hd).
      by eapply open_background_size.
    + exists m. by rewrite Hm at 1.
Qed.

End refinement.
