(* ===== verification/Machine.v ===== *)
(** * The composer as a transition system

    [create_styled_text_image] (src/demo4.py, lines 14-120) is a sequence of
    statements with three early exits and one loop.  [Composer] gives its
    result as a function; this file gives its execution from program point
    to program point: a configuration is the world together with a program
    point and the local variables that are live there, and a step executes
    the block of statements between that point and the next (a [try] with
    its [except], the render of the title, one iteration of the loop).  A
    call of [draw_styled_text] is one step: its nested loops are not
    unfolded here.

    Program points ([control]):
    - [AtOpen]: before the first [try] (line 53);
    - [AtFonts]: the background is open and the layer allocated (line 64);
    - [AtTitle]: the fonts are loaded (line 71);
    - [AtSpacing]: the title is drawn and [content_y] is set (line 93);
    - [AtLine]: the head of the loop, with the lines still to visit
      (line 96);
    - [AtCompose]: after the loop (line 114);
    - [AtSave]: before the last [try] (line 116);
    - [Returned]: the call has returned, or an exception has escaped.

    The step is given twice, as the relation [step] with one rule per
    branch of the code and as the function [next]; they agree.  The
    theorems: the steps are deterministic and only [Returned] has none;
    what holds at every reachable configuration ([reachable_inv]); and the
    configuration a run ends in, which [run] reaches within [remaining]
    steps, is the result of [create_styled_text_image]. *)

From Stdlib Require Import ZArith Lia.
From stdpp Require Import base tactics option list strings gmap relations.
From S2P Require Import Prelude.
From S2P Require Import PyNum.
From S2P Require Import PyStr.
From S2P Require Import Pillow.
From S2P Require Import Renderer.
From S2P Require Import Composer.

#[local] Open Scope Z_scope.

(** ** Configurations *)

(** A program point with the local variables that are live there. *)
Inductive control (image : Type) : Type :=
| AtOpen
| AtFonts (background : image) (txt : layer)
| AtTitle (background : image) (txt : layer) (title_font content_font : font)
| AtSpacing (background : image) (txt : layer) (content_font : font) (content_y : Z)
| AtLine (background : image) (txt : layer) (content_font : font) (spacing : pynum)
         (rest : list pystr) (content_y : pynum)
| AtCompose (background : image) (txt : layer)
| AtSave (out : image)
| Returned (r : result pyexn ()).

Arguments AtOpen {image}.
Arguments AtFonts {image} _ _.
Arguments AtTitle {image} _ _ _ _.
Arguments AtSpacing {image} _ _ _ _.
Arguments AtLine {image} _ _ _ _ _ _.
Arguments AtCompose {image} _ _.
Arguments AtSave {image} _.
Arguments Returned {image} _.

(** The world and the program point. *)
Definition config (image : Type) : Type := world image * control image.

(** The call has returned or raised. *)
Definition is_returned {image} (c : config image) : bool :=
  match c.2 with
  | Returned _ => true
  | _ => false
  end.

Section machine.
Context `{TextMeasure} `{Imaging image}.
Context (background_path : string) (title : pystr) (content_lines : list pystr).
Context (o : options).

(** ** The step, as a function *)

(** The block of statements at each program point. *)
Definition next (c : config image) : option (config image) :=
  let w := c.1 in
  match c.2 with
  | AtOpen =>
      Some (match open_background (w_fs w) background_path with
            | None => (print w (BackgroundOpenFailed background_path), Returned (Ok ()))
            | Some background =>
                (w, AtFonts background (new_layer (im_size background) layer_color))
            end)
  | AtFonts background txt =>
      Some (match load_fonts (w_fs w) o with
            | inl path => (print w (FontLoadFailed path), Returned (Ok ()))
            | inr fonts => (w, AtTitle background txt fonts.1 fonts.2)
            end)
  | AtTitle background txt title_font content_font =>
      let size := im_size background in
      Some (w, match draw_styled_text txt title title_font (PyInt (title_y size.2)) size.1
                                      (title_style o) with
               | Raise e => Returned (Raise e)
               | Ok drawn =>
                   AtSpacing background drawn.1 content_font (content_start (title_y size.2) o)
               end)
  | AtSpacing background txt content_font content_y =>
      Some (w, match line_spacing o with
               | Raise e => Returned (Raise e)
               | Ok spacing =>
                   AtLine background txt content_font spacing content_lines (PyInt content_y)
               end)
  | AtLine background txt content_font spacing [] content_y =>
      Some (w, AtCompose background txt)
  | AtLine background txt content_font spacing (line :: rest) content_y =>
      Some (w, match draw_line content_font (im_size background).1 (content_style o) spacing
                               (txt, content_y) line with
               | Raise e => Returned (Raise e)
               | Ok state => AtLine background state.1 content_font spacing rest state.2
               end)
  | AtCompose background txt => Some (w, AtSave (compose background txt))
  | AtSave out => Some (save_output w out (output_path o), Returned (Ok ()))
  | Returned _ => None
  end.

(** [n] steps, or as many as there are. *)
Fixpoint run (n : nat) (c : config image) : config image :=
  match n with
  | O => c
  | S n' => match next c with
            | Some c' => run n' c'
            | None => c
            end
  end.

(** An upper bound on the steps left. *)
Definition remaining (c : config image) : nat :=
  match c.2 with
  | AtOpen => length content_lines + 7
  | AtFonts _ _ => length content_lines + 6
  | AtTitle _ _ _ _ => length content_lines + 5
  | AtSpacing _ _ _ _ => length content_lines + 4
  | AtLine _ _ _ _ rest _ => length rest + 3
  | AtCompose _ _ => 2
  | AtSave _ => 1
  | Returned _ => 0
  end.

(** ** The step, as a relation *)

Inductive step : relation (config image) :=
| step_open_failed w :
    open_background (w_fs w) background_path = None →
    step (w, AtOpen) (print w (BackgroundOpenFailed background_path), Returned (Ok ()))
| step_open w background :
    open_background (w_fs w) background_path = Some background →
    step (w, AtOpen) (w, AtFonts background (new_layer (im_size background) layer_color))
| step_fonts_failed w background txt path :
    load_fonts (w_fs w) o = inl path →
    step (w, AtFonts background txt) (print w (FontLoadFailed path), Returned (Ok ()))
| step_fonts w background txt title_font content_font :
    load_fonts (w_fs w) o = inr (title_font, content_font) →
    step (w, AtFonts background txt) (w, AtTitle background txt title_font content_font)
| step_title_raised w background txt title_font content_font e :
    draw_styled_text txt title title_font (PyInt (title_y (im_size background).2))
                     (im_size background).1 (title_style o) = Raise e →
    step (w, AtTitle background txt title_font content_font) (w, Returned (Raise e))
| step_title w background txt title_font content_font txt' y :
    draw_styled_text txt title title_font (PyInt (title_y (im_size background).2))
                     (im_size background).1 (title_style o) = Ok (txt', y) →
    step (w, AtTitle background txt title_font content_font)
         (w, AtSpacing background txt' content_font
                       (content_start (title_y (im_size background).2) o))
| step_spacing_raised w background txt content_font content_y e :
    line_spacing o = Raise e →
    step (w, AtSpacing background txt content_font content_y) (w, Returned (Raise e))
| step_spacing w background txt content_font content_y spacing :
    line_spacing o = Ok spacing →
    step (w, AtSpacing background txt content_font content_y)
         (w, AtLine background txt content_font spacing content_lines (PyInt content_y))
| step_line_raised w background txt content_font spacing line rest content_y e :
    draw_line content_font (im_size background).1 (content_style o) spacing
              (txt, content_y) line = Raise e →
    step (w, AtLine background txt content_font spacing (line :: rest) content_y)
         (w, Returned (Raise e))
| step_line w background txt content_font spacing line rest content_y txt' content_y' :
    draw_line content_font (im_size background).1 (content_style o) spacing
              (txt, content_y) line = Ok (txt', content_y') →
    step (w, AtLine background txt content_font spacing (line :: rest) content_y)
         (w, AtLine background txt' content_font spacing rest content_y')
| step_loop_exit w background txt content_font spacing content_y :
    step (w, AtLine background txt content_font spacing [] content_y)
         (w, AtCompose background txt)
| step_compose w background txt :
    step (w, AtCompose background txt) (w, AtSave (compose background txt))
| step_save w out :
    step (w, AtSave out) (save_output w out (output_path o), Returned (Ok ())).

(** ** What holds along a run *)

(** The facts that hold at every configuration a call started in [w0] goes
    through: nothing is printed or written before the call returns or
    saves; the layer has the size of the background; at the head of the
    loop the lines visited and the lines left make up the body, and the
    cursor is the start advanced once per line visited. *)
Definition reachable_inv (w0 : world image) (c : config image) : Prop :=
  match c.2 with
  | AtOpen => c.1 = w0
  | AtFonts background txt | AtTitle background txt _ _ | AtCompose background txt =>
      c.1 = w0 ∧ layer_size txt = im_size background
  | AtSpacing background txt _ content_y =>
      c.1 = w0 ∧ layer_size txt = im_size background ∧
      content_y = content_start (title_y (im_size background).2) o
  | AtLine background txt _ spacing rest content_y =>
      c.1 = w0 ∧ layer_size txt = im_size background ∧
      line_spacing o = Ok spacing ∧
      ∃ visited, content_lines = visited ++ rest ∧
        cursor_after spacing (length visited)
                     (PyInt (content_start (title_y (im_size background).2) o))
        = Ok content_y
  | AtSave out => c.1 = w0
  | Returned (Raise _) => c.1 = w0
  | Returned (Ok _) =>
      (∃ m, w_stdout c.1 = w_stdout w0 ++ [m]) ∧
      fs_readonly (w_fs c.1) = fs_readonly (w_fs w0) ∧
      ∀ path, path ≠ output_path o → fs_files (w_fs c.1) !! path = fs_files (w_fs w0) !! path
  end.

Implicit Types (w : world image) (c : config image) (k : control image).

#[local] Hint Constructors step : py.

(** ** The two forms of the step agree *)

Lemma step_next c c' : step c c' → next c = Some c'.
Proof.
  destruct 1; unfold next; simpl;
    repeat match goal with Heq : _ = _ |- _ => rewrite Heq; clear Heq end; done.
Qed.

Lemma next_step c c' : next c = Some c' → step c c'.
Proof.
  destruct c as [w k]. unfold next. simpl.
  destruct k as [| | | |????[|line rest]?| | |]; intros ?; simplify_eq.
  - destruct (open_background _ _) eqn:?; eauto with py.
  - destruct (load_fonts _ _) as [?|[??]] eqn:?; eauto with py.
  - destruct (draw_styled_text _ _ _ _ _ _) as [[??]|?] eqn:?; eauto with py.
  - destruct (line_spacing o) eqn:?; eauto with py.
  - eauto with py.
  - destruct (draw_line _ _ _ _ _ _) as [[??]|?] eqn:?; eauto with py.
  - eauto with py.
  - eauto with py.
Qed.

Lemma step_iff_next c c' : step c c' ↔ next c = Some c'.
Proof. split; [apply step_next|apply next_step]. Qed.

(** ** Determinism and progress *)

Lemma step_deterministic : deterministic step.
Proof. intros c c1 c2 H1%step_next H2%step_next. congruence. Qed.

Lemma next_None c : next c = None ↔ is_returned c = true.
Proof. destruct c as [w []]; unfold next, is_returned; simpl; try done. by destruct rest. Qed.

Lemma nf_step c : nf step c ↔ is_returned c = true.
Proof.
  rewrite <- next_None. unfold nf, red. split.
  - intros Hnf. destruct (next c) as [c'|] eqn:Hc; [|done].
    destruct Hnf. exists c'. by apply next_step.
  - intros Hc [c' Hstep%step_next]. congruence.
Qed.

(** ** The measure of a run *)

Lemma step_remaining c c' : step c c' → (remaining c' < remaining c)%nat.
Proof. destruct 1; unfold remaining; simpl; lia. Qed.

Lemma run_S n c :
  run (S n) c = match next c with Some c' => run n c' | None => c end.
Proof. done. Qed.

Lemma run_returned n c : is_returned c = true → run n c = c.
Proof. intros Hc%next_None. destruct n; [done|]. by rewrite run_S, Hc. Qed.

Lemma run_rtc n c : rtc step c (run n c).
Proof.
  revert c. induction n as [|n IH]; intros c; [done|]. rewrite run_S.
  destruct (next c) as [c'|] eqn:Hc; [|done].
  eapply rtc_l; [by apply next_step|apply IH].
Qed.

(** After [remaining] steps the call has returned. *)
Lemma run_remaining n c : (remaining c ≤ n)%nat → is_returned (run n c) = true.
Proof.
  revert c. induction n as [|n IH]; intros c Hn.
  - destruct c as [w []]; unfold remaining in Hn; simpl in *; try done; lia.
  - rewrite run_S. destruct (next c) as [c'|] eqn:Hc; [|by apply next_None].
    apply IH. apply next_step, step_remaining in Hc. lia.
Qed.

(** A run that has returned is the run of the function [run]. *)
Lemma rtc_returned_run c c' n :
  rtc step c c' → is_returned c' = true → (remaining c ≤ n)%nat → c' = run n c.
Proof.
  intros Hrun Hc' Hn. symmetry.
  eapply (confluent_rtc_nf (R:=step)); [apply deterministic_confluent, step_deterministic|..].
  - apply run_rtc.
  - by apply nf_step, run_remaining.
  - done.
  - by apply nf_step.
Qed.


(** ** The run of the function *)

Section phases.
Context (w : world image) (background : image).

#[local] Abbreviation width := (im_size background).1.
#[local] Abbreviation height := (im_size background).2.

Lemma run_from_compose txt :
  rtc step (w, AtCompose background txt)
           (save_output w (compose background txt) (output_path o), Returned (Ok ())).
Proof. eapply rtc_l; [apply step_compose|]. apply rtc_once, step_save. Qed.

(** The loop, from any of its iterations. *)
Lemma run_from_line txt content_font spacing rest content_y :
  rtc step (w, AtLine background txt content_font spacing rest content_y)
      (w, match draw_content txt content_font width (content_style o) spacing rest
                             content_y with
          | Ok drawn => AtCompose background drawn.1
          | Raise e => Returned (Raise e)
          end).
Proof.
  revert txt content_y. induction rest as [|line rest IH]; intros txt content_y.
  - apply rtc_once, step_loop_exit.
  - rewrite draw_content_cons.
    destruct (draw_line _ _ _ _ _ line) as [[txt' y']|e] eqn:Hline; simpl.
    + eapply rtc_l; [by apply step_line|apply IH].
    + by apply rtc_once, step_line_raised.
Qed.

Lemma run_from_title txt title_font content_font :
  rtc step (w, AtTitle background txt title_font content_font)
      (w, match draw_all txt title content_lines title_font content_font width height o with
          | Ok drawn => AtCompose background drawn.1
          | Raise e => Returned (Raise e)
          end).
Proof.
  unfold draw_all.
  destruct (draw_styled_text _ _ _ _ _ _) as [[txt' y]|e] eqn:Htitle; simpl;
    [|by apply rtc_once, step_title_raised].
  eapply rtc_l; [by eapply step_title|].
  destruct (line_spacing o) as [spacing|e] eqn:Hsp; simpl;
    [|by apply rtc_once, step_spacing_raised].
  eapply rtc_l; [by apply step_spacing|apply run_from_line].
Qed.

End phases.

(** The machine runs to the result of the function. *)
Lemma run_from_open w :
  rtc step (w, AtOpen)
      ((create_styled_text_image w background_path title content_lines o).1,
       Returned (create_styled_text_image w background_path title content_lines o).2).
Proof.
  unfold create_styled_text_image.
  destruct (open_background _ _) as [background|] eqn:Hbg;
    [|by apply rtc_once, step_open_failed].
  eapply rtc_l; [by apply step_open|].
  destruct (load_fonts _ _) as [path|[title_font content_font]] eqn:Hfonts;
    [by apply rtc_once, step_fonts_failed|].
  eapply rtc_l; [by apply step_fonts|].
  eapply rtc_trans; [apply run_from_title|].
  destruct (im_size background) as [width height]. simpl.
  destruct (draw_all _ _ _ _ _ _ _ _) as [drawn|e]; simpl; [apply run_from_compose|reflexivity].
Qed.

(** ** The invariant is kept by every step *)

Lemma draw_line_size content_font width st spacing txt content_y line txt' content_y' :
  draw_line content_font width st spacing (txt, content_y) line = Ok (txt', content_y') →
  layer_size txt' = layer_size txt.
Proof.
  intros [_ Hline]%draw_line_Ok. destruct (str_truthy (py_strip line)); [|by subst].
  by apply draw_styled_text_layer in Hline as [-> _].
Qed.

Lemma reachable_inv_returned w0 w out :
  w = w0 → reachable_inv w0 (save_output w out (output_path o), Returned (Ok ())).
Proof.
  intros ->. unfold reachable_inv, save_output. simpl.
  destruct (image_save _ _ _ _) as [fs|] eqn:Hsave; simpl.
  - apply image_save_Some in Hsave as [_ ->]. simpl.
    split; [eauto|]. split; [done|]. intros path ?. by apply lookup_insert_ne.
  - split; [eauto|]. done.
Qed.

Lemma reachable_inv_step w0 c c' : reachable_inv w0 c → step c c' → reachable_inv w0 c'.
Proof.
  intros Hinv Hstep.
  destruct Hstep as [? Hx|? ? Hx|? ? ? ? Hx|? ? ? ? ? Hx|? ? ? ? ? ? Hx|? ? ? ? ? ? ? Hx
                    |? ? ? ? ? ? Hx|? ? ? ? ? ? Hx|? ? ? ? ? ? ? ? ? Hx
                    |? ? ? ? ? ? ? ? ? ? Hx|? ? ? ? ? ?|? ? ?|? ?];
    unfold reachable_inv in *; simpl in *.
  all: try (destruct_and?; subst; by eauto).
  - destruct Hinv as [-> Hsize]. apply draw_styled_text_layer in Hx as [-> _]. done.
  - destruct Hinv as (-> & Hsize & ->). repeat split; try done. by exists [].
  - destruct Hinv as (-> & Hsize & Hsp & visited & -> & Hcur).
    apply draw_line_size in Hx as Hsize'. pose proof Hx as [Hy _]%draw_line_Ok.
    repeat split; [congruence|done|]. exists (visited ++ [line]).
    split; [by rewrite <- app_assoc|]. rewrite length_app, Nat.add_1_r.
    by rewrite cursor_after_succ_r, Hcur.
  - by apply reachable_inv_returned.
Qed.

(** ** Claims *)

(** C30. The transition system and the function agree: a run from the
    entry of the call ends in a returned configuration with world [w'] and
    result [r] exactly when [create_styled_text_image] gives [(w', r)], and
    [run] computes that configuration in the number of body lines plus
    seven steps. *)
Theorem machine_equiv_function w w' r :
  (rtc step (w, AtOpen) (w', Returned r) ↔
   create_styled_text_image w background_path title content_lines o = (w', r)) ∧
  run (length content_lines + 7) (w, AtOpen)
  = ((create_styled_text_image w background_path title content_lines o).1,
     Returned (create_styled_text_image w background_path title content_lines o).2).
Proof.
  pose proof (run_from_open w) as Hf. split; [split|].
  - intros Hrun%(rtc_returned_run _ _ (length content_lines + 7)); [|done..].
    apply (rtc_returned_run _ _ (length content_lines + 7)) in Hf; [|done..].
    rewrite <- Hrun in Hf. injection Hf as Hw Hr.
    by destruct (create_styled_text_image _ _ _ _ _); simplify_eq/=.
  - intros Heq. by rewrite Heq in Hf.
  - symmetry. by apply rtc_returned_run.
Qed.

(** C32. At every configuration reached from the entry of the call in the
    world [w], [reachable_inv] holds: before the save and the return the
    world is [w]; the layer has the size of the background; at the head of
    the loop the cursor is the start advanced once per line visited; after
    a normal return one message is printed and only the output path may
    have changed. *)
Theorem reachable_invariant w c : rtc step (w, AtOpen) c → reachable_inv w c.
Proof.
  revert c. apply rtc_ind_r; [done|]. intros c c' _ Hstep IH.
  by eapply reachable_inv_step.
Qed.

(** The rules of [step] are the function [next]; a configuration has
    at most one successor; and the configurations without a successor are
    exactly those in which the call has returned: no statement is stuck. *)
Theorem step_safe :
  (∀ c c', step c c' ↔ next c = Some c') ∧ deterministic step ∧
  ∀ c, nf step c ↔ is_returned c = true.
Proof. split; [apply step_iff_next|]. split; [apply step_deterministic|apply nf_step]. Qed.

End machine.
