(* ===== verification/Rerun.v ===== *)
(** * Running the composer again

    [create_styled_text_image] reads the file system at three paths (the
    background and the two fonts) and writes it at one (the output).  This
    file separates what the call decides from what it does to the world
    ([decision]), shows that the decision depends on the three input paths
    only, and derives what a second call in the world left by the first one
    does: when the output path is none of the inputs, it writes the same
    file again; when the output path is the background path, the first call
    has replaced its own input. *)

From Stdlib Require Import ZArith Lia.
From stdpp Require Import base tactics option list strings gmap.
From S2P Require Import Prelude.
From S2P Require Import PyNum.
From S2P Require Import PyStr.
From S2P Require Import Pillow.
From S2P Require Import Renderer.
From S2P Require Import Composer.

#[local] Open Scope Z_scope.

(** What a call has decided when it reaches its last [try] or leaves
    before: a message to print, an exception that escapes, or the image to
    save. *)
Inductive decided (image : Type) : Type :=
| Report (m : message)
| Escape (e : pyexn)
| Save (out : image).

Arguments Report {image} _.
Arguments Escape {image} _.
Arguments Save {image} _.

Section rerun.
Context `{TextMeasure} `{Imaging image}.
Context (background_path : string) (title : pystr) (content_lines : list pystr).
Context (o : options).

(** The part of [create_styled_text_image] before the save (lines 53-115),
    as a function of the file system. *)
Definition decision (fs : filesystem image) : decided image :=
  match open_background fs background_path with
  | None => Report (BackgroundOpenFailed background_path)
  | Some background =>
      match load_fonts fs o with
      | inl path => Report (FontLoadFailed path)
      | inr fonts =>
          match draw_all (new_layer (im_size background) layer_color) title content_lines
                         fonts.1 fonts.2 (im_size background).1 (im_size background).2 o with
          | Raise e => Escape e
          | Ok drawn => Save (compose background drawn.1)
          end
      end
  end.

(** The effect of a decision on the world, and the result of the call. *)
Definition carry_out (w : world image) (d : decided image) : world image * result pyexn () :=
  match d with
  | Report m => (print w m, Ok ())
  | Escape e => (w, Raise e)
  | Save out => (save_output w out (output_path o), Ok ())
  end.

(** The paths the call reads. *)
Definition input_paths : list string :=
  [background_path; title_font_path o; content_font_path o].

(** Two file systems that hold the same files at the paths the call
    reads. *)
Definition same_inputs (fs fs' : filesystem image) : Prop :=
  ∀ path, path ∈ input_paths → fs_files fs !! path = fs_files fs' !! path.

Implicit Types (w : world image) (fs : filesystem image).

(** ** The call is its decision carried out *)

Lemma create_styled_text_image_decision w :
  create_styled_text_image w background_path title content_lines o
  = carry_out w (decision (w_fs w)).
Proof.
  unfold create_styled_text_image, decision.
  destruct (open_background _ _) as [background|]; [|done].
  destruct (load_fonts _ _) as [path|[title_font content_font]]; [done|].
  destruct (im_size background) as [width height]. simpl.
  by destruct (draw_all _ _ _ _ _ _ _ _).
Qed.

(** ** The decision reads the input paths only *)

#[export] Instance same_inputs_equivalence : Equivalence same_inputs.
Proof.
  split.
  - by intros fs path.
  - intros fs fs' Hfs path Hpath. symmetry. by apply Hfs.
  - intros fs1 fs2 fs3 H12 H23 path Hpath. by rewrite H12, H23.
Qed.

Lemma open_background_same_inputs fs fs' :
  same_inputs fs fs' →
  open_background fs background_path = open_background fs' background_path.
Proof.
  intros Hfs. unfold open_background, image_open. rewrite (Hfs background_path); [done|].
  unfold input_paths. set_solver.
Qed.

Lemma load_fonts_same_inputs fs fs' :
  same_inputs fs fs' → load_fonts fs o = load_fonts fs' o.
Proof.
  intros Hfs. unfold load_fonts, truetype.
  rewrite (Hfs (title_font_path o)), (Hfs (content_font_path o)); [done|..];
    unfold input_paths; set_solver.
Qed.

#[export] Instance decision_proper : Proper (same_inputs ==> (=)) decision.
Proof.
  intros fs fs' Hfs. unfold decision.
  by rewrite (open_background_same_inputs fs fs'), (load_fonts_same_inputs fs fs').
Qed.

(** Writing a path that is not an input leaves the inputs as they are. *)
Lemma same_inputs_insert fs path f :
  path ∉ input_paths →
  same_inputs (FileSystem (<[path := f]> (fs_files fs)) (fs_readonly fs)) fs.
Proof. intros Hpath path' Hpath'. simpl. apply lookup_insert_ne. set_solver. Qed.

Lemma same_inputs_save_output w out :
  output_path o ∉ input_paths →
  same_inputs (w_fs (save_output w out (output_path o))) (w_fs w).
Proof.
  intros Hpath. destruct (save_output_fs w out (output_path o)) as [->|[_ ->]]; [done|].
  by apply same_inputs_insert.
Qed.

Lemma same_inputs_carry_out w d :
  output_path o ∉ input_paths → same_inputs (w_fs (carry_out w d).1) (w_fs w).
Proof. intros Hpath. destruct d; simpl; [done..|by apply same_inputs_save_output]. Qed.

(** ** Saving twice *)

Lemma save_output_twice w out :
  w_fs (save_output (save_output w out (output_path o)) out (output_path o))
  = w_fs (save_output w out (output_path o)).
Proof.
  unfold save_output at 2 3. unfold image_save.
  destruct (decide (output_path o ∈ fs_readonly (w_fs w))) as [Hro|Hrw]; simpl.
  - unfold save_output, image_save. simpl. by rewrite decide_True.
  - unfold save_output, image_save. simpl. rewrite decide_False by done. simpl.
    by rewrite insert_insert_eq.
Qed.

(** ** Claims *)

(** C34. When the output path is none of the paths the call reads, a second
    call in the world left by the first one leaves the files as the first
    call left them and ends the same way: the same file is written again,
    or the same failure happens again. *)
Theorem rerun_same_files w :
  output_path o ∉ input_paths →
  w_fs (create_styled_text_image
          (create_styled_text_image w background_path title content_lines o).1
          background_path title content_lines o).1
  = w_fs (create_styled_text_image w background_path title content_lines o).1 ∧
  (create_styled_text_image
     (create_styled_text_image w background_path title content_lines o).1
     background_path title content_lines o).2
  = (create_styled_text_image w background_path title content_lines o).2.
Proof.
  intros Hpath. rewrite !create_styled_text_image_decision.
  rewrite (decision_proper _ _ (same_inputs_carry_out w (decision (w_fs w)) Hpath)).
  destruct (decision (w_fs w)) as [m|e|out]; simpl; [done..|].
  split; [apply save_output_twice|done].
Qed.

(** C35. Save and open: when the call reaches the save with the image [out]
    and the output path can be written, opening the output path afterwards
    gives [out] as encoded at quality 95.  In particular, when the output
    path is the background path the call has replaced its own input. *)
Theorem saved_image_reopens w out :
  decision (w_fs w) = Save out → output_path o ∉ fs_readonly (w_fs w) →
  image_open (w_fs (create_styled_text_image w background_path title content_lines o).1)
             (output_path o)
  = Some (encode save_quality out).
Proof.
  intros Hd Hrw. rewrite create_styled_text_image_decision, Hd. simpl.
  unfold save_output, image_save. rewrite decide_False by done. simpl.
  apply image_open_Some. simpl. apply lookup_insert_eq.
Qed.

End rerun.
