(* ===== verification/Calls.v ===== *)
(** * The program as the library calls it makes

    The specification describes the program as a thin sequence of calls
    into the imaging library.  This file models it as that: a program is a
    tree of library calls ([prog]), each call is answered by the library
    ([perform]), and running a program ([exec]) yields the calls made, in
    order ([calls_of]).

    Unlike [Renderer] and [Composer], which pass the drawing layer from one
    function to the next, the programs here follow the source in how the
    layer is shared: [Image.new] makes an image object the library holds
    (a [handle] into the [store]), [ImageDraw.Draw(txt)] makes a drawing
    context that refers to it, [draw_styled_text] gets the context, draws
    through it and returns the position only, and
    [Image.alpha_composite(background, txt)] reads the image the calls
    have changed in the meantime.

    The programs are [draw_styled_text_prog] (src/demo4.py, lines 123-170)
    and [create_styled_text_image_prog] (lines 14-120).  The theorems of
    this file relate a run of them to the functions of [Renderer] and
    [Composer]; what the runs have in common is in [CallOrder]. *)

From Stdlib Require Import ZArith Lia SpecFloat.
From stdpp Require Import base tactics option list strings gmap.
From S2P Require Import Prelude.
From S2P Require Import PyNum.
From S2P Require Import PyStr.
From S2P Require Import Pillow.
From S2P Require Import Renderer.
From S2P Require Import StrokeLoops.
From S2P Require Import Composer.

#[local] Open Scope Z_scope.

(** ** Objects of the library *)

(** A reference to an image the library holds and the program may draw
    into. *)
Definition handle : Type := nat.

(** [ImageDraw.Draw(im)]: a drawing context; it refers to the image. *)
Inductive drawing : Type :=
| DrawOn (im : handle).

(** [ImageEnhance.Contrast(im)] *)
Inductive enhancer (image : Type) : Type :=
| Enhancer (im : image).

Arguments Enhancer {image} im.

(** ** Calls and their answers *)

(** The calls of the program into the library and to [print], with their
    arguments. *)
Inductive call (image : Type) : Type :=
| ImageOpen (path : string)
| ConvertRGBA (im : image)
| Contrast (im : image)
| Enhance (en : enhancer image) (factor : float)
| ImageNew (size : Z * Z) (fill : color)
| Draw (im : handle)
| Truetype (path : string) (size : Z)
| Textbbox (draw : drawing) (text : pystr) (f : font)
| Text (draw : drawing) (c : draw_call)
| AlphaComposite (bottom : image) (top : handle)
| ConvertRGB (im : image)
| Save (im : image) (path : string) (quality : Z)
| Print (m : message).

Arguments ImageOpen {image} path.
Arguments ConvertRGBA {image} im.
Arguments Contrast {image} im.
Arguments Enhance {image} en factor.
Arguments ImageNew {image} size fill.
Arguments Draw {image} im.
Arguments Truetype {image} path size.
Arguments Textbbox {image} draw text f.
Arguments Text {image} draw c.
Arguments AlphaComposite {image} bottom top.
Arguments ConvertRGB {image} im.
Arguments Save {image} im path quality.
Arguments Print {image} m.

(** What a call gives back.  A call inside a [try] of the source answers
    with [None] or [false] where the library raises. *)
Definition answer {image} (c : call image) : Type :=
  match c with
  | ImageOpen _ => option image
  | ConvertRGBA _ | Enhance _ _ | AlphaComposite _ _ | ConvertRGB _ => image
  | Contrast _ => enhancer image
  | ImageNew _ _ => handle
  | Draw _ => drawing
  | Truetype _ _ => option font
  | Textbbox _ _ _ => bbox
  | Text _ _ | Print _ => ()
  | Save _ _ _ => bool
  end.

(** ** Programs *)

(** A program: it returns, raises, or makes a call and goes on with the
    answer. *)
Inductive prog (image A : Type) : Type :=
| Return (a : A)
| Throw (e : pyexn)
| Call (c : call image) (k : answer c → prog image A).

Arguments Return {image A} a.
Arguments Throw {image A} e.
Arguments Call {image A} c k.

(** What the library holds: the world, and the images made by
    [Image.new], by handle. *)
Record store (image : Type) : Type := Store {
  st_world : world image;
  st_images : list layer;
}.

Arguments Store {image} _ _.
Arguments st_world {image} _.
Arguments st_images {image} _.

Section programs.
Context {image : Type}.

#[export] Instance prog_ret : MRet (prog image) := λ _ a, Return a.

#[export] Instance prog_bind : MBind (prog image) := λ _ _ f,
  fix bind p :=
    match p with
    | Return a => f a
    | Throw e => Throw e
    | Call c k => Call c (λ a, bind (k a))
    end.

(** One call. *)
Definition lib (c : call image) : prog image (answer c) := Call c Return.

(** A computation of the language that may raise. *)
Definition lift {A} (r : result pyexn A) : prog image A :=
  match r with
  | Ok a => Return a
  | Raise e => Throw e
  end.

(** [for x in xs: body], with the variables the body assigns as the
    accumulator. *)
Fixpoint for_loop {A B} (body : A → B → prog image A) (xs : list B) (a : A) : prog image A :=
  match xs with
  | [] => Return a
  | x :: xs' => a' ← body a x; for_loop body xs' a'
  end.

End programs.

(** ** The two functions of the source *)

Section source.
Context `{Imaging image}.

(** The stroke pass (lines 152-160): the [if] around the two nested
    loops.  The position of a stamp is computed before the call is made. *)
Definition stroke_prog (draw : drawing) (text : pystr) (f : font)
    (position_y : pynum) (x : Z) (st : text_style) : prog image () :=
  if decide (stroke_width st > 0) then
    for_loop (λ _ offset_x,
      for_loop (λ _ offset_y,
        y ← lift (py_add position_y (PyInt offset_y));
        lib (Text draw (DrawText (x + offset_x) y text f (stroke_color st))))
        (py_range (- stroke_width st) (stroke_width st + 1)) ())
      (py_range (- stroke_width st) (stroke_width st + 1)) ()
  else Return ().

(** [draw_styled_text] (lines 123-170): the drawing context is an
    argument, the position is the result. *)
Definition draw_styled_text_prog (draw : drawing) (text : pystr) (f : font)
    (position_y : pynum) (image_width : Z) (st : text_style) : prog image pynum :=
  text_bbox ← lib (Textbbox draw text f);
  let text_width := bbox_right text_bbox - bbox_left text_bbox in
  let x := text_x (align st) image_width (Renderer.margin_left st)
                  (Renderer.margin_right st) text_width in
  stroke_prog draw text f position_y x st;;
  lib (Text draw (DrawText x position_y text f (text_color st)));;
  Return position_y.

(** The body of the loop over the body lines (lines 97-111). *)
Definition draw_line_prog (draw : drawing) (content_font : font) (width : Z)
    (o : options) (line_spacing : pynum) (content_y : pynum) (line : pystr)
    : prog image pynum :=
  content_y ← (if str_truthy (py_strip line)
               then draw_styled_text_prog draw line content_font content_y width
                                          (content_style o)
               else Return content_y);
  lift (py_add content_y line_spacing).

(** Lines 113-120: composite, flatten, save, report. *)
Definition save_prog (background : image) (txt : handle) (o : options) : prog image () :=
  out ← lib (AlphaComposite background txt);
  out ← lib (ConvertRGB out);
  saved ← lib (Save out (output_path o) save_quality);
  if saved : bool then lib (Print (ImageSaved (output_path o)))
  else lib (Print (SaveFailed (output_path o))).

(** Lines 74-111: the title, the spacing, the loop over the body lines. *)
Definition draw_all_prog (draw : drawing) (title : pystr) (content_lines : list pystr)
    (title_font content_font : font) (width height : Z) (o : options) : prog image pynum :=
  let title_y := height / 6 in
  draw_styled_text_prog draw title title_font (PyInt title_y) width (title_style o);;
  let content_y := title_y + title_font_size o + title_content_spacing o in
  line_spacing ← lift (py_mul (PyInt (content_font_size o)) (content_line_spacing o));
  for_loop (draw_line_prog draw content_font width o line_spacing) content_lines
           (PyInt content_y).

(** [create_styled_text_image] (lines 14-120). *)
Definition create_styled_text_image_prog (background_path : string) (title : pystr)
    (content_lines : list pystr) (o : options) : prog image () :=
  opened ← lib (ImageOpen background_path);
  match opened with
  | None => lib (Print (BackgroundOpenFailed background_path))
  | Some im =>
      background ← lib (ConvertRGBA im);
      enhancer ← lib (Contrast background);
      background ← lib (Enhance enhancer contrast_factor);
      txt ← lib (ImageNew (im_size background) layer_color);
      draw ← lib (Draw txt);
      title_font ← lib (Truetype (title_font_path o) (title_font_size o));
      match title_font with
      | None => lib (Print (FontLoadFailed (title_font_path o)))
      | Some title_font =>
          content_font ← lib (Truetype (content_font_path o) (content_font_size o));
          match content_font with
          | None => lib (Print (FontLoadFailed (content_font_path o)))
          | Some content_font =>
              let '(width, height) := im_size background in
              draw_all_prog draw title content_lines title_font content_font width height o;;
              save_prog background txt o
          end
      end
  end.

End source.

(** ** The library *)

Section library.
Context `{TextMeasure} `{Imaging image}.

(** What the library does on a call and what it answers; [None] when the
    call names an image the library does not hold. *)
Definition perform (c : call image) (s : store image) : option (store image * answer c) :=
  match c with
  | ImageOpen path => Some (s, image_open (w_fs (st_world s)) path)
  | ConvertRGBA im => Some (s, convert_rgba im)
  | Contrast im => Some (s, Enhancer im)
  | Enhance (Enhancer im) factor => Some (s, enhance_contrast factor im)
  | ImageNew size fill =>
      Some (Store (st_world s) (st_images s ++ [new_layer size fill]), length (st_images s))
  | Draw im => _ ← st_images s !! im; Some (s, DrawOn im)
  | Truetype path size => Some (s, truetype (w_fs (st_world s)) path size)
  | Textbbox (DrawOn im) text f => _ ← st_images s !! im; Some (s, textbbox f text)
  | Text (DrawOn im) c =>
      l ← st_images s !! im;
      Some (Store (st_world s) (<[im := draw_text l c]> (st_images s)), ())
  | AlphaComposite bottom top =>
      l ← st_images s !! top; Some (s, alpha_composite bottom (render_layer l))
  | ConvertRGB im => Some (s, convert_rgb im)
  | Save im path quality =>
      match image_save (w_fs (st_world s)) im path quality with
      | Some fs => Some (Store (World fs (w_stdout (st_world s))) (st_images s), true)
      | None => Some (s, false)
      end
  | Print m => Some (Store (print (st_world s) m) (st_images s), ())
  end.

(** The run of a program: the store it leaves, and what it returned or
    raised. *)
Fixpoint exec {A} (p : prog image A) (s : store image)
    : option (store image * result pyexn A) :=
  match p with
  | Return a => Some (s, Ok a)
  | Throw e => Some (s, Raise e)
  | Call c k => sa ← perform c s; exec (k sa.2) sa.1
  end.

(** The calls a program makes, in order. *)
Fixpoint calls_of {A} (p : prog image A) (s : store image) : list (call image) :=
  match p with
  | Call c k => c :: from_option (λ sa, calls_of (k sa.2) sa.1) [] (perform c s)
  | _ => []
  end.

End library.

(** ** Runs *)

Section runs.
Context `{TextMeasure} `{Imaging image}.
Implicit Types (s : store image) (l : layer) (h : handle).

(** The store with another image at a handle. *)
Definition with_layer h l s : store image :=
  Store (st_world s) (<[h := l]> (st_images s)).

(** A run agrees with a function on layers: it leaves the layer of the
    function at the handle and gives its result; when the function raises
    it raises the same, with some layer at the handle. *)
Definition agrees {A} (out : option (store image * result pyexn A)) s h
    (r : result pyexn (layer * A)) : Prop :=
  match r with
  | Ok (l', a) => out = Some (with_layer h l' s, Ok a)
  | Raise e => ∃ l', out = Some (with_layer h l' s, Raise e)
  end.

Lemma agrees_Ok {A} (out : option (store image * result pyexn A)) s h l' a :
  agrees out s h (Ok (l', a)) → out = Some (with_layer h l' s, Ok a).
Proof. done. Qed.

Lemma with_layer_with_layer h l1 l2 s : with_layer h l2 (with_layer h l1 s) = with_layer h l2 s.
Proof. unfold with_layer. simpl. by rewrite list_insert_insert_eq. Qed.

Lemma with_layer_id h l s : st_images s !! h = Some l → with_layer h l s = s.
Proof. intros Hl. destruct s. unfold with_layer. simpl in *. by rewrite list_insert_id. Qed.

Lemma with_layer_lookup h l l' s :
  st_images s !! h = Some l → st_images (with_layer h l' s) !! h = Some l'.
Proof. intros Hl%lookup_lt_Some. by apply list_lookup_insert_eq. Qed.

Lemma exec_bind {A B} (p : prog image A) (f : A → prog image B) s :
  exec (p ≫= f) s
  = sr ← exec p s;
    match sr.2 with
    | Ok a => exec (f a) sr.1
    | Raise e => Some (sr.1, Raise e)
    end.
Proof.
  revert s. induction p as [a|e|c k IH]; intros s; simpl; [done..|].
  destruct (perform c s) as [[s' a]|]; simpl; [apply IH|done].
Qed.

Lemma calls_of_bind {A B} (p : prog image A) (f : A → prog image B) s :
  calls_of (p ≫= f) s
  = calls_of p s ++ match exec p s with
                    | Some (s', Ok a) => calls_of (f a) s'
                    | _ => []
                    end.
Proof.
  revert s. induction p as [a|e|c k IH]; intros s; simpl; [done..|].
  f_equal. destruct (perform c s) as [[s' a]|]; simpl; [apply IH|done].
Qed.

Lemma exec_lib {B} (c : call image) (f : answer c → prog image B) s :
  exec (lib c ≫= f) s = sa ← perform c s; exec (f sa.2) sa.1.
Proof. done. Qed.

Lemma exec_lib_Some {B} (c : call image) (f : answer c → prog image B) s s' a :
  perform c s = Some (s', a) → exec (lib c ≫= f) s = exec (f a) s'.
Proof. intros Hc. by rewrite exec_lib, Hc. Qed.

Lemma calls_of_lib {B} (c : call image) (f : answer c → prog image B) s :
  calls_of (lib c ≫= f) s = c :: from_option (λ sa, calls_of (f sa.2) sa.1) [] (perform c s).
Proof. done. Qed.

Lemma calls_of_lib_Some {B} (c : call image) (f : answer c → prog image B) s s' a :
  perform c s = Some (s', a) → calls_of (lib c ≫= f) s = c :: calls_of (f a) s'.
Proof. intros Hc. by rewrite calls_of_lib, Hc. Qed.

Lemma agrees_bind {A B} (p : prog image A) (f : A → prog image B) r
    (g : layer * A → result pyexn (layer * B)) s h l :
  st_images s !! h = Some l →
  agrees (exec p s) s h r →
  (∀ s' l' a, st_images s' !! h = Some l' → agrees (exec (f a) s') s' h (g (l', a))) →
  agrees (exec (p ≫= f) s) s h (r ≫= g).
Proof.
  intros Hl Hp Hf. rewrite exec_bind. destruct r as [[l' a]|e]; simpl in *.
  - rewrite Hp. simpl. specialize (Hf _ l' a (with_layer_lookup h l l' s Hl)).
    destruct (g (l', a)) as [[l'' b]|e]; simpl in *.
    + by rewrite Hf, with_layer_with_layer.
    + destruct Hf as [l'' ->]. exists l''. by rewrite with_layer_with_layer.
  - destruct Hp as [l' ->]. simpl. eauto.
Qed.

Lemma agrees_lift {A} (r : result pyexn A) s h l :
  st_images s !! h = Some l → agrees (exec (lift r) s) s h (pair l <$> r).
Proof.
  intros Hl. destruct r as [a|e]; simpl; [|exists l]; by rewrite (with_layer_id h l).
Qed.

Lemma agrees_text c s h l :
  st_images s !! h = Some l →
  agrees (exec (lib (Text (DrawOn h) c)) s) s h (Ok (draw_text l c, ())).
Proof. intros Hl. simpl. by rewrite Hl. Qed.

(** A loop whose body agrees with a function agrees with the fold of the
    function. *)
Lemma agrees_for_loop {A B} (body : A → B → prog image A)
    (f : layer * A → B → result pyexn (layer * A)) h :
  (∀ s l a x, st_images s !! h = Some l → agrees (exec (body a x) s) s h (f (l, a) x)) →
  ∀ xs s l a, st_images s !! h = Some l →
    agrees (exec (for_loop body xs a) s) s h (foldM f xs (l, a)).
Proof.
  intros Hbody xs. induction xs as [|x xs IH]; intros s l a Hl.
  - simpl. by rewrite (with_layer_id h l).
  - simpl foldM. simpl for_loop. eapply agrees_bind; [done|by apply Hbody|].
    intros s' l' a' Hl'. by apply IH.
Qed.

End runs.

(** One call of a run. *)
Ltac run_call :=
  lazymatch goal with
  | |- context [exec (lib ?c ≫= ?f) ?s] =>
      erewrite (exec_lib_Some c f s)
        by (cbn [perform st_world st_images];
            rewrite ?lookup_app_r, ?Nat.sub_diag by done; reflexivity)
  end;
  cbv beta.

(** One call of the calls of a run. *)
Ltac trace_call :=
  lazymatch goal with
  | |- context [calls_of (lib ?c ≫= ?f) ?s] =>
      erewrite (calls_of_lib_Some c f s)
        by (cbn [perform st_world st_images];
            rewrite ?lookup_app_r, ?Nat.sub_diag by done; reflexivity)
  end;
  cbv beta.

(** ** The renderer *)

Section renderer_runs.
Context `{TextMeasure} `{Imaging image}.
Context (h : handle) (text : pystr) (f : font) (position_y : pynum).
Context (image_width : Z) (st : text_style).
Implicit Types (s : store image) (l : layer).

Lemma agrees_stroke_prog x s l :
  st_images s !! h = Some l →
  agrees (exec (stroke_prog (DrawOn h) text f position_y x st) s) s h
         ((., ()) <$> draw_stroke_nested l text f position_y x st).
Proof.
  intros Hl. unfold stroke_prog, draw_stroke_nested. case_decide.
  - rewrite <- foldM_unit. apply agrees_for_loop; [|done].
    intros s1 l1 [] offset_x Hl1. unfold stroke_row. simpl fst.
    rewrite <- foldM_unit. apply agrees_for_loop; [|done].
    intros s2 l2 [] offset_y Hl2. unfold stroke_call. simpl.
    destruct (py_add position_y (PyInt offset_y)) as [y|e]; simpl.
    + by rewrite Hl2.
    + exists l2. by rewrite (with_layer_id h l2).
  - simpl. by rewrite (with_layer_id h l).
Qed.

(** The renderer drawing through a context on the image [h] does to that
    image what [draw_styled_text] does to the layer it is given. *)
Lemma agrees_draw_styled_text_prog s l :
  st_images s !! h = Some l →
  agrees (exec (draw_styled_text_prog (DrawOn h) text f position_y image_width st) s) s h
         (draw_styled_text l text f position_y image_width st).
Proof.
  intros Hl. unfold draw_styled_text_prog, draw_styled_text.
  rewrite exec_bind. simpl. rewrite Hl. simpl. fold (text_width f text).
  rewrite draw_stroke_nested_eq.
  set (x := text_x _ _ _ _ _).
  assert (∀ r : result pyexn layer,
            (d ← r; Ok (draw_text d (fill_call text f position_y x st), position_y))
            = ((., ()) <$> r) ≫= λ su, Ok (draw_text su.1 (fill_call text f position_y x st),
                                           position_y)) as -> by (by intros []).
  eapply agrees_bind; [done|by apply agrees_stroke_prog|].
  intros s' l' [] Hl'. simpl. by rewrite Hl'.
Qed.

End renderer_runs.

(** ** The composer *)

Section composer_runs.
Context `{TextMeasure} `{Imaging image}.
Context (h : handle) (o : options).
Implicit Types (s : store image) (l : layer) (background : image).

Lemma agrees_draw_line_prog content_font width spacing s l content_y line :
  st_images s !! h = Some l →
  agrees (exec (draw_line_prog (DrawOn h) content_font width o spacing content_y line) s) s h
         (draw_line content_font width (content_style o) spacing (l, content_y) line).
Proof.
  intros Hl. unfold draw_line_prog, draw_line.
  apply (agrees_bind _ _ _ (λ drawn, y ← py_add drawn.2 spacing; Ok (drawn.1, y)) _ _ l);
    [done|..].
  - destruct (str_truthy (py_strip line)); [by apply agrees_draw_styled_text_prog|].
    simpl. by rewrite (with_layer_id h l).
  - intros s' l' y Hl'. simpl.
    replace (y' ← py_add y spacing; Ok (l', y')) with (pair l' <$> py_add y spacing)
      by (by destruct (py_add y spacing)).
    by apply agrees_lift.
Qed.

(** Compositing reads the image the draw calls have changed. *)
Lemma exec_save_prog background s l :
  st_images s !! h = Some l →
  exec (save_prog background h o) s
  = Some (Store (save_output (st_world s) (compose background l) (output_path o))
                (st_images s), Ok ()).
Proof.
  intros Hl. unfold save_prog, save_output, compose. simpl. rewrite Hl. simpl.
  by destruct (image_save _ _ _ _).
Qed.

Lemma agrees_draw_all_prog title content_lines title_font content_font width height s txt :
  st_images s !! h = Some txt →
  agrees (exec (draw_all_prog (DrawOn h) title content_lines title_font content_font
                              width height o) s) s h
         (draw_all txt title content_lines title_font content_font width height o).
Proof.
  intros Hl. unfold draw_all_prog, draw_all, line_spacing, draw_content, content_start, title_y.
  eapply agrees_bind; [done|by apply agrees_draw_styled_text_prog|].
  intros s1 d1 y1 Hd1. cbn [fst snd].
  assert (∀ (r : result pyexn pynum) (g : layer → pynum → result pyexn (layer * pynum)),
            r ≫= g d1 = (pair d1 <$> r) ≫= λ lr, g lr.1 lr.2) as Hpair by (by intros []).
  rewrite (Hpair _ (λ d spacing, foldM (draw_line content_font width (content_style o) spacing)
                                       content_lines (d, _))).
  eapply agrees_bind; [done|by apply agrees_lift|].
  intros s2 d2 spacing Hd2. cbn [fst snd].
  by apply (agrees_for_loop _ _ h (agrees_draw_line_prog content_font width spacing)).
Qed.

End composer_runs.

(** ** Claims *)

Section calls_claims.
Context `{TextMeasure} `{Imaging image}.
Implicit Types (w : world image).

(** The run of the composer up to the drawing: the calls that open the
    background, allocate the layer and load the fonts, and the early
    returns. *)
Lemma exec_create_styled_text_image_prog w images background_path title content_lines o :
  exec (create_styled_text_image_prog background_path title content_lines o) (Store w images)
  = match open_background (w_fs w) background_path with
    | None => Some (Store (print w (BackgroundOpenFailed background_path)) images, Ok ())
    | Some background =>
        let s1 := Store w (images ++ [new_layer (im_size background) layer_color]) in
        match load_fonts (w_fs w) o with
        | inl path => Some (Store (print w (FontLoadFailed path)) (st_images s1), Ok ())
        | inr fonts =>
            sr ← exec (draw_all_prog (DrawOn (length images)) title content_lines
                                     fonts.1 fonts.2 (im_size background).1
                                     (im_size background).2 o) s1;
            match sr.2 with
            | Ok _ => exec (save_prog background (length images) o) sr.1
            | Raise e => Some (sr.1, Raise e)
            end
        end
    end.
Proof.
  unfold create_styled_text_image_prog, open_background, load_fonts.
  run_call. destruct (image_open _ _) as [im|]; [|done].
  do 6 run_call. destruct (truetype _ (title_font_path o) _) as [title_font|]; [|done].
  run_call. destruct (truetype _ (content_font_path o) _) as [content_font|]; [|done].
  cbn [mbind option_bind]. destruct (im_size _). apply exec_bind.
Qed.

(** C16. The program of library calls, run against the library with its store
    of images, never names an image the library does not hold, and ends in
    the world and with the result that [create_styled_text_image] gives. *)
Theorem create_styled_text_image_prog_run w images background_path title content_lines o :
  (λ sr, (st_world sr.1, sr.2))
    <$> exec (create_styled_text_image_prog background_path title content_lines o)
             (Store w images)
  = Some (create_styled_text_image w background_path title content_lines o).
Proof.
  rewrite exec_create_styled_text_image_prog. unfold create_styled_text_image.
  destruct (open_background _ _) as [background|]; [|done].
  destruct (load_fonts _ _) as [path|[title_font content_font]]; [done|].
  set (txt := new_layer (im_size background) layer_color).
  set (s1 := Store w (images ++ [txt])).
  assert (st_images s1 !! length images = Some txt) as Htxt
    by (simpl; by rewrite lookup_app_r, Nat.sub_diag).
  pose proof (agrees_draw_all_prog (length images) o title content_lines title_font
                content_font (im_size background).1 (im_size background).2 s1 txt Htxt)
    as Hdraw.
  destruct (im_size background) as [width height]. cbn [fst snd] in *.
  destruct (draw_all txt _ _ _ _ _ _ _) as [[d y]|e].
  - rewrite (agrees_Ok _ _ _ _ _ Hdraw). cbn [mbind option_bind fst snd].
    by rewrite (exec_save_prog _ _ _ _ d) by (by eapply with_layer_lookup).
  - by destruct Hdraw as [l' ->].
Qed.

(** The composer draws into no image but its own layer: the images the
    library held before the call are as they were after it, and at most
    one image, the layer, has been added. *)
Theorem create_styled_text_image_prog_keeps_images w images background_path title
    content_lines o s' r :
  exec (create_styled_text_image_prog background_path title content_lines o) (Store w images)
  = Some (s', r) →
  st_images s' = images ∨ ∃ txt, st_images s' = images ++ [txt].
Proof.
  rewrite exec_create_styled_text_image_prog.
  destruct (open_background _ _) as [background|]; [|intros [= <- _]; by left].
  destruct (load_fonts _ _) as [path|[title_font content_font]];
    [intros [= <- _]; right; by eexists|].
  set (txt := new_layer (im_size background) layer_color).
  set (s1 := Store w (images ++ [txt])).
  assert (st_images s1 !! length images = Some txt) as Htxt
    by (simpl; by rewrite lookup_app_r, Nat.sub_diag).
  assert (∀ l, st_images (with_layer (length images) l s1) = images ++ [l]) as Himages.
  { intros l. simpl. by rewrite insert_app_r_alt, Nat.sub_diag. }
  pose proof (agrees_draw_all_prog (length images) o title content_lines title_font
                content_font (im_size background).1 (im_size background).2 s1 txt Htxt)
    as Hdraw.
  cbn zeta. cbn [fst snd]. fold txt s1. destruct (draw_all txt _ _ _ _ _ _ _) as [[d y]|e].
  - rewrite (agrees_Ok _ _ _ _ _ Hdraw). cbn [mbind option_bind fst snd].
    rewrite (exec_save_prog _ _ _ _ d) by (by eapply with_layer_lookup).
    intros [= <- _]. right. exists d. apply Himages.
  - destruct Hdraw as [l' ->]. intros [= <- _]. right. exists l'. apply Himages.
Qed.

End calls_claims.
