(* ===== verification/CallOrder.v ===== *)
(** * The order of the library calls

    What every run of the programs of [Calls] has in common.

    - An image the library holds is changed by the [draw.text] calls made
      through a drawing context on it, in the order they are made, and by
      nothing else ([exec_images]); this holds for every program, so it is a
      property of the library as modelled.
    - A render makes one [draw.textbbox] call and then its [draw.text]
      calls, all through the context it was given
      ([calls_of_draw_styled_text_prog]).
    - A call of the composer follows the lifecycle of the canvas in the
      specification ([lifecycle]): the background is opened and enhanced,
      the layer allocated, the fonts loaded; all drawing goes through the
      one context on the layer; the layer is composited once, after the
      last drawing call; the result is saved once; and the message is the
      last call.  What is saved is the composite of the background and the
      layer made of the [draw.text] calls of the run. *)

From Stdlib Require Import ZArith Lia SpecFloat.
From stdpp Require Import base tactics option list strings gmap.
From S2P Require Import Prelude.
From S2P Require Import PyNum.
From S2P Require Import PyStr.
From S2P Require Import Pillow.
From S2P Require Import Renderer.
From S2P Require Import Composer.
From S2P Require Import Calls.

#[local] Open Scope Z_scope.

(** ** Reading a sequence of calls *)

Section reading.
Context {image : Type}.
Implicit Types (h : handle) (c : call image) (cs : list (call image)).

(** The [draw.text] call a call is, when it is one on the image [h]. *)
Definition text_on h c : option draw_call :=
  match c with
  | Text (DrawOn h') dc => if decide (h' = h) then Some dc else None
  | _ => None
  end.

(** The [draw.text] calls on the image [h] among the calls, in order. *)
Definition texts_on h cs : list draw_call := omap (text_on h) cs.

(** The call measures or draws text through a context on the image [h]. *)
Definition is_drawing_on h c : Prop :=
  match c with
  | Textbbox (DrawOn h') _ _ | Text (DrawOn h') _ => h' = h
  | _ => False
  end.

(** The calls of one render through the context on [h]: the measurement,
    the stroke stamps [stroke] and the fill. *)
Definition render_trace h (text : pystr) (f : font) (stroke : list draw_call)
    (fill : draw_call) : list (call image) :=
  Textbbox (DrawOn h) text f :: (Text (DrawOn h) <$> stroke ++ [fill]).

#[export] Instance is_drawing_on_dec h c : Decision (is_drawing_on h c).
Proof. destruct c as [| | | | | | |[]|[]| | | |]; simpl; apply _. Defined.

Lemma texts_on_app h cs1 cs2 : texts_on h (cs1 ++ cs2) = texts_on h cs1 ++ texts_on h cs2.
Proof. apply omap_app. Qed.

Lemma texts_on_cons h c cs : texts_on h (c :: cs) = texts_on h [c] ++ texts_on h cs.
Proof. apply (texts_on_app h [c]). Qed.

Lemma texts_on_fmap h dcs : texts_on h (Text (DrawOn h) <$> dcs) = dcs.
Proof.
  induction dcs as [|dc dcs IH]; [done|].
  rewrite fmap_cons, texts_on_cons, IH. unfold texts_on. simpl. by rewrite decide_True.
Qed.

(** A sequence of [draw.text] calls on one image is determined by the
    calls it draws. *)
Lemma texts_on_all h cs :
  Forall (λ c, is_Some (text_on h c)) cs → cs = Text (DrawOn h) <$> texts_on h cs.
Proof.
  induction 1 as [|c cs [dc Hc] _ IH]; [done|].
  rewrite texts_on_cons, fmap_app, <- IH. unfold texts_on. simpl. rewrite Hc. simpl.
  f_equal. destruct c as [| | | | | | | |[h'] dc'| | | |]; try done.
  simpl in Hc. case_decide; by simplify_eq.
Qed.

Lemma text_on_drawing h c : is_Some (text_on h c) → is_drawing_on h c.
Proof.
  destruct c as [| | | | | | | |[h'] dc'| | | |]; simpl; try by intros [? [=]].
  case_decide; [done|by intros [? [=]]].
Qed.

End reading.

(** ** Images change by [draw.text] only *)

Section frames.
Context `{TextMeasure} `{Imaging image}.
Implicit Types (s : store image) (l : layer) (h : handle) (c : call image).

Lemma perform_images c s s' a h l :
  perform c s = Some (s', a) → st_images s !! h = Some l →
  st_images s' !! h = Some (foldl draw_text l (texts_on h [c])).
Proof.
  intros Hc Hl.
  destruct c as [| | |[]|size fill|im| |[im]|[im] dc|bottom top| |im| ]; simpl in Hc;
    try (by simplify_eq).
  - simplify_eq. simpl. by apply lookup_app_l_Some.
  - destruct (st_images s !! im); by simplify_eq/=.
  - destruct (st_images s !! im); by simplify_eq/=.
  - destruct (st_images s !! im) as [l0|] eqn:Him; simplify_eq/=.
    unfold texts_on. simpl. case_decide; simplify_eq/=.
    + by eapply list_lookup_insert_eq, lookup_lt_Some.
    + by rewrite list_lookup_insert_ne.
  - destruct (st_images s !! top); by simplify_eq/=.
  - destruct (image_save _ _ _ _); by simplify_eq.
Qed.

Lemma exec_images {A} (p : prog image A) s s' r h l :
  exec p s = Some (s', r) → st_images s !! h = Some l →
  st_images s' !! h = Some (foldl draw_text l (texts_on h (calls_of p s))).
Proof.
  revert s l. induction p as [a|e|c k IH]; intros s l; cbn [exec calls_of].
  - by intros [= <- _].
  - by intros [= <- _].
  - destruct (perform c s) as [[s1 a]|] eqn:Hc; [|done].
    cbn [mbind option_bind from_option fst snd]. intros Hk Hl.
    rewrite texts_on_cons, foldl_app. apply (IH _ _ _ Hk). by eapply perform_images.
Qed.

End frames.

(** ** What holds of every call of a program *)

Section shapes.
Context `{TextMeasure} `{Imaging image}.
Context (P : call image → Prop).
Implicit Types (s : store image).

Lemma Forall_calls_of_bind {A B} (p : prog image A) (f : A → prog image B) s :
  Forall P (calls_of p s) → (∀ a s', Forall P (calls_of (f a) s')) →
  Forall P (calls_of (p ≫= f) s).
Proof.
  intros Hp Hf. rewrite calls_of_bind. apply Forall_app. split; [done|].
  destruct (exec p s) as [[s' [a|e]]|]; auto.
Qed.

Lemma Forall_calls_of_lib c s : P c → Forall P (calls_of (lib c) s).
Proof. intros Hc. simpl. constructor; [done|]. by destruct (perform c s). Qed.

Lemma Forall_calls_of_lift {A} (r : result pyexn A) s : Forall P (calls_of (lift r) s).
Proof. destruct r; constructor. Qed.

Lemma Forall_calls_of_for_loop {A B} (body : A → B → prog image A) xs a s :
  (∀ a x s, Forall P (calls_of (body a x) s)) →
  Forall P (calls_of (for_loop body xs a) s).
Proof.
  intros Hbody. revert a s. induction xs as [|x xs IH]; intros a s; [constructor|].
  apply Forall_calls_of_bind; auto.
Qed.

End shapes.

(** ** The calls of a render *)

Section render_calls.
Context `{TextMeasure} `{Imaging image}.
Context (h : handle) (text : pystr) (f : font) (position_y : pynum).
Context (image_width : Z) (st : text_style).
Implicit Types (s : store image) (l : layer).

Lemma stroke_prog_texts x s :
  Forall (λ c, is_Some (text_on h c))
         (calls_of (stroke_prog (DrawOn h) text f position_y x st) s).
Proof.
  unfold stroke_prog. case_decide; [|constructor].
  apply Forall_calls_of_for_loop. intros [] offset_x s1.
  apply Forall_calls_of_for_loop. intros [] offset_y s2.
  apply Forall_calls_of_bind; [apply Forall_calls_of_lift|]. intros y s3.
  apply Forall_calls_of_lib. simpl. by rewrite decide_True.
Qed.

(** A render measures the text once and then only draws, through the
    context it was given. *)
Lemma draw_styled_text_prog_shape s :
  ∃ texts, calls_of (draw_styled_text_prog (DrawOn h) text f position_y image_width st) s
           = Textbbox (DrawOn h) text f :: texts ∧
           Forall (λ c, is_Some (text_on h c)) texts.
Proof.
  unfold draw_styled_text_prog. rewrite (calls_of_lib (Textbbox (DrawOn h) text f)).
  eexists. split; [done|].
  destruct (perform _ s) as [[s1 a]|]; [|constructor]. cbn [from_option fst snd].
  apply Forall_calls_of_bind; [apply stroke_prog_texts|]. intros [] s2.
  apply Forall_calls_of_bind; [|constructor].
  apply Forall_calls_of_lib. simpl. by rewrite decide_True.
Qed.

Lemma draw_styled_text_prog_drawing s :
  Forall (is_drawing_on h)
         (calls_of (draw_styled_text_prog (DrawOn h) text f position_y image_width st) s).
Proof.
  destruct (draw_styled_text_prog_shape s) as (texts & -> & Htexts).
  constructor; [done|]. eapply Forall_impl; [done|]. apply text_on_drawing.
Qed.

End render_calls.

Section render_claims.
Context `{TextMeasure} `{Imaging image}.
Context (h : handle) (text : pystr) (f : font) (position_y : pynum).
Context (image_width : Z) (st : text_style).
Implicit Types (s : store image) (l : layer).

(** The calls of a render whose stroke positions can be computed: one
    [draw.textbbox], the stroke stamps in the order of the grid, and the
    fill, all through the context the render was given. *)
Theorem calls_of_draw_styled_text_prog s l cs :
  st_images s !! h = Some l →
  stroke_calls text f position_y (anchor text f image_width st) st = Ok cs →
  calls_of (draw_styled_text_prog (DrawOn h) text f position_y image_width st) s
  = render_trace h text f cs (fill_call text f position_y (anchor text f image_width st) st).
Proof.
  intros Hl Hcs. unfold render_trace. destruct (draw_styled_text_prog_shape h text f position_y image_width st s)
    as (texts & Hcalls & Htexts).
  rewrite Hcalls. f_equal. rewrite (texts_on_all h texts Htexts). f_equal.
  pose proof (agrees_draw_styled_text_prog h text f position_y image_width st s l Hl) as Hrun.
  rewrite draw_styled_text_spec, Hcs in Hrun. apply agrees_Ok in Hrun.
  pose proof (exec_images _ _ _ _ h l Hrun Hl) as Himage.
  rewrite Hcalls, texts_on_cons, (with_layer_lookup h l) in Himage by done.
  injection Himage as Himage. apply (f_equal layer_calls) in Himage.
  rewrite !foldl_draw_text_calls in Himage. by apply app_inv_head in Himage.
Qed.

End render_claims.

(** ** The lifecycle of the canvas *)

Section lifecycle.
Context `{Imaging image}.
Context (background_path : string) (o : options).
Implicit Types (im background : image) (h : handle).

(** Opening and enhancing the background and allocating the layer. *)
Definition acquire im h : list (call image) :=
  [ImageOpen background_path; ConvertRGBA im; Contrast (convert_rgba im);
   Enhance (Enhancer (convert_rgba im)) contrast_factor;
   ImageNew (im_size (enhance_contrast contrast_factor (convert_rgba im))) layer_color;
   Draw h].

Definition load_title : call image := Truetype (title_font_path o) (title_font_size o).
Definition load_content : call image := Truetype (content_font_path o) (content_font_size o).

(** Compositing the layer [d] at [h], flattening, saving and reporting. *)
Definition finish background h (d : layer) (m : message) : list (call image) :=
  [AlphaComposite background h;
   ConvertRGB (alpha_composite background (render_layer d));
   Save (compose background d) (output_path o) save_quality;
   Print m].

(** The sequences of calls the canvas may see.  [draws] are the calls of
    the drawing, and the layer that is composited is the one they make. *)
Inductive lifecycle : list (call image) → Prop :=
| lifecycle_no_background :
    lifecycle [ImageOpen background_path; Print (BackgroundOpenFailed background_path)]
| lifecycle_no_title_font im h :
    lifecycle (acquire im h ++ [load_title; Print (FontLoadFailed (title_font_path o))])
| lifecycle_no_content_font im h :
    lifecycle (acquire im h
               ++ [load_title; load_content; Print (FontLoadFailed (content_font_path o))])
| lifecycle_escaped im h draws :
    Forall (is_drawing_on h) draws →
    lifecycle (acquire im h ++ [load_title; load_content] ++ draws)
| lifecycle_saved im h draws m :
    Forall (is_drawing_on h) draws →
    m = ImageSaved (output_path o) ∨ m = SaveFailed (output_path o) →
    let background := enhance_contrast contrast_factor (convert_rgba im) in
    lifecycle (acquire im h ++ [load_title; load_content] ++ draws
               ++ finish background h
                    (foldl draw_text (new_layer (im_size background) layer_color)
                           (texts_on h draws)) m).

End lifecycle.

Section composer_calls.
Context `{TextMeasure} `{Imaging image}.
Implicit Types (w : world image) (s : store image) (l : layer) (h : handle).

Lemma draw_all_prog_drawing h title content_lines title_font content_font width height o s :
  Forall (is_drawing_on h)
         (calls_of (draw_all_prog (DrawOn h) title content_lines title_font content_font
                                  width height o) s).
Proof.
  unfold draw_all_prog.
  apply Forall_calls_of_bind; [apply draw_styled_text_prog_drawing|]. intros _ s1.
  apply Forall_calls_of_bind; [apply Forall_calls_of_lift|]. intros spacing s2.
  apply Forall_calls_of_for_loop. intros y line s3. unfold draw_line_prog.
  apply Forall_calls_of_bind; [|intros; apply Forall_calls_of_lift].
  destruct (str_truthy (py_strip line)); [apply draw_styled_text_prog_drawing|constructor].
Qed.

Lemma calls_of_save_prog background h o s l :
  st_images s !! h = Some l →
  ∃ m, calls_of (save_prog background h o) s = finish o background h l m ∧
       (m = ImageSaved (output_path o) ∨ m = SaveFailed (output_path o)).
Proof.
  intros Hl. unfold save_prog, finish, compose. simpl. rewrite Hl. simpl.
  destruct (image_save _ _ _ _); simpl; eauto.
Qed.

(** The calls of the composer up to the drawing. *)
Lemma calls_of_create_styled_text_image_prog w images background_path title content_lines o :
  calls_of (create_styled_text_image_prog background_path title content_lines o)
           (Store w images)
  = match image_open (w_fs w) background_path with
    | None => [ImageOpen background_path; Print (BackgroundOpenFailed background_path)]
    | Some im =>
        let background := enhance_contrast contrast_factor (convert_rgba im) in
        let h := length images in
        let s1 := Store w (images ++ [new_layer (im_size background) layer_color]) in
        acquire background_path im h ++
        match truetype (w_fs w) (title_font_path o) (title_font_size o) with
        | None => [load_title o; Print (FontLoadFailed (title_font_path o))]
        | Some title_font =>
            match truetype (w_fs w) (content_font_path o) (content_font_size o) with
            | None => [load_title o; load_content o;
                       Print (FontLoadFailed (content_font_path o))]
            | Some content_font =>
                let draw_all := draw_all_prog (DrawOn h) title content_lines title_font
                                  content_font (im_size background).1
                                  (im_size background).2 o in
                [load_title o; load_content o] ++ calls_of draw_all s1 ++
                match exec draw_all s1 with
                | Some (s', Ok _) => calls_of (save_prog background h o) s'
                | _ => []
                end
            end
        end
    end.
Proof.
  unfold create_styled_text_image_prog.
  trace_call. destruct (image_open _ _) as [im|]; [|done].
  do 6 trace_call. destruct (truetype _ (title_font_path o) _) as [title_font|]; [|done].
  trace_call. destruct (truetype _ (content_font_path o) _) as [content_font|]; [|done].
  cbn zeta. unfold acquire. destruct (im_size _). by rewrite calls_of_bind.
Qed.

(** C21. Every call of the composer follows the lifecycle of the canvas:
    whatever the files and the arguments are, the calls it makes are the
    acquisition, then drawing calls through the one context on the layer
    and nothing else, then one composite of the layer these calls have
    made, one save and one message; or they stop before the drawing with
    one message, or within it when an exception escapes. *)
Theorem create_styled_text_image_lifecycle w images background_path title content_lines o :
  lifecycle background_path o
            (calls_of (create_styled_text_image_prog background_path title content_lines o)
                      (Store w images)).
Proof.
  rewrite calls_of_create_styled_text_image_prog.
  destruct (image_open _ _) as [im|]; [|constructor].
  destruct (truetype _ (title_font_path o) _) as [title_font|]; [|constructor].
  destruct (truetype _ (content_font_path o) _) as [content_font|]; [|constructor].
  cbn zeta. set (background := enhance_contrast contrast_factor (convert_rgba im)).
  set (txt := new_layer (im_size background) layer_color).
  set (s1 := Store w (images ++ [txt])). set (h := length images).
  set (draw_all := draw_all_prog _ _ _ _ _ _ _ _).
  assert (st_images s1 !! h = Some txt) as Htxt
    by (simpl; by rewrite lookup_app_r, Nat.sub_diag).
  pose proof (draw_all_prog_drawing h title content_lines title_font content_font
                (im_size background).1 (im_size background).2 o s1) as Hdraws.
  destruct (exec draw_all s1) as [[s' [y|e]]|] eqn:Hrun;
    [|rewrite app_nil_r; by constructor..].
  pose proof (exec_images _ _ _ _ h txt Hrun Htxt) as Himage.
  destruct (calls_of_save_prog background h o s' _ Himage) as (m & -> & Hm).
  by apply lifecycle_saved.
Qed.

End composer_calls.
