(* ===== verification/Pixels.v ===== *)
(** * Pixels: the drawing layer, alpha-over and flattening

    The specification describes the canvas as a background pixel buffer, a
    fully transparent text layer of the same size that the text is drawn
    into, the standard alpha-over composite of the layer on the background,
    and the flattening of the result to three opaque channels.  [Pillow]
    keeps the layer as the list of its [draw.text] calls; this file gives
    those calls their pixels.

    What the imaging library does inside is not code of the repository.
    The file fixes only what the program relies on, as three interfaces:

    - [TextRaster]: the glyph mask of a text ([coverage], 0 to 255), which
      is zero outside the bounding box [draw.textbbox] reports, and the
      blending of an ink into a pixel under a mask value ([blend]), which
      keeps the pixel at 0 and gives the ink at 255.  What a call at a
      position between two rows of pixels does is left to the library
      ([paint_fractional]), except that it changes no pixel outside the
      box of the text placed at the row above or at the row below;
    - [AlphaOver]: the over operator on one pixel, which gives the
      backdrop under a fully transparent source, the source when it is
      opaque, and an opaque result on an opaque backdrop;
    - [PixelImaging]: the pixels of a rendered layer, of an alpha
      composite and of a flattened image.

    [layer_pixel] is the pixel of a layer: its initial fill painted over by
    each call in order.  The lemmas say which calls matter for a pixel;
    [layer_equiv] relates layers with the same pixels, and drawing respects
    it.  The file closes with what one render of [draw_styled_text] does to
    a pixel.  Executable instances of the interfaces are in [Raster]. *)

From Stdlib Require Import ZArith Lia.
From stdpp Require Import base tactics option list strings gmap.
From S2P Require Import Prelude.
From S2P Require Import PyNum.
From S2P Require Import PyStr.
From S2P Require Import Pillow.
From S2P Require Import Renderer.
From S2P Require Import Composer.

#[local] Open Scope Z_scope.

(** ** Pixels *)

(** Four channels, each from 0 to 255. *)
Record pixel : Type := Pixel {
  red : Z;
  green : Z;
  blue : Z;
  alpha : Z;
}.

(** The ink of a colour tuple: a 3-tuple is opaque. *)
Definition pixel_of_color (c : color) : pixel :=
  match c with
  | RGB r g b => Pixel r g b 255
  | RGBA r g b a => Pixel r g b a
  end.

(** [convert('RGB')] on one pixel: the alpha channel is dropped, what is
    left is opaque. *)
Definition flatten (p : pixel) : pixel := Pixel (red p) (green p) (blue p) 255.

(** The pixel [(x, y)] lies in an image of the given size. *)
Definition in_bounds (size : Z * Z) (x y : Z) : Prop :=
  0 ≤ x < size.1 ∧ 0 ≤ y < size.2.

(** ** Bounding boxes *)

Definition bbox_top (b : bbox) : Z := b.1.1.2.
Definition bbox_bottom (b : bbox) : Z := b.2.

(** The point lies in the box; boxes are half open. *)
Definition in_bbox (b : bbox) (x y : Z) : bool :=
  bool_decide (bbox_left b ≤ x < bbox_right b ∧ bbox_top b ≤ y < bbox_bottom b).

(** ** Interfaces *)

(** Rasterised text. *)
Class TextRaster `{TextMeasure} : Type := {
  (** the glyph mask of the text drawn with its anchor at the origin *)
  coverage : font → pystr → Z → Z → Z;
  (** the pixel after an ink is drawn on it under a mask value *)
  blend : Z → pixel → pixel → pixel;
  (** the pixel after a call at a fractional position *)
  paint_fractional : draw_call → Z → Z → pixel → pixel;
  coverage_bbox f s x y : coverage f s x y ≠ 0 → in_bbox (textbbox f s) x y = true;
  blend_0 ink p : blend 0 ink p = p;
  blend_255 ink p : blend 255 ink p = ink;
  paint_fractional_rows c x y p row :
    py_floor (dc_y c) = Some row →
    in_bbox (textbbox (dc_font c) (dc_text c)) (x - dc_x c) (y - row) = false →
    in_bbox (textbbox (dc_font c) (dc_text c)) (x - dc_x c) (y - (row + 1)) = false →
    paint_fractional c x y p = p;
}.

(** Alpha-over on one pixel: [over s d] is the source [s] over the backdrop
    [d]. *)
Class AlphaOver : Type := {
  over : pixel → pixel → pixel;
  over_transparent s d : alpha s = 0 → over s d = d;
  over_opaque s d : alpha s = 255 → over s d = s;
  over_backdrop_opaque s d : alpha d = 255 → alpha (over s d) = 255;
}.

(** ** The pixels of a layer *)

Section layer_pixels.
Context `{TextRaster}.

(** One [draw.text] call on one pixel.  The mask is placed with its origin
    at the position of the call. *)
Definition paint (c : draw_call) (x y : Z) (p : pixel) : pixel :=
  match int_value (dc_y c) with
  | Some row =>
      blend (coverage (dc_font c) (dc_text c) (x - dc_x c) (y - row))
            (pixel_of_color (dc_fill c)) p
  | None => paint_fractional c x y p
  end.

(** The call may change the pixel: the pixel lies in the bounding box of
    the text placed at the position of the call; for a position between
    two rows, in the box placed at the row above or at the row below.
    Nothing is known of a call at a position that is not finite. *)
Definition touches (c : draw_call) (x y : Z) : bool :=
  match int_value (dc_y c) with
  | Some row => in_bbox (textbbox (dc_font c) (dc_text c)) (x - dc_x c) (y - row)
  | None =>
      match py_floor (dc_y c) with
      | Some row =>
          in_bbox (textbbox (dc_font c) (dc_text c)) (x - dc_x c) (y - row)
          || in_bbox (textbbox (dc_font c) (dc_text c)) (x - dc_x c) (y - (row + 1))
      | None => true
      end
  end.

(** The call covers the pixel fully. *)
Definition solid (c : draw_call) (x y : Z) : bool :=
  match int_value (dc_y c) with
  | Some row => bool_decide (coverage (dc_font c) (dc_text c) (x - dc_x c) (y - row) = 255)
  | None => false
  end.

(** The pixel of a layer: the initial fill, painted by each call in
    order. *)
Definition layer_pixel (l : layer) (x y : Z) : pixel :=
  foldl (λ p c, paint c x y p) (pixel_of_color (layer_fill l)) (layer_calls l).

End layer_pixels.

(** The pixels of whole images. *)
Class PixelImaging (image : Type) `{Imaging image} `{TextRaster} `{AlphaOver} : Type := {
  pixel_at : image → Z → Z → pixel;
  pixel_at_render_layer l x y :
    in_bounds (layer_size l) x y → pixel_at (render_layer l) x y = layer_pixel l x y;
  pixel_at_alpha_composite a b x y :
    im_size b = im_size a → in_bounds (im_size a) x y →
    pixel_at (alpha_composite a b) x y = over (pixel_at b x y) (pixel_at a x y);
  pixel_at_convert_rgb im x y :
    in_bounds (im_size im) x y → pixel_at (convert_rgb im) x y = flatten (pixel_at im x y);
}.

(** Two layers with the same pixels. *)
Definition layer_equiv `{TextRaster} (l1 l2 : layer) : Prop :=
  layer_size l1 = layer_size l2 ∧ ∀ x y, layer_pixel l1 x y = layer_pixel l2 x y.

(** ** Decidable equality *)

#[export] Instance pixel_eq_dec : EqDecision pixel.
Proof. solve_decision. Defined.

#[export] Instance in_bounds_dec size x y : Decision (in_bounds size x y).
Proof. unfold in_bounds. apply _. Defined.

(** ** Flattening *)

Lemma flatten_opaque p : alpha p = 255 → flatten p = p.
Proof. destruct p. simpl. by intros ->. Qed.

Lemma flatten_idemp p : flatten (flatten p) = flatten p.
Proof. done. Qed.

(** ** One call on one pixel *)

Section paint_lemmas.
Context `{TextRaster}.
Implicit Types (c : draw_call) (l : layer) (p : pixel).

(** A pixel outside the box of the text is not changed. *)
Lemma paint_untouched c x y p : touches c x y = false → paint c x y p = p.
Proof.
  unfold touches, paint. destruct (int_value (dc_y c)) as [row|].
  - intros Hbox.
    destruct (decide (coverage (dc_font c) (dc_text c) (x - dc_x c) (y - row) = 0))
      as [->|Hcov]; [apply blend_0|].
    apply coverage_bbox in Hcov. congruence.
  - destruct (py_floor (dc_y c)) as [row|] eqn:Hrow; [|done].
    intros [??]%orb_false_elim. by eapply paint_fractional_rows.
Qed.

(** A call whose position falls in the row [row] touches no pixel outside
    the box of the text placed at that row or at the row below. *)
Lemma touches_row c x y row :
  py_floor (dc_y c) = Some row →
  in_bbox (textbbox (dc_font c) (dc_text c)) (x - dc_x c) (y - row) = false →
  in_bbox (textbbox (dc_font c) (dc_text c)) (x - dc_x c) (y - (row + 1)) = false →
  touches c x y = false.
Proof.
  intros Hrow Hbox Hbox'. unfold touches.
  destruct (int_value (dc_y c)) as [r|] eqn:Hr.
  - apply int_value_py_floor in Hr. by simplify_eq.
  - by rewrite Hrow, Hbox, Hbox'.
Qed.

(** A pixel the glyphs cover fully takes the ink. *)
Lemma paint_solid c x y p : solid c x y = true → paint c x y p = pixel_of_color (dc_fill c).
Proof.
  unfold solid, paint. destruct (int_value (dc_y c)) as [row|]; [|done].
  intros ->%bool_decide_eq_true. apply blend_255.
Qed.

Lemma solid_touches c x y : solid c x y = true → touches c x y = true.
Proof.
  unfold solid, touches. destruct (int_value (dc_y c)) as [row|]; [|done].
  intros Hcov%bool_decide_eq_true. apply coverage_bbox. rewrite Hcov. done.
Qed.

(** A pixel that a call covers fully is in the box of its text, placed at
    the whole row of the call. *)
Lemma solid_in_bbox c x y :
  solid c x y = true →
  ∃ row, int_value (dc_y c) = Some row ∧
         in_bbox (textbbox (dc_font c) (dc_text c)) (x - dc_x c) (y - row) = true.
Proof.
  intros Hsolid. pose proof (solid_touches _ _ _ Hsolid) as Htouch.
  unfold solid, touches in *. destruct (int_value (dc_y c)) as [row|]; [eauto|done].
Qed.

(** A call with no text touches nothing. *)
Lemma touches_empty c x y :
  dc_text c = [] → is_Some (int_value (dc_y c)) → touches c x y = false.
Proof.
  intros Htext [row Hrow]. unfold touches, in_bbox. rewrite Hrow, Htext.
  apply bool_decide_eq_false. pose proof (textbbox_empty (dc_font c)). lia.
Qed.

(** ** The calls of a layer in order *)

Lemma layer_pixel_new_layer size fill x y :
  layer_pixel (new_layer size fill) x y = pixel_of_color fill.
Proof. done. Qed.

Lemma layer_pixel_draw_text l c x y :
  layer_pixel (draw_text l c) x y = paint c x y (layer_pixel l x y).
Proof. unfold layer_pixel. simpl. by rewrite foldl_app. Qed.

Lemma layer_pixel_foldl l cs x y :
  layer_pixel (foldl draw_text l cs) x y = foldl (λ p c, paint c x y p) (layer_pixel l x y) cs.
Proof.
  unfold layer_pixel. by rewrite foldl_draw_text_calls, foldl_draw_text_fill, foldl_app.
Qed.

Lemma foldl_paint_untouched cs x y p :
  Forall (λ c, touches c x y = false) cs → foldl (λ p c, paint c x y p) p cs = p.
Proof.
  intros Hcs. revert p. induction Hcs as [|c cs Hc _ IH]; intros p; simpl; [done|].
  by rewrite paint_untouched, IH.
Qed.

(** The last call that touches a pixel decides it when it covers it
    fully. *)
Lemma foldl_paint_last_solid cs1 c cs2 x y p :
  solid c x y = true → Forall (λ c', touches c' x y = false) cs2 →
  foldl (λ p c, paint c x y p) p (cs1 ++ c :: cs2) = pixel_of_color (dc_fill c).
Proof.
  intros Hc Hcs2. rewrite foldl_app. simpl.
  by rewrite foldl_paint_untouched, paint_solid.
Qed.

(** Calls of one ink that cover the pixel fully or not at all: once the
    pixel has the ink it keeps it, and one call that covers it is enough. *)
Lemma foldl_paint_same_ink_keeps cs fill x y :
  Forall (λ c, touches c x y = solid c x y ∧ dc_fill c = fill) cs →
  foldl (λ p c, paint c x y p) (pixel_of_color fill) cs = pixel_of_color fill.
Proof.
  induction 1 as [|c cs [Hc Hfill] _ IH]; simpl; [done|].
  destruct (solid c x y) eqn:Hsolid.
  - by rewrite paint_solid, Hfill.
  - by rewrite paint_untouched.
Qed.

Lemma foldl_paint_same_ink cs fill x y p :
  Exists (λ c, solid c x y = true) cs →
  Forall (λ c, touches c x y = solid c x y ∧ dc_fill c = fill) cs →
  foldl (λ p c, paint c x y p) p cs = pixel_of_color fill.
Proof.
  intros Hex Hall. revert p.
  induction Hall as [|c cs [Hc Hfill] Hall IH]; intros p; [by apply Exists_nil in Hex|].
  simpl. destruct (solid c x y) eqn:Hsolid.
  - rewrite paint_solid, Hfill by done. by apply foldl_paint_same_ink_keeps.
  - rewrite paint_untouched by congruence. apply IH.
    apply Exists_cons in Hex as [Hex|Hex]; [congruence|done].
Qed.

Lemma layer_pixel_untouched l x y :
  Forall (λ c, touches c x y = false) (layer_calls l) →
  layer_pixel l x y = pixel_of_color (layer_fill l).
Proof. apply foldl_paint_untouched. Qed.

(** ** Layers up to their pixels *)

#[export] Instance layer_equiv_equivalence : Equivalence layer_equiv.
Proof.
  split.
  - by intros l.
  - intros l1 l2 [Hsize Hpix]. split; [done|]. intros x y. by rewrite Hpix.
  - intros l1 l2 l3 [Hs12 Hp12] [Hs23 Hp23]. split; [congruence|].
    intros x y. by rewrite Hp12.
Qed.

#[export] Instance draw_text_proper : Proper (layer_equiv ==> (=) ==> layer_equiv) draw_text.
Proof.
  intros l1 l2 [Hsize Hpix] c ? <-. split; [done|].
  intros x y. by rewrite !layer_pixel_draw_text, Hpix.
Qed.

#[export] Instance layer_pixel_proper :
  Proper (layer_equiv ==> (=) ==> (=) ==> (=)) layer_pixel.
Proof. intros l1 l2 [_ Hpix] x ? <- y ? <-. apply Hpix. Qed.

(** Two calls that touch no common pixel can be made in either order. *)
Lemma draw_text_comm l c1 c2 :
  (∀ x y, touches c1 x y && touches c2 x y = false) →
  layer_equiv (draw_text (draw_text l c1) c2) (draw_text (draw_text l c2) c1).
Proof.
  intros Hdisj. split; [done|]. intros x y. rewrite !layer_pixel_draw_text.
  specialize (Hdisj x y). apply andb_false_iff in Hdisj as [Hc|Hc].
  - by rewrite !(paint_untouched c1).
  - by rewrite !(paint_untouched c2).
Qed.

(** A call that touches nothing can be left out. *)
Lemma draw_text_untouched l c :
  (∀ x y, touches c x y = false) → layer_equiv (draw_text l c) l.
Proof.
  intros Hc. split; [done|]. intros x y. by rewrite layer_pixel_draw_text, paint_untouched.
Qed.

End paint_lemmas.

(** ** The composed image *)

Section compose_pixels.
Context `{PixelImaging image}.

(** The pixel that is saved: the layer over the background, flattened. *)
Lemma pixel_at_compose background txt x y :
  layer_size txt = im_size background → in_bounds (im_size background) x y →
  pixel_at (compose background txt) x y
  = flatten (over (layer_pixel txt x y) (pixel_at background x y)).
Proof.
  intros Hsize Hxy. unfold compose.
  rewrite pixel_at_convert_rgb, pixel_at_alpha_composite, pixel_at_render_layer; try done.
  - by rewrite Hsize.
  - by rewrite im_size_render_layer.
  - rewrite im_size_alpha_composite; [done|]. by rewrite im_size_render_layer.
Qed.

(** Layers with the same pixels give the same image. *)
Lemma pixel_at_compose_proper background txt txt' x y :
  layer_equiv txt txt' →
  layer_size txt = im_size background → in_bounds (im_size background) x y →
  pixel_at (compose background txt) x y = pixel_at (compose background txt') x y.
Proof.
  intros [Hsize Hpix] Htxt Hxy.
  rewrite (pixel_at_compose background txt), (pixel_at_compose background txt')
    by (done || congruence).
  by rewrite Hpix.
Qed.

End compose_pixels.

(** ** The render on one pixel *)

Section render_pixels.
Context `{TextRaster}.

(** The calls a layer has gained decide a pixel when none of them touches
    it: the pixel is as it was. *)
Lemma layer_pixel_more_calls d d' cs x y :
  layer_calls d' = layer_calls d ++ cs → layer_fill d' = layer_fill d →
  Forall (λ c, touches c x y = false) cs →
  layer_pixel d' x y = layer_pixel d x y.
Proof.
  intros Hcalls Hfill Hcs. unfold layer_pixel. rewrite Hcalls, Hfill, foldl_app.
  by apply foldl_paint_untouched.
Qed.

(** The fill call of a render decides the pixels it covers fully. *)
Lemma layer_pixel_fill_solid draw text f position_y image_width st d' y' x y :
  draw_styled_text draw text f position_y image_width st = Ok (d', y') →
  solid (fill_call text f position_y (anchor text f image_width st) st) x y = true →
  layer_pixel d' x y = pixel_of_color (text_color st).
Proof.
  intros (cs & Hcs & -> & _)%draw_styled_text_Ok Hsolid.
  rewrite layer_pixel_foldl. by rewrite (foldl_paint_last_solid cs _ []).
Qed.

(** C37. After a render at a whole position, a pixel that the glyphs of the
    text cover fully has the fill colour of the text on the layer, whatever
    the layer held and whatever the stroke stamps drew there: the fill is
    on top of the stroke. *)
Theorem fill_on_top_of_stroke draw text f position_y image_width st d' y' x y :
  draw_styled_text draw text f position_y image_width st = Ok (d', y') →
  solid (fill_call text f position_y (anchor text f image_width st) st) x y = true →
  layer_pixel d' x y = pixel_of_color (text_color st).
Proof. apply layer_pixel_fill_solid. Qed.

(** C40. A render paints its stroke over what the layer held: a pixel that
    one of the stroke stamps covers fully, that no stroke stamp covers
    partly and that the fill does not touch has the stroke colour after the
    render, whatever earlier renders drew there. *)
Theorem stroke_covers_earlier_drawing draw text f position_y image_width st d' y' cs x y :
  draw_styled_text draw text f position_y image_width st = Ok (d', y') →
  stroke_calls text f position_y (anchor text f image_width st) st = Ok cs →
  Exists (λ c, solid c x y = true) cs →
  Forall (λ c, touches c x y = solid c x y) cs →
  touches (fill_call text f position_y (anchor text f image_width st) st) x y = false →
  layer_pixel d' x y = pixel_of_color (stroke_color st).
Proof.
  intros (cs' & Hcs' & -> & _)%draw_styled_text_Ok Hcs Hex Hall Hfill.
  assert (cs' = cs) as -> by congruence.
  rewrite layer_pixel_foldl, foldl_app. simpl. rewrite paint_untouched by done.
  apply foldl_paint_same_ink; [done|].
  apply stroke_calls_fill in Hcs. rewrite Forall_forall in Hall, Hcs.
  apply Forall_forall. intros c Hc. split; [by apply Hall|]. by apply Hcs.
Qed.

End render_pixels.
