(* ===== verification/Canvas.v ===== *)
(** * The pixels of the composed image

    What [create_styled_text_image] saves is
    [compose background txt]: the text layer over the background,
    flattened (src/demo4.py, lines 114-115).  With the pixel semantics of
    [Pixels] this file states what the composer does to single pixels of
    that image ([saved_pixel]): a pixel that no call touches shows the
    background; a render at a whole row touches no pixel outside its band
    ([render_band], the bounding box of the text widened by the stroke), so
    with an integer line spacing the picture changes within the bands of
    the title and of the body lines only; a pixel that the glyphs of a
    line cover fully is saved in the text colour unless a later line is
    drawn over it, which no line is when the line pitch is at least the
    height of the boxes plus the stroke width ([boxes_within]); body lines
    placed below the image change no pixel of it; when nothing but blank
    text is drawn the background is saved as it is; and on an opaque
    background the flattening drops nothing. *)

From Stdlib Require Import ZArith Lia.
From stdpp Require Import base tactics option list strings gmap.
From S2P Require Import Prelude.
From S2P Require Import PyNum.
From S2P Require Import PyStr.
From S2P Require Import Pillow.
From S2P Require Import Renderer.
From S2P Require Import Composer.
From S2P Require Import Pixels.

#[local] Open Scope Z_scope.

(** The pixel of the image that is saved, before it is encoded. *)
Definition saved_pixel `{PixelImaging image} (background : image) (txt : layer) (x y : Z)
    : pixel :=
  pixel_at (compose background txt) x y.

(** The band of a text rendered with its anchor at [(x0, row)] and a stroke
    of width [w]: its bounding box, widened by the stroke on every side. *)
Definition text_band `{TextMeasure} (f : font) (text : pystr) (x0 row w : Z) (x y : Z)
    : bool :=
  bool_decide (bbox_left (textbbox f text) - Z.max 0 w ≤ x - x0
               < bbox_right (textbbox f text) + Z.max 0 w ∧
               bbox_top (textbbox f text) - Z.max 0 w ≤ y - row
               < bbox_bottom (textbbox f text) + Z.max 0 w).

(** The band of a render of [draw_styled_text] at the row [row]. *)
Definition render_band `{TextMeasure} (f : font) (text : pystr) (image_width : Z)
    (st : text_style) (row : Z) (x y : Z) : bool :=
  text_band f text (anchor text f image_width st) row (stroke_width st) x y.

(** The boxes of the lines that are drawn lie between the row of the
    position and [height] rows below it. *)
Definition boxes_within `{TextMeasure} (f : font) (height : Z) (lines : list pystr) : Prop :=
  Forall (λ line, str_truthy (py_strip line) = true →
                  0 ≤ bbox_top (textbbox f line) ∧ bbox_bottom (textbbox f line) ≤ height)
         lines.

#[export] Instance boxes_within_dec `{TextMeasure} f height lines :
  Decision (boxes_within f height lines).
Proof. unfold boxes_within. apply _. Defined.

(** ** The layer after the drawing *)

Section drawing.
Context `{TextMeasure}.

(** The drawing keeps the size and the initial fill of the layer. *)
Lemma draw_all_layer txt title content_lines title_font content_font width height o d' y' :
  draw_all txt title content_lines title_font content_font width height o = Ok (d', y') →
  layer_size d' = layer_size txt ∧ layer_fill d' = layer_fill txt.
Proof.
  intros (d1 & sp & [<- <-]%draw_styled_text_layer & _ & Hd')%draw_all_Ok.
  revert Hd'. apply (foldM_invariant
    (λ s, layer_size s.1 = layer_size d1 ∧ layer_fill s.1 = layer_fill d1)); [|done].
  intros [d y] line [d2 y2] Hd [_ Hline]%draw_line_Ok. simpl in *.
  destruct (str_truthy (py_strip line)); [|by subst].
  apply draw_styled_text_layer in Hline as [-> ->]. done.
Qed.

(** The calls of a render on an [int] position, in full. *)
Lemma draw_styled_text_int_calls draw text f row width st d' y' :
  draw_styled_text draw text f (PyInt row) width st = Ok (d', y') →
  layer_calls d'
  = layer_calls draw
    ++ ((λ offset, DrawText (anchor text f width st + offset.1) (PyInt (row + offset.2))
                            text f (stroke_color st)) <$> stroke_offsets (stroke_width st))
    ++ [fill_call text f (PyInt row) (anchor text f width st) st].
Proof.
  intros (cs & Hcs & -> & _)%draw_styled_text_Ok.
  rewrite stroke_calls_int in Hcs. injection Hcs as <-. apply foldl_draw_text_calls.
Qed.

(** When every body line is blank the loop adds no call. *)
Lemma draw_content_blank_calls d f width st spacing content_lines y d' y' :
  Forall (λ line, forallb py_isspace line = true) content_lines →
  draw_content d f width st spacing content_lines y = Ok (d', y') →
  layer_calls d' = layer_calls d.
Proof.
  intros Hblank Hd. pose proof (draw_content_prefix _ _ _ _ _ _ _ _ _ Hd) as Hpre.
  apply draw_content_calls in Hd. rewrite filter_nonblank in Hd.
  rewrite filter_all_blank in Hd by done. simpl in Hd.
  symmetry. apply prefix_length_eq; [done|lia].
Qed.

End drawing.

(** ** Renders stay in their band *)

Section bands.
Context `{TextRaster}.

(** A stamp of the text at an offset of at most [w] touches no pixel
    outside the band. *)
Lemma touches_text_band f text x0 row w fill dx dy x y :
  - Z.max 0 w ≤ dx ≤ Z.max 0 w → - Z.max 0 w ≤ dy ≤ Z.max 0 w →
  text_band f text x0 row w x y = false →
  touches (DrawText (x0 + dx) (PyInt (row + dy)) text f fill) x y = false.
Proof.
  unfold text_band, touches, in_bbox. simpl. intros Hdx Hdy Hband%bool_decide_eq_false.
  apply bool_decide_eq_false. lia.
Qed.

(** A pixel in the box of a text lies above the band of a text placed far
    enough below it. *)
Lemma text_band_below f line f' line' x0 x0' row row' w height x y :
  in_bbox (textbbox f line) (x - x0) (y - row) = true →
  bbox_bottom (textbbox f line) ≤ height → 0 ≤ bbox_top (textbbox f' line') →
  row + height + Z.max 0 w ≤ row' →
  text_band f' line' x0' row' w x y = false.
Proof.
  unfold in_bbox, text_band. intros Hbox%bool_decide_eq_true Hbottom Htop Hrow.
  apply bool_decide_eq_false. lia.
Qed.

(** No pixel of the image is in the band of a text placed at or below
    its lower edge. *)
Lemma text_band_below_image f line x0 row w size x y :
  in_bounds size x y → 0 ≤ bbox_top (textbbox f line) → size.2 + Z.max 0 w ≤ row →
  text_band f line x0 row w x y = false.
Proof.
  unfold in_bounds, text_band. intros [_ Hy] Htop Hrow. apply bool_decide_eq_false. lia.
Qed.

(** The calls a layer has gained since [d], none of which touches the
    pixel. *)
Definition gained_untouched (d d' : layer) (x y : Z) : Prop :=
  layer_fill d' = layer_fill d ∧
  ∃ cs, layer_calls d' = layer_calls d ++ cs ∧ Forall (λ c, touches c x y = false) cs.

Lemma gained_untouched_refl d x y : gained_untouched d d x y.
Proof. split; [done|]. exists []. by rewrite app_nil_r. Qed.

Lemma gained_untouched_trans d1 d2 d3 x y :
  gained_untouched d1 d2 x y → gained_untouched d2 d3 x y → gained_untouched d1 d3 x y.
Proof.
  intros [Hf12 (cs1 & Hc12 & Hcs1)] [Hf23 (cs2 & Hc23 & Hcs2)]. split; [congruence|].
  exists (cs1 ++ cs2). split; [by rewrite Hc23, Hc12, app_assoc|by apply Forall_app].
Qed.

Lemma gained_untouched_pixel d d' x y :
  gained_untouched d d' x y → layer_pixel d' x y = layer_pixel d x y.
Proof. intros [Hfill (cs & Hcalls & Hcs)]. by eapply layer_pixel_more_calls. Qed.

Lemma gained_untouched_Forall d d' x y :
  gained_untouched d d' x y →
  Forall (λ c, touches c x y = false) (layer_calls d) →
  Forall (λ c, touches c x y = false) (layer_calls d').
Proof. intros [_ (cs & -> & Hcs)] Hd. by apply Forall_app. Qed.

(** A render at a whole row leaves the pixels outside its band as they
    are. *)
Lemma draw_styled_text_outside_band draw text f row image_width st d' y' x y :
  draw_styled_text draw text f (PyInt row) image_width st = Ok (d', y') →
  render_band f text image_width st row x y = false →
  gained_untouched draw d' x y.
Proof.
  intros Hd Hband. split; [by apply draw_styled_text_layer in Hd as [_ ?]|].
  apply draw_styled_text_int_calls in Hd. eexists. split; [done|].
  apply Forall_app. split.
  - apply Forall_fmap, Forall_forall. intros [dx dy] Hoff%elem_of_stroke_offsets. simpl.
    apply (touches_text_band _ _ _ _ (stroke_width st)); [lia..|done].
  - apply Forall_singleton. unfold fill_call.
    rewrite <- (Z.add_0_r (anchor _ _ _ _)), <- (Z.add_0_r row).
    apply (touches_text_band _ _ _ _ (stroke_width st)); [lia..|done].
Qed.

(** The loop over the body lines with an [int] spacing: line [i] is rendered
    at the start plus [i] spacings, and the pixels outside the bands of the
    lines that are drawn are left as they are. *)
Lemma draw_content_outside_bands d f width st s content_lines start d' y' x y :
  draw_content d f width st (PyInt s) content_lines (PyInt start) = Ok (d', y') →
  (∀ i line, content_lines !! i = Some line → str_truthy (py_strip line) = true →
             render_band f line width st (start + Z.of_nat i * s) x y = false) →
  gained_untouched d d' x y.
Proof.
  revert d start. induction content_lines as [|line rest IH]; intros d start.
  - intros [= <- <-] _. apply gained_untouched_refl.
  - intros (d1 & y1 & [Hy Hline]%draw_line_Ok & Hrest)%draw_content_cons_Ok Hbands.
    injection Hy as <-. apply (gained_untouched_trans _ d1).
    + specialize (Hbands O line eq_refl). rewrite Z.mul_0_l, Z.add_0_r in Hbands.
      destruct (str_truthy (py_strip line)); [|subst; apply gained_untouched_refl].
      by eapply draw_styled_text_outside_band; [done|apply Hbands].
    + apply (IH _ _ Hrest). intros i line' Hi Hnb. specialize (Hbands (S i) line' Hi Hnb).
      by replace (start + s + Z.of_nat i * s) with (start + Z.of_nat (S i) * s) by lia.
Qed.

End bands.

(** ** Claims *)

Section canvas.
Context `{PixelImaging image}.
Context (background : image).

(** The pixel saved where the layer is still transparent. *)
Lemma pixel_at_compose_untouched txt x y :
  layer_size txt = im_size background → layer_fill txt = layer_color →
  in_bounds (im_size background) x y →
  Forall (λ c, touches c x y = false) (layer_calls txt) →
  saved_pixel background txt x y = flatten (pixel_at background x y).
Proof.
  intros Hsize Hfill Hxy Hcalls. unfold saved_pixel.
  rewrite pixel_at_compose, layer_pixel_untouched, Hfill by done.
  by rewrite over_transparent.
Qed.

(** C38. A pixel that no [draw.text] call of the drawing touches is saved
    as the pixel of the background, flattened: the text layer is
    transparent wherever no text was drawn, and alpha-over leaves the
    backdrop as it is there. *)
Theorem untouched_pixel_is_background title content_lines title_font content_font o d y' x y :
  draw_all (new_layer (im_size background) layer_color) title content_lines
           title_font content_font (im_size background).1 (im_size background).2 o
  = Ok (d, y') →
  in_bounds (im_size background) x y →
  Forall (λ c, touches c x y = false) (layer_calls d) →
  saved_pixel background d x y = flatten (pixel_at background x y).
Proof.
  intros [Hsize Hfill]%draw_all_layer Hxy Hcalls.
  by apply pixel_at_compose_untouched.
Qed.

(** C39. With an integer line-spacing multiplier [k], a pixel outside the
    band of the title at [height // 6] and outside the band of every
    non-blank body line [i] at the start plus [i] times the spacing is
    saved as the pixel of the background, flattened: the text changes the
    picture only within its bounding boxes widened by the stroke. *)
Theorem outside_bands_is_background title content_lines title_font content_font o k d y' x y :
  content_line_spacing o = PyInt k →
  draw_all (new_layer (im_size background) layer_color) title content_lines
           title_font content_font (im_size background).1 (im_size background).2 o
  = Ok (d, y') →
  in_bounds (im_size background) x y →
  render_band title_font title (im_size background).1 (title_style o)
              (title_y (im_size background).2) x y = false →
  (∀ i line, content_lines !! i = Some line → str_truthy (py_strip line) = true →
     render_band content_font line (im_size background).1 (content_style o)
                 (content_start (title_y (im_size background).2) o
                  + Z.of_nat i * (content_font_size o * k)) x y = false) →
  saved_pixel background d x y = flatten (pixel_at background x y).
Proof.
  intros Hk Hd Hxy Htitle Hlines. pose proof Hd as [Hsize Hfill]%draw_all_layer.
  apply pixel_at_compose_untouched; [done..|].
  apply draw_all_Ok in Hd as (d1 & sp & Hd1 & Hsp & Hd).
  unfold line_spacing in Hsp. rewrite Hk, py_mul_int in Hsp. injection Hsp as <-.
  eapply gained_untouched_Forall; [by eapply draw_content_outside_bands|].
  eapply gained_untouched_Forall; [by eapply draw_styled_text_outside_band|constructor].
Qed.

(** A pixel that the fill of a render covers fully, and that the drawing
    after the render leaves as it is, is saved in the text colour when that
    colour is opaque. *)
Lemma line_fill_is_saved d1 line f position width st d2 d x y :
  draw_styled_text d1 line f position width st = Ok (d2, position) →
  layer_size d = im_size background → in_bounds (im_size background) x y →
  alpha (pixel_of_color (text_color st)) = 255 →
  solid (fill_call line f position (anchor line f width st) st) x y = true →
  gained_untouched d2 d x y →
  saved_pixel background d x y = pixel_of_color (text_color st).
Proof.
  intros Hline Hsize Hxy Hopaque Hsolid Hrest.
  unfold saved_pixel. rewrite pixel_at_compose by done.
  rewrite (gained_untouched_pixel d2 d) by done.
  rewrite (layer_pixel_fill_solid _ _ _ _ _ _ _ _ _ _ Hline Hsolid).
  by rewrite over_opaque, flatten_opaque.
Qed.

(** The text shows in the picture: with an integer line-spacing
    multiplier [k] and an opaque text colour, a pixel that the glyphs of
    body line [i] cover fully, and that lies in the band of no later line,
    is saved in the text colour of the body, whatever the background is
    there. *)
Theorem body_line_fill_is_saved title content_lines title_font content_font o k d y' i line
    x y :
  content_line_spacing o = PyInt k →
  draw_all (new_layer (im_size background) layer_color) title content_lines
           title_font content_font (im_size background).1 (im_size background).2 o
  = Ok (d, y') →
  in_bounds (im_size background) x y →
  content_lines !! i = Some line → str_truthy (py_strip line) = true →
  alpha (pixel_of_color (content_color o)) = 255 →
  solid (fill_call line content_font
                   (PyInt (content_start (title_y (im_size background).2) o
                           + Z.of_nat i * (content_font_size o * k)))
                   (anchor line content_font (im_size background).1 (content_style o))
                   (content_style o)) x y = true →
  (∀ j line', (i < j)%nat → content_lines !! j = Some line' →
     str_truthy (py_strip line') = true →
     render_band content_font line' (im_size background).1 (content_style o)
                 (content_start (title_y (im_size background).2) o
                  + Z.of_nat j * (content_font_size o * k)) x y = false) →
  saved_pixel background d x y = pixel_of_color (content_color o).
Proof.
  intros Hk Hd Hxy Hi Hnb Hopaque Hsolid Hlater.
  pose proof Hd as [Hsize _]%draw_all_layer.
  apply draw_all_Ok in Hd as (d0 & sp & _ & Hsp & Hd).
  unfold line_spacing in Hsp. rewrite Hk, py_mul_int in Hsp. injection Hsp as <-.
  destruct (draw_content_render_at _ _ _ _ _ _ _ _ _ _ _ Hd Hi Hnb)
    as (d1 & yi & d2 & y2 & Hyi & Hy2 & Hline & Hpost).
  rewrite cursor_after_int in Hyi, Hy2. injection Hyi as <-. injection Hy2 as <-.
  apply (line_fill_is_saved _ _ _ _ _ _ _ _ _ _ Hline); [done..|].
  eapply draw_content_outside_bands; [done|]. intros j line' Hj Hnb'.
  rewrite lookup_drop in Hj.
  replace (_ + Z.of_nat (S i) * _ + _) with
    (content_start (title_y (im_size background).2) o
     + Z.of_nat (S i + j) * (content_font_size o * k)) by lia.
  apply (Hlater _ line'); [lia|done..].
Qed.

(** C28. The body is legible when its lines are far enough apart: with an
    integer line-spacing multiplier [k], an opaque text colour, the boxes of
    the lines between their position and [height] rows below it, and a
    line pitch [content_font_size * k] of at least [height] plus the stroke
    width, every pixel that the glyphs of a body line cover fully is saved
    in the text colour of the body: no later line is drawn over it. *)
Theorem spaced_lines_show title content_lines title_font content_font o k height d y' i line
    x y :
  content_line_spacing o = PyInt k →
  boxes_within content_font height content_lines →
  height + Z.max 0 (content_stroke_width o) ≤ content_font_size o * k →
  draw_all (new_layer (im_size background) layer_color) title content_lines
           title_font content_font (im_size background).1 (im_size background).2 o
  = Ok (d, y') →
  in_bounds (im_size background) x y →
  content_lines !! i = Some line → str_truthy (py_strip line) = true →
  alpha (pixel_of_color (content_color o)) = 255 →
  solid (fill_call line content_font
                   (PyInt (content_start (title_y (im_size background).2) o
                           + Z.of_nat i * (content_font_size o * k)))
                   (anchor line content_font (im_size background).1 (content_style o))
                   (content_style o)) x y = true →
  saved_pixel background d x y = pixel_of_color (content_color o).
Proof.
  intros Hk Hbox Hpitch Hd Hxy Hi Hnb Hopaque Hsolid.
  eapply body_line_fill_is_saved; [done..|]. intros j line' Hij Hj Hnb'.
  apply solid_in_bbox in Hsolid as (row & [= <-] & Hin). unfold boxes_within in Hbox.
  rewrite Forall_lookup in Hbox.
  destruct (Hbox _ _ Hi Hnb) as [Htop Hbottom], (Hbox _ _ Hj Hnb') as [Htop' _].
  eapply (text_band_below _ line); [exact Hin|done..|].
  apply bool_decide_eq_true in Hin. simpl in Hin.
  change (stroke_width (content_style o)) with (content_stroke_width o).
  assert (1 ≤ Z.of_nat j - Z.of_nat i) by lia. nia.
Qed.

(** The title is legible when the body starts far enough below it: with
    an integer multiplier [k] that is not negative, an opaque title colour,
    the box of the title within [height] rows below [height // 6], the tops
    of the boxes of the body lines at or below their position, and
    [title_font_size + title_content_spacing] of at least [height] plus the
    stroke width of the body, every pixel that the glyphs of the title cover
    fully is saved in the colour of the title. *)
Theorem title_shows title content_lines title_font content_font o k height body_height d y'
    x y :
  content_line_spacing o = PyInt k → 0 ≤ content_font_size o * k →
  bbox_bottom (textbbox title_font title) ≤ height →
  boxes_within content_font body_height content_lines →
  height + Z.max 0 (content_stroke_width o) ≤ title_font_size o + title_content_spacing o →
  draw_all (new_layer (im_size background) layer_color) title content_lines
           title_font content_font (im_size background).1 (im_size background).2 o
  = Ok (d, y') →
  in_bounds (im_size background) x y →
  alpha (pixel_of_color (title_color o)) = 255 →
  solid (fill_call title title_font (PyInt (title_y (im_size background).2))
                   (anchor title title_font (im_size background).1 (title_style o))
                   (title_style o)) x y = true →
  saved_pixel background d x y = pixel_of_color (title_color o).
Proof.
  intros Hk Hpitch Hbottom Hbox Hgap Hd Hxy Hopaque Hsolid.
  pose proof Hd as [Hsize _]%draw_all_layer.
  apply draw_all_Ok in Hd as (d1 & sp & Htitle & Hsp & Hd).
  unfold line_spacing in Hsp. rewrite Hk, py_mul_int in Hsp. injection Hsp as <-.
  apply (line_fill_is_saved _ _ _ _ _ _ _ _ _ _ Htitle); [done..|].
  eapply draw_content_outside_bands; [done|]. intros j line Hj Hnb.
  apply solid_in_bbox in Hsolid as (row & [= <-] & Hin).
  unfold boxes_within in Hbox. rewrite Forall_lookup in Hbox.
  destruct (Hbox _ _ Hj Hnb) as [Htop _].
  eapply (text_band_below _ title); [exact Hin|done..|].
  change (stroke_width (content_style o)) with (content_stroke_width o).
  unfold content_start. nia.
Qed.

(** C31. Body lines below the lower edge of the image change nothing: with an
    integer multiplier [k] that is not negative, when line [n] is placed at
    or below the lower edge plus the stroke width, the picture that is saved
    is the picture of the drawing with the first [n] lines only.  The calls
    for the lines from [n] on are made all the same. *)
Theorem lines_below_image_unseen title content_lines title_font content_font o k height n
    d y' dn yn x y :
  content_line_spacing o = PyInt k → 0 ≤ content_font_size o * k →
  boxes_within content_font height content_lines →
  (im_size background).2 + Z.max 0 (content_stroke_width o)
  ≤ content_start (title_y (im_size background).2) o + Z.of_nat n * (content_font_size o * k) →
  draw_all (new_layer (im_size background) layer_color) title content_lines
           title_font content_font (im_size background).1 (im_size background).2 o
  = Ok (d, y') →
  draw_all (new_layer (im_size background) layer_color) title (take n content_lines)
           title_font content_font (im_size background).1 (im_size background).2 o
  = Ok (dn, yn) →
  in_bounds (im_size background) x y →
  saved_pixel background d x y = saved_pixel background dn x y.
Proof.
  intros Hk Hpitch Hbox Hlow Hd Hdn Hxy.
  pose proof Hd as [Hsize _]%draw_all_layer. pose proof Hdn as [Hsizen _]%draw_all_layer.
  apply draw_all_Ok in Hd as (d1 & sp & Htitle & Hsp & Hd).
  apply draw_all_Ok in Hdn as (d1' & sp' & Htitle' & Hsp' & Hdn).
  rewrite Htitle in Htitle'. rewrite Hsp in Hsp'. injection Htitle' as <-.
  injection Hsp' as <-. unfold line_spacing in Hsp. rewrite Hk, py_mul_int in Hsp.
  injection Hsp as <-.
  destruct (draw_content_take_drop _ _ _ _ _ _ _ n _ _ Hd) as (d2 & y2 & Hpre & Hpost).
  pose proof (draw_content_cursor_after _ _ _ _ _ _ _ _ _ Hpre) as Hy2.
  rewrite Hdn in Hpre. injection Hpre as <- <-. rewrite cursor_after_int in Hy2.
  injection Hy2 as <-.
  unfold saved_pixel. rewrite !pixel_at_compose by done.
  rewrite (gained_untouched_pixel dn d); [done|].
  eapply draw_content_outside_bands; [done|].
  intros j line Hj Hnb. rewrite lookup_drop in Hj. unfold boxes_within in Hbox.
  rewrite Forall_lookup in Hbox. destruct (Hbox _ _ Hj Hnb) as [Htop _].
  apply (text_band_below_image _ _ _ _ _ (im_size background)); [done..|].
  change (stroke_width (content_style o)) with (content_stroke_width o).
  apply lookup_lt_Some in Hj. rewrite length_take_le by lia. nia.
Qed.

(** When the title is empty and every body line is blank, every pixel
    of the image that is saved is the pixel of the background, flattened:
    the calls made for the empty title touch nothing. *)
Theorem blank_text_keeps_background content_lines title_font content_font o d y' x y :
  Forall (λ line, forallb py_isspace line = true) content_lines →
  draw_all (new_layer (im_size background) layer_color) [] content_lines
           title_font content_font (im_size background).1 (im_size background).2 o
  = Ok (d, y') →
  in_bounds (im_size background) x y →
  saved_pixel background d x y = flatten (pixel_at background x y).
Proof.
  intros Hblank Hd Hxy. pose proof Hd as [Hsize Hfill]%draw_all_layer.
  apply pixel_at_compose_untouched; [done..|].
  apply draw_all_Ok in Hd as (d1 & sp & Hd1%draw_styled_text_int_calls & _ & Hd).
  apply (draw_content_blank_calls _ _ _ _ _ _ _ _ _ Hblank) in Hd. rewrite Hd, Hd1. simpl.
  apply Forall_app. split; [|by apply Forall_singleton, touches_empty].
  apply Forall_fmap, Forall_true. intros offset. by apply touches_empty.
Qed.

(** On an opaque background the composite is opaque before it is
    flattened: flattening drops nothing that was visible. *)
Theorem opaque_background_opaque_composite txt x y :
  layer_size txt = im_size background → in_bounds (im_size background) x y →
  alpha (pixel_at background x y) = 255 →
  saved_pixel background txt x y = over (layer_pixel txt x y) (pixel_at background x y).
Proof.
  intros Hsize Hxy Hopaque. unfold saved_pixel. rewrite pixel_at_compose by done.
  by apply flatten_opaque, over_backdrop_opaque.
Qed.

End canvas.
