(* ===== verification/Margins.v ===== *)
(** * The text and the margins

    [draw_styled_text] measures the text with [draw.textbbox((0, 0), ...)],
    keeps the width of the box and places the anchor by the alignment
    (lines 137 to 149 of [src/demo4.py]); every [draw.text] call of the
    render is at that anchor, shifted by a stroke offset.  This file follows
    the anchor through the whole drawing: when the title and the body lines
    that are drawn fit between the margins, every call of the drawing is
    between the margins widened by the stroke.

    The box that [textbbox] reports at the origin starts at [bbox_left],
    which the code subtracts for the width and then drops: the ink of a
    call at [x] is between [x + bbox_left] and [x + bbox_right]
    ([ink_left], [ink_right]).  [ink_by_alignment] says where that puts the
    ink for each alignment: it is the position the arithmetic of the anchor
    aims at, shifted right by [bbox_left]. *)

From Stdlib Require Import ZArith Lia.
From stdpp Require Import base tactics option list strings.
From S2P Require Import Prelude.
From S2P Require Import PyNum.
From S2P Require Import PyStr.
From S2P Require Import Pillow.
From S2P Require Import Renderer.
From S2P Require Import Composer.
From S2P Require Import Pixels.

#[local] Open Scope Z_scope.

(** ** Definitions *)

(** The columns of the box of a call: where [draw.text] can put ink. *)
Definition ink_left `{TextMeasure} (c : draw_call) : Z :=
  dc_x c + bbox_left (textbbox (dc_font c) (dc_text c)).

Definition ink_right `{TextMeasure} (c : draw_call) : Z :=
  dc_x c + bbox_right (textbbox (dc_font c) (dc_text c)).

(** The text fits between the margins: [text_width <= available_width]. *)
Definition fits `{TextMeasure} (image_width : Z) (st : text_style) (f : font) (text : pystr)
    : Prop :=
  text_width f text
  ≤ available_width image_width (Renderer.margin_left st) (Renderer.margin_right st).

(** The call is anchored at or right of the left margin and its text ends
    at or left of the right margin, up to [w] pixels. *)
Definition within_margins `{TextMeasure} (image_width left right w : Z) (c : draw_call)
    : Prop :=
  left - w ≤ dc_x c ∧
  dc_x c + text_width (dc_font c) (dc_text c) ≤ image_width - right + w.

(** What a caller can pass as [align]: a member of [TextAlign], or another
    value, such as the string that is the value of a member. *)
Inductive align_arg : Type :=
| AlignMember (a : TextAlign)
| AlignStr (s : string).

#[export] Instance align_arg_eq_dec : EqDecision align_arg.
Proof. solve_decision. Defined.

(** The branch that the [if], [elif] and [else] of lines 144 to 149 take.
    [TextAlign] is a plain [Enum]: a member equals itself only, and a
    string equals no member, so every value but [LEFT] and [CENTER] takes
    the branch of [RIGHT]. *)
Definition align_branch (v : align_arg) : TextAlign :=
  if decide (v = AlignMember LEFT) then LEFT
  else if decide (v = AlignMember CENTER) then CENTER
  else RIGHT.

(** The widest stroke of a drawing. *)
Definition widest_stroke (o : options) : Z :=
  Z.max 0 (Z.max (title_stroke_width o) (content_stroke_width o)).

#[export] Instance fits_dec `{TextMeasure} image_width st f text :
  Decision (fits image_width st f text).
Proof. unfold fits. apply _. Defined.

#[export] Instance within_margins_dec `{TextMeasure} image_width left right w c :
  Decision (within_margins image_width left right w c).
Proof. unfold within_margins. apply _. Defined.

(** ** The alignment argument *)

(** A member selects its own branch. *)
Lemma align_branch_member a : align_branch (AlignMember a) = a.
Proof. by destruct a. Qed.

(** The value of a member is not the member: ["left"] and ["center"] are
    aligned to the right, as every other string is. *)
Lemma align_branch_value a : align_branch (AlignStr (TextAlign_value a)) = RIGHT.
Proof. done. Qed.

(** ** The box of a call *)

Section ink.
Context `{TextRaster}.

(** The width the code computes is the width of the ink. *)
Lemma ink_width c : ink_right c - ink_left c = text_width (dc_font c) (dc_text c).
Proof. unfold ink_right, ink_left, text_width. lia. Qed.

(** A call at a finite position touches no pixel left or right of its
    ink. *)
Lemma touches_ink c x y :
  is_Some (py_floor (dc_y c)) → touches c x y = true → ink_left c ≤ x < ink_right c.
Proof.
  intros [row Hrow]. unfold touches, ink_left, ink_right, in_bbox. rewrite Hrow.
  destruct (int_value (dc_y c)).
  - intros ?%bool_decide_eq_true. lia.
  - intros [?%bool_decide_eq_true| ?%bool_decide_eq_true]%orb_true_iff; lia.
Qed.

End ink.

(** ** The calls of a render *)

Section render.
Context `{TextMeasure}.
Context (text : pystr) (f : font) (image_width : Z) (st : text_style).

Lemma within_margins_mono left right w w' c :
  w ≤ w' → within_margins image_width left right w c →
  within_margins image_width left right w' c.
Proof. unfold within_margins. lia. Qed.

(** A text that fits is anchored between the margins, for every
    alignment. *)
Lemma anchor_within_margins :
  fits image_width st f text →
  Renderer.margin_left st ≤ anchor text f image_width st ∧
  anchor text f image_width st + text_width f text ≤ image_width - Renderer.margin_right st.
Proof.
  unfold fits, anchor. pose proof (textbbox_width f text). fold (text_width f text) in *.
  destruct (align st); unfold text_x, available_width; zdiv.
Qed.

(** The stroke stamps of a text that fits leave the margins by at most the
    stroke width. *)
Lemma stroke_calls_within_margins position_y cs :
  fits image_width st f text →
  stroke_calls text f position_y (anchor text f image_width st) st = Ok cs →
  Forall (within_margins image_width (Renderer.margin_left st) (Renderer.margin_right st)
                         (Z.max 0 (stroke_width st))) cs.
Proof.
  intros [Hl Hr]%anchor_within_margins Hcs%mapM_result_Ok.
  apply (Forall2_Forall_r _ _ _ _ Hcs), Forall_forall.
  intros [dx dy] (_ & Hdx & _)%elem_of_stroke_offsets c
         (Hx & _ & Htext & Hfont & _)%stroke_call_fields.
  unfold within_margins. rewrite Hx, Htext, Hfont. simpl. lia.
Qed.

(** The calls a render of a text that fits adds to the layer. *)
Lemma draw_styled_text_within_margins draw position_y d' y' :
  fits image_width st f text →
  draw_styled_text draw text f position_y image_width st = Ok (d', y') →
  ∃ cs, layer_calls d' = layer_calls draw ++ cs ∧
        Forall (within_margins image_width (Renderer.margin_left st)
                               (Renderer.margin_right st) (Z.max 0 (stroke_width st))) cs.
Proof.
  intros Hfits (cs & Hcs & -> & _)%draw_styled_text_Ok.
  eexists. split; [apply foldl_draw_text_calls|]. apply Forall_app. split.
  - by eapply stroke_calls_within_margins.
  - apply Forall_singleton. apply anchor_within_margins in Hfits.
    unfold within_margins, fill_call. simpl. lia.
Qed.

End render.

(** ** The calls of the drawing *)

Section drawing.
Context `{TextMeasure}.

(** The loop over the body lines keeps a bound that holds of the calls of
    the layer, when the lines it draws fit. *)
Lemma draw_content_within_margins d content_font width st spacing content_lines y d' y' w :
  Z.max 0 (stroke_width st) ≤ w →
  Forall (λ line, str_truthy (py_strip line) = true → fits width st content_font line)
         content_lines →
  draw_content d content_font width st spacing content_lines y = Ok (d', y') →
  Forall (within_margins width (Renderer.margin_left st) (Renderer.margin_right st) w)
         (layer_calls d) →
  Forall (within_margins width (Renderer.margin_left st) (Renderer.margin_right st) w)
         (layer_calls d').
Proof.
  intros Hw Hfit. revert d y.
  induction Hfit as [|line rest Hline _ IH]; intros d y; [by intros [= <- <-]|].
  intros (d1 & y1 & [_ Hd1]%draw_line_Ok & Hrest)%draw_content_cons_Ok Hd.
  apply (IH _ _ Hrest). destruct (str_truthy (py_strip line)); [|by subst].
  destruct (draw_styled_text_within_margins _ _ _ _ _ _ _ _ (Hline eq_refl) Hd1)
    as (cs & -> & Hcs).
  apply Forall_app. split; [done|].
  by eapply Forall_impl; [done|]; intros c; apply within_margins_mono.
Qed.

(** C22. When the title and every body line that is drawn fit between the
    margins, every [draw.text] call of the drawing is anchored no further
    left than the left margin less the widest stroke, and its text ends no
    further right than the right margin plus the widest stroke. *)
Theorem draw_all_within_margins size title content_lines title_font content_font o d y' :
  fits size.1 (title_style o) title_font title →
  Forall (λ line, str_truthy (py_strip line) = true →
                  fits size.1 (content_style o) content_font line) content_lines →
  draw_all (new_layer size layer_color) title content_lines title_font content_font
           size.1 size.2 o = Ok (d, y') →
  Forall (within_margins size.1 (Composer.margin_left o) (Composer.margin_right o)
                         (widest_stroke o)) (layer_calls d).
Proof.
  intros Htitle Hlines (d1 & sp & Hd1 & _ & Hd)%draw_all_Ok.
  apply (draw_content_within_margins _ _ _ _ _ _ _ _ _ (widest_stroke o)) in Hd;
    [done|simpl; unfold widest_stroke; lia|done|].
  destruct (draw_styled_text_within_margins _ _ _ _ _ _ _ _ Htitle Hd1) as (cs & -> & Hcs).
  simpl. eapply Forall_impl; [done|]. intros c. apply within_margins_mono.
  simpl; unfold widest_stroke; lia.
Qed.

(** C24. The ink of the fill call by alignment.  LEFT puts the left edge of
    the ink [bbox_left] right of the left margin; RIGHT puts its right edge
    [bbox_left] right of the right margin; CENTER leaves to the right of the
    ink the gap on its left, plus the remainder of the free space modulo two,
    less twice [bbox_left].  The text is where the alignment aims only when
    the box that [textbbox] reports at the origin starts at column 0. *)
Theorem ink_by_alignment text f position_y image_width st :
  let c := fill_call text f position_y (anchor text f image_width st) st in
  let bearing := bbox_left (textbbox f text) in
  match align st with
  | LEFT => ink_left c = Renderer.margin_left st + bearing
  | RIGHT => ink_right c = image_width - Renderer.margin_right st + bearing
  | CENTER =>
      (image_width - Renderer.margin_right st - ink_right c)
      - (ink_left c - Renderer.margin_left st)
      = (available_width image_width (Renderer.margin_left st) (Renderer.margin_right st)
         - text_width f text) mod 2 - 2 * bearing
  end.
Proof.
  unfold ink_left, ink_right, fill_call, anchor, text_width. simpl.
  destruct (align st); unfold text_x, available_width; zdiv.
Qed.

End drawing.
