(* ===== verification/Raster.v ===== *)
(** * Executable pixels

    Instances of the interfaces of [Pixels], so that the pixel semantics
    can be evaluated: glyphs that fill the cells of the fixed-pitch text
    measure ([block_raster]), alpha-over in integers with rounding to the
    nearest value ([rounded_over]), and the symbolic images of [Pillow]
    read as pixels ([sym_pixels]).  The pixels of a photo, and of what
    decoding, conversion to RGBA, contrast enhancement and encoding make of
    it, are a parameter. *)

From Stdlib Require Import ZArith Lia SpecFloat.
From stdpp Require Import base tactics option list strings gmap.
From S2P Require Import Prelude.
From S2P Require Import PyNum.
From S2P Require Import PyStr.
From S2P Require Import Pillow.
From S2P Require Import Renderer.
From S2P Require Import Composer.
From S2P Require Import Pixels.

#[local] Open Scope Z_scope.

(** ** Arithmetic on channels *)

(** [n / d] rounded to the nearest integer. *)
Definition div_round (n d : Z) : Z := (2 * n + d) / (2 * d).

(** The channel between [b] (mask 0) and [a] (mask 255). *)
Definition mix (m a b : Z) : Z := div_round (a * m + b * (255 - m)) 255.

(** Linear blending of an ink into a pixel, channel by channel. *)
Definition blend_linear (m : Z) (ink p : pixel) : pixel :=
  Pixel (mix m (red ink) (red p)) (mix m (green ink) (green p))
        (mix m (blue ink) (blue p)) (mix m (alpha ink) (alpha p)).

(** ** Block glyphs *)

(** Every character fills its cell of the fixed-pitch measure. *)
Definition block_coverage (f : font) (s : pystr) (x y : Z) : Z :=
  if in_bbox (fixed_pitch_bbox f s) x y then 255 else 0.

(** A call at a fractional position is placed at the row below it. *)
Definition block_paint_fractional (c : draw_call) (x y : Z) (p : pixel) : pixel :=
  match py_floor (dc_y c) with
  | Some row =>
      blend_linear (block_coverage (dc_font c) (dc_text c) (x - dc_x c) (y - row))
                   (pixel_of_color (dc_fill c)) p
  | None => p
  end.

(** ** Alpha-over in integers *)

(** The source over the backdrop, with straight alpha: the result alpha is
    [a_s + a_d (1 - a_s)] and each channel is the average of the two
    channels weighted by their share of it. *)
Definition over_rounded (s d : pixel) : pixel :=
  if decide (alpha s = 0) then d
  else
    let share_d := alpha d * (255 - alpha s) in
    let total := 255 * alpha s + share_d in
    let channel cs cd := div_round (cs * 255 * alpha s + cd * share_d) total in
    Pixel (channel (red s) (red d)) (channel (green s) (green d))
          (channel (blue s) (blue d)) (div_round total 255).

(** ** Symbolic images as pixels *)

(** The pixels of an image given by the operations that made it; [base]
    gives the pixels of the images that are not layers, composites or
    flattened images. *)
Fixpoint sym_pixel `{TextRaster} `{AlphaOver} (base : sym_image → Z → Z → pixel)
    (im : sym_image) (x y : Z) : pixel :=
  match im with
  | SymLayer l => layer_pixel l x y
  | SymComposite bottom top => over (sym_pixel base top x y) (sym_pixel base bottom x y)
  | SymConvertRGB im' => flatten (sym_pixel base im' x y)
  | _ => base im x y
  end.

(** ** Laws *)

Lemma div_round_mul n d : 0 < d → div_round (n * d) d = n.
Proof.
  intros Hd. unfold div_round. replace (2 * (n * d) + d) with (n * (2 * d) + d) by lia.
  rewrite Z.div_add_l, Z.div_small by lia. lia.
Qed.

Lemma mix_0 a b : mix 0 a b = b.
Proof. unfold mix. rewrite <- (div_round_mul b 255) at 2 by done. f_equal. lia. Qed.

Lemma mix_255 a b : mix 255 a b = a.
Proof. unfold mix. rewrite <- (div_round_mul a 255) at 2 by done. f_equal. lia. Qed.

Lemma blend_linear_0 ink p : blend_linear 0 ink p = p.
Proof. destruct p. unfold blend_linear. simpl. by rewrite !mix_0. Qed.

Lemma blend_linear_255 ink p : blend_linear 255 ink p = ink.
Proof. destruct ink. unfold blend_linear. simpl. by rewrite !mix_255. Qed.

Lemma block_coverage_bbox f s x y :
  block_coverage f s x y ≠ 0 → in_bbox (textbbox f s) x y = true.
Proof. unfold block_coverage. simpl. by destruct (in_bbox _ _ _). Qed.

Lemma block_paint_fractional_rows c x y p row :
  py_floor (dc_y c) = Some row →
  in_bbox (textbbox (dc_font c) (dc_text c)) (x - dc_x c) (y - row) = false →
  in_bbox (textbbox (dc_font c) (dc_text c)) (x - dc_x c) (y - (row + 1)) = false →
  block_paint_fractional c x y p = p.
Proof.
  intros Hrow Hbox _. unfold block_paint_fractional, block_coverage. rewrite Hrow.
  simpl in Hbox. rewrite Hbox. apply blend_linear_0.
Qed.

Lemma over_rounded_opaque s d : alpha s = 255 → over_rounded s d = s.
Proof.
  intros Hs. unfold over_rounded. rewrite decide_False by lia. destruct s as [r g b a].
  simpl in *. subst a. replace (alpha d * (255 - 255)) with 0 by lia.
  rewrite !Z.mul_0_r, !Z.add_0_r.
  rewrite <- !Z.mul_assoc, !(div_round_mul _ (255 * 255)), (div_round_mul 255 255) by lia.
  done.
Qed.

Lemma over_rounded_backdrop_opaque s d : alpha d = 255 → alpha (over_rounded s d) = 255.
Proof.
  intros Hd. unfold over_rounded. case_decide; [done|]. simpl. rewrite Hd.
  replace (255 * alpha s + 255 * (255 - alpha s)) with (255 * 255) by lia.
  apply (div_round_mul 255 255). lia.
Qed.

(** ** Instances *)

#[export] Instance block_raster : @TextRaster fixed_pitch := {|
  coverage := block_coverage;
  blend := blend_linear;
  paint_fractional := block_paint_fractional;
  coverage_bbox := block_coverage_bbox;
  blend_0 := blend_linear_0;
  blend_255 := blend_linear_255;
  paint_fractional_rows := block_paint_fractional_rows;
|}.

#[export] Program Instance rounded_over : AlphaOver := {|
  over := over_rounded;
  over_opaque := over_rounded_opaque;
  over_backdrop_opaque := over_rounded_backdrop_opaque;
|}.
Next Obligation. intros s d Hs. unfold over_rounded. by rewrite decide_True. Qed.

#[export] Program Instance sym_pixels (base : sym_image → Z → Z → pixel)
  : @PixelImaging sym_image sym_imaging fixed_pitch block_raster rounded_over := {|
  pixel_at := sym_pixel base;
|}.
Solve All Obligations with done.
