(* ===== verification/Spacing.v ===== *)
(** * The vertical positions under a float line spacing

    [create_styled_text_image] multiplies the body font size by the
    line-spacing multiplier and adds the product to the cursor once per
    line; [draw_styled_text] adds each stroke offset to the position it is
    given.  With a float multiplier all of this is binary64 arithmetic.

    This file states what the positions are when the multiplier is dyadic,
    [m * 2^e] with [e ≤ 0] (1.5 is [3 * 2^-1], 1.0 is [1 * 2^0]) and the
    numbers stay below [2^53] in units of [2^e]: no operation rounds, so
    line [i] is drawn at the float of [content_y + i * spacing] exactly and
    the stroke stamps are at the float of the position plus the offset. *)

From Stdlib Require Import ZArith Lia SpecFloat.
From stdpp Require Import base tactics option list.
From S2P Require Import Prelude.
From S2P Require Import PyNum.
From S2P Require Import PyFloat.
From S2P Require Import PyStr.
From S2P Require Import Pillow.
From S2P Require Import Renderer.
From S2P Require Import Composer.

#[local] Open Scope Z_scope.

(** ** Specification of the positions *)

(** The cursor after [n] lines of spacing [s * 2^e] from the integer
    [content_y]: the integer itself before the first addition, the float of
    the exact sum after it. *)
Definition exact_cursor (content_y s e : Z) (n : nat) : pynum :=
  match n with
  | O => PyInt content_y
  | S _ => PyFloat (dyadic (in_units content_y e + Z.of_nat n * s) e)
  end.

(** The spacing of a body font of size [size] at the multiplier
    [m * 2^e]: the float of the exact product. *)
Definition exact_spacing (size m e : Z) : pynum := PyFloat (dyadic (size * m) e).

(** The lines that are drawn, each with the position [pos] gives to its
    index. *)
Definition placed_at (pos : nat → pynum) (content_lines : list pystr)
    : list (pystr * pynum) :=
  filter (λ p, str_truthy (py_strip p.1) = true)
         (imap (λ i line, (line, pos i)) content_lines).

(** The cursor stays representable from its start to line [n]. *)
Definition cursor_in_range (a s e : Z) (n : nat) : Prop :=
  representable s e ∧ representable a e ∧ representable (a + Z.of_nat n * s) e.

(** The stroke stamp at one offset of a float position [a * 2^e]. *)
Definition exact_stroke_call (text : pystr) (f : font) (a e x : Z) (fill : color)
    (offset : Z * Z) : draw_call :=
  DrawText (x + offset.1) (PyFloat (dyadic (a + in_units offset.2 e) e)) text f fill.

(** The offsets of a stroke of width [w] keep the position [a * 2^e]
    representable. *)
Definition stroke_in_range (a e w : Z) : Prop :=
  representable a e ∧ representable (in_units w e) e ∧
  representable (a - in_units w e) e ∧ representable (a + in_units w e) e.

#[export] Instance cursor_in_range_dec a s e n : Decision (cursor_in_range a s e n).
Proof. unfold cursor_in_range. apply _. Defined.

#[export] Instance stroke_in_range_dec a e w : Decision (stroke_in_range a e w).
Proof. unfold stroke_in_range. apply _. Defined.

(** ** The cursor between its end points *)

(** The sums on the way from [a] to [a + n * s] lie between the two. *)
Lemma cursor_in_range_le a s e n i :
  (i ≤ n)%nat → cursor_in_range a s e n → cursor_in_range a s e i.
Proof.
  intros Hi (Hs & Ha & [Hn He]). split; [done|]. split; [done|].
  split; [|done]. destruct Ha as [Ha _].
  assert (0 ≤ Z.of_nat i ≤ Z.of_nat n) as Hin by lia.
  destruct (decide (0 ≤ s)); nia.
Qed.

Lemma cursor_in_range_step a s e n :
  cursor_in_range a s e (S n) → cursor_in_range (a + s) s e n.
Proof.
  intros Hr. pose proof (cursor_in_range_le a s e (S n) 1 ltac:(lia) Hr) as (_ & _ & H1).
  destruct Hr as (Hs & Ha & Hn). split; [done|].
  split; [by replace (a + s) with (a + Z.of_nat 1 * s) by lia|].
  by replace (a + s + Z.of_nat n * s) with (a + Z.of_nat (S n) * s) by lia.
Qed.

(** The cursor from line [i] on stays in range up to line [n]. *)
Lemma cursor_in_range_from a s e n i :
  (i ≤ n)%nat → cursor_in_range a s e n →
  cursor_in_range (a + Z.of_nat i * s) s e (n - i).
Proof.
  intros Hi Hr. pose proof (cursor_in_range_le a s e n i Hi Hr) as (_ & _ & Hai).
  destruct Hr as (Hs & _ & Han). split; [done|]. split; [done|].
  by replace (a + Z.of_nat i * s + Z.of_nat (n - i) * s) with (a + Z.of_nat n * s)
    by (rewrite Nat2Z.inj_sub by done; ring).
Qed.

(** ** The cursor *)

Section cursor.
Context (e : Z) (He : e ≤ 0) (s : Z).

#[local] Abbreviation spacing := (PyFloat (dyadic s e)).

Lemma cursor_after_dyadic a n :
  cursor_in_range a s e n →
  cursor_after spacing n (PyFloat (dyadic a e))
  = Ok (PyFloat (dyadic (a + Z.of_nat n * s) e)).
Proof.
  revert a. induction n as [|n IH]; intros a Hr.
  - simpl. do 3 f_equal. lia.
  - pose proof (cursor_in_range_step _ _ _ _ Hr) as Hr'. destruct Hr as (Hs & Ha & _).
    rewrite cursor_after_S, py_add_dyadic by (done || apply Hr'). simpl.
    rewrite IH by done. do 3 f_equal. lia.
Qed.

Lemma cursor_after_exact content_y n :
  cursor_in_range (in_units content_y e) s e n →
  cursor_after spacing n (PyInt content_y) = Ok (exact_cursor content_y s e n).
Proof.
  destruct n as [|n]; [done|]. intros Hr.
  pose proof (cursor_in_range_step _ _ _ _ Hr) as Hr'. destruct Hr as (Hs & Ha & _).
  rewrite cursor_after_S, py_add_int_dyadic by (done || apply Hr'). simpl.
  rewrite cursor_after_dyadic by done. unfold exact_cursor. do 3 f_equal. lia.
Qed.

(** ** The layout *)

Lemma placed_at_cons pos line rest :
  placed_at pos (line :: rest)
  = (if str_truthy (py_strip line) then [(line, pos O)] else [])
    ++ placed_at (pos ∘ S) rest.
Proof.
  unfold placed_at. simpl. rewrite filter_cons. simpl.
  destruct (str_truthy (py_strip line)); [by rewrite decide_True|by rewrite decide_False].
Qed.

Lemma placed_at_ext pos pos' content_lines :
  (∀ i, pos i = pos' i) → placed_at pos content_lines = placed_at pos' content_lines.
Proof. intros Hpos. unfold placed_at. f_equal. apply imap_ext. intros. by rewrite Hpos. Qed.

Lemma layout_cons sp line rest y :
  layout sp (line :: rest) y
  = y' ← py_add y sp;
    placed ← layout sp rest y';
    Ok (if str_truthy (py_strip line) then (line, y) :: placed else placed).
Proof. done. Qed.

Lemma layout_dyadic a content_lines :
  cursor_in_range a s e (length content_lines) →
  layout spacing content_lines (PyFloat (dyadic a e))
  = Ok (placed_at (λ i, PyFloat (dyadic (a + Z.of_nat i * s) e)) content_lines).
Proof.
  revert a. induction content_lines as [|line rest IH]; intros a Hr; [done|].
  pose proof (cursor_in_range_step _ _ _ _ Hr) as Hr'. destruct Hr as (Hs & Ha & _).
  rewrite layout_cons, py_add_dyadic by (done || apply Hr'). simpl.
  rewrite IH by done. simpl. rewrite placed_at_cons.
  rewrite (placed_at_ext (_ ∘ S) (λ i, PyFloat (dyadic (a + s + Z.of_nat i * s) e)))
    by (intros i; simpl; do 2 f_equal; lia).
  rewrite Z.mul_0_l, Z.add_0_r. by destruct (str_truthy (py_strip line)).
Qed.

Lemma layout_exact content_y content_lines :
  cursor_in_range (in_units content_y e) s e (length content_lines) →
  layout spacing content_lines (PyInt content_y)
  = Ok (placed_at (exact_cursor content_y s e) content_lines).
Proof.
  destruct content_lines as [|line rest]; [done|]. intros Hr.
  pose proof (cursor_in_range_step _ _ _ _ Hr) as Hr'. destruct Hr as (Hs & Ha & _).
  rewrite layout_cons, py_add_int_dyadic by (done || apply Hr'). simpl.
  rewrite layout_dyadic by done. simpl. rewrite placed_at_cons.
  rewrite (placed_at_ext (_ ∘ S)
             (λ i, PyFloat (dyadic (in_units content_y e + s + Z.of_nat i * s) e)))
    by (intros i; simpl; do 2 f_equal; lia).
  by destruct (str_truthy (py_strip line)).
Qed.

End cursor.

(** ** The stroke on a float position *)

Lemma stroke_in_range_offset a e w dy :
  e ≤ 0 → - w ≤ dy ≤ w → stroke_in_range a e w →
  representable (in_units dy e) e ∧ representable (a + in_units dy e) e.
Proof.
  intros He Hdy (_ & [Hw Hexp] & [Hlo _] & [Hhi _]). unfold in_units in *.
  pose proof (Z.pow_pos_nonneg 2 (- e)). split; (split; [nia|done]).
Qed.

Lemma stroke_call_dyadic text f a e x fill offset w :
  e ≤ 0 → - w ≤ offset.2 ≤ w → stroke_in_range a e w →
  stroke_call text f (PyFloat (dyadic a e)) x fill offset
  = Ok (exact_stroke_call text f a e x fill offset).
Proof.
  intros He Hdy Hr. destruct (stroke_in_range_offset a e w _ He Hdy Hr).
  unfold stroke_call. rewrite py_add_dyadic_int by (done || apply Hr). done.
Qed.

Lemma stroke_calls_dyadic text f a e x st :
  e ≤ 0 → stroke_in_range a e (stroke_width st) →
  stroke_calls text f (PyFloat (dyadic a e)) x st
  = Ok (exact_stroke_call text f a e x (stroke_color st) <$> stroke_offsets (stroke_width st)).
Proof.
  intros He Hr. apply mapM_result_fmap, Forall_forall. intros [dx dy] Hoff.
  apply elem_of_stroke_offsets in Hoff. eapply stroke_call_dyadic; [done| |done]. simpl. lia.
Qed.

(** ** The default multiplier *)

Lemma float_1_5_dyadic : float_1_5 = dyadic 3 (-1).
Proof. done. Qed.

Lemma cursor_in_range_half y k n :
  Z.abs y + Z.of_nat (S n) * Z.abs (3 * k) < 2 ^ 52 →
  cursor_in_range (in_units y (-1)) (2 * k * 3) (-1) (S n).
Proof.
  intros Hb. unfold cursor_in_range, representable, in_units, prec, emax. simpl Z.pow.
  change (2 ^ 52) with 4503599627370496 in Hb. change (2 ^ 53) with 9007199254740992.
  nia.
Qed.

(** ** Claims *)

Section exact_claims.
Context `{TextMeasure}.
Context (e : Z) (He : e ≤ 0).

(** With a dyadic multiplier [m * 2^e] the line spacing is the float
    of the exact product of the font size and the multiplier: the
    multiplication does not round and does not raise. *)
Theorem line_spacing_dyadic o m :
  content_line_spacing o = PyFloat (dyadic m e) →
  content_font_size o ≠ 0 → m ≠ 0 →
  representable m e → representable (content_font_size o * m) e →
  line_spacing o = Ok (exact_spacing (content_font_size o) m e).
Proof. intros Hm ????. unfold line_spacing. rewrite Hm. by apply py_mul_int_dyadic. Qed.

(** With a dyadic spacing [s * 2^e] the loop over the body lines
    returns, and its cursor is the float of the exact sum of the start and
    one spacing per line: the additions accumulate no rounding error. *)
Theorem draw_content_exact_cursor draw f width st s content_lines content_y :
  stroke_width st < 2 ^ prec →
  cursor_in_range (in_units content_y e) s e (length content_lines) →
  ∃ d', draw_content draw f width st (PyFloat (dyadic s e)) content_lines (PyInt content_y)
        = Ok (d', exact_cursor content_y s e (length content_lines)).
Proof. intros Hw Hr. apply draw_content_total; [done|]. by apply cursor_after_exact. Qed.

(** With a dyadic spacing the layer the loop returns is the render of
    each non-blank line at its exact position: line [i] is drawn at the
    float of [content_y + i * spacing], the first at the integer
    [content_y]. *)
Theorem draw_content_exact_layout draw f width st s content_lines content_y d' y' :
  cursor_in_range (in_units content_y e) s e (length content_lines) →
  draw_content draw f width st (PyFloat (dyadic s e)) content_lines (PyInt content_y)
  = Ok (d', y') →
  render_placed f width st draw (placed_at (exact_cursor content_y s e) content_lines)
  = Ok d'.
Proof.
  intros Hr (placed & Hplaced & Hrender)%draw_content_layout_placed.
  rewrite layout_exact in Hplaced by done. by injection Hplaced as <-.
Qed.

(** On a float position [a * 2^e] the render returns, its stroke
    stamps are at the floats of the exact sums of the position and the
    vertical offsets, and the fill call is at the position itself. *)
Theorem draw_styled_text_float_position draw text f a image_width st :
  stroke_in_range a e (stroke_width st) →
  draw_styled_text draw text f (PyFloat (dyadic a e)) image_width st
  = Ok (foldl draw_text draw
          ((exact_stroke_call text f a e (anchor text f image_width st) (stroke_color st)
              <$> stroke_offsets (stroke_width st))
           ++ [fill_call text f (PyFloat (dyadic a e)) (anchor text f image_width st) st]),
        PyFloat (dyadic a e)).
Proof. intros Hr. by rewrite draw_styled_text_spec, stroke_calls_dyadic. Qed.

End exact_claims.

(** With the default multiplier 1.5 and an even body font size [2k]
    the cursor after one or more lines is a float that denotes an integer:
    the start plus [3k] per line. *)
Theorem default_spacing_integer_positions o k n content_y :
  content_line_spacing o = PyFloat float_1_5 →
  content_font_size o = 2 * k → k ≠ 0 →
  Z.abs content_y + Z.of_nat (S n) * Z.abs (3 * k) < 2 ^ 52 →
  line_spacing o = Ok (exact_spacing (2 * k) 3 (-1)) ∧
  cursor_after (exact_spacing (2 * k) 3 (-1)) (S n) (PyInt content_y)
  = Ok (exact_cursor content_y (2 * k * 3) (-1) (S n)) ∧
  int_value (exact_cursor content_y (2 * k * 3) (-1) (S n))
  = Some (content_y + Z.of_nat (S n) * (3 * k)).
Proof.
  intros Hsp Hsize Hk Hb. pose proof (cursor_in_range_half _ _ _ Hb) as Hr.
  pose proof Hr as (Hs & _ & Hn). rewrite float_1_5_dyadic in Hsp.
  split; [|split].
  - unfold line_spacing. rewrite Hsp, Hsize. apply py_mul_int_dyadic; try done; lia.
  - by apply cursor_after_exact.
  - simpl int_value.
    replace (in_units content_y (-1) + _)
      with (in_units (content_y + Z.of_nat (S n) * (3 * k)) (-1)) in *
      by (unfold in_units; simpl Z.pow; lia).
    by apply float_int_value_dyadic.
Qed.

