(* ===== verification/Reference.v ===== *)
(** * The drawing in closed form

    [draw_all] threads the layer and the cursor through the title render and
    the loop over the body lines (src/demo4.py, lines 71-111).  This file
    gives the [draw.text] calls of a whole drawing as a list comprehension
    over the lines ([drawing_calls]): the stamps of the title, then for
    each body line that is not blank the stamps of that line at the position
    of its index.  The positions are a parameter; they are the integers
    [start + i * pitch] when the line-spacing multiplier is an [int]
    ([int_position]), and the floats of the exact sums when it is a dyadic
    float within range ([Spacing.exact_cursor]).

    With an integer multiplier no addition can raise, so the drawing is total
    and equal to the reference; with a dyadic float multiplier it is equal
    to the reference while the positions stay below [2^53] in units of the
    multiplier's [2^e]. *)

From Stdlib Require Import ZArith Lia SpecFloat.
From stdpp Require Import base tactics option list strings gmap.
From S2P Require Import Prelude.
From S2P Require Import PyNum.
From S2P Require Import PyFloat.
From S2P Require Import PyStr.
From S2P Require Import Pillow.
From S2P Require Import Renderer.
From S2P Require Import Composer.
From S2P Require Import Spacing.

#[local] Open Scope Z_scope.

(** ** The reference *)

Section reference.
Context `{TextMeasure}.

(** The calls of one render: a stamp in the stroke colour per offset of the
    grid, at the anchor shifted by the column offset and at the position
    [stamp] gives to the row offset, then the fill at [y]. *)
Definition render_calls (text : pystr) (f : font) (image_width : Z) (st : text_style)
    (y : pynum) (stamp : Z → pynum) : list draw_call :=
  ((λ offset : Z * Z,
      DrawText (anchor text f image_width st + offset.1) (stamp offset.2) text f
               (stroke_color st)) <$> stroke_offsets (stroke_width st))
  ++ [fill_call text f y (anchor text f image_width st) st].

(** The calls of the body: those of each line that is not blank, at the
    position of its index. *)
Definition content_calls (f : font) (image_width : Z) (st : text_style)
    (pos : nat → pynum) (stamp : nat → Z → pynum) (content_lines : list pystr)
    : list draw_call :=
  concat (imap (λ i line, if str_truthy (py_strip line)
                          then render_calls line f image_width st (pos i) (stamp i)
                          else []) content_lines).

(** The calls of the drawing: the title at [height // 6], then the body. *)
Definition drawing_calls (size : Z * Z) (title : pystr) (content_lines : list pystr)
    (title_font content_font : font) (o : options)
    (pos : nat → pynum) (stamp : nat → Z → pynum) : list draw_call :=
  render_calls title title_font size.1 (title_style o) (PyInt (title_y size.2))
               (λ dy, PyInt (title_y size.2 + dy))
  ++ content_calls content_font size.1 (content_style o) pos stamp content_lines.

(** The positions under an integer pitch. *)
Definition int_position (start pitch : Z) (i : nat) : pynum :=
  PyInt (start + Z.of_nat i * pitch).

Definition int_stamp (start pitch : Z) (i : nat) (dy : Z) : pynum :=
  PyInt (start + Z.of_nat i * pitch + dy).

(** The positions of the stamps under a float pitch [s * 2^e]: integers
    for the first line, the floats of the exact sums after it. *)
Definition exact_stamp (start s e : Z) (i : nat) (dy : Z) : pynum :=
  match i with
  | O => PyInt (start + dy)
  | S _ => PyFloat (dyadic (in_units start e + Z.of_nat i * s + in_units dy e) e)
  end.

(** What it is for [pos] and [stamp] to be the positions the program
    computes for [n] lines: the cursor starts at the integer [start],
    [content_y += line_spacing] (line 111) takes it from one line to the
    next, and [position_y + offset_y] (line 156) gives the rows of the
    stamps of a stroke of width [w]; no addition raises. *)
Definition computes (start : Z) (spacing : pynum) (w : Z) (n : nat)
    (pos : nat → pynum) (stamp : nat → Z → pynum) : Prop :=
  pos O = PyInt start ∧
  (∀ i, (i < n)%nat → py_add (pos i) spacing = Ok (pos (S i))) ∧
  (∀ i dy, (i < n)%nat → - w ≤ dy ≤ w → py_add (pos i) (PyInt dy) = Ok (stamp i dy)).

(** ** One render *)

Lemma stroke_calls_closed text f y x st stamp :
  (∀ dy, - stroke_width st ≤ dy ≤ stroke_width st → py_add y (PyInt dy) = Ok (stamp dy)) →
  stroke_calls text f y x st
  = Ok ((λ offset : Z * Z, DrawText (x + offset.1) (stamp offset.2) text f (stroke_color st))
          <$> stroke_offsets (stroke_width st)).
Proof.
  intros Hstamp. apply mapM_result_fmap, Forall_forall.
  intros [dx dy] (_ & _ & Hdy)%elem_of_stroke_offsets.
  unfold stroke_call. simpl. by rewrite Hstamp.
Qed.

Lemma draw_styled_text_closed d text f y image_width st stamp :
  (∀ dy, - stroke_width st ≤ dy ≤ stroke_width st → py_add y (PyInt dy) = Ok (stamp dy)) →
  draw_styled_text d text f y image_width st
  = Ok (foldl draw_text d (render_calls text f image_width st y stamp), y).
Proof.
  intros Hstamp. by rewrite draw_styled_text_spec, (stroke_calls_closed _ _ _ _ _ stamp).
Qed.

(** ** The loop *)

Lemma content_calls_cons f image_width st pos stamp line rest :
  content_calls f image_width st pos stamp (line :: rest)
  = (if str_truthy (py_strip line)
     then render_calls line f image_width st (pos O) (stamp O) else [])
    ++ content_calls f image_width st (pos ∘ S) (stamp ∘ S) rest.
Proof. done. Qed.

(** One iteration of the loop. *)
Lemma draw_line_closed f image_width st spacing d y y' line stamp :
  py_add y spacing = Ok y' →
  (∀ dy, - stroke_width st ≤ dy ≤ stroke_width st → py_add y (PyInt dy) = Ok (stamp dy)) →
  draw_line f image_width st spacing (d, y) line
  = Ok (foldl draw_text d (if str_truthy (py_strip line)
                           then render_calls line f image_width st y stamp else []), y').
Proof.
  intros Hy Hstamp. unfold draw_line. cbn [fst snd].
  destruct (str_truthy (py_strip line)).
  - rewrite (draw_styled_text_closed _ _ _ _ _ _ stamp) by done.
    cbn [mbind result_bind fst snd]. by rewrite Hy.
  - cbn [mbind result_bind fst snd]. by rewrite Hy.
Qed.

(** The loop equals its closed form when the positions are those the
    additions give. *)
Lemma draw_content_closed d f image_width st spacing content_lines pos stamp :
  (∀ i, (i < length content_lines)%nat → py_add (pos i) spacing = Ok (pos (S i))) →
  (∀ i dy, (i < length content_lines)%nat → - stroke_width st ≤ dy ≤ stroke_width st →
           py_add (pos i) (PyInt dy) = Ok (stamp i dy)) →
  draw_content d f image_width st spacing content_lines (pos O)
  = Ok (foldl draw_text d (content_calls f image_width st pos stamp content_lines),
        pos (length content_lines)).
Proof.
  revert d pos stamp. induction content_lines as [|line rest IH]; intros d pos stamp Hpos Hstamp.
  { done. }
  rewrite draw_content_cons, content_calls_cons, foldl_app.
  rewrite (draw_line_closed _ _ _ _ _ _ (pos 1%nat) _ (stamp O));
    [|apply Hpos; simpl; lia|intros; apply Hstamp; [simpl; lia|done]].
  cbn [mbind result_bind fst snd].
  apply (IH _ (pos ∘ S) (stamp ∘ S)).
  - intros i Hi. apply (Hpos (S i)). simpl. lia.
  - intros i dy Hi Hdy. apply (Hstamp (S i)); [simpl; lia|done].
Qed.

(** ** The drawing *)

Lemma foldl_draw_text_new_layer size fill cs :
  foldl draw_text (new_layer size fill) cs = Layer size fill cs.
Proof.
  pose proof (foldl_draw_text_calls (new_layer size fill) cs) as Hcalls.
  pose proof (foldl_draw_text_size (new_layer size fill) cs) as Hsize.
  pose proof (foldl_draw_text_fill (new_layer size fill) cs) as Hfill.
  destruct (foldl draw_text _ cs). simpl in *. by subst.
Qed.

(** The drawing equals its closed form when the spacing and the positions
    are those the arithmetic gives. *)
Lemma draw_all_closed size fill title content_lines title_font content_font o spacing
    pos stamp :
  line_spacing o = Ok spacing →
  computes (content_start (title_y size.2) o) spacing (content_stroke_width o)
           (length content_lines) pos stamp →
  draw_all (new_layer size fill) title content_lines title_font content_font
           size.1 size.2 o
  = Ok (Layer size fill
              (drawing_calls size title content_lines title_font content_font o pos stamp),
        pos (length content_lines)).
Proof.
  intros Hsp (Hstart & Hpos & Hstamp). unfold draw_all, drawing_calls.
  rewrite (draw_styled_text_closed _ _ _ _ _ _ (λ dy, PyInt (title_y size.2 + dy)))
    by (intros; apply py_add_int).
  cbn [mbind result_bind fst snd]. rewrite Hsp. cbn [mbind result_bind fst snd].
  rewrite <- Hstart, (draw_content_closed _ _ _ _ _ _ pos stamp) by done.
  by rewrite <- foldl_app, foldl_draw_text_new_layer.
Qed.

(** ** The positions under a float pitch *)

Lemma exact_cursor_step start s e n i :
  e ≤ 0 → cursor_in_range (in_units start e) s e n → (i < n)%nat →
  py_add (exact_cursor start s e i) (PyFloat (dyadic s e))
  = Ok (exact_cursor start s e (S i)).
Proof.
  intros He Hcur Hi.
  pose proof (cursor_in_range_le _ _ _ n i ltac:(lia) Hcur) as (Hs & Ha & Hai).
  pose proof (cursor_in_range_le _ _ _ n (S i) ltac:(lia) Hcur) as (_ & _ & Hai').
  destruct i as [|i]; unfold exact_cursor.
  - rewrite py_add_int_dyadic; [by rewrite Z.mul_1_l|done..|].
    by rewrite Z.mul_1_l in Hai'.
  - rewrite py_add_dyadic; [do 3 f_equal; lia|done..|].
    by replace (_ + _ + s) with (in_units start e + Z.of_nat (S (S i)) * s) by lia.
Qed.

Lemma exact_stamp_step start s e i dy w :
  e ≤ 0 → - w ≤ dy ≤ w → stroke_in_range (in_units start e + Z.of_nat i * s) e w →
  py_add (exact_cursor start s e i) (PyInt dy) = Ok (exact_stamp start s e i dy).
Proof.
  intros He Hdy Hr. destruct i as [|i]; [apply py_add_int|].
  destruct (stroke_in_range_offset _ e w dy He Hdy Hr).
  unfold exact_cursor, exact_stamp. by rewrite py_add_dyadic_int by (done || apply Hr).
Qed.

(** ** The positions the arithmetic gives *)

Lemma line_spacing_int o k :
  content_line_spacing o = PyInt k → line_spacing o = Ok (PyInt (content_font_size o * k)).
Proof. unfold line_spacing. by intros ->. Qed.

Lemma line_spacing_in_range o m e n a :
  content_line_spacing o = PyFloat (dyadic m e) →
  content_font_size o ≠ 0 → m ≠ 0 → representable m e →
  cursor_in_range a (content_font_size o * m) e n →
  line_spacing o = Ok (PyFloat (dyadic (content_font_size o * m) e)).
Proof.
  intros Hm ? ? ? Hcur. unfold line_spacing. rewrite Hm.
  apply py_mul_int_dyadic; [done..|apply Hcur].
Qed.

Lemma int_computes start pitch w n :
  computes start (PyInt pitch) w n (int_position start pitch) (int_stamp start pitch).
Proof.
  unfold computes, int_position, int_stamp. split_and!.
  - do 2 f_equal. lia.
  - intros i _. rewrite py_add_int. do 2 f_equal. lia.
  - intros i dy _ _. by rewrite py_add_int.
Qed.

Lemma exact_computes start s e w n :
  e ≤ 0 → cursor_in_range (in_units start e) s e n →
  (∀ i, (i < n)%nat → stroke_in_range (in_units start e + Z.of_nat i * s) e w) →
  computes start (PyFloat (dyadic s e)) w n (exact_cursor start s e) (exact_stamp start s e).
Proof.
  intros He Hcur Hstroke. split_and!; [done|..].
  - intros i Hi. by apply (exact_cursor_step _ _ _ n).
  - intros i dy Hi Hdy. apply (exact_stamp_step _ _ _ _ _ w); [done..|by apply Hstroke].
Qed.

End reference.

(** ** The whole call *)

Section run_reference.
Context `{TextMeasure} `{Imaging image}.

(** The image a call saves when its drawing is [calls]. *)
Definition composed (im : image) (calls : list draw_call) : image :=
  let background := enhance_contrast contrast_factor (convert_rgba im) in
  compose background (Layer (im_size background) layer_color calls).

(** With the files in place and positions that the arithmetic gives, the
    call saves the background under the calls of the reference. *)
Lemma create_styled_text_image_closed (w : world image) background_path title content_lines
    o im title_font content_font spacing pos stamp :
  image_open (w_fs w) background_path = Some im →
  truetype (w_fs w) (title_font_path o) (title_font_size o) = Some title_font →
  truetype (w_fs w) (content_font_path o) (content_font_size o) = Some content_font →
  line_spacing o = Ok spacing →
  let size := im_size (enhance_contrast contrast_factor (convert_rgba im)) in
  computes (content_start (title_y size.2) o) spacing (content_stroke_width o)
           (length content_lines) pos stamp →
  create_styled_text_image w background_path title content_lines o
  = (save_output w (composed im (drawing_calls size title content_lines title_font
                                               content_font o pos stamp))
                 (output_path o), Ok ()).
Proof.
  intros Him Htf Hcf Hsp size Hpos. unfold create_styled_text_image, composed.
  rewrite (proj2 (open_background_Some _ _ _) (ex_intro _ im (conj Him eq_refl))).
  rewrite (proj2 (load_fonts_inr _ _ _ _) (conj Htf Hcf)). cbn zeta. fold size.
  pose proof (draw_all_closed size layer_color title content_lines title_font content_font
                o spacing pos stamp Hsp Hpos) as Hdraw.
  destruct size as [width height]. cbn [fst snd] in Hdraw. by rewrite Hdraw.
Qed.

End run_reference.

(** ** Claims *)

Section reference_claims.
Context `{TextMeasure}.
Context (size : Z * Z) (fill : color) (title : pystr) (content_lines : list pystr).
Context (title_font content_font : font) (o : options).

(** C15. With an integer line-spacing multiplier [k] the drawing never
    raises, and the layer it returns holds exactly the calls of the
    reference: the stamps and the fill of the title at [height // 6], then
    for each body line that is not blank, in order, its stamps and its fill
    at [content_y + i * content_font_size * k]; the cursor ends one pitch
    below the last line. *)
Theorem draw_all_int_reference k :
  content_line_spacing o = PyInt k →
  draw_all (new_layer size fill) title content_lines title_font content_font
           size.1 size.2 o
  = Ok (Layer size fill
          (drawing_calls size title content_lines title_font content_font o
             (int_position (content_start (title_y size.2) o) (content_font_size o * k))
             (int_stamp (content_start (title_y size.2) o) (content_font_size o * k))),
        int_position (content_start (title_y size.2) o) (content_font_size o * k)
                     (length content_lines)).
Proof.
  intros Hk. apply (draw_all_closed _ _ _ _ _ _ _ (PyInt (content_font_size o * k)));
    [by apply line_spacing_int|apply int_computes].
Qed.

(** C26. With a float multiplier [m * 2^e] ([e ≤ 0]) and positions within
    the exact range, the drawing returns the layer that holds exactly the
    calls of the reference at the exact positions: line [i] at the float of
    [content_y + i * content_font_size * m * 2^e] (the integer [content_y]
    for the first line), each stamp at the float of the exact sum of that
    position and its row offset. *)
Theorem draw_all_dyadic_reference m e :
  e ≤ 0 → content_line_spacing o = PyFloat (dyadic m e) →
  content_font_size o ≠ 0 → m ≠ 0 → representable m e →
  cursor_in_range (in_units (content_start (title_y size.2) o) e)
                  (content_font_size o * m) e (length content_lines) →
  (∀ i, (i < length content_lines)%nat →
        stroke_in_range (in_units (content_start (title_y size.2) o) e
                         + Z.of_nat i * (content_font_size o * m)) e
                        (content_stroke_width o)) →
  draw_all (new_layer size fill) title content_lines title_font content_font
           size.1 size.2 o
  = Ok (Layer size fill
          (drawing_calls size title content_lines title_font content_font o
             (exact_cursor (content_start (title_y size.2) o) (content_font_size o * m) e)
             (exact_stamp (content_start (title_y size.2) o) (content_font_size o * m) e)),
        exact_cursor (content_start (title_y size.2) o) (content_font_size o * m) e
                     (length content_lines)).
Proof.
  intros He Hm Hsize Hm0 Hmr Hcur Hstroke.
  apply (draw_all_closed _ _ _ _ _ _ _ (PyFloat (dyadic (content_font_size o * m) e)));
    [by eapply line_spacing_in_range|by apply exact_computes].
Qed.

End reference_claims.

Section run_claims.
Context `{TextMeasure} `{Imaging image}.
Context (w : world image) (background_path : string).
Context (title : pystr) (content_lines : list pystr) (o : options).

(** C25. With the photo and both fonts in place and an integer
    line-spacing multiplier [k], a call raises nothing, whatever the sizes,
    the margins, the colours and the texts are: it returns [None] after the
    save of the background under exactly the calls of the reference, the
    title at [height // 6] and body line [i] at
    [content_y + i * content_font_size * k]. *)
Theorem create_styled_text_image_int_reference im title_font content_font k :
  image_open (w_fs w) background_path = Some im →
  truetype (w_fs w) (title_font_path o) (title_font_size o) = Some title_font →
  truetype (w_fs w) (content_font_path o) (content_font_size o) = Some content_font →
  content_line_spacing o = PyInt k →
  let size := im_size (enhance_contrast contrast_factor (convert_rgba im)) in
  let start := content_start (title_y size.2) o in
  create_styled_text_image w background_path title content_lines o
  = (save_output w
       (composed im (drawing_calls size title content_lines title_font content_font o
                       (int_position start (content_font_size o * k))
                       (int_stamp start (content_font_size o * k))))
       (output_path o), Ok ()).
Proof.
  intros Him Htf Hcf Hk size start.
  apply (create_styled_text_image_closed _ _ _ _ _ _ _ _ (PyInt (content_font_size o * k)));
    [done..|by apply line_spacing_int|apply int_computes].
Qed.

End run_claims.
