(* ===== verification/Trace.v ===== *)
(** * The calls of a run in closed form

    [Calls] gives the two functions as programs of library calls and
    [Reference] gives the [draw.text] calls of a drawing as a list
    comprehension.  This file puts the two together: the whole sequence of
    calls that a run of [create_styled_text_image] makes into the imaging
    library and to [print], from [Image.open] to the last [print], written
    out as a list ([run_trace]).

    Every render contributes one [draw.textbbox] and then its [draw.text]
    calls ([trace_of_render]); the body contributes the renders of its
    lines that are not blank, in order ([content_trace]); the image that
    [Image.alpha_composite] and [save] receive is the background under the
    layer that holds exactly the [draw.text] calls of the trace. *)

From Stdlib Require Import ZArith Lia SpecFloat.
From stdpp Require Import base tactics option list strings gmap.
From S2P Require Import Prelude.
From S2P Require Import PyNum.
From S2P Require Import PyFloat.
From S2P Require Import PyStr.
From S2P Require Import Pillow.
From S2P Require Import Renderer.
From S2P Require Import Composer.
From S2P Require Import Calls.
From S2P Require Import CallOrder.
From S2P Require Import Spacing.
From S2P Require Import Reference.

#[local] Open Scope Z_scope.

(** ** The reference trace *)

Section trace.
Context `{TextMeasure} `{Imaging image}.
Implicit Types (h : handle) (s : store image) (l : layer) (w : world image).

(** The calls of one render through the context on [h]. *)
Definition trace_of_render h (text : pystr) (f : font) (image_width : Z) (st : text_style)
    (y : pynum) (stamp : Z → pynum) : list (call image) :=
  Textbbox (DrawOn h) text f
  :: (Text (DrawOn h) <$> render_calls text f image_width st y stamp).

(** The calls of the loop over the body lines. *)
Definition content_trace h (f : font) (image_width : Z) (st : text_style)
    (pos : nat → pynum) (stamp : nat → Z → pynum) (content_lines : list pystr)
    : list (call image) :=
  concat (imap (λ i line, if str_truthy (py_strip line)
                          then trace_of_render h line f image_width st (pos i) (stamp i)
                          else []) content_lines).

(** The calls of the drawing. *)
Definition drawing_trace h (size : Z * Z) (title : pystr) (content_lines : list pystr)
    (title_font content_font : font) (o : options)
    (pos : nat → pynum) (stamp : nat → Z → pynum) : list (call image) :=
  trace_of_render h title title_font size.1 (title_style o) (PyInt (title_y size.2))
                  (λ dy, PyInt (title_y size.2 + dy))
  ++ content_trace h content_font size.1 (content_style o) pos stamp content_lines.

(** The message of the last [try]. *)
Definition save_message (fs : filesystem image) (o : options) : message :=
  if decide (output_path o ∈ fs_readonly fs) then SaveFailed (output_path o)
  else ImageSaved (output_path o).

(** The calls of a run that reaches the drawing and returns from it: the
    photo [im] is opened and enhanced, the layer is allocated at the handle
    [h], both fonts load, the drawing is made, and the composite of the
    background and the layer is saved. *)
Definition run_trace (background_path : string) (im : image) h (title : pystr)
    (content_lines : list pystr) (title_font content_font : font) (o : options)
    (pos : nat → pynum) (stamp : nat → Z → pynum) (m : message) : list (call image) :=
  let background := enhance_contrast contrast_factor (convert_rgba im) in
  acquire background_path im h ++ [load_title o; load_content o]
  ++ drawing_trace h (im_size background) title content_lines title_font content_font o
                   pos stamp
  ++ finish o background h
       (Layer (im_size background) layer_color
              (drawing_calls (im_size background) title content_lines title_font
                             content_font o pos stamp)) m.

(** ** The programs *)

(** A render: its calls, and the store it leaves. *)
Lemma render_prog_closed h text f y image_width st stamp s l :
  st_images s !! h = Some l →
  (∀ dy, - stroke_width st ≤ dy ≤ stroke_width st → py_add y (PyInt dy) = Ok (stamp dy)) →
  calls_of (draw_styled_text_prog (DrawOn h) text f y image_width st) s
  = trace_of_render h text f image_width st y stamp ∧
  exec (draw_styled_text_prog (DrawOn h) text f y image_width st) s
  = Some (with_layer h (foldl draw_text l (render_calls text f image_width st y stamp)) s,
          Ok y).
Proof.
  intros Hl Hstamp. split.
  - by rewrite (calls_of_draw_styled_text_prog h text f y image_width st s l _ Hl
                  (stroke_calls_closed _ _ _ _ _ stamp Hstamp)).
  - pose proof (agrees_draw_styled_text_prog h text f y image_width st s l Hl) as Hrun.
    by rewrite (draw_styled_text_closed _ _ _ _ _ _ stamp) in Hrun.
Qed.

Lemma calls_of_lift {A} (r : result pyexn A) s : calls_of (lift (image := image) r) s = [].
Proof. by destruct r. Qed.

(** One iteration of the loop. *)
Lemma line_prog_closed h f image_width o spacing y y' line stamp s l :
  st_images s !! h = Some l → py_add y spacing = Ok y' →
  (∀ dy, - content_stroke_width o ≤ dy ≤ content_stroke_width o →
         py_add y (PyInt dy) = Ok (stamp dy)) →
  calls_of (draw_line_prog (DrawOn h) f image_width o spacing y line) s
  = (if str_truthy (py_strip line)
     then trace_of_render h line f image_width (content_style o) y stamp else []) ∧
  exec (draw_line_prog (DrawOn h) f image_width o spacing y line) s
  = Some (with_layer h (foldl draw_text l
                          (if str_truthy (py_strip line)
                           then render_calls line f image_width (content_style o) y stamp
                           else [])) s, Ok y').
Proof.
  intros Hl Hy Hstamp. split.
  - unfold draw_line_prog. rewrite calls_of_bind. destruct (str_truthy (py_strip line)).
    + destruct (render_prog_closed h line f y image_width (content_style o) stamp s l)
        as [-> ->]; [done..|].
      by rewrite calls_of_lift, app_nil_r.
    + cbn [exec]. by rewrite calls_of_lift.
  - pose proof (agrees_draw_line_prog h o f image_width spacing s l y line Hl) as Hrun.
    by rewrite (draw_line_closed _ _ _ _ _ _ y' _ stamp) in Hrun.
Qed.

Lemma content_trace_cons h f image_width st pos stamp line rest :
  content_trace h f image_width st pos stamp (line :: rest)
  = (if str_truthy (py_strip line)
     then trace_of_render h line f image_width st (pos O) (stamp O) else [])
    ++ content_trace h f image_width st (pos ∘ S) (stamp ∘ S) rest.
Proof. done. Qed.

(** The loop over the body lines. *)
Lemma content_prog_closed h f image_width o spacing content_lines pos stamp s l :
  st_images s !! h = Some l →
  (∀ i, (i < length content_lines)%nat → py_add (pos i) spacing = Ok (pos (S i))) →
  (∀ i dy, (i < length content_lines)%nat →
           - content_stroke_width o ≤ dy ≤ content_stroke_width o →
           py_add (pos i) (PyInt dy) = Ok (stamp i dy)) →
  calls_of (for_loop (draw_line_prog (DrawOn h) f image_width o spacing) content_lines
                     (pos O)) s
  = content_trace h f image_width (content_style o) pos stamp content_lines.
Proof.
  revert pos stamp s l. induction content_lines as [|line rest IH];
    intros pos stamp s l Hl Hpos Hstamp; [done|].
  cbn [for_loop]. rewrite calls_of_bind, content_trace_cons.
  destruct (line_prog_closed h f image_width o spacing (pos O) (pos 1%nat) line (stamp O) s l)
    as [-> ->]; [done|apply Hpos; simpl; lia|intros; apply Hstamp; [simpl; lia|done]|].
  f_equal. eapply (IH (pos ∘ S) (stamp ∘ S)).
  - by eapply with_layer_lookup.
  - intros i Hi. apply (Hpos (S i)). simpl. lia.
  - intros i dy Hi Hdy. apply (Hstamp (S i)); [simpl; lia|done].
Qed.

(** The drawing. *)
Lemma draw_all_prog_closed h size title content_lines title_font content_font o spacing
    pos stamp s l :
  st_images s !! h = Some l →
  line_spacing o = Ok spacing →
  computes (content_start (title_y size.2) o) spacing (content_stroke_width o)
           (length content_lines) pos stamp →
  calls_of (draw_all_prog (DrawOn h) title content_lines title_font content_font
                          size.1 size.2 o) s
  = drawing_trace h size title content_lines title_font content_font o pos stamp.
Proof.
  intros Hl Hsp (Hstart & Hpos & Hstamp). unfold draw_all_prog, drawing_trace.
  rewrite calls_of_bind.
  destruct (render_prog_closed h title title_font (PyInt (size.2 / 6)) size.1 (title_style o)
              (λ dy, PyInt (title_y size.2 + dy)) s l) as [-> ->];
    [done|intros; apply py_add_int|].
  f_equal. unfold line_spacing in Hsp. rewrite Hsp. cbn [lift mbind prog_bind].
  unfold content_start, title_y in Hstart. rewrite <- Hstart.
  eapply content_prog_closed; [by eapply with_layer_lookup|done..].
Qed.

(** The last [try]. *)
Lemma calls_of_save_prog_closed background h o s l :
  st_images s !! h = Some l →
  calls_of (save_prog background h o) s
  = finish o background h l (save_message (w_fs (st_world s)) o).
Proof.
  intros Hl. unfold save_prog, finish, compose, save_message. simpl. rewrite Hl. simpl.
  unfold image_save. by case_decide.
Qed.

(** The whole run, for positions that the arithmetic gives. *)
Lemma calls_of_run_closed w images background_path title content_lines o im
    title_font content_font spacing pos stamp :
  image_open (w_fs w) background_path = Some im →
  truetype (w_fs w) (title_font_path o) (title_font_size o) = Some title_font →
  truetype (w_fs w) (content_font_path o) (content_font_size o) = Some content_font →
  line_spacing o = Ok spacing →
  computes (content_start
              (title_y (im_size (enhance_contrast contrast_factor (convert_rgba im))).2) o)
           spacing (content_stroke_width o) (length content_lines) pos stamp →
  calls_of (create_styled_text_image_prog background_path title content_lines o)
           (Store w images)
  = run_trace background_path im (length images) title content_lines title_font
              content_font o pos stamp (save_message (w_fs w) o).
Proof.
  intros Him Htf Hcf Hsp Hpos.
  rewrite calls_of_create_styled_text_image_prog, Him, Htf, Hcf. cbn zeta.
  set (background := enhance_contrast contrast_factor (convert_rgba im)) in *.
  set (txt := new_layer (im_size background) layer_color).
  set (s1 := Store w (images ++ [txt])).
  assert (st_images s1 !! length images = Some txt) as Htxt
    by (simpl; by rewrite lookup_app_r, Nat.sub_diag).
  rewrite (draw_all_prog_closed _ _ _ _ _ _ _ spacing pos stamp s1 txt) by done.
  pose proof (agrees_draw_all_prog (length images) o title content_lines title_font
                content_font (im_size background).1 (im_size background).2 s1 txt Htxt)
    as Hrun.
  subst txt. rewrite (draw_all_closed _ _ _ _ _ _ _ spacing pos stamp) in Hrun by done.
  apply agrees_Ok in Hrun. rewrite Hrun.
  rewrite (calls_of_save_prog_closed _ _ _ _ _ (with_layer_lookup _ _ _ _ Htxt)).
  done.
Qed.

End trace.

(** ** Claims *)

Section trace_claims.
Context `{TextMeasure} `{Imaging image}.
Context (w : world image) (images : list layer) (background_path : string).
Context (title : pystr) (content_lines : list pystr) (o : options).

(** C27. The calls of a run in full.  With the photo and both fonts in
    place and an integer line-spacing multiplier [k], the run makes exactly
    these calls, in this order: [Image.open], [convert], [Contrast],
    [enhance], [Image.new], [Draw], the two [truetype]; for the title and
    then for each body line that is not blank one [textbbox], the
    [draw.text] stamps of the stroke and the [draw.text] of the fill, line
    [i] at [content_y + i * content_font_size * k]; then [alpha_composite],
    [convert], [save] of the background under the layer of exactly these
    [draw.text] calls, and one [print], of success unless the output path
    cannot be written. *)
Theorem calls_of_run_int im title_font content_font k :
  image_open (w_fs w) background_path = Some im →
  truetype (w_fs w) (title_font_path o) (title_font_size o) = Some title_font →
  truetype (w_fs w) (content_font_path o) (content_font_size o) = Some content_font →
  content_line_spacing o = PyInt k →
  let start :=
    content_start (title_y (im_size (enhance_contrast contrast_factor (convert_rgba im))).2)
                  o in
  calls_of (create_styled_text_image_prog background_path title content_lines o)
           (Store w images)
  = run_trace background_path im (length images) title content_lines title_font
              content_font o
              (int_position start (content_font_size o * k))
              (int_stamp start (content_font_size o * k))
              (save_message (w_fs w) o).
Proof.
  intros Him Htf Hcf Hk start.
  apply (calls_of_run_closed _ _ _ _ _ _ _ _ _ (PyInt (content_font_size o * k)));
    [done..|by apply line_spacing_int|apply int_computes].
Qed.

(** C29. The calls of a run with a float multiplier [m * 2^e] ([e ≤ 0]) whose
    positions stay within the exact range: the same sequence, with line [i]
    at the float of [content_y + i * content_font_size * m * 2^e] and each
    stamp at the float of the exact sum of that position and its row
    offset. *)
Theorem calls_of_run_dyadic im title_font content_font m e :
  image_open (w_fs w) background_path = Some im →
  truetype (w_fs w) (title_font_path o) (title_font_size o) = Some title_font →
  truetype (w_fs w) (content_font_path o) (content_font_size o) = Some content_font →
  e ≤ 0 → content_line_spacing o = PyFloat (dyadic m e) →
  content_font_size o ≠ 0 → m ≠ 0 → representable m e →
  let start :=
    content_start (title_y (im_size (enhance_contrast contrast_factor (convert_rgba im))).2)
                  o in
  cursor_in_range (in_units start e) (content_font_size o * m) e (length content_lines) →
  (∀ i, (i < length content_lines)%nat →
        stroke_in_range (in_units start e + Z.of_nat i * (content_font_size o * m)) e
                        (content_stroke_width o)) →
  calls_of (create_styled_text_image_prog background_path title content_lines o)
           (Store w images)
  = run_trace background_path im (length images) title content_lines title_font
              content_font o
              (exact_cursor start (content_font_size o * m) e)
              (exact_stamp start (content_font_size o * m) e)
              (save_message (w_fs w) o).
Proof.
  intros Him Htf Hcf He Hm Hsize Hm0 Hmr start Hcur Hstroke.
  apply (calls_of_run_closed _ _ _ _ _ _ _ _ _
           (PyFloat (dyadic (content_font_size o * m) e)));
    [done..|by eapply line_spacing_in_range|by apply exact_computes].
Qed.

End trace_claims.
