(* ===== verification/FloatBands.v ===== *)
(** * The bands of the text under a float line spacing

    With the default arguments the line-spacing multiplier is the float
    1.5, and in the script it is 1.0: from the second body line on, the
    vertical positions handed to [draw.text] are floats.  [Spacing] gives
    these floats in closed form when the multiplier is dyadic; this file
    says which pixels the renders at such positions can change.

    A position [a * 2^e] falls in the row [dyadic_row a e].  What the
    library draws at a position between two rows is open, but it stays in
    the box of the text placed at the row above or at the row below
    ([Pixels.paint_fractional_rows]), so a render at such a position stays
    within its band at the one row or at the other
    ([render_band_between]).  It follows that the picture is the
    background outside these bands, for every dyadic multiplier and every
    font size for which the positions stay below [2^53] in units of
    [2^e]. *)

From Stdlib Require Import ZArith Lia SpecFloat.
From stdpp Require Import base tactics option list strings gmap.
From S2P Require Import Prelude.
From S2P Require Import PyNum.
From S2P Require Import PyFloat.
From S2P Require Import PyStr.
From S2P Require Import Pillow.
From S2P Require Import Renderer.
From S2P Require Import Composer.
From S2P Require Import Pixels.
From S2P Require Import Canvas.
From S2P Require Import Spacing.

#[local] Open Scope Z_scope.

(** ** Rows and bands *)

(** The row of pixels the number [a * 2^e] falls in. *)
Definition dyadic_row (a e : Z) : Z := a / 2 ^ (- e).

(** The band of a render at a position in the row [row], when the position
    may lie between that row and the next. *)
Definition render_band_between `{TextMeasure} (f : font) (text : pystr) (image_width : Z)
    (st : text_style) (row : Z) (x y : Z) : bool :=
  render_band f text image_width st row x y
  || render_band f text image_width st (row + 1) x y.

(** The positions of the body and of their stroke stamps stay
    representable from the first line to the last. *)
Definition content_in_range (start s e w : Z) (n : nat) : Prop :=
  cursor_in_range (in_units start e) s e n ∧
  stroke_in_range (in_units start e) e w ∧
  stroke_in_range (in_units start e + Z.of_nat n * s) e w.

#[export] Instance content_in_range_dec start s e w n : Decision (content_in_range start s e w n).
Proof. unfold content_in_range. apply _. Defined.

(** ** Rows of dyadic positions *)

Lemma dyadic_row_in_units z e : e ≤ 0 → dyadic_row (in_units z e) e = z.
Proof.
  intros He. unfold dyadic_row, in_units. apply Z.div_mul.
  apply Z.pow_nonzero; lia.
Qed.

Lemma dyadic_row_add_int a dy e :
  e ≤ 0 → dyadic_row (a + in_units dy e) e = dyadic_row a e + dy.
Proof.
  intros He. unfold dyadic_row, in_units. apply Z.div_add.
  apply Z.pow_nonzero; lia.
Qed.

Lemma py_floor_dyadic a e :
  e ≤ 0 → representable a e → py_floor (PyFloat (dyadic a e)) = Some (dyadic_row a e).
Proof. apply float_floor_dyadic. Qed.

(** A later line of a pitch of at least [h] rows is at least [h] rows
    further down. *)
Lemma dyadic_row_later a s e h i j :
  e ≤ 0 → 0 ≤ h → h * 2 ^ (- e) ≤ s → (i < j)%nat →
  dyadic_row (a + Z.of_nat i * s) e + h ≤ dyadic_row (a + Z.of_nat j * s) e.
Proof.
  intros He Hh Hs Hij. unfold dyadic_row.
  assert (0 < 2 ^ (- e)) as Hu by (apply Z.pow_pos_nonneg; lia).
  rewrite <- Z.div_add by lia. apply Z.div_le_mono; [done|].
  assert (1 ≤ Z.of_nat j - Z.of_nat i) by lia. nia.
Qed.

(** The row of a line whose position is a whole number. *)
Lemma int_value_exact_cursor start s e i row :
  e ≤ 0 → representable (in_units start e + Z.of_nat i * s) e →
  int_value (exact_cursor start s e i) = Some row →
  row = dyadic_row (in_units start e + Z.of_nat i * s) e.
Proof.
  intros He Hr. destruct i as [|i].
  - intros [= <-]. by rewrite Z.mul_0_l, Z.add_0_r, dyadic_row_in_units.
  - intros Hrow%int_value_py_floor. unfold exact_cursor in Hrow.
    rewrite py_floor_dyadic in Hrow by done. by injection Hrow.
Qed.

(** The positions between the first and the last line keep their stroke
    stamps representable. *)
Lemma content_in_range_stroke start s e w n i :
  (i ≤ n)%nat → content_in_range start s e w n →
  stroke_in_range (in_units start e + Z.of_nat i * s) e w.
Proof.
  intros Hi (Hcur & (_ & Hw & [Hlo0 _] & [Hhi0 _]) & (_ & _ & [Hlon _] & [Hhin _])).
  pose proof (cursor_in_range_le _ _ _ _ i Hi Hcur) as (_ & _ & Hi').
  destruct Hw as [Hw He]. assert (0 ≤ Z.of_nat i ≤ Z.of_nat n) as Hin by lia.
  split; [done|]. split; [done|].
  split; (split; [|done]); destruct (decide (0 ≤ s)); nia.
Qed.

(** ** Renders at dyadic positions *)

Section bands.
Context `{TextRaster}.
Context (e : Z) (He : e ≤ 0).

(** A stamp in the row [row + dy] at an offset within the stroke width
    touches no pixel outside the band at [row] or at [row + 1]. *)
Lemma touches_band_between f text x0 row w fill dx dy position x y :
  - Z.max 0 w ≤ dx ≤ Z.max 0 w → - Z.max 0 w ≤ dy ≤ Z.max 0 w →
  py_floor position = Some (row + dy) →
  text_band f text x0 row w x y = false → text_band f text x0 (row + 1) w x y = false →
  touches (DrawText (x0 + dx) position text f fill) x y = false.
Proof.
  unfold text_band. intros Hdx Hdy Hrow Hband%bool_decide_eq_false Hband'%bool_decide_eq_false.
  apply (touches_row _ _ _ (row + dy)); [done|..]; unfold in_bbox; simpl;
    apply bool_decide_eq_false; lia.
Qed.

Lemma draw_styled_text_between_bands draw text f a image_width st d' y' x y :
  stroke_in_range a e (stroke_width st) →
  draw_styled_text draw text f (PyFloat (dyadic a e)) image_width st = Ok (d', y') →
  render_band_between f text image_width st (dyadic_row a e) x y = false →
  gained_untouched draw d' x y.
Proof.
  intros Hr Hd [Hband Hband']%orb_false_elim.
  split; [by apply draw_styled_text_layer in Hd as [_ ?]|].
  apply draw_styled_text_Ok in Hd as (cs & Hcs & -> & _).
  rewrite stroke_calls_dyadic in Hcs by done. injection Hcs as <-.
  eexists. split; [apply foldl_draw_text_calls|]. apply Forall_app. split.
  - apply Forall_fmap, Forall_forall. intros [dx dy] Hoff%elem_of_stroke_offsets.
    destruct (stroke_in_range_offset a e (stroke_width st) dy He ltac:(lia) Hr) as [_ Hdy].
    apply (touches_band_between _ _ _ (dyadic_row a e) (stroke_width st) _ dx dy);
      [simpl; lia..| |done|done].
    cbn [fst snd]. by rewrite py_floor_dyadic, dyadic_row_add_int.
  - apply Forall_singleton. unfold fill_call.
    rewrite <- (Z.add_0_r (anchor _ _ _ _)).
    apply (touches_band_between _ _ _ (dyadic_row a e) (stroke_width st) _ 0 0);
      [lia..| |done|done].
    rewrite py_floor_dyadic, Z.add_0_r by (done || apply Hr). done.
Qed.

(** The loop from a float cursor. *)
Lemma draw_content_between_bands d f width st s a content_lines d' y' x y :
  cursor_in_range a s e (length content_lines) →
  (∀ i, (i < length content_lines)%nat →
     stroke_in_range (a + Z.of_nat i * s) e (stroke_width st)) →
  draw_content d f width st (PyFloat (dyadic s e)) content_lines (PyFloat (dyadic a e))
  = Ok (d', y') →
  (∀ i line, content_lines !! i = Some line → str_truthy (py_strip line) = true →
     render_band_between f line width st (dyadic_row (a + Z.of_nat i * s) e) x y = false) →
  gained_untouched d d' x y.
Proof.
  revert d a. induction content_lines as [|line rest IH]; intros d a Hcur Hstroke.
  - intros [= <- <-] _. apply gained_untouched_refl.
  - intros (d1 & y1 & [Hy Hline]%draw_line_Ok & Hrest)%draw_content_cons_Ok Hbands.
    pose proof (cursor_in_range_step _ _ _ _ Hcur) as Hcur'.
    rewrite py_add_dyadic in Hy by (done || apply Hcur || apply Hcur'). injection Hy as <-.
    apply (gained_untouched_trans _ d1).
    + specialize (Hbands O line eq_refl). specialize (Hstroke O ltac:(simpl; lia)).
      rewrite Z.mul_0_l, Z.add_0_r in Hbands, Hstroke.
      destruct (str_truthy (py_strip line)); [|subst; apply gained_untouched_refl].
      by eapply draw_styled_text_between_bands; [done..|apply Hbands].
    + apply (IH _ _ Hcur'); [|done|].
      * intros i Hi. specialize (Hstroke (S i) ltac:(simpl; lia)).
        by replace (a + s + Z.of_nat i * s) with (a + Z.of_nat (S i) * s) by lia.
      * intros i line' Hi Hnb. specialize (Hbands (S i) line' Hi Hnb).
        by replace (a + s + Z.of_nat i * s) with (a + Z.of_nat (S i) * s) by lia.
Qed.

(** The loop from the integer start of the body. *)
Lemma draw_content_dyadic_bands d f width st s start content_lines d' y' x y :
  content_in_range start s e (stroke_width st) (length content_lines) →
  draw_content d f width st (PyFloat (dyadic s e)) content_lines (PyInt start) = Ok (d', y') →
  (∀ i line, content_lines !! i = Some line → str_truthy (py_strip line) = true →
     render_band_between f line width st
       (dyadic_row (in_units start e + Z.of_nat i * s) e) x y = false) →
  gained_untouched d d' x y.
Proof.
  intros Hr Hd Hbands. pose proof Hr as (Hcur & _).
  destruct content_lines as [|line rest]; [injection Hd as <- <-; apply gained_untouched_refl|].
  apply draw_content_cons_Ok in Hd as (d1 & y1 & [Hy Hline]%draw_line_Ok & Hrest).
  pose proof (cursor_in_range_step _ _ _ _ Hcur) as Hcur'.
  rewrite py_add_int_dyadic in Hy by (done || apply Hcur || apply Hcur'). injection Hy as <-.
  apply (gained_untouched_trans _ d1).
  - specialize (Hbands O line eq_refl).
    rewrite Z.mul_0_l, Z.add_0_r, dyadic_row_in_units in Hbands by done.
    destruct (str_truthy (py_strip line)); [|subst; apply gained_untouched_refl].
    apply orb_false_elim in Hbands as [Hband _]; [|done].
    by eapply draw_styled_text_outside_band.
  - eapply draw_content_between_bands; [done| |done|].
    + intros i Hi. replace (in_units start e + s + Z.of_nat i * s)
        with (in_units start e + Z.of_nat (S i) * s) by lia.
      apply (content_in_range_stroke _ _ _ _ (length (line :: rest))); [simpl; lia|done].
    + intros i line' Hi Hnb. specialize (Hbands (S i) line' Hi Hnb).
      by replace (in_units start e + s + Z.of_nat i * s)
        with (in_units start e + Z.of_nat (S i) * s) by lia.
Qed.

End bands.

(** ** Claims *)

Section float_canvas.
Context `{PixelImaging image}.
Context (background : image).

(** C33. With a dyadic line-spacing multiplier [m * 2^e] ([e ≤ 0]; 1.0 and the
    default 1.5 are such) and positions within the exact range, a pixel
    outside the band of the title and outside the bands of the body lines
    that are not blank (line [i] in the row of the start plus [i] times the
    spacing, or between that row and the next) is saved as the pixel of the
    background, flattened. *)
Theorem float_spacing_outside_bands title content_lines title_font content_font o m e d y'
    x y :
  e ≤ 0 → content_line_spacing o = PyFloat (dyadic m e) →
  content_font_size o ≠ 0 → m ≠ 0 → representable m e →
  content_in_range (content_start (title_y (im_size background).2) o)
                   (content_font_size o * m) e (content_stroke_width o)
                   (length content_lines) →
  draw_all (new_layer (im_size background) layer_color) title content_lines
           title_font content_font (im_size background).1 (im_size background).2 o
  = Ok (d, y') →
  in_bounds (im_size background) x y →
  render_band title_font title (im_size background).1 (title_style o)
              (title_y (im_size background).2) x y = false →
  (∀ i line, content_lines !! i = Some line → str_truthy (py_strip line) = true →
     render_band_between content_font line (im_size background).1 (content_style o)
       (dyadic_row (in_units (content_start (title_y (im_size background).2) o) e
                    + Z.of_nat i * (content_font_size o * m)) e) x y = false) →
  saved_pixel background d x y = flatten (pixel_at background x y).
Proof.
  intros He Hm Hsize Hm0 Hmr Hr Hd Hxy Htitle Hlines.
  pose proof Hd as [Hdsize Hfill]%draw_all_layer.
  apply pixel_at_compose_untouched; [done..|].
  apply draw_all_Ok in Hd as (d1 & sp & Hd1 & Hsp & Hd).
  unfold line_spacing in Hsp. rewrite Hm, py_mul_int_dyadic in Hsp by (done || apply Hr).
  injection Hsp as <-.
  eapply gained_untouched_Forall; 
    [exact (draw_content_dyadic_bands e He _ _ _ (content_style o) _ _ _ _ _ _ _ Hr Hd Hlines)|].
  eapply gained_untouched_Forall; [by eapply draw_styled_text_outside_band|constructor].
Qed.

(** The text shows in the picture under a float spacing too: with an
    opaque text colour, a pixel that the glyphs of body line [i] cover
    fully at a position that is a whole number of pixels, and that lies in
    the band of no later line, is saved in the text colour of the body. *)
Theorem float_spacing_fill_is_saved title content_lines title_font content_font o m e d y'
    i line x y :
  e ≤ 0 → content_line_spacing o = PyFloat (dyadic m e) →
  content_font_size o ≠ 0 → m ≠ 0 → representable m e →
  content_in_range (content_start (title_y (im_size background).2) o)
                   (content_font_size o * m) e (content_stroke_width o)
                   (length content_lines) →
  draw_all (new_layer (im_size background) layer_color) title content_lines
           title_font content_font (im_size background).1 (im_size background).2 o
  = Ok (d, y') →
  in_bounds (im_size background) x y →
  content_lines !! i = Some line → str_truthy (py_strip line) = true →
  alpha (pixel_of_color (content_color o)) = 255 →
  solid (fill_call line content_font
                   (exact_cursor (content_start (title_y (im_size background).2) o)
                                 (content_font_size o * m) e i)
                   (anchor line content_font (im_size background).1 (content_style o))
                   (content_style o)) x y = true →
  (∀ j line', (i < j)%nat → content_lines !! j = Some line' →
     str_truthy (py_strip line') = true →
     render_band_between content_font line' (im_size background).1 (content_style o)
       (dyadic_row (in_units (content_start (title_y (im_size background).2) o) e
                    + Z.of_nat j * (content_font_size o * m)) e) x y = false) →
  saved_pixel background d x y = pixel_of_color (content_color o).
Proof.
  intros He Hm Hsize Hm0 Hmr Hr Hd Hxy Hi Hnb Hopaque Hsolid Hlater.
  pose proof Hd as [Hdsize _]%draw_all_layer. pose proof Hr as (Hcur & _).
  pose proof (lookup_lt_Some _ _ _ Hi) as Hlen.
  apply draw_all_Ok in Hd as (d0 & sp & _ & Hsp & Hd).
  unfold line_spacing in Hsp. rewrite Hm, py_mul_int_dyadic in Hsp by (done || apply Hr).
  injection Hsp as <-.
  destruct (draw_content_render_at _ _ _ _ _ _ _ _ _ _ _ Hd Hi Hnb)
    as (d1 & yi & d2 & y2 & Hyi & Hy2 & Hline & Hpost).
  rewrite cursor_after_exact in Hyi, Hy2
    by first [done|apply (cursor_in_range_le _ _ _ (length content_lines)); [lia|done]].
  injection Hyi as <-. injection Hy2 as <-.
  apply (line_fill_is_saved _ _ _ _ _ _ _ _ _ _ _ Hline); [done..|].
  eapply (draw_content_between_bands e He); [| |exact Hpost|]; rewrite ?length_drop.
  - by apply cursor_in_range_from.
  - intros j Hj. rewrite <- Z.add_assoc, <- Z.mul_add_distr_r, <- Nat2Z.inj_add.
    apply (content_in_range_stroke _ _ _ _ (length content_lines)); [lia|done].
  - intros j line' Hj Hnb'. rewrite lookup_drop in Hj.
    rewrite <- Z.add_assoc, <- Z.mul_add_distr_r, <- Nat2Z.inj_add.
    apply (Hlater _ line'); [lia|done..].
Qed.

(** C36. The body is legible under a float spacing when its lines are far
    enough apart: with a multiplier [m * 2^e] within range, an opaque text
    colour, the boxes of the lines between their position and [height] rows
    below it, and a line pitch of at least [height] plus the stroke width,
    every pixel that the glyphs of a body line cover fully at a position
    that is a whole number of pixels is saved in the text colour of the
    body. *)
Theorem float_spaced_lines_show title content_lines title_font content_font o m e height d y'
    i line x y :
  e ≤ 0 → content_line_spacing o = PyFloat (dyadic m e) →
  content_font_size o ≠ 0 → m ≠ 0 → representable m e →
  content_in_range (content_start (title_y (im_size background).2) o)
                   (content_font_size o * m) e (content_stroke_width o)
                   (length content_lines) →
  boxes_within content_font height content_lines →
  (height + Z.max 0 (content_stroke_width o)) * 2 ^ (- e) ≤ content_font_size o * m →
  draw_all (new_layer (im_size background) layer_color) title content_lines
           title_font content_font (im_size background).1 (im_size background).2 o
  = Ok (d, y') →
  in_bounds (im_size background) x y →
  content_lines !! i = Some line → str_truthy (py_strip line) = true →
  alpha (pixel_of_color (content_color o)) = 255 →
  solid (fill_call line content_font
                   (exact_cursor (content_start (title_y (im_size background).2) o)
                                 (content_font_size o * m) e i)
                   (anchor line content_font (im_size background).1 (content_style o))
                   (content_style o)) x y = true →
  saved_pixel background d x y = pixel_of_color (content_color o).
Proof.
  intros He Hm Hsize Hm0 Hmr Hr Hbox Hpitch Hd Hxy Hi Hnb Hopaque Hsolid.
  eapply float_spacing_fill_is_saved; [done..|]. intros j line' Hij Hj Hnb'.
  apply solid_in_bbox in Hsolid as (row & Hrow & Hin). simpl in Hrow.
  pose proof (lookup_lt_Some _ _ _ Hi) as Hlen. pose proof Hr as (Hcur & _).
  apply (cursor_in_range_le _ _ _ _ i) in Hcur as (_ & _ & Hri); [|lia].
  apply int_value_exact_cursor in Hrow; [|done..].
  unfold boxes_within in Hbox. rewrite Forall_lookup in Hbox.
  destruct (Hbox _ _ Hi Hnb) as [Htop Hbottom], (Hbox _ _ Hj Hnb') as [Htop' _].
  assert (0 ≤ height + Z.max 0 (content_stroke_width o)) as Hh
    by (apply bool_decide_eq_true in Hin; simpl in Hin; lia).
  pose proof (dyadic_row_later (in_units (content_start (title_y (im_size background).2) o) e)
                _ e _ i j He Hh Hpitch Hij) as Hlater. rewrite <- Hrow in Hlater.
  apply orb_false_intro;
    (eapply (text_band_below _ line); [exact Hin|done..|]);
    change (stroke_width (content_style o)) with (content_stroke_width o); lia.
Qed.

End float_canvas.
