(* ===== verification/Example.v ===== *)
(** * The script entry point and the scenarios of the specification

    The script (src/demo4.py, lines 174-218) calls the composer once, with a
    title, ten body lines of which one is empty, and its own options.  This
    file holds those arguments, a file system in which the call succeeds,
    and the evaluation of the call and of the end-to-end scenario of the
    specification.  Images are symbolic and text is measured at fixed pitch,
    so every statement here is checked by computation. *)

From Stdlib Require Import ZArith Lia SpecFloat.
From stdpp Require Import base tactics option list strings gmap.
From S2P Require Import Prelude.
From S2P Require Import PyNum.
From S2P Require Import PyStr.
From S2P Require Import Pillow.
From S2P Require Import Renderer.
From S2P Require Import Composer.

#[local] Open Scope Z_scope.

(** ** The arguments of the script *)

(** [title] *)
Definition main_title : pystr :=
  [20320; 30340; 20154; 29983; 21462; 20915; 20110; 24403; 19979]%N.

(** [content_lines]; the third line is the empty string. *)
Definition main_content_lines : list pystr :=
  [ [27963; 22312; 34; 22914; 26524; 24590; 26679; 24590; 26679; 34; 20043; 31867;
     30340; 20551; 35774; 20043; 20013];
    [23601; 26681; 26412; 26080; 27861; 25913; 21464];
    [];
    [20320; 21482; 24819; 27963; 22312];
    [34; 22914; 26524; 26377; 26102; 38388; 25105; 20063; 21487; 20197; 34];
    [34; 21482; 35201; 29615; 22659; 20855; 22791; 25105; 20063; 21487; 20197; 34];
    [34; 33258; 24049; 26377; 36825; 31181; 25165; 33021; 34; 20043; 31867; 30340;
     21487; 33021; 24615; 20013];
    [25110; 35768; 20877; 36807; 53; 24180; 25110; 49; 48; 24180];
    [20320; 21448; 20250; 24320; 22987; 20351; 29992];
    [34; 19981; 20877; 24180; 36731; 34; 34; 24050; 26377; 23478; 24237; 34; 20043;
     31867; 30340; 20511; 21475] ]%N.

(** The float literal [1.0]. *)
Definition float_1_0 : float := S754_finite false 4503599627370496 (-52).

(** The keyword arguments of the call. *)
Definition main_options : options :=
  {| output_path := "custom_styled_output.jpg";
     title_font_path := "msyh.ttc";
     content_font_path := "simkai.ttf";
     title_font_size := 280;
     content_font_size := 180;
     title_color := RGB 0 0 0;
     content_color := RGB 255 215 0;
     title_stroke_color := RGB 255 255 255;
     content_stroke_color := RGB 0 0 0;
     title_stroke_width := 15;
     content_stroke_width := 8;
     title_align := LEFT;
     content_align := LEFT;
     margin_left := 80;
     margin_right := 80;
     title_content_spacing := 400;
     content_line_spacing := PyFloat float_1_0 |}.

(** The call of the script, in a given world. *)
Definition main (w : world sym_image) : world sym_image * result pyexn () :=
  create_styled_text_image w "people.jpg" main_title main_content_lines main_options.

(** ** Worlds *)

(** A file system that holds a photo of the given size under the given name
    and the fonts under the given names, all of it writable. *)
Definition world_with (photo : string) (size : Z * Z) (fonts : list string)
    : world sym_image :=
  World (FileSystem
           (<[photo := ImageFile (SymPhoto photo size)]>
              (list_to_map ((λ name, (name, FontFile)) <$> fonts)))
           ∅)
        [].

(** A world in which the script succeeds. *)
Definition main_world : world sym_image :=
  world_with "people.jpg" (3000, 4000) ["msyh.ttc"; "simkai.ttf"].

(** The layer of the image saved at a path, when there is one. *)
Definition saved_layer (w : world sym_image) (path : string) : option layer :=
  match fs_files (w_fs w) !! path with
  | Some (ImageFile (SymEncode _ (SymConvertRGB (SymComposite _ (SymLayer l))))) => Some l
  | _ => None
  end.

(** The fill calls among the calls of a layer: the text and the position of
    every call in one of the given colours. *)
Definition calls_in (fill : color) (l : layer) : list (pystr * Z * pynum) :=
  (λ c, (dc_text c, dc_x c, dc_y c)) <$> filter (λ c, dc_fill c = fill) (layer_calls l).

(** ** The float literals *)

(** The literals are the correctly rounded quotients they stand for. *)
Example float_literals :
  SFdiv prec emax (binary_normalize prec emax 12 0 false)
                  (binary_normalize prec emax 10 0 false) = contrast_factor ∧
  SFdiv prec emax (binary_normalize prec emax 3 0 false)
                  (binary_normalize prec emax 2 0 false) = float_1_5 ∧
  float_of_int 1 = Ok float_1_0.
Proof. vm_compute. done. Qed.

(** ** The script *)

(** The outcome of the script's call in [main_world], evaluated once. *)
Definition main_outcome : world sym_image * result pyexn () :=
  Eval vm_compute in main main_world.

Example main_evaluates : main main_world = main_outcome.
Proof. vm_compute. reflexivity. Qed.

(** The script's call succeeds in [main_world]: it returns [None], prints
    that it saved the image and writes it, at the size of the photo. *)
Example main_succeeds :
  (main main_world).2 = Ok () ∧
  w_stdout (main main_world).1 = [ImageSaved "custom_styled_output.jpg"] ∧
  (∃ im, fs_files (w_fs (main main_world).1) !! "custom_styled_output.jpg"
         = Some (ImageFile im) ∧ sym_size im = (3000, 4000)).
Proof.
  rewrite main_evaluates. split_and!; [vm_compute; reflexivity..|].
  eexists. split; vm_compute; reflexivity.
Qed.

(** It makes [31^2 + 1] calls for the title and [17^2 + 1] for each of the
    nine body lines that are not empty. *)
Example main_call_count :
  length <$> (layer_calls <$> saved_layer (main main_world).1 "custom_styled_output.jpg")
  = Some (962 + 9 * 290)%nat.
Proof. rewrite main_evaluates. vm_compute. reflexivity. Qed.

(** The title is filled last among its calls, at a sixth of the height. *)
Example main_title_position :
  (λ l, (λ c, (dc_x c, dc_y c, dc_fill c)) <$> layer_calls l !! 961%nat)
    <$> saved_layer (main main_world).1 "custom_styled_output.jpg"
  = Some (Some (80, PyInt 666, RGB 0 0 0)).
Proof. rewrite main_evaluates. vm_compute. reflexivity. Qed.

(** The first body line is filled at the integer start; the following ones
    at float positions, one spacing of [180.0] apart, the empty third line
    leaving a gap. *)
Example main_fill_positions :
  (λ l, (λ c, c.2) <$> calls_in (RGB 255 215 0) l)
    <$> saved_layer (main main_world).1 "custom_styled_output.jpg"
  = (λ ys, PyInt 1346 :: (PyFloat <$> ys))
      <$> (mapM (λ z, match float_of_int z with Ok g => Some g | Raise _ => None end)
                [1526; 1886; 2066; 2246; 2426; 2606; 2786; 2966]).
Proof. rewrite main_evaluates. vm_compute. reflexivity. Qed.

(** Without the photo the script prints the failure and writes nothing. *)
Example main_without_photo :
  main (world_with "other.jpg" (3000, 4000) ["msyh.ttc"; "simkai.ttf"])
  = (print (world_with "other.jpg" (3000, 4000) ["msyh.ttc"; "simkai.ttf"])
           (BackgroundOpenFailed "people.jpg"),
     Ok ()).
Proof. vm_compute. reflexivity. Qed.

(** Without the body font the script prints the failure and writes
    nothing. *)
Example main_without_font :
  main (world_with "people.jpg" (3000, 4000) ["msyh.ttc"])
  = (print (world_with "people.jpg" (3000, 4000) ["msyh.ttc"])
           (FontLoadFailed "simkai.ttf"),
     Ok ()).
Proof. vm_compute. reflexivity. Qed.

(** ** The end-to-end scenario of the specification *)

(** The float literal [2.0]. *)
Definition float_2_0 : float := S754_finite false 4503599627370496 (-51).

(** Title "A" at size 100 and lines "B", "", "C" at size 50, spacing
    multiplier 2.0, 20 pixels between title and body, on a background of
    1000 by 600. *)
Definition scenario_options : options :=
  {| output_path := "output.jpg";
     title_font_path := "simhei.ttf";
     content_font_path := "simhei.ttf";
     title_font_size := 100;
     content_font_size := 50;
     title_color := RGB 255 255 255;
     content_color := RGB 255 255 0;
     title_stroke_color := RGBA 0 0 0 255;
     content_stroke_color := RGBA 0 0 0 255;
     title_stroke_width := 3;
     content_stroke_width := 2;
     title_align := CENTER;
     content_align := LEFT;
     margin_left := 50;
     margin_right := 50;
     title_content_spacing := 20;
     content_line_spacing := PyFloat float_2_0 |}.

Definition scenario_lines : list pystr := [[66]; []; [67]]%N.

Definition scenario_world : world sym_image :=
  world_with "background.jpg" (1000, 600) ["simhei.ttf"].

Definition scenario : world sym_image * result pyexn () :=
  create_styled_text_image scenario_world "background.jpg" [65%N] scenario_lines
                           scenario_options.

(** [float(z)] for an integer within the range. *)
Definition float_lit (z : Z) : float := binary_normalize prec emax z 0 false.

(** The spacing is [100.0]; "B" is placed at 220, the empty line is not
    placed, "C" is placed at [420.0]; the cursor ends at [520.0]. *)
Example scenario_layout :
  line_spacing scenario_options = Ok (PyFloat (float_lit 100)) ∧
  content_start (title_y 600) scenario_options = 220 ∧
  layout (PyFloat (float_lit 100)) scenario_lines (PyInt 220)
  = Ok [([66%N], PyInt 220); ([67%N], PyFloat (float_lit 420))] ∧
  cursor_after (PyFloat (float_lit 100)) 3 (PyInt 220) = Ok (PyFloat (float_lit 520)).
Proof. vm_compute. done. Qed.

(** The call writes the output, at the size of the background; the title is
    filled at [600 // 6 = 100] and the body lines where the layout places
    them. *)
Example scenario_output :
  scenario.2 = Ok () ∧
  w_stdout scenario.1 = [ImageSaved "output.jpg"] ∧
  (λ l, (layer_size l, calls_in (RGB 255 255 255) l, calls_in (RGB 255 255 0) l))
    <$> saved_layer scenario.1 "output.jpg"
  = Some ((1000, 600),
          [([65%N], 450, PyInt 100)],
          [([66%N], 50, PyInt 220); ([67%N], 50, PyFloat (float_lit 420))]).
Proof. vm_compute. done. Qed.

(** ** Witnesses of the renderer's theorems *)

Definition demo_layer : layer := new_layer (1000, 600) layer_color.
Definition demo_font : font := Font "simhei.ttf" 50.
Definition demo_style : text_style := content_style scenario_options.

(** The layer after rendering "B" at [420.0]. *)
Definition demo_rendered : layer :=
  match draw_styled_text demo_layer [66%N] demo_font (PyFloat (float_lit 420)) 1000
                         demo_style with
  | Ok (d, _) => d
  | Raise _ => demo_layer
  end.

Lemma draw_styled_text_call_count_witness :
  ∃ cs, layer_calls demo_rendered = layer_calls demo_layer ++ cs ∧
        Z.of_nat (length cs) = call_count (stroke_width demo_style).
Proof.
  apply (draw_styled_text_call_count demo_layer [66%N] demo_font
           (PyFloat (float_lit 420)) 1000 demo_style demo_rendered
           (PyFloat (float_lit 420))).
  vm_compute. reflexivity.
Defined.

Lemma draw_styled_text_returns_position_witness :
  ∃ d', draw_styled_text demo_layer [66%N] demo_font (PyFloat (float_lit 420)) 1000
                         demo_style = Ok (d', PyFloat (float_lit 420)) ∧
        ∀ d'' y'', draw_styled_text demo_layer [66%N] demo_font (PyFloat (float_lit 420))
                                    1000 demo_style = Ok (d'', y'') →
                   d'' = d' ∧ y'' = PyFloat (float_lit 420).
Proof.
  apply (draw_styled_text_returns_position demo_layer [66%N] demo_font
           (PyFloat (float_lit 420)) 1000 demo_style).
  vm_compute. reflexivity.
Defined.

Lemma draw_styled_text_fill_last_witness :
  last (layer_calls demo_rendered)
  = Some (fill_call [66%N] demo_font (PyFloat (float_lit 420))
                    (anchor [66%N] demo_font 1000 demo_style) demo_style).
Proof.
  apply (draw_styled_text_fill_last demo_layer [66%N] demo_font
           (PyFloat (float_lit 420)) 1000 demo_style demo_rendered
           (PyFloat (float_lit 420))).
  vm_compute. reflexivity.
Defined.

Lemma draw_styled_text_stroke_first_witness :
  ∃ cs, layer_calls demo_rendered
        = layer_calls demo_layer ++ cs
          ++ [fill_call [66%N] demo_font (PyFloat (float_lit 420))
                        (anchor [66%N] demo_font 1000 demo_style) demo_style] ∧
        Forall (λ c, dc_text c = [66%N] ∧ dc_font c = demo_font ∧
                     dc_fill c = stroke_color demo_style) cs.
Proof.
  apply (draw_styled_text_stroke_first demo_layer [66%N] demo_font
           (PyFloat (float_lit 420)) 1000 demo_style demo_rendered
           (PyFloat (float_lit 420))).
  vm_compute. reflexivity.
Defined.

(** ** Witnesses of the composer's theorems *)

(** The layer after the loop over the scenario's lines. *)
Definition demo_content : layer :=
  match draw_content demo_layer demo_font 1000 demo_style (PyFloat (float_lit 100))
                     scenario_lines (PyInt 220) with
  | Ok (d, _) => d
  | Raise _ => demo_layer
  end.

Lemma draw_content_advances_witness :
  (∃ d', draw_content demo_layer demo_font 1000 demo_style (PyFloat (float_lit 100))
                      scenario_lines (PyInt 220) = Ok (d', PyFloat (float_lit 520)))
  ↔ cursor_after (PyFloat (float_lit 100)) (length scenario_lines) (PyInt 220)
    = Ok (PyFloat (float_lit 520)).
Proof.
  apply (draw_content_advances demo_font 1000 demo_style (PyFloat (float_lit 100))
           demo_layer scenario_lines (PyInt 220) (PyFloat (float_lit 520))).
  vm_compute. reflexivity.
Defined.

Lemma draw_content_call_count_witness :
  Z.of_nat (length (layer_calls demo_content))
  = Z.of_nat (length (layer_calls demo_layer))
    + Z.of_nat (length (filter (λ line, forallb py_isspace line = false) scenario_lines))
      * call_count (stroke_width demo_style).
Proof.
  apply (draw_content_call_count demo_font 1000 demo_style (PyFloat (float_lit 100))
           demo_layer scenario_lines (PyInt 220) demo_content (PyFloat (float_lit 520))).
  vm_compute. reflexivity.
Defined.

Lemma draw_content_refines_layout_witness :
  ∃ placed, layout (PyFloat (float_lit 100)) scenario_lines (PyInt 220) = Ok placed ∧
            render_placed demo_font 1000 demo_style demo_layer placed = Ok demo_content.
Proof.
  apply (draw_content_refines_layout demo_font 1000 demo_style (PyFloat (float_lit 100))
           demo_layer scenario_lines (PyInt 220) demo_content (PyFloat (float_lit 520))).
  vm_compute. reflexivity.
Defined.

(** The layer after the loop over an empty line and a line of a space, a
    tab and an ideographic space. *)
Definition demo_blank : layer :=
  match draw_content demo_layer demo_font 1000 demo_style (PyInt 75)
                     [[]; [32; 9; 12288]]%N (PyInt 220) with
  | Ok (d, _) => d
  | Raise _ => Layer (0, 0) layer_color []
  end.

Lemma blank_lines_draw_nothing_witness : demo_blank = demo_layer.
Proof.
  apply (blank_lines_draw_nothing demo_font 1000 demo_style (PyInt 75) demo_layer
           [[]; [32; 9; 12288]]%N (PyInt 220) demo_blank (PyInt 370)).
  - repeat constructor.
  - vm_compute. reflexivity.
Defined.

(** The layer after the whole drawing of the scenario. *)
Definition demo_drawing : layer :=
  match draw_all demo_layer [65%N] scenario_lines (Font "simhei.ttf" 100) demo_font
                 1000 600 scenario_options with
  | Ok (d, _) => d
  | Raise _ => demo_layer
  end.

Lemma draw_all_call_count_witness :
  Z.of_nat (length (layer_calls demo_drawing))
  = Z.of_nat (length (layer_calls demo_layer))
    + call_count (title_stroke_width scenario_options)
    + Z.of_nat (length (filter (λ line, forallb py_isspace line = false) scenario_lines))
      * call_count (content_stroke_width scenario_options).
Proof.
  apply (draw_all_call_count demo_layer [65%N] scenario_lines (Font "simhei.ttf" 100)
           demo_font 1000 600 scenario_options demo_drawing (PyFloat (float_lit 520))).
  vm_compute. reflexivity.
Defined.

Lemma draw_all_title_fill_witness :
  layer_calls demo_drawing
    !! (length (layer_calls demo_layer)
        + length (stroke_offsets (title_stroke_width scenario_options)))%nat
  = Some (fill_call [65%N] (Font "simhei.ttf" 100) (PyInt (600 / 6))
            (anchor [65%N] (Font "simhei.ttf" 100) 1000 (title_style scenario_options))
            (title_style scenario_options)).
Proof.
  apply (draw_all_title_fill demo_layer [65%N] scenario_lines (Font "simhei.ttf" 100)
           demo_font 1000 600 scenario_options demo_drawing (PyFloat (float_lit 520))).
  vm_compute. reflexivity.
Defined.

(** The scenario with the integer multiplier 2 in place of the float. *)
Definition integer_options : options :=
  {| output_path := "output.jpg";
     title_font_path := "simhei.ttf";
     content_font_path := "simhei.ttf";
     title_font_size := 100;
     content_font_size := 50;
     title_color := RGB 255 255 255;
     content_color := RGB 255 255 0;
     title_stroke_color := RGBA 0 0 0 255;
     content_stroke_color := RGBA 0 0 0 255;
     title_stroke_width := 3;
     content_stroke_width := 2;
     title_align := CENTER;
     content_align := LEFT;
     margin_left := 50;
     margin_right := 50;
     title_content_spacing := 20;
     content_line_spacing := PyInt 2 |}.

Lemma integer_spacing_exact_witness :
  ∃ spacing, line_spacing integer_options = Ok spacing ∧
             cursor_after spacing 3 (PyInt 220)
             = Ok (PyInt (220 + Z.of_nat 3 * (content_font_size integer_options * 2))).
Proof. apply (integer_spacing_exact integer_options 2 3 220). reflexivity. Defined.

Lemma float_spacing_float_cursor_witness :
  ∃ d1 y1 cs,
    draw_all demo_layer [65%N] (take 1 scenario_lines) (Font "simhei.ttf" 100) demo_font
             1000 600 scenario_options
    = Ok (d1, y1) ∧
    layer_calls demo_drawing = layer_calls d1 ++ cs ∧
    Forall (λ c, is_int (dc_y c) = false) cs ∧
    Z.of_nat (length cs)
    = Z.of_nat (length (filter (λ line, str_truthy (py_strip line) = true)
                               (drop 1 scenario_lines)))
      * call_count (content_stroke_width scenario_options) ∧
    (scenario_lines ≠ [] → is_int (PyFloat (float_lit 520)) = false).
Proof.
  apply (float_spacing_float_cursor demo_layer [65%N] scenario_lines (Font "simhei.ttf" 100)
           demo_font 1000 600 scenario_options float_2_0 demo_drawing
           (PyFloat (float_lit 520))).
  - reflexivity.
  - vm_compute. reflexivity.
Defined.

(** A world without the photo, one without the body font, and one in which
    the output path is read-only. *)
Definition world_no_photo : world sym_image :=
  world_with "other.jpg" (3000, 4000) ["msyh.ttc"; "simkai.ttf"].

Definition world_no_font : world sym_image :=
  world_with "people.jpg" (3000, 4000) ["msyh.ttc"].

Definition world_read_only : world sym_image :=
  World (FileSystem (fs_files (w_fs scenario_world)) {["output.jpg"]}) [].

Lemma failure_writes_nothing_witness :
  w_fs (create_styled_text_image world_read_only "background.jpg" [65%N] scenario_lines
                                 scenario_options).1
  = w_fs world_read_only.
Proof.
  apply (failure_writes_nothing world_read_only "background.jpg" [65%N] scenario_lines
           scenario_options).
  right. right. vm_compute. reflexivity.
Defined.

Lemma missing_background_reported_witness :
  main world_no_photo = (print world_no_photo (BackgroundOpenFailed "people.jpg"), Ok ()).
Proof.
  apply (missing_background_reported world_no_photo "people.jpg" main_title
           main_content_lines main_options).
  vm_compute. reflexivity.
Defined.

Lemma missing_font_reported_witness :
  ∃ path, main world_no_font = (print world_no_font (FontLoadFailed path), Ok ()) ∧
          path = match truetype (w_fs world_no_font) (title_font_path main_options)
                                (title_font_size main_options) with
                 | Some _ => content_font_path main_options
                 | None => title_font_path main_options
                 end.
Proof.
  apply (missing_font_reported world_no_font "people.jpg" main_title main_content_lines
           main_options (SymPhoto "people.jpg" (3000, 4000))).
  - vm_compute. reflexivity.
  - right. vm_compute. reflexivity.
Defined.

Lemma success_writes_output_witness :
  ∃ out, im_size out = im_size (SymPhoto "people.jpg" (3000, 4000)) ∧
    main main_world
    = (World (FileSystem
                (<[output_path main_options := ImageFile (encode save_quality out)]>
                   (fs_files (w_fs main_world)))
                (fs_readonly (w_fs main_world)))
             (w_stdout main_world ++ [ImageSaved (output_path main_options)]),
       Ok ()).
Proof.
  apply (success_writes_output main_world "people.jpg" main_title main_content_lines
           main_options (SymPhoto "people.jpg" (3000, 4000)));
    try (vm_compute; reflexivity).
  apply not_elem_of_empty.
Defined.

Lemma writes_only_output_path_witness :
  fs_files (w_fs (main main_world).1) !! "people.jpg"
  = fs_files (w_fs main_world) !! "people.jpg" ∧
  fs_readonly (w_fs (main main_world).1) = fs_readonly (w_fs main_world).
Proof.
  apply (writes_only_output_path main_world "people.jpg" main_title main_content_lines
           main_options "people.jpg").
  discriminate.
Defined.
