(* ===== verification/MachineExample.v ===== *)
(** * The transition system, the contract and the second call on concrete
    inputs

    The end-to-end scenario of the specification, program point by point,
    and the theorems of [Machine], [Contract] and [Rerun] applied to it. *)

From Stdlib Require Import ZArith Lia.
From stdpp Require Import base tactics option list strings gmap relations.
From S2P Require Import Prelude.
From S2P Require Import PyNum.
From S2P Require Import PyStr.
From S2P Require Import Pillow.
From S2P Require Import Renderer.
From S2P Require Import Composer.
From S2P Require Import Contract.
From S2P Require Import Machine.
From S2P Require Import Rerun.
From S2P Require Import Example.

#[local] Open Scope Z_scope.

(** ** Inputs *)

(** The name of a program point. *)
Definition point {image} (c : config image) : string :=
  match c.2 with
  | AtOpen => "open"
  | AtFonts _ _ => "fonts"
  | AtTitle _ _ _ _ => "title"
  | AtSpacing _ _ _ _ => "spacing"
  | AtLine _ _ _ _ _ _ => "line"
  | AtCompose _ _ => "compose"
  | AtSave _ => "save"
  | Returned (Ok _) => "returned"
  | Returned (Raise _) => "raised"
  end.

(** The scenario after [n] steps. *)
Definition scenario_run (n : nat) : config sym_image :=
  run "background.jpg" [65%N] scenario_lines scenario_options n (scenario_world, AtOpen).

(** The cursor at the head of the loop. *)
Definition cursor_at {image} (c : config image) : option pynum :=
  match c.2 with
  | AtLine _ _ _ _ _ content_y => Some content_y
  | _ => None
  end.

(** The scenario's options with the output written over the background. *)
Definition overwrite_options : options :=
  {| output_path := "background.jpg";
     title_font_path := title_font_path scenario_options;
     content_font_path := content_font_path scenario_options;
     title_font_size := title_font_size scenario_options;
     content_font_size := content_font_size scenario_options;
     title_color := title_color scenario_options;
     content_color := content_color scenario_options;
     title_stroke_color := title_stroke_color scenario_options;
     content_stroke_color := content_stroke_color scenario_options;
     title_stroke_width := title_stroke_width scenario_options;
     content_stroke_width := content_stroke_width scenario_options;
     title_align := title_align scenario_options;
     content_align := content_align scenario_options;
     margin_left := Composer.margin_left scenario_options;
     margin_right := Composer.margin_right scenario_options;
     title_content_spacing := title_content_spacing scenario_options;
     content_line_spacing := content_line_spacing scenario_options |}.

(** The image the scenario saves. *)
Definition scenario_out : sym_image :=
  match decision "background.jpg" [65%N] scenario_lines overwrite_options
                 (w_fs scenario_world) with
  | Save out => out
  | _ => SymPhoto "" (0, 0)
  end.

(** ** The scenario, step by step *)

(** Three body lines: ten steps, four of them at the head of the loop, with
    the cursor at 220, 320, 420 and 520. *)
Example scenario_points :
  point ∘ scenario_run <$> seq 0 11
  = ["open"; "fonts"; "title"; "spacing"; "line"; "line"; "line"; "line"; "compose";
     "save"; "returned"] ∧
  omap (cursor_at ∘ scenario_run) (seq 0 11)
  = [PyInt 220; PyFloat (float_lit 320); PyFloat (float_lit 420); PyFloat (float_lit 520)] ∧
  scenario_run 10 = (scenario.1, Returned scenario.2).
Proof. vm_compute. done. Qed.

(** Without the font the call returns after two steps. *)
Example missing_font_points :
  point ∘ run "people.jpg" main_title main_content_lines main_options 100
    <$> [(world_no_font, AtOpen)]
  = ["returned"] ∧
  run "people.jpg" main_title main_content_lines main_options 2 (world_no_font, AtOpen)
  = run "people.jpg" main_title main_content_lines main_options 100 (world_no_font, AtOpen).
Proof. vm_compute. done. Qed.

(** The outcomes the specification assigns to the scenario, to the
    scenario without its font, and to a background that is not there. *)
Example scenario_verdicts :
  promised_verdict "background.jpg" scenario_options (w_fs scenario_world) = Success ∧
  promised_verdict "background.jpg" scenario_options
                   (w_fs (world_with "background.jpg" (1000, 600) []))
  = Failure FontLoadError ∧
  promised_verdict "missing.jpg" scenario_options (w_fs scenario_world)
  = Failure ImageLoadError.
Proof. vm_compute. done. Qed.

(** ** Witnesses *)

Lemma reachable_invariant_witness :
  reachable_inv scenario_lines scenario_options scenario_world (scenario_run 6).
Proof.
  apply (reachable_invariant "background.jpg" [65%N] scenario_lines scenario_options
           scenario_world (scenario_run 6)).
  apply run_rtc.
Defined.

Lemma rerun_same_files_witness :
  w_fs (create_styled_text_image scenario.1 "background.jpg" [65%N] scenario_lines
                                 scenario_options).1
  = w_fs scenario.1 ∧
  (create_styled_text_image scenario.1 "background.jpg" [65%N] scenario_lines
                            scenario_options).2
  = scenario.2.
Proof.
  apply (rerun_same_files "background.jpg" [65%N] scenario_lines scenario_options
           scenario_world).
  apply (bool_decide_unpack _). vm_compute. exact I.
Defined.

Lemma saved_image_reopens_witness :
  image_open (w_fs (create_styled_text_image scenario_world "background.jpg" [65%N]
                                             scenario_lines overwrite_options).1)
             "background.jpg"
  = Some (SymEncode save_quality scenario_out).
Proof.
  refine (saved_image_reopens "background.jpg" [65%N] scenario_lines overwrite_options
            scenario_world scenario_out _ _).
  - vm_compute. reflexivity.
  - apply not_elem_of_empty.
Defined.

(** When the output path is the background path, the second call draws over
    the result of the first. *)
Example rerun_over_background :
  image_open (w_fs scenario_world) "background.jpg"
  = Some (SymPhoto "background.jpg" (1000, 600)) ∧
  decision "background.jpg" [65%N] scenario_lines overwrite_options
           (w_fs (create_styled_text_image scenario_world "background.jpg" [65%N]
                                           scenario_lines overwrite_options).1)
  ≠ decision "background.jpg" [65%N] scenario_lines overwrite_options
             (w_fs scenario_world).
Proof. split; [done|]. vm_compute. discriminate. Qed.

Lemma create_styled_text_image_meets_contract_witness :
  ∃ m, w_stdout scenario.1 = w_stdout scenario_world ++ [m] ∧
       verdict_of_message m
       = promised_verdict "background.jpg" scenario_options (w_fs scenario_world) ∧
       promised_files "background.jpg" scenario_options (w_fs scenario_world)
                      (promised_verdict "background.jpg" scenario_options
                                        (w_fs scenario_world))
                      (w_fs scenario.1).
Proof.
  apply (create_styled_text_image_meets_contract "background.jpg" [65%N] scenario_lines
           scenario_options scenario_world scenario.1).
  vm_compute. reflexivity.
Defined.
