(* ===== verification/CallExample.v ===== *)
(** * The library calls of the scenario

    The end-to-end scenario of the specification as the sequence of library
    calls it makes, and the theorems of [Calls] and [CallOrder] on it. *)

From Stdlib Require Import ZArith Lia.
From stdpp Require Import base tactics option list strings gmap.
From S2P Require Import Prelude.
From S2P Require Import PyNum.
From S2P Require Import PyStr.
From S2P Require Import Pillow.
From S2P Require Import Renderer.
From S2P Require Import Composer.
From S2P Require Import Calls.
From S2P Require Import CallOrder.
From S2P Require Import Example.

#[local] Open Scope Z_scope.

(** ** Inputs *)

(** The library before the call: the files of the scenario, no image. *)
Definition scenario_store : store sym_image := Store scenario_world [].

Definition scenario_prog : prog sym_image () :=
  create_styled_text_image_prog "background.jpg" [65%N] scenario_lines scenario_options.

Definition scenario_calls : list (call sym_image) := calls_of scenario_prog scenario_store.

(** The name of a call. *)
Definition call_name {image} (c : call image) : string :=
  match c with
  | ImageOpen _ => "Image.open"
  | ConvertRGBA _ => "convert('RGBA')"
  | Contrast _ => "ImageEnhance.Contrast"
  | Enhance _ _ => "enhance"
  | ImageNew _ _ => "Image.new"
  | Draw _ => "ImageDraw.Draw"
  | Truetype _ _ => "ImageFont.truetype"
  | Textbbox _ _ _ => "textbbox"
  | Text _ _ => "text"
  | AlphaComposite _ _ => "Image.alpha_composite"
  | ConvertRGB _ => "convert('RGB')"
  | Save _ _ _ => "save"
  | Print _ => "print"
  end.

(** A store that holds the layer of the scenario at handle 0. *)
Definition demo_store : store sym_image := Store scenario_world [demo_layer].

(** The stroke stamps of "B" at 220. *)
Definition demo_stroke : list draw_call :=
  match stroke_calls [66%N] demo_font (PyInt 220) (anchor [66%N] demo_font 1000 demo_style)
                     demo_style with
  | Ok cs => cs
  | Raise _ => []
  end.

(** ** The scenario *)

(** The scenario makes 117 calls: eight to open the background, allocate
    the layer and load the fonts; one measurement and 50 stamps for the
    title; one measurement and 26 stamps for each of the two lines that are
    not blank; and the composite, the flattening, the save and the
    message. *)
Example scenario_call_names :
  length scenario_calls = 117%nat ∧
  call_name <$> take 9 scenario_calls
  = ["Image.open"; "convert('RGBA')"; "ImageEnhance.Contrast"; "enhance"; "Image.new";
     "ImageDraw.Draw"; "ImageFont.truetype"; "ImageFont.truetype"; "textbbox"] ∧
  call_name <$> drop 113 scenario_calls
  = ["Image.alpha_composite"; "convert('RGB')"; "save"; "print"] ∧
  length (filter (λ c, call_name c = "textbbox") scenario_calls) = 3%nat ∧
  length (texts_on 0%nat scenario_calls) = 102%nat.
Proof. vm_compute. done. Qed.

(** The run ends in the world of the function, with the layer as the one
    image the library holds. *)
Example scenario_run_world :
  (λ sr, (st_world sr.1, length (st_images sr.1), sr.2)) <$> exec scenario_prog scenario_store
  = Some (scenario.1, 1%nat, Ok ()).
Proof. vm_compute. done. Qed.

(** Without the font the program stops after the first [truetype]: the
    layer has been allocated, nothing is drawn. *)
Example missing_font_calls :
  call_name <$> calls_of scenario_prog (Store (world_with "background.jpg" (1000, 600) []) [])
  = ["Image.open"; "convert('RGBA')"; "ImageEnhance.Contrast"; "enhance"; "Image.new";
     "ImageDraw.Draw"; "ImageFont.truetype"; "print"].
Proof. vm_compute. done. Qed.

(** ** Witnesses *)

Lemma calls_of_draw_styled_text_prog_witness :
  calls_of (draw_styled_text_prog (DrawOn 0%nat) [66%N] demo_font (PyInt 220) 1000 demo_style)
           demo_store
  = Textbbox (DrawOn 0%nat) [66%N] demo_font
    :: (Text (DrawOn 0%nat)
          <$> demo_stroke
              ++ [fill_call [66%N] demo_font (PyInt 220)
                            (anchor [66%N] demo_font 1000 demo_style) demo_style]).
Proof.
  apply (calls_of_draw_styled_text_prog 0%nat [66%N] demo_font (PyInt 220) 1000 demo_style
           demo_store demo_layer demo_stroke).
  - reflexivity.
  - vm_compute. reflexivity.
Defined.

Lemma create_styled_text_image_prog_keeps_images_witness :
  st_images (Store scenario.1 [demo_rendered; foldl draw_text demo_layer
               (texts_on 1%nat (calls_of scenario_prog (Store scenario_world [demo_rendered])))])
  = [demo_rendered] ∨
  ∃ txt, st_images (Store scenario.1 [demo_rendered; foldl draw_text demo_layer
                      (texts_on 1%nat (calls_of scenario_prog
                                     (Store scenario_world [demo_rendered])))])
         = [demo_rendered] ++ [txt].
Proof.
  apply (create_styled_text_image_prog_keeps_images scenario_world [demo_rendered]
           "background.jpg" [65%N] scenario_lines scenario_options _ (Ok ())).
  vm_compute. reflexivity.
Defined.
