(* ===== verification/PixelExample.v ===== *)
(** * The pixels of the scenario

    The end-to-end scenario of the specification with block glyphs, integer
    alpha-over and a test pattern as the photo: the pixels of the title, of
    its stroke and of the background, the theorems of [Canvas], [Margins]
    and [FloatBands] applied to them, two body lines set so close that the
    stroke of the second covers the first, a body line below the image, and
    a measure whose boxes do not start at column 0. *)

From Stdlib Require Import ZArith Lia SpecFloat.
From stdpp Require Import base tactics option list strings gmap.
From S2P Require Import Prelude.
From S2P Require Import PyNum.
From S2P Require Import PyFloat.
From S2P Require Import PyStr.
From S2P Require Import Pillow.
From S2P Require Import Renderer.
From S2P Require Import Composer.
From S2P Require Import Pixels.
From S2P Require Import Canvas.
From S2P Require Import Margins.
From S2P Require Import Raster.
From S2P Require Import Spacing.
From S2P Require Import FloatBands.
From S2P Require Import Example.

#[local] Open Scope Z_scope.

(** ** Inputs *)

(** The pixels of a photo: a pattern that differs from pixel to pixel. *)
Definition test_pattern (im : sym_image) (x y : Z) : pixel :=
  Pixel (x mod 256) (y mod 256) 128 255.

(** Symbolic images over that pattern. *)
#[local] Instance test_pixels : PixelImaging sym_image := sym_pixels test_pattern.

(** The background of the scenario after the first [try]. *)
Definition scenario_background : sym_image :=
  SymEnhance contrast_factor (SymConvertRGBA (SymPhoto "background.jpg" (1000, 600))).

(** A pixel of the image the scenario saves, before encoding. *)
Definition scenario_pixel (x y : Z) : pixel :=
  saved_pixel scenario_background demo_drawing x y.

(** The scenario's options with another line-spacing multiplier. *)
Definition with_line_spacing (multiplier : pynum) (o : options) : options :=
  {| output_path := output_path o;
     title_font_path := title_font_path o;
     content_font_path := content_font_path o;
     title_font_size := title_font_size o;
     content_font_size := content_font_size o;
     title_color := title_color o;
     content_color := content_color o;
     title_stroke_color := title_stroke_color o;
     content_stroke_color := content_stroke_color o;
     title_stroke_width := title_stroke_width o;
     content_stroke_width := content_stroke_width o;
     title_align := title_align o;
     content_align := content_align o;
     margin_left := Composer.margin_left o;
     margin_right := Composer.margin_right o;
     title_content_spacing := title_content_spacing o;
     content_line_spacing := multiplier |}.

(** The layer after drawing an empty title and two blank lines. *)
Definition blank_drawing : layer :=
  match draw_all demo_layer [] [[]; [32; 9; 12288]]%N (Font "simhei.ttf" 100) demo_font
                 1000 600 scenario_options with
  | Ok (d, _) => d
  | Raise _ => Layer (0, 0) (RGB 0 0 0) []
  end.

(** The layer after drawing "B" and "C" with the multiplier 1.0: the lines
    are 50 pixels high and 50 pixels apart, the stroke is 2 pixels wide. *)
Definition tight_drawing : layer :=
  match draw_all demo_layer [65%N] [[66]; [67]]%N (Font "simhei.ttf" 100) demo_font
                 1000 600 (with_line_spacing (PyFloat float_1_0) scenario_options) with
  | Ok (d, _) => d
  | Raise _ => Layer (0, 0) (RGB 0 0 0) []
  end.

(** The layer after the whole drawing of the scenario with the integer
    multiplier 2. *)
Definition integer_drawing : layer :=
  match draw_all demo_layer [65%N] scenario_lines (Font "simhei.ttf" 100) demo_font
                 1000 600 integer_options with
  | Ok (d, _) => d
  | Raise _ => Layer (0, 0) (RGB 0 0 0) []
  end.

(** The scenario's options with the default multiplier 1.5, and the layer
    after the whole drawing with them: the body lines are at 220, 295.0
    and 370.0. *)
Definition default_spacing_options : options :=
  with_line_spacing (PyFloat (dyadic 3 (-1))) scenario_options.

Definition default_spacing_drawing : layer :=
  match draw_all demo_layer [65%N] scenario_lines (Font "simhei.ttf" 100) demo_font
                 1000 600 default_spacing_options with
  | Ok (d, _) => d
  | Raise _ => Layer (0, 0) (RGB 0 0 0) []
  end.

(** Five body lines with the integer multiplier 2: the fifth, "E", is
    placed at 620, below the image of height 600. *)
Definition long_lines : list pystr := [[66]; []; [67]; [68]; [69]]%N.

Definition long_drawing (content_lines : list pystr) : layer :=
  match draw_all demo_layer [65%N] content_lines (Font "simhei.ttf" 100) demo_font
                 1000 600 integer_options with
  | Ok (d, _) => d
  | Raise _ => Layer (0, 0) (RGB 0 0 0) []
  end.

(** The layer after rendering "B" at 220, and after rendering "C" at
    [270.0] on top of it. *)
Definition b_rendered : layer :=
  match draw_styled_text demo_layer [66%N] demo_font (PyInt 220) 1000 demo_style with
  | Ok (d, _) => d
  | Raise _ => demo_layer
  end.

Definition bc_rendered : layer :=
  match draw_styled_text b_rendered [67%N] demo_font (PyFloat (float_lit 270)) 1000
                         demo_style with
  | Ok (d, _) => d
  | Raise _ => demo_layer
  end.

(** The stroke stamps of "C" at [270.0]. *)
Definition c_stroke : list draw_call :=
  match stroke_calls [67%N] demo_font (PyFloat (float_lit 270))
                     (anchor [67%N] demo_font 1000 demo_style) demo_style with
  | Ok cs => cs
  | Raise _ => []
  end.

(** A measure whose boxes start four columns right of the origin, as the
    box of a text whose first glyph has a left side bearing does. *)
Definition bearing_bbox (f : font) (s : pystr) : bbox :=
  (4, 0, 4 + Z.of_nat (length s) * Z.max 0 (font_size f), Z.max 0 (font_size f)).

Program Definition bearing_pitch : TextMeasure := {| textbbox := bearing_bbox |}.
Next Obligation. intros f. unfold bearing_bbox, bbox_right, bbox_left. simpl. lia. Qed.
Next Obligation. intros f s. unfold bearing_bbox, bbox_right, bbox_left. simpl. lia. Qed.

(** The style of the title, aligned to the right. *)
Definition right_style : text_style :=
  {| text_color := RGB 255 255 255; align := RIGHT; Renderer.margin_left := 50;
     Renderer.margin_right := 50; stroke_width := 0; stroke_color := RGBA 0 0 0 255 |}.

(** ** The pixels of the scenario *)

(** Inside the title the fill colour, in the ring around it the stroke
    colour, away from the text the photo; the line "C", drawn at the float
    position 420.0, is where a line at 420 would be. *)
Example scenario_pixels :
  scenario_pixel 500 150 = Pixel 255 255 255 255 ∧
  scenario_pixel 448 150 = Pixel 0 0 0 255 ∧
  scenario_pixel 446 150 = Pixel 190 150 128 255 ∧
  scenario_pixel 60 430 = Pixel 255 255 0 255 ∧
  scenario_pixel 60 419 = Pixel 0 0 0 255 ∧
  scenario_pixel 60 417 = Pixel 60 161 128 255.
Proof. vm_compute. done. Qed.

(** The stroke of "C", drawn after the fill of "B", covers the two lowest
    rows of "B". *)
Example later_stroke_covers_earlier_fill :
  layer_pixel tight_drawing 60 267 = pixel_of_color (content_color scenario_options) ∧
  layer_pixel tight_drawing 60 268 = pixel_of_color (content_stroke_color scenario_options) ∧
  solid (fill_call [66%N] demo_font (PyInt 220) 50 demo_style) 60 268 = true.
Proof. vm_compute. done. Qed.

(** With a box that starts at column 4, the text "A" of size 100, aligned
    to the right in an image 1000 wide with a right margin of 50, is
    anchored at 850 and 100 wide, and its ink is in the columns 854 to 953:
    four columns beyond the margin. *)
Example right_aligned_ink_beyond_margin :
  let c := fill_call [65%N] (Font "simhei.ttf" 100) (PyInt 100)
                     (@anchor bearing_pitch [65%N] (Font "simhei.ttf" 100) 1000 right_style)
                     right_style in
  dc_x c = 850 ∧ @text_width bearing_pitch (Font "simhei.ttf" 100) [65%N] = 100 ∧
  @ink_left bearing_pitch c = 854 ∧ @ink_right bearing_pitch c = 954.
Proof. vm_compute. done. Qed.

(** ** Witnesses *)

Lemma fill_on_top_of_stroke_witness :
  layer_pixel demo_rendered 60 430 = pixel_of_color (text_color demo_style).
Proof.
  apply (fill_on_top_of_stroke demo_layer [66%N] demo_font (PyFloat (float_lit 420)) 1000
           demo_style demo_rendered (PyFloat (float_lit 420)) 60 430);
    vm_compute; reflexivity.
Defined.

Lemma untouched_pixel_is_background_witness :
  saved_pixel scenario_background demo_drawing 10 10
  = flatten (pixel_at scenario_background 10 10).
Proof.
  apply (untouched_pixel_is_background scenario_background
           [65%N] scenario_lines (Font "simhei.ttf" 100) demo_font scenario_options
           demo_drawing (PyFloat (float_lit 520)) 10 10).
  - vm_compute. reflexivity.
  - vm_compute. done.
  - apply (bool_decide_unpack _). vm_compute. exact I.
Defined.

Lemma outside_bands_is_background_witness :
  saved_pixel scenario_background integer_drawing 10 10
  = flatten (pixel_at scenario_background 10 10).
Proof.
  apply (outside_bands_is_background scenario_background [65%N] scenario_lines
           (Font "simhei.ttf" 100) demo_font integer_options 2 integer_drawing
           (PyInt 520) 10 10).
  - reflexivity.
  - vm_compute. reflexivity.
  - vm_compute. done.
  - vm_compute. reflexivity.
  - intros [|[|[|i]]] line Hi Hnb; simplify_eq; try done; vm_compute; reflexivity.
Defined.

Lemma blank_text_keeps_background_witness :
  saved_pixel scenario_background blank_drawing 500 150
  = flatten (pixel_at scenario_background 500 150).
Proof.
  apply (blank_text_keeps_background scenario_background
           [[]; [32; 9; 12288]]%N (Font "simhei.ttf" 100) demo_font scenario_options
           blank_drawing (PyFloat (float_lit 420)) 500 150).
  - repeat constructor.
  - vm_compute. reflexivity.
  - vm_compute. done.
Defined.

Lemma stroke_covers_earlier_drawing_witness :
  layer_pixel bc_rendered 60 268 = pixel_of_color (stroke_color demo_style).
Proof.
  apply (stroke_covers_earlier_drawing b_rendered [67%N] demo_font (PyFloat (float_lit 270))
           1000 demo_style bc_rendered (PyFloat (float_lit 270)) c_stroke 60 268).
  - vm_compute. reflexivity.
  - vm_compute. reflexivity.
  - apply (bool_decide_unpack _). vm_compute. exact I.
  - apply (bool_decide_unpack _). vm_compute. exact I.
  - vm_compute. reflexivity.
Defined.

Lemma body_line_fill_is_saved_witness :
  saved_pixel scenario_background integer_drawing 60 430
  = pixel_of_color (content_color integer_options).
Proof.
  apply (body_line_fill_is_saved scenario_background [65%N] scenario_lines
           (Font "simhei.ttf" 100) demo_font integer_options 2 integer_drawing
           (PyInt 520) 2 [67%N] 60 430).
  - reflexivity.
  - vm_compute. reflexivity.
  - vm_compute. done.
  - reflexivity.
  - vm_compute. reflexivity.
  - vm_compute. reflexivity.
  - vm_compute. reflexivity.
  - intros [|[|[|j]]] line Hj Hi Hnb; simplify_eq; lia.
Defined.

Lemma float_spacing_outside_bands_witness :
  saved_pixel scenario_background default_spacing_drawing 10 10
  = flatten (pixel_at scenario_background 10 10).
Proof.
  apply (float_spacing_outside_bands scenario_background [65%N] scenario_lines
           (Font "simhei.ttf" 100) demo_font default_spacing_options 3 (-1)
           default_spacing_drawing (PyFloat (float_lit 445)) 10 10).
  - lia.
  - reflexivity.
  - vm_compute. done.
  - lia.
  - vm_compute. done.
  - apply (bool_decide_unpack _). vm_compute. exact I.
  - vm_compute. reflexivity.
  - vm_compute. done.
  - vm_compute. reflexivity.
  - intros [|[|[|i]]] line Hi Hnb; simplify_eq; try done; vm_compute; reflexivity.
Defined.

Lemma float_spacing_fill_is_saved_witness :
  saved_pixel scenario_background default_spacing_drawing 60 380
  = pixel_of_color (content_color default_spacing_options).
Proof.
  apply (float_spacing_fill_is_saved scenario_background [65%N] scenario_lines
           (Font "simhei.ttf" 100) demo_font default_spacing_options 3 (-1)
           default_spacing_drawing (PyFloat (float_lit 445)) 2 [67%N] 60 380).
  - lia.
  - reflexivity.
  - vm_compute. done.
  - lia.
  - vm_compute. done.
  - apply (bool_decide_unpack _). vm_compute. exact I.
  - vm_compute. reflexivity.
  - vm_compute. done.
  - reflexivity.
  - vm_compute. reflexivity.
  - vm_compute. reflexivity.
  - vm_compute. reflexivity.
  - intros [|[|[|j]]] line Hj Hi Hnb; simplify_eq; lia.
Defined.

Lemma draw_all_within_margins_witness :
  Forall (within_margins 1000 50 50 3) (layer_calls demo_drawing).
Proof.
  apply (draw_all_within_margins (1000, 600) [65%N] scenario_lines (Font "simhei.ttf" 100)
           demo_font scenario_options demo_drawing (PyFloat (float_lit 520))).
  - vm_compute. discriminate.
  - repeat constructor; intros _; vm_compute; discriminate.
  - vm_compute. reflexivity.
Defined.

Lemma spaced_lines_show_witness :
  saved_pixel scenario_background integer_drawing 60 430
  = pixel_of_color (content_color integer_options).
Proof.
  apply (spaced_lines_show scenario_background [65%N] scenario_lines
           (Font "simhei.ttf" 100) demo_font integer_options 2 50 integer_drawing
           (PyInt 520) 2 [67%N] 60 430).
  - reflexivity.
  - apply (bool_decide_unpack _). vm_compute. exact I.
  - vm_compute. discriminate.
  - vm_compute. reflexivity.
  - vm_compute. done.
  - reflexivity.
  - vm_compute. reflexivity.
  - vm_compute. reflexivity.
  - vm_compute. reflexivity.
Defined.

Lemma float_spaced_lines_show_witness :
  saved_pixel scenario_background default_spacing_drawing 60 380
  = pixel_of_color (content_color default_spacing_options).
Proof.
  apply (float_spaced_lines_show scenario_background [65%N] scenario_lines
           (Font "simhei.ttf" 100) demo_font default_spacing_options 3 (-1) 50
           default_spacing_drawing (PyFloat (float_lit 445)) 2 [67%N] 60 380).
  - lia.
  - reflexivity.
  - vm_compute. done.
  - lia.
  - vm_compute. done.
  - apply (bool_decide_unpack _). vm_compute. exact I.
  - apply (bool_decide_unpack _). vm_compute. exact I.
  - vm_compute. discriminate.
  - vm_compute. reflexivity.
  - vm_compute. done.
  - reflexivity.
  - vm_compute. reflexivity.
  - vm_compute. reflexivity.
  - vm_compute. reflexivity.
Defined.

Lemma title_shows_witness :
  saved_pixel scenario_background integer_drawing 500 150
  = pixel_of_color (title_color integer_options).
Proof.
  apply (title_shows scenario_background [65%N] scenario_lines (Font "simhei.ttf" 100)
           demo_font integer_options 2 100 50 integer_drawing (PyInt 520) 500 150).
  - reflexivity.
  - vm_compute. discriminate.
  - vm_compute. discriminate.
  - apply (bool_decide_unpack _). vm_compute. exact I.
  - vm_compute. discriminate.
  - vm_compute. reflexivity.
  - vm_compute. done.
  - reflexivity.
  - vm_compute. reflexivity.
Defined.

Lemma lines_below_image_unseen_witness :
  saved_pixel scenario_background (long_drawing long_lines) 60 599
  = saved_pixel scenario_background (long_drawing (take 4 long_lines)) 60 599.
Proof.
  apply (lines_below_image_unseen scenario_background [65%N] long_lines
           (Font "simhei.ttf" 100) demo_font integer_options 2 50 4
           (long_drawing long_lines) (PyInt 720)
           (long_drawing (take 4 long_lines)) (PyInt 620) 60 599).
  - reflexivity.
  - vm_compute. discriminate.
  - apply (bool_decide_unpack _). vm_compute. exact I.
  - vm_compute. discriminate.
  - vm_compute. reflexivity.
  - vm_compute. reflexivity.
  - vm_compute. done.
Defined.
