(* ===== verification/SpacingExample.v ===== *)
(** * The exact positions on concrete inputs

    The theorems of [Spacing] applied to the default options, to a spacing
    of 67.5 pixels (font size 45 at the multiplier 1.5) and to the
    multiplier 1.1, on the layer, font and lines of the end-to-end
    scenario. *)

From Stdlib Require Import ZArith Lia SpecFloat.
From stdpp Require Import base tactics option list strings gmap.
From S2P Require Import Prelude.
From S2P Require Import PyNum.
From S2P Require Import PyFloat.
From S2P Require Import PyStr.
From S2P Require Import Pillow.
From S2P Require Import Renderer.
From S2P Require Import Composer.
From S2P Require Import Spacing.
From S2P Require Import Example.

#[local] Open Scope Z_scope.

(** ** Inputs *)

(** [67.5], the spacing of a body font of size 45 at the multiplier 1.5. *)
Definition spacing_67_5 : pynum := PyFloat (dyadic 135 (-1)).

(** The layer after the loop over the scenario's lines at that spacing. *)
Definition demo_half : layer :=
  match draw_content demo_layer demo_font 1000 demo_style spacing_67_5
                     scenario_lines (PyInt 220) with
  | Ok (d, _) => d
  | Raise _ => Layer (0, 0) layer_color []
  end.

(** The float literal [1.1]. *)
Definition float_1_1 : float := S754_finite false 4953959590107546 (-52).

(** The scenario's options with the multiplier 1.1. *)
Definition options_1_1 : options :=
  {| output_path := output_path scenario_options;
     title_font_path := title_font_path scenario_options;
     content_font_path := content_font_path scenario_options;
     title_font_size := title_font_size scenario_options;
     content_font_size := content_font_size scenario_options;
     title_color := title_color scenario_options;
     content_color := content_color scenario_options;
     title_stroke_color := title_stroke_color scenario_options;
     content_stroke_color := content_stroke_color scenario_options;
     title_stroke_width := title_stroke_width scenario_options;
     content_stroke_width := content_stroke_width scenario_options;
     title_align := title_align scenario_options;
     content_align := content_align scenario_options;
     margin_left := Composer.margin_left scenario_options;
     margin_right := Composer.margin_right scenario_options;
     title_content_spacing := title_content_spacing scenario_options;
     content_line_spacing := PyFloat float_1_1 |}.

(** ** The literals *)

(** [1.1] is the correctly rounded quotient of 11 by 10; [2.0] and [1.0]
    are dyadic. *)
Example float_1_1_literal :
  SFdiv prec emax (dyadic 11 0) (dyadic 10 0) = float_1_1 ∧
  float_2_0 = dyadic 1 1 ∧ float_1_0 = dyadic 1 0.
Proof. vm_compute. done. Qed.

(** With the multiplier 1.1 and the body font size 50 the line spacing is
    not 55: the product is rounded to the next float above 55, which
    denotes no integer.  Added to the cursor 220 the excess is rounded away,
    so the scenario places "C" at 330 exactly and ends at 385; added to the
    cursor 0 it stays. *)
Example multiplier_1_1_rounding :
  line_spacing options_1_1 = Ok (PyFloat (S754_finite false 7740561859543041 (-47))) ∧
  dyadic 55 0 = S754_finite false 7740561859543040 (-47) ∧
  float_int_value (S754_finite false 7740561859543041 (-47)) = None ∧
  (λ dy, (calls_in (RGB 255 255 0) dy.1, dy.2))
    <$> draw_all demo_layer [65%N] scenario_lines (Font "simhei.ttf" 100) demo_font
                 1000 600 options_1_1
  = Ok ([([66%N], 50, PyInt 220); ([67%N], 50, PyFloat (dyadic 330 0))],
        PyFloat (dyadic 385 0)) ∧
  py_add (PyInt 0) (PyFloat (S754_finite false 7740561859543041 (-47)))
  = Ok (PyFloat (S754_finite false 7740561859543041 (-47))).
Proof. vm_compute. done. Qed.

(** The positions of the three lines at the spacing 67.5: 220, 287.5 and
    355. *)
Example exact_cursor_values :
  exact_cursor 220 135 (-1) <$> [0; 1; 2]%nat
  = [PyInt 220; PyFloat (dyadic 575 (-1)); PyFloat (dyadic 355 0)].
Proof. vm_compute. done. Qed.

(** ** Witnesses *)

Lemma line_spacing_dyadic_witness :
  line_spacing default_options
  = Ok (exact_spacing (content_font_size default_options) 3 (-1)).
Proof.
  apply (line_spacing_dyadic (-1) default_options 3);
    [reflexivity|discriminate|discriminate|vm_compute; done|vm_compute; done].
Defined.

Lemma draw_content_exact_cursor_witness :
  ∃ d', draw_content demo_layer demo_font 1000 demo_style spacing_67_5
                     scenario_lines (PyInt 220)
        = Ok (d', exact_cursor 220 135 (-1) (length scenario_lines)).
Proof.
  apply (draw_content_exact_cursor (-1) ltac:(lia) demo_layer demo_font 1000 demo_style 135
           scenario_lines 220); vm_compute; done.
Defined.

Lemma draw_content_exact_layout_witness :
  render_placed demo_font 1000 demo_style demo_layer
                (placed_at (exact_cursor 220 135 (-1)) scenario_lines)
  = Ok demo_half.
Proof.
  apply (draw_content_exact_layout (-1) ltac:(lia) demo_layer demo_font 1000 demo_style 135
           scenario_lines 220 demo_half (PyFloat (dyadic 845 (-1))));
    vm_compute; done.
Defined.

Lemma draw_styled_text_float_position_witness :
  draw_styled_text demo_layer [66%N] demo_font (PyFloat (dyadic 575 (-1))) 1000 demo_style
  = Ok (foldl draw_text demo_layer
          ((exact_stroke_call [66%N] demo_font 575 (-1)
                              (anchor [66%N] demo_font 1000 demo_style)
                              (stroke_color demo_style)
              <$> stroke_offsets (stroke_width demo_style))
           ++ [fill_call [66%N] demo_font (PyFloat (dyadic 575 (-1)))
                         (anchor [66%N] demo_font 1000 demo_style) demo_style]),
        PyFloat (dyadic 575 (-1))).
Proof.
  apply (draw_styled_text_float_position (-1) ltac:(lia) demo_layer [66%N] demo_font 575
           1000 demo_style).
  vm_compute. done.
Defined.

Lemma default_spacing_integer_positions_witness :
  line_spacing default_options = Ok (exact_spacing (2 * 20) 3 (-1)) ∧
  cursor_after (exact_spacing (2 * 20) 3 (-1)) 3 (PyInt 220)
  = Ok (exact_cursor 220 (2 * 20 * 3) (-1) 3) ∧
  int_value (exact_cursor 220 (2 * 20 * 3) (-1) 3) = Some (220 + Z.of_nat 3 * (3 * 20)).
Proof.
  apply (default_spacing_integer_positions default_options 20 2 220);
    [reflexivity|reflexivity|discriminate|vm_compute; done].
Defined.

