(* ===== verification/ReferenceExample.v ===== *)
(** * The reference on the scenario

    The closed forms of [Reference] and [Trace] evaluated on the scenario of
    [Example] (title "A", lines "B", "", "C" on a background of 1000 by
    600): the calls of the drawing under the integer multiplier 2 and under
    the default multiplier 1.5, the calls of the whole run, and the
    witnesses of the theorems of the two files. *)

From Stdlib Require Import ZArith Lia SpecFloat.
From stdpp Require Import base tactics option list strings gmap.
From S2P Require Import Prelude.
From S2P Require Import PyNum.
From S2P Require Import PyFloat.
From S2P Require Import PyStr.
From S2P Require Import Pillow.
From S2P Require Import Renderer.
From S2P Require Import Composer.
From S2P Require Import Calls.
From S2P Require Import CallOrder.
From S2P Require Import Spacing.
From S2P Require Import Reference.
From S2P Require Import Trace.
From S2P Require Import Example.
From S2P Require Import CallExample.
From S2P Require Import PixelExample.

#[local] Open Scope Z_scope.

(** ** Inputs *)

Definition scenario_photo : sym_image := SymPhoto "background.jpg" (1000, 600).
Definition title_font_100 : font := Font "simhei.ttf" 100.

(** The calls of the drawing under the integer multiplier 2: lines 100
    rows apart from 220. *)
Definition integer_reference : list draw_call :=
  drawing_calls (1000, 600) [65%N] scenario_lines title_font_100 demo_font integer_options
                (int_position 220 100) (int_stamp 220 100).

(** The calls of the drawing under the default multiplier 1.5: lines 75
    rows apart, in units of a half row. *)
Definition default_reference : list draw_call :=
  drawing_calls (1000, 600) [65%N] scenario_lines title_font_100 demo_font
                default_spacing_options (exact_cursor 220 150 (-1))
                (exact_stamp 220 150 (-1)).

(** The run of the scenario with the integer multiplier. *)
Definition integer_prog : prog sym_image () :=
  create_styled_text_image_prog "background.jpg" [65%N] scenario_lines integer_options.

Definition default_prog : prog sym_image () :=
  create_styled_text_image_prog "background.jpg" [65%N] scenario_lines
                                default_spacing_options.

(** ** The scenario *)

(** The reference has 102 calls: 49 stamps and the fill of the title, 25
    stamps and the fill of "B" and of "C", none for the empty line.  The
    fills are at rows 100, 220 and 420; the first stamp of a render is the
    one up and left of its fill by the stroke width. *)
Example integer_reference_calls :
  length integer_reference = 102%nat ∧
  (λ c, (dc_text c, dc_x c, dc_y c)) <$> filter (λ c, dc_fill c ≠ RGBA 0 0 0 255)
                                               integer_reference
  = [([65%N], 450, PyInt 100); ([66%N], 50, PyInt 220); ([67%N], 50, PyInt 420)] ∧
  (λ c, (dc_x c, dc_y c)) <$> integer_reference !! 50%nat = Some (48, PyInt 218).
Proof. vm_compute. done. Qed.

(** Under the multiplier 1.5 the fill of "C" is at the float 370.0 and its
    first stamp at the float 368.0. *)
Example default_reference_calls :
  length default_reference = 102%nat ∧
  (λ c, (dc_text c, dc_x c, dc_y c)) <$> filter (λ c, dc_fill c ≠ RGBA 0 0 0 255)
                                               default_reference
  = [([65%N], 450, PyInt 100); ([66%N], 50, PyInt 220);
     ([67%N], 50, PyFloat (float_lit 370))] ∧
  (λ c, (dc_x c, dc_y c)) <$> default_reference !! 76%nat
  = Some (48, PyFloat (float_lit 368)).
Proof. vm_compute. done. Qed.

(** ** Witnesses *)

Lemma draw_all_int_reference_witness :
  draw_all (new_layer (1000, 600) layer_color) [65%N] scenario_lines title_font_100
           demo_font 1000 600 integer_options
  = Ok (Layer (1000, 600) layer_color integer_reference, PyInt 520).
Proof.
  apply (draw_all_int_reference (1000, 600) layer_color [65%N] scenario_lines
           title_font_100 demo_font integer_options 2).
  reflexivity.
Defined.

Lemma draw_all_dyadic_reference_witness :
  draw_all (new_layer (1000, 600) layer_color) [65%N] scenario_lines title_font_100
           demo_font 1000 600 default_spacing_options
  = Ok (Layer (1000, 600) layer_color default_reference, PyFloat (float_lit 445)).
Proof.
  apply (draw_all_dyadic_reference (1000, 600) layer_color [65%N] scenario_lines
           title_font_100 demo_font default_spacing_options 3 (-1)).
  - lia.
  - reflexivity.
  - discriminate.
  - discriminate.
  - vm_compute. done.
  - vm_compute. done.
  - intros [|[|[|i]]] Hi; [vm_compute; done..|simpl in Hi; lia].
Defined.

Lemma create_styled_text_image_int_reference_witness :
  create_styled_text_image scenario_world "background.jpg" [65%N] scenario_lines
                           integer_options
  = (save_output scenario_world (composed scenario_photo integer_reference) "output.jpg",
     Ok ()).
Proof.
  etrans.
  - apply (create_styled_text_image_int_reference scenario_world "background.jpg" [65%N]
             scenario_lines integer_options scenario_photo title_font_100 demo_font 2);
      vm_compute; reflexivity.
  - vm_compute. reflexivity.
Defined.

Lemma calls_of_run_int_witness :
  calls_of integer_prog scenario_store
  = run_trace "background.jpg" scenario_photo 0%nat [65%N] scenario_lines title_font_100
              demo_font integer_options (int_position 220 100) (int_stamp 220 100)
              (ImageSaved "output.jpg").
Proof.
  etrans.
  - apply (calls_of_run_int scenario_world [] "background.jpg" [65%N] scenario_lines
             integer_options scenario_photo title_font_100 demo_font 2);
      vm_compute; reflexivity.
  - vm_compute. reflexivity.
Defined.

Lemma calls_of_run_dyadic_witness :
  calls_of default_prog scenario_store
  = run_trace "background.jpg" scenario_photo 0%nat [65%N] scenario_lines title_font_100
              demo_font default_spacing_options (exact_cursor 220 150 (-1))
              (exact_stamp 220 150 (-1)) (ImageSaved "output.jpg").
Proof.
  etrans.
  - apply (calls_of_run_dyadic scenario_world [] "background.jpg" [65%N] scenario_lines
             default_spacing_options scenario_photo title_font_100 demo_font 3 (-1));
      [vm_compute; reflexivity..|lia|reflexivity|discriminate|discriminate
      |vm_compute; done|vm_compute; done|].
    intros [|[|[|i]]] Hi; [vm_compute; done..|simpl in Hi; lia].
  - vm_compute. reflexivity.
Defined.
